(** * BlockShare: the storage layer and the sharing routes

    A shallow embedding of [server/storage.ts] (the [IStorage] interface
    with its two implementations [MemStorage] and [DatabaseStorage]) and
    of the sharing, download and statistics handlers of
    [server/routes.ts], followed by the properties of the access-control
    and sharing model.

    Conventions of the embedding:
    - a JavaScript [number] that holds an id, a size, a counter or a
      timestamp is an integer of [Z] (the code only ever adds and compares
      them);
    - a [Date] is its time value, the milliseconds since the epoch;
    - [null] and [undefined] of a nullable column are both [None];
    - an [async] method is a computation of the monad [M], which threads
      the process state and carries thrown exceptions and early
      [return res...] exits. *)

From Stdlib Require Import ZArith List String Ascii Bool Lia NArith.
From Stdlib Require Import Strings.Byte.
From Stdlib Require Import DecimalString.
From Stdlib Require Import Sorted.
Import ListNotations.

Local Open Scope string_scope.
Local Open Scope list_scope.
Local Open Scope Z_scope.

Set Implicit Arguments.

(* ===================================================================== *)
(** ** JavaScript [Map]: an insertion-ordered finite map *)
(* ===================================================================== *)

(** Keys with a boolean equality that decides Leibniz equality
    (numbers that are ids, and strings). *)
Class KeyEq (K : Type) := {
  keyb : K -> K -> bool;
  keyb_spec : forall a b, reflect (a = b) (keyb a b)
}.

#[export] Instance KeyEq_Z : KeyEq Z :=
  {| keyb := Z.eqb; keyb_spec := Z.eqb_spec |}.

#[export] Instance KeyEq_string : KeyEq string :=
  {| keyb := String.eqb; keyb_spec := String.eqb_spec |}.

Module JsMap.

(** The entries in insertion order.  [set] on a key that is present
      keeps the entry's position, [set] on a new key appends, as
      [Map.prototype.set] does; [values] lists the values in that order,
      as [Array.from(map.values())] does. *)
Definition t (K V : Type) := list (K * V).

Section Ops.
Context {K V : Type} `{KeyEq K}.

Definition empty : t K V := [].

Fixpoint get (k : K) (m : t K V) : option V :=
  match m with
  | [] => None
  | (k', v) :: r => if keyb k k' then Some v else get k r
  end.

Fixpoint set (k : K) (v : V) (m : t K V) : t K V :=
  match m with
  | [] => [(k, v)]
  | (k', v') :: r =>
      if keyb k k' then (k', v) :: r else (k', v') :: set k v r
  end.

Definition delete (k : K) (m : t K V) : t K V :=
  filter (fun e => negb (keyb k (fst e))) m.

Definition keys (m : t K V) : list K := map fst m.
Definition values (m : t K V) : list V := map snd m.

(** The representation invariant of a [Map]: one entry per key. *)
Definition wf (m : t K V) : Prop := NoDup (keys m).

End Ops.

End JsMap.

(* ===================================================================== *)
(** ** The data model ([shared/schema.ts]) *)
(* ===================================================================== *)

(** A [Date] as its time value. *)
Definition Timestamp := Z.

Module User.
Record t := mk {
  id : Z;
  username : string;
  password : string;
  email : string;
  createdAt : Timestamp
}.
End User.

Module InsertUser.
Record t := mk {
  username : string;
  password : string;
  email : string
}.
End InsertUser.

(** [File]: the row of the [files] table together with the owner's user
    name, which the storage layer attaches on every read. *)
Module File.
Record t := mk {
  id : Z;
  name : string;
  size : Z;
  type : string;
  cid : string;
  encryptionKey : string;
  ownerId : Z;
  uploadedAt : Timestamp;
  status : string;
  owner : string
}.

Definition withOwner (o : string) (f : t) : t :=
  mk (id f) (name f) (size f) (type f) (cid f) (encryptionKey f)
     (ownerId f) (uploadedAt f) (status f) o.
End File.

Module InsertFile.
Record t := mk {
  name : string;
  size : Z;
  type : string;
  cid : string;
  encryptionKey : string;
  ownerId : Z
}.
End InsertFile.

Module FileShare.
Record t := mk {
  id : Z;
  fileId : Z;
  userId : Z;
  permission : string;   (* view, edit, download *)
  createdAt : Timestamp
}.
End FileShare.

Module InsertFileShare.
Record t := mk {
  fileId : Z;
  userId : Z;
  permission : string
}.
End InsertFileShare.

Module ShareLink.
Record t := mk {
  id : Z;
  fileId : Z;
  linkToken : string;
  requiresPassword : option bool;
  password : option string;
  expiresAt : option Timestamp;
  createdAt : Timestamp
}.
End ShareLink.

(** A nullable, optional field of an insert: absent ([undefined]),
    [null], or a value.  A stored row only distinguishes [null] from a
    value. *)
Inductive Nullable (A : Type) :=
| Undefined
| Null
| Given (a : A).

Arguments Undefined {A}.
Arguments Null {A}.
Arguments Given {A} a.

Definition toOption {A} (x : Nullable A) : option A :=
  match x with
  | Given a => Some a
  | _ => None
  end.

Module InsertShareLink.
Record t := mk {
  fileId : Z;
  linkToken : string;
  requiresPassword : Nullable bool;
  password : Nullable string;
  expiresAt : option Timestamp
}.
End InsertShareLink.

(** The [metadata] column is [jsonb]; the handlers only ever write
    [{ fileSize: n }] or [{}]. *)
Inductive Metadata :=
| MetaFileSize (fileSize : Z)
| MetaEmpty.

Module Transaction.
Record t := mk {
  id : Z;
  txId : string;
  cid : string;
  fileId : option Z;
  type : string;         (* store, retrieve *)
  status : string;
  timestamp : Timestamp;
  metadata : Metadata
}.
End Transaction.

Module InsertTransaction.
Record t := mk {
  txId : string;
  cid : string;
  fileId : option Z;
  type : string;
  status : string;
  metadata : Metadata
}.
End InsertTransaction.

Module Stat.
Record t := mk {
  id : Z;
  userId : Z;
  filesUploaded : Z;
  filesShared : Z;
  storageUsed : Z;
  downloads : Z;
  lastUpdated : Timestamp
}.
End Stat.

(** The [updates] argument of [updateUserStats]: every field optional. *)
Module StatUpdates.
Record t := mk {
  filesUploaded : option Z;
  filesShared : option Z;
  storageUsed : option Z;
  downloads : option Z
}.

Definition none : t := mk None None None None.
End StatUpdates.

(** [x || 0] on an optional number ([undefined] and [0] are falsy). *)
Definition orZero (x : option Z) : Z :=
  match x with
  | Some v => v
  | None => 0
  end.

(* ===================================================================== *)
(** ** Values of a request body *)
(* ===================================================================== *)

(** The JSON values a body field can hold, as far as the handlers
    distinguish them. *)
Inductive JsVal :=
| JUndefined
| JNull
| JBool (b : bool)
| JNum (n : Z)
| JStr (s : string).

(** JavaScript truthiness, as used by [c ? a : b]. *)
Definition truthy (v : JsVal) : bool :=
  match v with
  | JUndefined | JNull => false
  | JBool b => b
  | JNum n => negb (n =? 0)
  | JStr s => negb (s =? "")%string
  end.

(* ===================================================================== *)
(** ** Exceptions and HTTP responses *)
(* ===================================================================== *)

Inductive Exn :=
| ZodError (message : string)
| Error (message : string).

Inductive Body :=
| BError (error : string)
| BMessage (message : string)
| BFile (file : File.t)
| BFiles (files : list File.t)
| BFileShare (fileShare : FileShare.t)
| BShareLink (shareLink : string) (expiresAt : Timestamp)
| BDownload (encryptedData encryptionKey name type : string)
| BStats (filesUploaded filesShared : Z) (storageUsed : string) (downloads : Z).

Record Response := mkResponse {
  status : Z;
  body : Body
}.

(* ===================================================================== *)
(** ** The process: state, clock, randomness *)
(* ===================================================================== *)

(** Everything a request can read or change.  The wall clock and the
    operating system's random source are oracles: [clock n] is the n-th
    reading of the clock since the process started, [entropy n] the n-th
    byte delivered by [crypto.randomBytes]; nothing is assumed about
    either.  [LocalTZA] is the offset of the server's time zone, in the
    two forms ECMAScript uses (argument [true]: the offset at a UTC time
    value, [false]: at a local one). *)
Record World (St : Type) := mkWorld {
  storage : St;                              (* the [storage] singleton *)
  storedFiles : JsMap.t string string;      (* FilecoinMockService.storedFiles *)
  clock : nat -> Timestamp;
  clockReads : nat;
  entropy : nat -> byte;
  entropyReads : nat;
  LocalTZA : Timestamp -> bool -> Z;
  APP_DOMAIN : option string                (* process.env.APP_DOMAIN *)
}.

Definition withStorage {St} (s : St) (w : World St) : World St :=
  mkWorld s (storedFiles w) (clock w) (clockReads w)
          (entropy w) (entropyReads w) (LocalTZA w) (APP_DOMAIN w).

(** How a computation ends: with a value, by an early
    [return res.status(..).json(..)], or by a thrown exception. *)
Inductive Outcome (A : Type) :=
| Val (a : A)
| Exit (r : Response)
| Throw (e : Exn).

Arguments Val {A} a.
Arguments Exit {A} r.
Arguments Throw {A} e.

Definition M (St A : Type) := World St -> Outcome A * World St.

Definition ret {St A} (a : A) : M St A := fun w => (Val a, w).

Definition bind {St A B} (c : M St A) (k : A -> M St B) : M St B :=
  fun w =>
    match c w with
    | (Val a, w') => k a w'
    | (Exit r, w') => (Exit r, w')
    | (Throw e, w') => (Throw e, w')
    end.

Declare Scope monad_scope.
Delimit Scope monad_scope with monad.
Notation "x <- c ;; k" := (bind c (fun x => k))
  (at level 61, c at next level, right associativity) : monad_scope.
Notation "c ;; k" := (bind c (fun _ => k))
  (at level 61, right associativity) : monad_scope.
Local Open Scope monad_scope.

Definition throw {St A} (e : Exn) : M St A := fun w => (Throw e, w).
Definition exit {St A} (r : Response) : M St A := fun w => (Exit r, w).

(** [this], read and written. *)
Definition getS {St} : M St St := fun w => (Val (storage w), w).
Definition putS {St} (s : St) : M St unit := fun w => (Val tt, withStorage s w).
Definition gets {St A} (f : St -> A) : M St A := fun w => (Val (f (storage w)), w).
Definition modify {St} (f : St -> St) : M St unit :=
  fun w => (Val tt, withStorage (f (storage w)) w).

(** The world after one more reading of the clock. *)
Definition tick {St} (w : World St) : World St :=
  mkWorld (storage w) (storedFiles w) (clock w) (S (clockReads w))
          (entropy w) (entropyReads w) (LocalTZA w) (APP_DOMAIN w).

(** [new Date()] and [Date.now()]: the next reading of the clock. *)
Definition newDate {St} : M St Timestamp :=
  fun w => (Val (clock w (clockReads w)), tick w).

(** The world after [n] more bytes were drawn from the random source. *)
Definition drawn {St} (n : nat) (w : World St) : World St :=
  mkWorld (storage w) (storedFiles w) (clock w) (clockReads w)
          (entropy w) (entropyReads w + n)%nat (LocalTZA w) (APP_DOMAIN w).

(** [crypto.randomBytes(n)]: the next [n] bytes of the random source. *)
Definition randomBytes {St} (n : nat) : M St (list byte) :=
  fun w => (Val (map (entropy w) (seq (entropyReads w) n)), drawn n w).

(** [try { body } catch (error) { handler(error) }]. *)
Definition tryCatch {St A} (body : M St A) (handler : Exn -> M St A) : M St A :=
  fun w =>
    match body w with
    | (Throw e, w') => handler e w'
    | r => r
    end.

(** What the client receives from a handler body.  An exception that
    leaves the last error middleware reaches Express's default error
    handler, which answers 500. *)
Definition respond {St} (c : M St Response) : World St -> Response * World St :=
  fun w =>
    match c w with
    | (Val r, w') => (r, w')
    | (Exit r, w') => (r, w')
    | (Throw (ZodError m), w') => (mkResponse 500 (BError m), w')
    | (Throw (Error m), w') => (mkResponse 500 (BError m), w')
    end.

(** [res.status(code).json(body)]. *)
Definition json (code : Z) (b : Body) : Response := mkResponse code b.

(* ===================================================================== *)
(** ** Library functions of JavaScript used by the storage layer *)
(* ===================================================================== *)

(** [String.prototype.toLowerCase] on strings of ASCII characters: the
    letters A to Z are lowered.  The method of JavaScript also lowers
    letters outside ASCII, which this function leaves as they are; the
    properties that depend on the difference are stated for ASCII
    strings. *)
Definition lowerAscii (c : ascii) : ascii :=
  let n := nat_of_ascii c in
  if ((65 <=? n) && (n <=? 90))%nat then ascii_of_nat (n + 32) else c.

Fixpoint toLowerCase (s : string) : string :=
  match s with
  | EmptyString => EmptyString
  | String c r => String (lowerAscii c) (toLowerCase r)
  end.

(** [Array.prototype.sort(cmp)]: a stable sort ([x] goes before [y] when
    [cmp x y <= 0] and [x] came first). *)
Fixpoint insertSorted {A} (cmp : A -> A -> Z) (x : A) (l : list A) : list A :=
  match l with
  | [] => [x]
  | y :: r => if cmp x y <=? 0 then x :: y :: r else y :: insertSorted cmp x r
  end.

Definition sortBy {A} (cmp : A -> A -> Z) (l : list A) : list A :=
  fold_right (insertSorted cmp) [] l.

(** [tx.fileId && userFiles.includes(tx.fileId)]: [null] and [0] are
    falsy. *)
Definition includesFileId (userFiles : list Z) (fileId : option Z) : bool :=
  match fileId with
  | Some f => negb (f =? 0) && existsb (Z.eqb f) userFiles
  | None => false
  end.

(** The number as [`${n}`] prints it. *)
Definition showZ (n : Z) : string := NilZero.string_of_int (Z.to_int n).

(* ===================================================================== *)
(** ** [interface IStorage] *)
(* ===================================================================== *)

Class IStorage (St : Type) := {
  (* User operations *)
  getUser : Z -> M St (option User.t);
  getUserByUsername : string -> M St (option User.t);
  getUserByEmail : string -> M St (option User.t);
  createUser : InsertUser.t -> M St User.t;
  (* File operations *)
  getFile : Z -> M St (option File.t);
  getUserFiles : Z -> M St (list File.t);
  createFile : InsertFile.t -> M St File.t;
  deleteFile : Z -> M St unit;
  checkFileAccess : Z -> Z -> M St bool;
  (* File sharing *)
  getSharedFiles : Z -> M St (list File.t);
  createFileShare : InsertFileShare.t -> M St FileShare.t;
  createShareLink : InsertShareLink.t -> M St ShareLink.t;
  getShareLink : string -> M St (option ShareLink.t);
  (* Blockchain transactions *)
  logTransaction : InsertTransaction.t -> M St Transaction.t;
  getUserTransactions : Z -> M St (list Transaction.t);
  (* Stats *)
  createUserStats : Z -> M St Stat.t;
  getUserStats : Z -> M St (option Stat.t);
  updateUserStats : Z -> StatUpdates.t -> M St Stat.t
}.

(* ===================================================================== *)
(** ** [class MemStorage]: the in-memory implementation *)
(* ===================================================================== *)

Module MemStorage.

Record CurrentId := mkCurrentId {
  users : Z;
  files : Z;
  fileShares : Z;
  shareLinks : Z;
  transactions : Z;
  stats : Z
}.

Record t := mk {
  usersMap : JsMap.t Z User.t;
  filesMap : JsMap.t Z File.t;
  fileSharesMap : JsMap.t Z FileShare.t;
  shareLinksMap : JsMap.t Z ShareLink.t;
  transactionsMap : JsMap.t Z Transaction.t;
  statsMap : JsMap.t Z Stat.t;
  currentId : CurrentId
}.

(** Assignments to one field of [this]. *)
Definition setUsersMap (m : JsMap.t Z User.t) (s : t) : t :=
  mk m (filesMap s) (fileSharesMap s) (shareLinksMap s) (transactionsMap s)
     (statsMap s) (currentId s).
Definition setFilesMap (m : JsMap.t Z File.t) (s : t) : t :=
  mk (usersMap s) m (fileSharesMap s) (shareLinksMap s) (transactionsMap s)
     (statsMap s) (currentId s).
Definition setFileSharesMap (m : JsMap.t Z FileShare.t) (s : t) : t :=
  mk (usersMap s) (filesMap s) m (shareLinksMap s) (transactionsMap s)
     (statsMap s) (currentId s).
Definition setShareLinksMap (m : JsMap.t Z ShareLink.t) (s : t) : t :=
  mk (usersMap s) (filesMap s) (fileSharesMap s) m (transactionsMap s)
     (statsMap s) (currentId s).
Definition setTransactionsMap (m : JsMap.t Z Transaction.t) (s : t) : t :=
  mk (usersMap s) (filesMap s) (fileSharesMap s) (shareLinksMap s) m
     (statsMap s) (currentId s).
Definition setStatsMap (m : JsMap.t Z Stat.t) (s : t) : t :=
  mk (usersMap s) (filesMap s) (fileSharesMap s) (shareLinksMap s)
     (transactionsMap s) m (currentId s).
Definition setCurrentId (c : CurrentId) (s : t) : t :=
  mk (usersMap s) (filesMap s) (fileSharesMap s) (shareLinksMap s)
     (transactionsMap s) (statsMap s) c.

(** [this.currentId.x++] for each counter: the old value is the result. *)
Definition bumpUsers (s : t) : t :=
  let c := currentId s in
  setCurrentId (mkCurrentId (users c + 1) (files c) (fileShares c) (shareLinks c) (transactions c) (stats c)) s.
Definition nextUsersId : M t Z :=
  s <- getS ;;
  putS (bumpUsers s) ;;
  ret (users (currentId s)).
Definition bumpFiles (s : t) : t :=
  let c := currentId s in
  setCurrentId (mkCurrentId (users c) (files c + 1) (fileShares c) (shareLinks c) (transactions c) (stats c)) s.
Definition nextFilesId : M t Z :=
  s <- getS ;;
  putS (bumpFiles s) ;;
  ret (files (currentId s)).
Definition bumpFileShares (s : t) : t :=
  let c := currentId s in
  setCurrentId (mkCurrentId (users c) (files c) (fileShares c + 1) (shareLinks c) (transactions c) (stats c)) s.
Definition nextFileSharesId : M t Z :=
  s <- getS ;;
  putS (bumpFileShares s) ;;
  ret (fileShares (currentId s)).
Definition bumpShareLinks (s : t) : t :=
  let c := currentId s in
  setCurrentId (mkCurrentId (users c) (files c) (fileShares c) (shareLinks c + 1) (transactions c) (stats c)) s.
Definition nextShareLinksId : M t Z :=
  s <- getS ;;
  putS (bumpShareLinks s) ;;
  ret (shareLinks (currentId s)).
Definition bumpTransactions (s : t) : t :=
  let c := currentId s in
  setCurrentId (mkCurrentId (users c) (files c) (fileShares c) (shareLinks c) (transactions c + 1) (stats c)) s.
Definition nextTransactionsId : M t Z :=
  s <- getS ;;
  putS (bumpTransactions s) ;;
  ret (transactions (currentId s)).
Definition bumpStats (s : t) : t :=
  let c := currentId s in
  setCurrentId (mkCurrentId (users c) (files c) (fileShares c) (shareLinks c) (transactions c) (stats c + 1)) s.
Definition nextStatsId : M t Z :=
  s <- getS ;;
  putS (bumpStats s) ;;
  ret (stats (currentId s)).

(** [owner ? owner.username : "Unknown"]. *)
Definition ownerName (s : t) (ownerId : Z) : string :=
  match JsMap.get ownerId (usersMap s) with
  | Some owner => User.username owner
  | None => "Unknown"
  end.

(* ---- User operations ---- *)

Definition getUser (id : Z) : M t (option User.t) :=
  gets (fun s => JsMap.get id (usersMap s)).

Definition getUserByUsername (username : string) : M t (option User.t) :=
  gets (fun s =>
    find (fun user =>
            (toLowerCase (User.username user) =? toLowerCase username)%string)
         (JsMap.values (usersMap s))).

Definition getUserByEmail (email : string) : M t (option User.t) :=
  gets (fun s =>
    find (fun user =>
            (toLowerCase (User.email user) =? toLowerCase email)%string)
         (JsMap.values (usersMap s))).

Definition createUser (userData : InsertUser.t) : M t User.t :=
  id <- nextUsersId ;;
  now <- newDate ;;
  let user := User.mk id (InsertUser.username userData)
                (InsertUser.password userData) (InsertUser.email userData) now in
  modify (fun s => setUsersMap (JsMap.set id user (usersMap s)) s) ;;
  ret user.

(* ---- File operations ---- *)

Definition getFile (id : Z) : M t (option File.t) :=
  gets (fun s =>
    match JsMap.get id (filesMap s) with
    | None => None
    | Some file => Some (File.withOwner (ownerName s (File.ownerId file)) file)
    end).

Definition getUserFiles (userId : Z) : M t (list File.t) :=
  gets (fun s =>
    map (fun file => File.withOwner (ownerName s (File.ownerId file)) file)
        (filter (fun file => File.ownerId file =? userId)
                (JsMap.values (filesMap s)))).

(** The object stored under [id] is the one whose [owner] is assigned
    afterwards: the second [set] is that assignment, seen through the
    map. *)
Definition createFile (fileData : InsertFile.t) : M t File.t :=
  id <- nextFilesId ;;
  now <- newDate ;;
  let file := File.mk id (InsertFile.name fileData) (InsertFile.size fileData)
                (InsertFile.type fileData) (InsertFile.cid fileData)
                (InsertFile.encryptionKey fileData) (InsertFile.ownerId fileData)
                now "encrypted" "" in
  modify (fun s => setFilesMap (JsMap.set id file (filesMap s)) s) ;;
  s <- getS ;;
  let file' := File.withOwner (ownerName s (File.ownerId file)) file in
  putS (setFilesMap (JsMap.set id file' (filesMap s)) s) ;;
  ret file'.

Definition deleteFile (id : Z) : M t unit :=
  modify (fun s => setFilesMap (JsMap.delete id (filesMap s)) s) ;;
  (* Also delete related records *)
  modify (fun s =>
    setFileSharesMap
      (fold_left (fun m share => JsMap.delete (FileShare.id share) m)
         (filter (fun share => FileShare.fileId share =? id)
                 (JsMap.values (fileSharesMap s)))
         (fileSharesMap s)) s) ;;
  modify (fun s =>
    setShareLinksMap
      (fold_left (fun m link => JsMap.delete (ShareLink.id link) m)
         (filter (fun link => ShareLink.fileId link =? id)
                 (JsMap.values (shareLinksMap s)))
         (shareLinksMap s)) s).

Definition checkFileAccess (fileId userId : Z) : M t bool :=
  gets (fun s =>
    match JsMap.get fileId (filesMap s) with
    | None => false
    | Some file =>
        (* Owner always has access *)
        if File.ownerId file =? userId then true
        else
          (* Check if there's a file share for this user *)
          existsb (fun share => (FileShare.fileId share =? fileId)
                                && (FileShare.userId share =? userId))
                  (JsMap.values (fileSharesMap s))
    end).

(* ---- File sharing ---- *)

Definition getSharedFiles (userId : Z) : M t (list File.t) :=
  gets (fun s =>
    let shares := filter (fun share => FileShare.userId share =? userId)
                         (JsMap.values (fileSharesMap s)) in
    flat_map (fun share =>
                match JsMap.get (FileShare.fileId share) (filesMap s) with
                | None => []
                | Some file =>
                    [File.withOwner (ownerName s (File.ownerId file)) file]
                end) shares).

Definition createFileShare (fileShareData : InsertFileShare.t) : M t FileShare.t :=
  id <- nextFileSharesId ;;
  now <- newDate ;;
  let fileShare := FileShare.mk id (InsertFileShare.fileId fileShareData)
                     (InsertFileShare.userId fileShareData)
                     (InsertFileShare.permission fileShareData) now in
  modify (fun s => setFileSharesMap (JsMap.set id fileShare (fileSharesMap s)) s) ;;
  ret fileShare.

Definition createShareLink (shareLinkData : InsertShareLink.t) : M t ShareLink.t :=
  id <- nextShareLinksId ;;
  now <- newDate ;;
  let shareLink := ShareLink.mk id (InsertShareLink.fileId shareLinkData)
                     (InsertShareLink.linkToken shareLinkData)
                     (toOption (InsertShareLink.requiresPassword shareLinkData))
                     (toOption (InsertShareLink.password shareLinkData))
                     (InsertShareLink.expiresAt shareLinkData) now in
  modify (fun s => setShareLinksMap (JsMap.set id shareLink (shareLinksMap s)) s) ;;
  ret shareLink.

Definition getShareLink (token : string) : M t (option ShareLink.t) :=
  gets (fun s =>
    find (fun link => (ShareLink.linkToken link =? token)%string)
         (JsMap.values (shareLinksMap s))).

(* ---- Blockchain transactions ---- *)

Definition logTransaction (transactionData : InsertTransaction.t) : M t Transaction.t :=
  id <- nextTransactionsId ;;
  now <- newDate ;;
  let transaction := Transaction.mk id (InsertTransaction.txId transactionData)
                       (InsertTransaction.cid transactionData)
                       (InsertTransaction.fileId transactionData)
                       (InsertTransaction.type transactionData)
                       (InsertTransaction.status transactionData) now
                       (InsertTransaction.metadata transactionData) in
  modify (fun s =>
    setTransactionsMap (JsMap.set id transaction (transactionsMap s)) s) ;;
  ret transaction.

Definition getUserTransactions (userId : Z) : M t (list Transaction.t) :=
  gets (fun s =>
    (* Get all user's files *)
    let userFiles := map File.id
                       (filter (fun file => File.ownerId file =? userId)
                               (JsMap.values (filesMap s))) in
    (* Get transactions for those files *)
    sortBy (fun a b => Transaction.timestamp b - Transaction.timestamp a)
      (filter (fun tx => includesFileId userFiles (Transaction.fileId tx))
              (JsMap.values (transactionsMap s)))).

(* ---- Stats ---- *)

Definition createUserStats (userId : Z) : M t Stat.t :=
  id <- nextStatsId ;;
  now <- newDate ;;
  let stat := Stat.mk id userId 0 0 0 0 now in
  modify (fun s => setStatsMap (JsMap.set userId stat (statsMap s)) s) ;;
  ret stat.

Definition getUserStats (userId : Z) : M t (option Stat.t) :=
  gets (fun s => JsMap.get userId (statsMap s)).

(** The object that [updateUserStats] builds from the row it starts
    from: the sums, then the three floors. *)
Definition updatedStat (stat : Stat.t) (updates : StatUpdates.t) (now : Timestamp)
  : Stat.t :=
  let updatedStat :=
    Stat.mk (Stat.id stat) (Stat.userId stat)
      (Stat.filesUploaded stat + orZero (StatUpdates.filesUploaded updates))
      (Stat.filesShared stat + orZero (StatUpdates.filesShared updates))
      (Stat.storageUsed stat + orZero (StatUpdates.storageUsed updates))
      (Stat.downloads stat + orZero (StatUpdates.downloads updates))
      now in
  (* Ensure values aren't negative *)
  Stat.mk (Stat.id updatedStat) (Stat.userId updatedStat)
    (Z.max 0 (Stat.filesUploaded updatedStat))
    (Z.max 0 (Stat.filesShared updatedStat))
    (Z.max 0 (Stat.storageUsed updatedStat))
    (Stat.downloads updatedStat)
    (Stat.lastUpdated updatedStat).

Definition updateUserStats (userId : Z) (updates : StatUpdates.t) : M t Stat.t :=
  found <- gets (fun s => JsMap.get userId (statsMap s)) ;;
  stat <- match found with
          | Some stat => ret stat
          | None => createUserStats userId
          end ;;
  now <- newDate ;;
  let updatedStat := updatedStat stat updates now in
  modify (fun s => setStatsMap (JsMap.set userId updatedStat (statsMap s)) s) ;;
  ret updatedStat.

(** The state before the constructor's body runs. *)
Definition empty : t :=
  mk JsMap.empty JsMap.empty JsMap.empty JsMap.empty JsMap.empty JsMap.empty
     (mkCurrentId 1 1 1 1 1 1).

(** The body of the constructor: a default user for testing. *)
Definition constructor : M t User.t :=
  createUser
    (InsertUser.mk "testuser"
       "5e884898da28047151d0e56f8dc6292773603d0d6aabbdd62a11ef721d1542d8"
       "test@example.com").

(** *** The tables behind the maps, and the invariant of the class *)

Definition fileShareRows (s : t) : list FileShare.t := JsMap.values (fileSharesMap s).
Definition shareLinkRows (s : t) : list ShareLink.t := JsMap.values (shareLinksMap s).
Definition transactionRows (s : t) : list Transaction.t := JsMap.values (transactionsMap s).
Definition statRows (s : t) : list Stat.t := JsMap.values (statsMap s).

(** A map filled under ids drawn from a counter: one entry per key,
    every value stored under its own id, every id below the counter. *)
Definition keyed {V} (idOf : V -> Z) (next : Z) (m : JsMap.t Z V) : Prop :=
  JsMap.wf m /\ Forall (fun e => idOf (snd e) = fst e /\ fst e < next) m.

(** The counters of a [Stat] that [updateUserStats] floors at zero. *)
Definition floored (st : Stat.t) : Prop :=
  0 <= Stat.filesUploaded st /\ 0 <= Stat.filesShared st /\ 0 <= Stat.storageUsed st.

(** What the constructor establishes and every method keeps. *)
Definition Inv (s : t) : Prop :=
  keyed User.id (users (currentId s)) (usersMap s) /\
  keyed File.id (files (currentId s)) (filesMap s) /\
  keyed FileShare.id (fileShares (currentId s)) (fileSharesMap s) /\
  keyed ShareLink.id (shareLinks (currentId s)) (shareLinksMap s) /\
  keyed Transaction.id (transactions (currentId s)) (transactionsMap s) /\
  JsMap.wf (statsMap s) /\
  Forall (fun e => Stat.userId (snd e) = fst e /\ floored (snd e)) (statsMap s).

End MemStorage.

#[export] Instance MemStorage_IStorage : IStorage MemStorage.t := {|
  getUser := MemStorage.getUser;
  getUserByUsername := MemStorage.getUserByUsername;
  getUserByEmail := MemStorage.getUserByEmail;
  createUser := MemStorage.createUser;
  getFile := MemStorage.getFile;
  getUserFiles := MemStorage.getUserFiles;
  createFile := MemStorage.createFile;
  deleteFile := MemStorage.deleteFile;
  checkFileAccess := MemStorage.checkFileAccess;
  getSharedFiles := MemStorage.getSharedFiles;
  createFileShare := MemStorage.createFileShare;
  createShareLink := MemStorage.createShareLink;
  getShareLink := MemStorage.getShareLink;
  logTransaction := MemStorage.logTransaction;
  getUserTransactions := MemStorage.getUserTransactions;
  createUserStats := MemStorage.createUserStats;
  getUserStats := MemStorage.getUserStats;
  updateUserStats := MemStorage.updateUserStats
|}.

(* ===================================================================== *)
(** ** [class DatabaseStorage]: the implementation over the database *)
(* ===================================================================== *)

(** The database itself is not part of the repository.  A table is the
    list of its rows, oldest first; each statement has the effect it has
    when the engine accepts it.  The constraints that [schema.ts]
    declares (primary and foreign keys, unique columns, the range of an
    [integer] column) are checked by the engine.  One refusal is part of
    the model, because the routes run into it with every uploaded file:
    [deleteFile] of a file that a transaction refers to.  Every other
    statement that the engine rejects is outside this model, and the
    properties of the methods concerned are stated for the inputs that
    the constraints admit.  Likewise a [select] without [orderBy]
    returns its rows in an order that the code does not fix: the
    properties that read one row of several say so. *)

(** A row of the [files] table (a [File] without the owner's name). *)
Module FileRow.
Record t := mk {
  id : Z;
  name : string;
  size : Z;
  type : string;
  cid : string;
  encryptionKey : string;
  ownerId : Z;
  uploadedAt : Timestamp;
  status : string
}.

(** [{ ...file, owner }]. *)
Definition withOwner (o : string) (f : t) : File.t :=
  File.mk (id f) (name f) (size f) (type f) (cid f) (encryptionKey f)
          (ownerId f) (uploadedAt f) (status f) o.
End FileRow.

Module DatabaseStorage.

(** The [serial] sequences: the next value each one delivers. *)
Record Sequences := mkSequences {
  users_id_seq : Z;
  files_id_seq : Z;
  file_shares_id_seq : Z;
  share_links_id_seq : Z;
  transactions_id_seq : Z;
  stats_id_seq : Z
}.

Record t := mk {
  users : list User.t;
  files : list FileRow.t;
  fileShares : list FileShare.t;
  shareLinks : list ShareLink.t;
  transactions : list Transaction.t;
  stats : list Stat.t;
  sequences : Sequences
}.

Definition setUsers (r : list User.t) (d : t) : t :=
  mk r (files d) (fileShares d) (shareLinks d) (transactions d) (stats d)
     (sequences d).
Definition setFiles (r : list FileRow.t) (d : t) : t :=
  mk (users d) r (fileShares d) (shareLinks d) (transactions d) (stats d)
     (sequences d).
Definition setFileShares (r : list FileShare.t) (d : t) : t :=
  mk (users d) (files d) r (shareLinks d) (transactions d) (stats d)
     (sequences d).
Definition setShareLinks (r : list ShareLink.t) (d : t) : t :=
  mk (users d) (files d) (fileShares d) r (transactions d) (stats d)
     (sequences d).
Definition setTransactions (r : list Transaction.t) (d : t) : t :=
  mk (users d) (files d) (fileShares d) (shareLinks d) r (stats d)
     (sequences d).
Definition setStats (r : list Stat.t) (d : t) : t :=
  mk (users d) (files d) (fileShares d) (shareLinks d) (transactions d) r
     (sequences d).
Definition setSequences (q : Sequences) (d : t) : t :=
  mk (users d) (files d) (fileShares d) (shareLinks d) (transactions d)
     (stats d) q.

(** [nextval] of each sequence. *)
Definition bumpUsers (d : t) : t :=
  let q := sequences d in
  setSequences (mkSequences (users_id_seq q + 1) (files_id_seq q) (file_shares_id_seq q) (share_links_id_seq q) (transactions_id_seq q) (stats_id_seq q)) d.
Definition nextUsersId : M t Z :=
  d <- getS ;;
  putS (bumpUsers d) ;;
  ret (users_id_seq (sequences d)).
Definition bumpFiles (d : t) : t :=
  let q := sequences d in
  setSequences (mkSequences (users_id_seq q) (files_id_seq q + 1) (file_shares_id_seq q) (share_links_id_seq q) (transactions_id_seq q) (stats_id_seq q)) d.
Definition nextFilesId : M t Z :=
  d <- getS ;;
  putS (bumpFiles d) ;;
  ret (files_id_seq (sequences d)).
Definition bumpFileShares (d : t) : t :=
  let q := sequences d in
  setSequences (mkSequences (users_id_seq q) (files_id_seq q) (file_shares_id_seq q + 1) (share_links_id_seq q) (transactions_id_seq q) (stats_id_seq q)) d.
Definition nextFileSharesId : M t Z :=
  d <- getS ;;
  putS (bumpFileShares d) ;;
  ret (file_shares_id_seq (sequences d)).
Definition bumpShareLinks (d : t) : t :=
  let q := sequences d in
  setSequences (mkSequences (users_id_seq q) (files_id_seq q) (file_shares_id_seq q) (share_links_id_seq q + 1) (transactions_id_seq q) (stats_id_seq q)) d.
Definition nextShareLinksId : M t Z :=
  d <- getS ;;
  putS (bumpShareLinks d) ;;
  ret (share_links_id_seq (sequences d)).
Definition bumpTransactions (d : t) : t :=
  let q := sequences d in
  setSequences (mkSequences (users_id_seq q) (files_id_seq q) (file_shares_id_seq q) (share_links_id_seq q) (transactions_id_seq q + 1) (stats_id_seq q)) d.
Definition nextTransactionsId : M t Z :=
  d <- getS ;;
  putS (bumpTransactions d) ;;
  ret (transactions_id_seq (sequences d)).
Definition bumpStats (d : t) : t :=
  let q := sequences d in
  setSequences (mkSequences (users_id_seq q) (files_id_seq q) (file_shares_id_seq q) (share_links_id_seq q) (transactions_id_seq q) (stats_id_seq q + 1)) d.
Definition nextStatsId : M t Z :=
  d <- getS ;;
  putS (bumpStats d) ;;
  ret (stats_id_seq (sequences d)).

(** [db.select().from(table).where(cond)]. *)
Definition selectWhere {A} (cond : A -> bool) (table : list A) : list A :=
  filter cond table.

(** [db.delete(table).where(cond)]. *)
Definition deleteWhere {A} (cond : A -> bool) (table : list A) : list A :=
  filter (fun row => negb (cond row)) table.

(** [db.update(table).set(values).where(cond)]. *)
Definition updateWhere {A} (cond : A -> bool) (values : A -> A)
  (table : list A) : list A :=
  map (fun row => if cond row then values row else row) table.

(** [const [x] = rows]. *)
Definition first {A} (rows : list A) : option A := hd_error rows.

(** The owner's name as every read attaches it. *)
Definition ownerName (d : t) (ownerId : Z) : string :=
  match first (selectWhere (fun u => User.id u =? ownerId) (users d)) with
  | Some owner => User.username owner
  | None => "Unknown"
  end.

(* ---- User operations ---- *)

Definition getUser (id : Z) : M t (option User.t) :=
  gets (fun d => first (selectWhere (fun u => User.id u =? id) (users d))).

Definition getUserByUsername (username : string) : M t (option User.t) :=
  gets (fun d =>
    first (selectWhere (fun u => (User.username u =? username)%string) (users d))).

Definition getUserByEmail (email : string) : M t (option User.t) :=
  gets (fun d =>
    first (selectWhere (fun u => (User.email u =? email)%string) (users d))).

Definition createUser (insertUser : InsertUser.t) : M t User.t :=
  id <- nextUsersId ;;
  now <- newDate ;;
  let user := User.mk id (InsertUser.username insertUser)
                (InsertUser.password insertUser) (InsertUser.email insertUser) now in
  modify (fun d => setUsers (users d ++ [user]) d) ;;
  ret user.

(* ---- File operations ---- *)

Definition getFile (id : Z) : M t (option File.t) :=
  gets (fun d =>
    match first (selectWhere (fun f => FileRow.id f =? id) (files d)) with
    | None => None
    | Some file =>
        Some (FileRow.withOwner (ownerName d (FileRow.ownerId file)) file)
    end).

Definition getUserFiles (userId : Z) : M t (list File.t) :=
  gets (fun d =>
    let userFiles := selectWhere (fun f => FileRow.ownerId f =? userId) (files d) in
    map (FileRow.withOwner (ownerName d userId)) userFiles).

Definition createFile (file : InsertFile.t) : M t File.t :=
  id <- nextFilesId ;;
  now <- newDate ;;
  let newFile := FileRow.mk id (InsertFile.name file) (InsertFile.size file)
                   (InsertFile.type file) (InsertFile.cid file)
                   (InsertFile.encryptionKey file) (InsertFile.ownerId file)
                   now "encrypted" in
  modify (fun d => setFiles (files d ++ [newFile]) d) ;;
  d <- getS ;;
  ret (FileRow.withOwner (ownerName d (FileRow.ownerId newFile)) newFile).

(** [transactions.file_id] refers to [files.id] ([schema.ts]), with no
    [onDelete] rule: [referenced id d] when a row of [transactions]
    names the file [id]. *)
Definition referenced (id : Z) (d : t) : bool :=
  existsb (fun tx => match Transaction.fileId tx with
                     | Some f => f =? id
                     | None => false
                     end) (transactions d).

(** What the driver throws when the engine refuses a statement.  The
    message stands for the engine's, whose text is not in the
    repository; no handler shows it. *)
Definition constraintError : Exn := Error "violates foreign key constraint".

(** The three statements run one after the other, outside a database
    transaction.  The last one is refused when it would delete a row
    that a transaction refers to; the first two have taken effect by
    then. *)
Definition deleteFile (id : Z) : M t unit :=
  (* First delete related records *)
  modify (fun d =>
    setFileShares (deleteWhere (fun sh => FileShare.fileId sh =? id) (fileShares d)) d) ;;
  modify (fun d =>
    setShareLinks (deleteWhere (fun l => ShareLink.fileId l =? id) (shareLinks d)) d) ;;
  (* Then delete the file *)
  d <- getS ;;
  if existsb (fun f => FileRow.id f =? id) (files d) && referenced id d
  then throw constraintError
  else putS (setFiles (deleteWhere (fun f => FileRow.id f =? id) (files d)) d).

Definition checkFileAccess (fileId userId : Z) : M t bool :=
  gets (fun d =>
    (* Check if user is the owner *)
    match first (selectWhere (fun f => FileRow.id f =? fileId) (files d)) with
    | None => false
    | Some file =>
        if FileRow.ownerId file =? userId then true
        else
          (* Check if user has shared access *)
          match first (selectWhere
                         (fun sh => (FileShare.fileId sh =? fileId)
                                    && (FileShare.userId sh =? userId))
                         (fileShares d)) with
          | Some _ => true
          | None => false
          end
    end).

(* ---- File sharing ---- *)

Definition getSharedFiles (userId : Z) : M t (list File.t) :=
  gets (fun d =>
    let shares := selectWhere (fun sh => FileShare.userId sh =? userId)
                              (fileShares d) in
    match shares with
    | [] => []
    | _ =>
        flat_map (fun share =>
          match first (selectWhere
                         (fun f => FileRow.id f =? FileShare.fileId share)
                         (files d)) with
          | None => []
          | Some file =>
              [FileRow.withOwner (ownerName d (FileRow.ownerId file)) file]
          end) shares
    end).

Definition createFileShare (fileShare : InsertFileShare.t) : M t FileShare.t :=
  id <- nextFileSharesId ;;
  now <- newDate ;;
  let newFileShare := FileShare.mk id (InsertFileShare.fileId fileShare)
                        (InsertFileShare.userId fileShare)
                        (InsertFileShare.permission fileShare) now in
  modify (fun d => setFileShares (fileShares d ++ [newFileShare]) d) ;;
  ret newFileShare.

(** [requires_password] has the default [false], which an absent value
    takes; an explicit [null] is stored. *)
Definition createShareLink (shareLink : InsertShareLink.t) : M t ShareLink.t :=
  id <- nextShareLinksId ;;
  now <- newDate ;;
  let newShareLink :=
    ShareLink.mk id (InsertShareLink.fileId shareLink)
      (InsertShareLink.linkToken shareLink)
      (match InsertShareLink.requiresPassword shareLink with
       | Undefined => Some false
       | Null => None
       | Given b => Some b
       end)
      (toOption (InsertShareLink.password shareLink))
      (InsertShareLink.expiresAt shareLink) now in
  modify (fun d => setShareLinks (shareLinks d ++ [newShareLink]) d) ;;
  ret newShareLink.

Definition getShareLink (token : string) : M t (option ShareLink.t) :=
  gets (fun d =>
    first (selectWhere (fun l => (ShareLink.linkToken l =? token)%string)
                       (shareLinks d))).

(* ---- Blockchain transactions ---- *)

Definition logTransaction (transaction : InsertTransaction.t) : M t Transaction.t :=
  id <- nextTransactionsId ;;
  now <- newDate ;;
  let newTransaction :=
    Transaction.mk id (InsertTransaction.txId transaction)
      (InsertTransaction.cid transaction) (InsertTransaction.fileId transaction)
      (InsertTransaction.type transaction) (InsertTransaction.status transaction)
      now (InsertTransaction.metadata transaction) in
  modify (fun d => setTransactions (transactions d ++ [newTransaction]) d) ;;
  ret newTransaction.

Definition getUserTransactions (userId : Z) : M t (list Transaction.t) :=
  gets (fun d =>
    (* First get all user's files *)
    let userFiles := selectWhere (fun f => FileRow.ownerId f =? userId) (files d) in
    match userFiles with
    | [] => []
    | _ =>
        (* Get transactions for each file individually *)
        let allTransactions :=
          flat_map (fun file =>
            selectWhere (fun tx => match Transaction.fileId tx with
                                   | Some f => f =? FileRow.id file
                                   | None => false
                                   end) (transactions d)) userFiles in
        (* Sort transactions by timestamp manually *)
        sortBy (fun a b => Transaction.timestamp b - Transaction.timestamp a)
               allTransactions
    end).

(* ---- Stats ---- *)

(** The insert as the engine performs it for a user of the table of
    users ([stats.user_id] refers to [users.id]). *)
Definition createUserStats (userId : Z) : M t Stat.t :=
  id <- nextStatsId ;;
  now <- newDate ;;
  let newStat := Stat.mk id userId 0 0 0 0 now in
  modify (fun d => setStats (stats d ++ [newStat]) d) ;;
  ret newStat.

(** The first row of the answer.  The [select] has no [orderBy]: for
    a user with one row the answer is that row; for a user with several
    the engine chooses, and the model takes the oldest. *)
Definition getUserStats (userId : Z) : M t (option Stat.t) :=
  gets (fun d => first (selectWhere (fun st => Stat.userId st =? userId) (stats d))).

(** The values that [updateUserStats] writes into a row: the counters
    computed from the row [userStat] it read, the other columns kept. *)
Definition newValues (userStat : Stat.t) (updates : StatUpdates.t) (now : Timestamp)
  (row : Stat.t) : Stat.t :=
  Stat.mk (Stat.id row) (Stat.userId row)
    (Z.max 0 (Stat.filesUploaded userStat + orZero (StatUpdates.filesUploaded updates)))
    (Z.max 0 (Stat.filesShared userStat + orZero (StatUpdates.filesShared updates)))
    (Z.max 0 (Stat.storageUsed userStat + orZero (StatUpdates.storageUsed updates)))
    (Stat.downloads userStat + orZero (StatUpdates.downloads updates))
    now.

(** The last line destructures the rows the update returned; an empty
    result would make the method return [undefined], which is an
    exception here (and never happens: the row that was read is among
    the rows updated).  The update is the one the engine performs for
    counters within the range of the [integer] columns. *)
Definition updateUserStats (userId : Z) (updates : StatUpdates.t) : M t Stat.t :=
  (* First get current stats *)
  found <- getUserStats userId ;;
  userStat <- match found with
              | Some userStat => ret userStat
              | None => createUserStats userId
              end ;;
  now <- newDate ;;
  (* Calculate new values *)
  let newValues := newValues userStat updates now in
  (* Update the record *)
  let cond (row : Stat.t) := Stat.id row =? Stat.id userStat in
  d <- getS ;;
  putS (setStats (updateWhere cond newValues (stats d)) d) ;;
  match first (map newValues (selectWhere cond (stats d))) with
  | Some updatedStat => ret updatedStat
  | None => throw (Error "undefined")
  end.

(** A database with empty tables and fresh sequences. *)
Definition empty : t :=
  mk [] [] [] [] [] [] (mkSequences 1 1 1 1 1 1).

(** *** The invariant the engine keeps *)

(** A table whose primary key comes from a sequence: the keys are
    distinct and below the sequence. *)
Definition serial {A} (idOf : A -> Z) (next : Z) (rows : list A) : Prop :=
  NoDup (map idOf rows) /\ Forall (fun r => idOf r < next) rows.

Definition floored (st : Stat.t) : Prop :=
  0 <= Stat.filesUploaded st /\ 0 <= Stat.filesShared st /\ 0 <= Stat.storageUsed st.

Definition Inv (d : t) : Prop :=
  serial User.id (users_id_seq (sequences d)) (users d) /\
  serial FileRow.id (files_id_seq (sequences d)) (files d) /\
  serial FileShare.id (file_shares_id_seq (sequences d)) (fileShares d) /\
  serial ShareLink.id (share_links_id_seq (sequences d)) (shareLinks d) /\
  serial Transaction.id (transactions_id_seq (sequences d)) (transactions d) /\
  serial Stat.id (stats_id_seq (sequences d)) (stats d) /\
  Forall floored (stats d).

End DatabaseStorage.

#[export] Instance DatabaseStorage_IStorage : IStorage DatabaseStorage.t := {|
  getUser := DatabaseStorage.getUser;
  getUserByUsername := DatabaseStorage.getUserByUsername;
  getUserByEmail := DatabaseStorage.getUserByEmail;
  createUser := DatabaseStorage.createUser;
  getFile := DatabaseStorage.getFile;
  getUserFiles := DatabaseStorage.getUserFiles;
  createFile := DatabaseStorage.createFile;
  deleteFile := DatabaseStorage.deleteFile;
  checkFileAccess := DatabaseStorage.checkFileAccess;
  getSharedFiles := DatabaseStorage.getSharedFiles;
  createFileShare := DatabaseStorage.createFileShare;
  createShareLink := DatabaseStorage.createShareLink;
  getShareLink := DatabaseStorage.getShareLink;
  logTransaction := DatabaseStorage.logTransaction;
  getUserTransactions := DatabaseStorage.getUserTransactions;
  createUserStats := DatabaseStorage.createUserStats;
  getUserStats := DatabaseStorage.getUserStats;
  updateUserStats := DatabaseStorage.updateUserStats
|}.

(* ===================================================================== *)
(** ** Library functions used by the routes *)
(* ===================================================================== *)

(** *** [Date]: adding days in local time

    [d.setDate(d.getDate() + n)] follows ECMAScript's [Date.prototype.setDate]:
    with [t = LocalTime(d)], the new time value is
    [UTC(MakeDate(MakeDay(YearFromTime(t), MonthFromTime(t), DateFromTime(t) + n),
    TimeWithinDay(t)))], and [MakeDay] of a year, a month and the date
    [DateFromTime(t) + n] is the day number [Day(t) + n]. *)
Module JsDate.

Definition msPerDay : Z := 86400000.

Definition Day (t : Timestamp) : Z := t / msPerDay.
Definition TimeWithinDay (t : Timestamp) : Z := t mod msPerDay.
Definition MakeDate (day time : Z) : Timestamp := day * msPerDay + time.

Definition LocalTime (tza : Timestamp -> bool -> Z) (t : Timestamp) : Timestamp :=
  t + tza t true.
Definition UTC (tza : Timestamp -> bool -> Z) (t : Timestamp) : Timestamp :=
  t - tza t false.

(** [d.setDate(d.getDate() + n)], as the new time value of [d]. *)
Definition setDatePlus (tza : Timestamp -> bool -> Z) (n : Z) (d : Timestamp) : Timestamp :=
  let t := LocalTime tza d in
  UTC tza (MakeDate (Day t + n) (TimeWithinDay t)).

End JsDate.

(** *** [Buffer.prototype.toString('hex')] *)

Definition hexDigit (n : N) : ascii :=
  match n with
  | 0%N => "0" | 1%N => "1" | 2%N => "2" | 3%N => "3"
  | 4%N => "4" | 5%N => "5" | 6%N => "6" | 7%N => "7"
  | 8%N => "8" | 9%N => "9" | 10%N => "a" | 11%N => "b"
  | 12%N => "c" | 13%N => "d" | 14%N => "e" | _ => "f"
  end%char.

Definition hexOfByte (b : byte) : string :=
  let n := Byte.to_N b in
  String (hexDigit (n / 16)) (String (hexDigit (n mod 16)) EmptyString).

Fixpoint toHex (bytes : list byte) : string :=
  match bytes with
  | [] => EmptyString
  | b :: r => (hexOfByte b ++ toHex r)%string
  end.




(** *** [Number.prototype.toFixed(1)] of [n / d]

    For [d] a power of two and [n] a non-negative integer below 2^53 the
    quotient is exact, and [toFixed(1)] rounds it to the nearest tenth,
    a tie going up. *)
Definition toFixed1 (n d : Z) : string :=
  let tenths := (20 * n + d) / (2 * d) in
  (showZ (tenths / 10) ++ "." ++ showZ (tenths mod 10))%string.

(** *** The mock Filecoin service ([server/filecoin.ts]) *)

(** [filecoin.retrieveFile(cid)]: the stored data, or an exception when
    the map has none ([!data] also holds of the empty string). *)
Definition retrieveFile {St} (cid : string) : M St string :=
  fun w =>
    match JsMap.get cid (storedFiles w) with
    | Some data =>
        if (data =? "")%string
        then (Throw (Error ("File with CID " ++ cid ++ " not found")%string), w)
        else (Val data, w)
    | None => (Throw (Error ("File with CID " ++ cid ++ " not found")%string), w)
    end.

(* ===================================================================== *)
(** ** Validation ([drizzle-zod] insert schemas) *)
(* ===================================================================== *)

(** [insertFileShareSchema.parse]: [permission] is a required string.
    The ids are the ones of rows that were just read. *)
Definition parseInsertFileShare {St} (fileId userId : Z) (permission : JsVal)
  : M St InsertFileShare.t :=
  match permission with
  | JStr p => ret (InsertFileShare.mk fileId userId p)
  | _ => throw (ZodError "Validation error: permission")
  end.

(** [insertShareLinkSchema.parse]: [requiresPassword] is an optional,
    nullable boolean and [password] an optional, nullable string. *)
Definition parseInsertShareLink {St} (fileId : Z) (linkToken : string)
  (requiresPassword password : JsVal) (expiresAt : Timestamp)
  : M St InsertShareLink.t :=
  match requiresPassword with
  | JNum _ | JStr _ => throw (ZodError "Validation error: requiresPassword")
  | _ =>
    let rp := match requiresPassword with
              | JBool b => Given b
              | JNull => Null
              | _ => Undefined
              end in
    match password with
    | JBool _ | JNum _ => throw (ZodError "Validation error: password")
    | _ =>
      let pw := match password with
                | JStr p => Given p
                | JNull => Null
                | _ => Undefined
                end in
      ret (InsertShareLink.mk fileId linkToken rp pw (Some expiresAt))
    end
  end.

(* ===================================================================== *)
(** ** The routes ([server/routes.ts]) *)
(* ===================================================================== *)

(** A request as a handler sees it: [user] is [req.user] when the
    session is authenticated; a numeric parameter is the number that
    [parseInt] made of it. *)

Section Routes.
Context {St : Type} `{IStorage St}.

(** [if (!x) return res.status(..).json(..)]. *)
Definition orExit {A} (x : option A) (r : Response) : M St A :=
  match x with
  | Some a => ret a
  | None => exit r
  end.

(** [if (c) return res.status(..).json(..)]. *)
Definition exitIf (c : bool) (r : Response) : M St unit :=
  if c then exit r else ret tt.

(** [requireAuth]. *)
Definition requireAuth (user : option User.t)
  (handler : User.t -> World St -> Response * World St)
  : World St -> Response * World St :=
  match user with
  | None => fun w => (json 401 (BError "Authentication required"), w)
  | Some u => handler u
  end.

(** [try { .. } catch (error) { next(error) }] followed by
    [handleZodError]. *)
Definition withZodErrors (body : M St Response) : World St -> Response * World St :=
  respond (tryCatch body (fun err =>
    match err with
    | ZodError message => ret (json 400 (BError message))
    | _ => throw err
    end)).

(** [try { .. } catch (error) { res.status(500).json({ error }) }]. *)
Definition orFail (error : string) (body : M St Response)
  : World St -> Response * World St :=
  respond (tryCatch body (fun _ => ret (json 500 (BError error)))).

(** GET /files/:id *)
Definition getFileHandler (user : option User.t) (fileId : Z) :=
  requireAuth user (fun user => orFail "Failed to fetch file" (
    (* Check if file exists and user has access *)
    file <- getFile fileId ;;
    file <- orExit file (json 404 (BError "File not found")) ;;
    (* Check if user is owner or has share access *)
    hasAccess <- checkFileAccess (File.id file) (User.id user) ;;
    exitIf (negb hasAccess) (json 403 (BError "Access denied")) ;;
    ret (json 200 (BFile file)))).

(** GET /files/:id/download *)
Definition downloadHandler (user : option User.t) (fileId : Z) :=
  requireAuth user (fun user => orFail "Failed to download file" (
    file <- getFile fileId ;;
    file <- orExit file (json 404 (BError "File not found")) ;;
    hasAccess <- checkFileAccess (File.id file) (User.id user) ;;
    exitIf (negb hasAccess) (json 403 (BError "Access denied")) ;;
    (* Retrieve encrypted data from Filecoin *)
    encryptedData <- retrieveFile (File.cid file) ;;
    (* Update download stats *)
    updateUserStats (File.ownerId file)
      (StatUpdates.mk None None None (Some 1)) ;;
    (* Log blockchain transaction *)
    now <- newDate ;;
    logTransaction
      (InsertTransaction.mk ("tx_" ++ showZ now)%string (File.cid file)
         (Some (File.id file)) "retrieve" "confirmed" MetaEmpty) ;;
    (* Return the encrypted data and encryption key *)
    ret (json 200 (BDownload encryptedData (File.encryptionKey file)
                     (File.name file) (File.type file))))).

(** DELETE /files/:id *)
Definition deleteFileHandler (user : option User.t) (fileId : Z) :=
  requireAuth user (fun user => orFail "Failed to delete file" (
    (* Check if file exists and user is the owner *)
    file <- getFile fileId ;;
    file <- orExit file (json 404 (BError "File not found")) ;;
    exitIf (negb (File.ownerId file =? User.id user))
           (json 403 (BError "Access denied")) ;;
    (* Delete file from database *)
    deleteFile fileId ;;
    (* Update user stats *)
    updateUserStats (User.id user)
      (StatUpdates.mk (Some (-1)) None (Some (- File.size file)) None) ;;
    ret (json 200 (BMessage "File deleted successfully")))).

(** POST /files/share *)
Definition shareHandler (user : option User.t) (fileId : Z) (email : string)
  (permission : JsVal) :=
  requireAuth user (fun user => withZodErrors (
    (* Check if file exists and user is the owner *)
    file <- getFile fileId ;;
    file <- orExit file (json 404 (BError "File not found")) ;;
    exitIf (negb (File.ownerId file =? User.id user))
           (json 403 (BError "Access denied")) ;;
    (* Find user to share with *)
    userToShare <- getUserByEmail email ;;
    userToShare <- orExit userToShare (json 404 (BError "User not found")) ;;
    (* Create file share *)
    shareData <- parseInsertFileShare fileId (User.id userToShare) permission ;;
    fileShare <- createFileShare shareData ;;
    (* Update stats *)
    updateUserStats (User.id user)
      (StatUpdates.mk None (Some 1) None None) ;;
    ret (json 201 (BFileShare fileShare)))).

(** POST /files/share-by-id.  The call of [supabase.shareFile] that
    follows the stats update reaches an external service; its failure is
    caught and logged, and it touches nothing of this process. *)
Definition shareByIdHandler (user : option User.t) (fileId recipientId : Z)
  (permission : JsVal) :=
  requireAuth user (fun user => withZodErrors (
    (* Check if file exists and user is the owner *)
    file <- getFile fileId ;;
    file <- orExit file (json 404 (BError "File not found")) ;;
    exitIf (negb (File.ownerId file =? User.id user))
           (json 403 (BError "Access denied")) ;;
    (* Check if recipient user exists *)
    recipientUser <- getUser recipientId ;;
    recipientUser <- orExit recipientUser
                       (json 404 (BError "Recipient user not found")) ;;
    (* Create file share *)
    shareData <- parseInsertFileShare fileId (User.id recipientUser) permission ;;
    fileShare <- createFileShare shareData ;;
    (* Update stats *)
    updateUserStats (User.id user)
      (StatUpdates.mk None (Some 1) None None) ;;
    ret (json 201 (BFileShare fileShare)))).

(** POST /files/share-link *)
Definition shareLinkHandler (user : option User.t) (fileId : Z)
  (requirePassword password : JsVal) :=
  requireAuth user (fun user => withZodErrors (
    (* Check if file exists and user is the owner *)
    file <- getFile fileId ;;
    file <- orExit file (json 404 (BError "File not found")) ;;
    exitIf (negb (File.ownerId file =? User.id user))
           (json 403 (BError "Access denied")) ;;
    (* Generate link token *)
    bytes <- randomBytes 16 ;;
    let linkToken := toHex bytes in
    (* Set expiration date (1 week from now) *)
    now <- newDate ;;
    tza <- (fun w => (Val (LocalTZA w), w)) ;;
    let expiresAt := JsDate.setDatePlus tza 7 now in
    (* Create share link *)
    shareLinkData <- parseInsertShareLink fileId linkToken requirePassword
                       (if truthy requirePassword then password else JNull)
                       expiresAt ;;
    shareLink <- createShareLink shareLinkData ;;
    (* Generate full URL *)
    env <- (fun w => (Val (APP_DOMAIN w), w)) ;;
    let domain := match env with
                  | Some d => if (d =? "")%string then "https://blockshare.app" else d
                  | None => "https://blockshare.app"
                  end in
    let fullShareLink := (domain ++ "/shared/" ++ linkToken)%string in
    ret (json 201 (BShareLink fullShareLink expiresAt)))).

(** GET /stats *)
Definition statsHandler (user : option User.t) :=
  requireAuth user (fun user => orFail "Failed to fetch stats" (
    stats <- getUserStats (User.id user) ;;
    stats <- orExit stats (json 404 (BError "Stats not found")) ;;
    (* Format storage used to human-readable format *)
    let used := Stat.storageUsed stats in
    let storageUsedStr := (showZ used ++ " B")%string in
    let storageUsedStr :=
      if 1024 <? used then (toFixed1 used 1024 ++ " KB")%string
      else storageUsedStr in
    let storageUsedStr :=
      if 1024 * 1024 <? used then (toFixed1 used (1024 * 1024) ++ " MB")%string
      else storageUsedStr in
    let storageUsedStr :=
      if 1024 * 1024 * 1024 <? used
      then (toFixed1 used (1024 * 1024 * 1024) ++ " GB")%string
      else storageUsedStr in
    ret (json 200 (BStats (Stat.filesUploaded stats) (Stat.filesShared stats)
                     storageUsedStr (Stat.downloads stats))))).

End Routes.

(* ===================================================================== *)
(** ** Calls of the interface, as data *)
(* ===================================================================== *)

(** One call of a method of [IStorage]; [callOp] performs it.  A state
    is reachable when calls of the interface lead to it. *)
Inductive Op :=
| OpGetUser (id : Z)
| OpGetUserByUsername (username : string)
| OpGetUserByEmail (email : string)
| OpCreateUser (user : InsertUser.t)
| OpGetFile (id : Z)
| OpGetUserFiles (userId : Z)
| OpCreateFile (file : InsertFile.t)
| OpDeleteFile (id : Z)
| OpCheckFileAccess (fileId userId : Z)
| OpGetSharedFiles (userId : Z)
| OpCreateFileShare (fileShare : InsertFileShare.t)
| OpCreateShareLink (shareLink : InsertShareLink.t)
| OpGetShareLink (token : string)
| OpLogTransaction (transaction : InsertTransaction.t)
| OpGetUserTransactions (userId : Z)
| OpCreateUserStats (userId : Z)
| OpGetUserStats (userId : Z)
| OpUpdateUserStats (userId : Z) (updates : StatUpdates.t).

Definition forget {St A} (c : M St A) : M St unit := bind c (fun _ => ret tt).

Definition callOp {St} `{IStorage St} (op : Op) : M St unit :=
  match op with
  | OpGetUser id => forget (getUser id)
  | OpGetUserByUsername n => forget (getUserByUsername n)
  | OpGetUserByEmail e => forget (getUserByEmail e)
  | OpCreateUser u => forget (createUser u)
  | OpGetFile id => forget (getFile id)
  | OpGetUserFiles u => forget (getUserFiles u)
  | OpCreateFile f => forget (createFile f)
  | OpDeleteFile id => deleteFile id
  | OpCheckFileAccess f u => forget (checkFileAccess f u)
  | OpGetSharedFiles u => forget (getSharedFiles u)
  | OpCreateFileShare sh => forget (createFileShare sh)
  | OpCreateShareLink l => forget (createShareLink l)
  | OpGetShareLink t => forget (getShareLink t)
  | OpLogTransaction tx => forget (logTransaction tx)
  | OpGetUserTransactions u => forget (getUserTransactions u)
  | OpCreateUserStats u => forget (createUserStats u)
  | OpGetUserStats u => forget (getUserStats u)
  | OpUpdateUserStats u d => forget (updateUserStats u d)
  end.

(** The world after a computation. *)
Definition after {St A} (c : M St A) (w : World St) : World St := snd (c w).

(** The outcome of a computation. *)
Definition outcome {St A} (c : M St A) (w : World St) : Outcome A := fst (c w).

(** The worlds that calls of the interface reach from [w0]. *)
Inductive reachableFrom {St} `{IStorage St} (w0 : World St) : World St -> Prop :=
| reach_start : reachableFrom w0 w0
| reach_call w op : reachableFrom w0 w -> reachableFrom w0 (after (callOp op) w).

(** [c] performed [n] times in a row. *)
Fixpoint times {St A} (n : nat) (c : M St A) : M St unit :=
  match n with
  | O => ret tt
  | S n' => c ;; times n' c
  end.

(** The grants of one (file, user) pair among the rows of a table. *)
Definition grantsOf (fileId userId : Z) (rows : list FileShare.t) : list FileShare.t :=
  filter (fun sh => (FileShare.fileId sh =? fileId) && (FileShare.userId sh =? userId)) rows.

(** The counters of a user, 0 when the user has no row. *)
Definition downloadsOf (st : option Stat.t) : Z :=
  match st with
  | Some st => Stat.downloads st
  | None => 0
  end.

Definition filesSharedOf (st : option Stat.t) : Z :=
  match st with
  | Some st => Stat.filesShared st
  | None => 0
  end.

Definition filesUploadedOf (st : option Stat.t) : Z :=
  match st with
  | Some st => Stat.filesUploaded st
  | None => 0
  end.

Definition storageUsedOf (st : option Stat.t) : Z :=
  match st with
  | Some st => Stat.storageUsed st
  | None => 0
  end.


(** The worlds a process reaches once its [MemStorage] is built. *)
Definition memReachable (w : World MemStorage.t) : Prop :=
  exists w0, storage w0 = MemStorage.empty /\
             reachableFrom (after MemStorage.constructor w0) w.

(** The worlds a process reaches over a database that starts empty. *)
Definition dbReachable (w : World DatabaseStorage.t) : Prop :=
  exists w0, storage w0 = DatabaseStorage.empty /\ reachableFrom w0 w.


(** What the handlers rely on, of any implementation of the interface:
    the reading methods return a value and leave the world as it is, the
    writing methods return. *)
Record Lawful (St : Type) `{IStorage St} : Prop := mkLawful {
  getFile_reads : forall F (w : World St), exists x, getFile F w = (Val x, w);
  getUser_reads : forall id (w : World St), exists x, getUser id w = (Val x, w);
  getUserByEmail_reads :
    forall email (w : World St), exists x, getUserByEmail email w = (Val x, w);
  checkFileAccess_reads :
    forall F U (w : World St), exists b, checkFileAccess F U w = (Val b, w);
  getUserStats_reads :
    forall U (w : World St), exists x, getUserStats U w = (Val x, w);
  createFileShare_returns :
    forall d (w : World St), exists r w', createFileShare d w = (Val r, w');
  createShareLink_returns :
    forall d (w : World St), exists r w', createShareLink d w = (Val r, w');
  logTransaction_returns :
    forall d (w : World St), exists r w', logTransaction d w = (Val r, w');
  updateUserStats_returns :
    forall U upd (w : World St), exists r w', updateUserStats U upd w = (Val r, w')
}.

Arguments Lawful St {_}.

(* ===================================================================== *)
(** ** Two small worlds, for the examples *)
(* ===================================================================== *)

Definition demoClock (n : nat) : Timestamp := Z.of_nat n * 1000 + 1700000000000.

Definition demoEntropy (n : nat) : byte :=
  if Nat.even n then xa3 else x5c.

(** A process in the zone UTC whose Filecoin mock holds one blob. *)
Definition newWorld {St} (s : St) : World St :=
  mkWorld s (JsMap.set "QmReport" "ciphertext" JsMap.empty)
          demoClock 0 demoEntropy 0 (fun _ _ => 0) None.

Definition alice : InsertUser.t := InsertUser.mk "alice" "secret" "alice@example.com".
Definition bob : InsertUser.t := InsertUser.mk "bob" "secret" "bob@example.com".

(** A file of the user with id 1. *)
Definition report : InsertFile.t :=
  InsertFile.mk "report.pdf" 100 "application/pdf" "QmReport" "key" 1.

(** A link for the file that expired at the epoch. *)
Definition expiredLink : InsertShareLink.t :=
  InsertShareLink.mk 1 "00112233445566778899aabbccddeeff" (Given false) Null (Some 0).

(** The transaction that the upload of the file logged. *)
Definition uploadLogged : InsertTransaction.t :=
  InsertTransaction.mk "tx_1700000000000" "QmReport" (Some 1) "store" "confirmed"
    (MetaFileSize 100).

(** The calls of the interface in a list, performed one after the other. *)
Definition runOps {St} `{IStorage St} (ops : list Op) (w : World St) : World St :=
  fold_left (fun w op => after (callOp op) w) ops w.

(** [MemStorage] with the default user (id 1), bob (id 2) and the file
    (id 1); then with the file shared with bob; then with an expired
    link for the file; then with the transaction of the upload. *)
Definition memDemo : World MemStorage.t :=
  runOps [OpCreateUser bob; OpCreateFile report]
    (after MemStorage.constructor (newWorld MemStorage.empty)).

Definition memShared : World MemStorage.t :=
  runOps [OpCreateUser bob; OpCreateFile report;
          OpCreateFileShare (InsertFileShare.mk 1 2 "view")]
    (after MemStorage.constructor (newWorld MemStorage.empty)).

Definition memLinked : World MemStorage.t :=
  runOps [OpCreateUser bob; OpCreateFile report;
          OpCreateFileShare (InsertFileShare.mk 1 2 "view");
          OpCreateShareLink expiredLink]
    (after MemStorage.constructor (newWorld MemStorage.empty)).

Definition memLogged : World MemStorage.t :=
  runOps [OpCreateUser bob; OpCreateFile report;
          OpCreateFileShare (InsertFileShare.mk 1 2 "view");
          OpCreateShareLink expiredLink; OpLogTransaction uploadLogged]
    (after MemStorage.constructor (newWorld MemStorage.empty)).

(** The same over the database, with alice as the user with id 1. *)
Definition dbDemo : World DatabaseStorage.t :=
  runOps [OpCreateUser alice; OpCreateUser bob; OpCreateFile report]
    (newWorld DatabaseStorage.empty).

Definition dbShared : World DatabaseStorage.t :=
  runOps [OpCreateUser alice; OpCreateUser bob; OpCreateFile report;
          OpCreateFileShare (InsertFileShare.mk 1 2 "view")]
    (newWorld DatabaseStorage.empty).

Definition dbLinked : World DatabaseStorage.t :=
  runOps [OpCreateUser alice; OpCreateUser bob; OpCreateFile report;
          OpCreateFileShare (InsertFileShare.mk 1 2 "view");
          OpCreateShareLink expiredLink]
    (newWorld DatabaseStorage.empty).

Definition dbLogged : World DatabaseStorage.t :=
  runOps [OpCreateUser alice; OpCreateUser bob; OpCreateFile report;
          OpCreateFileShare (InsertFileShare.mk 1 2 "view");
          OpCreateShareLink expiredLink; OpLogTransaction uploadLogged]
    (newWorld DatabaseStorage.empty).

(** The sessions of the user with id 1, who owns the file, and of bob. *)
Definition ownerSession : User.t :=
  User.mk 1 "owner" "secret" "owner@example.com" (demoClock 0).

Definition bobSession : User.t :=
  User.mk 2 "bob" "secret" "bob@example.com" (demoClock 1).


(* ===================================================================== *)
(** ** The rest of the mock Filecoin service ([server/filecoin.ts]) *)
(* ===================================================================== *)

Definition withStoredFiles {St} (m : JsMap.t string string) (w : World St) : World St :=
  mkWorld (storage w) m (clock w) (clockReads w)
          (entropy w) (entropyReads w) (LocalTZA w) (APP_DOMAIN w).

Definition characters : string :=
  "ABCDEFGHIJKLMNOPQRSTUVWXYZabcdefghijklmnopqrstuvwxyz0123456789".

(** [s.charAt(i)]: the character at [i] as a string, the empty string
    when [i] is out of range. *)
Definition charAt (s : string) (i : nat) : string :=
  match String.get i s with
  | Some c => String c EmptyString
  | None => EmptyString
  end.

(** [generateRandomString(length)].  [Math.random] is not part of the
    world: [random i] is the value of
    [Math.floor(Math.random() * characters.length)] in turn [i] of the
    loop. *)
Definition generateRandomString (random : nat -> nat) (length : nat) : string :=
  fold_left (fun result i => (result ++ charAt characters (random i))%string)
            (seq 0 length) EmptyString.

(** [filecoin.storeFile(data)]; the delay changes nothing. *)
Definition storeFile {St} (random : nat -> nat) (data : string) : M St string :=
  fun w =>
    let cid := ("Qm" ++ generateRandomString random 44)%string in
    (Val cid, withStoredFiles (JsMap.set cid data (storedFiles w)) w).

(* ===================================================================== *)
(** ** [insertFileSchema] *)
(* ===================================================================== *)

(** The fields of the body of POST /files that the schema reads (the
    rest of [fileData]). *)
Module FileData.
Record t := mk {
  name : JsVal;
  size : JsVal;
  type : JsVal;
  cid : JsVal;
  encryptionKey : JsVal
}.
End FileData.

(** [insertFileSchema.parse({ ...fileData, ownerId })]: the five columns
    without a default are required, four of them strings and [size] a
    number; [ownerId] is the one the handler adds, which replaces any
    the body carried. *)
Definition parseInsertFile {St} (fileData : FileData.t) (ownerId : Z)
  : M St InsertFile.t :=
  match FileData.name fileData, FileData.size fileData, FileData.type fileData,
        FileData.cid fileData, FileData.encryptionKey fileData with
  | JStr name, JNum size, JStr type, JStr cid, JStr encryptionKey =>
      ret (InsertFile.mk name size type cid encryptionKey ownerId)
  | _, _, _, _, _ => throw (ZodError "Validation error: file")
  end.

(* ===================================================================== *)
(** ** The other routes of [server/routes.ts] *)
(* ===================================================================== *)

Section MoreRoutes.
Context {St : Type} `{IStorage St}.

(** POST /files.  [encryptedData] is the string of the body that goes
    to [filecoin.storeFile]. *)
Definition uploadHandler (user : option User.t) (fileData : FileData.t)
  (encryptedData : string) (random : nat -> nat) :=
  requireAuth user (fun user => withZodErrors (
    parsedFileData <- parseInsertFile fileData (User.id user) ;;
    (* Upload encrypted data to Filecoin *)
    cid <- storeFile random encryptedData ;;
    (* Create file record in database *)
    file <- createFile
              (InsertFile.mk (InsertFile.name parsedFileData)
                 (InsertFile.size parsedFileData) (InsertFile.type parsedFileData)
                 cid (InsertFile.encryptionKey parsedFileData)
                 (InsertFile.ownerId parsedFileData)) ;;
    (* Update user stats *)
    updateUserStats (User.id user)
      (StatUpdates.mk (Some 1) None (Some (InsertFile.size parsedFileData)) None) ;;
    (* Log blockchain transaction *)
    now <- newDate ;;
    logTransaction
      (InsertTransaction.mk ("tx_" ++ showZ now)%string cid (Some (File.id file))
         "store" "confirmed" (MetaFileSize (InsertFile.size parsedFileData))) ;;
    ret (json 201 (BFile file)))).

(** [s.startsWith(p)]. *)
Definition startsWith (p s : string) : bool := String.prefix p s.

(** GET /files/:id/preview *)
Definition previewHandler (user : option User.t) (fileId : Z) :=
  requireAuth user (fun user => orFail "Failed to preview file" (
    (* Check if file exists and user has access *)
    file <- getFile fileId ;;
    file <- orExit file (json 404 (BError "File not found")) ;;
    (* Check if user is owner or has share access *)
    hasAccess <- checkFileAccess (File.id file) (User.id user) ;;
    exitIf (negb hasAccess) (json 403 (BError "Access denied")) ;;
    (* For previews, only certain file types are supported *)
    exitIf (negb (startsWith "image/" (File.type file))
            && negb (File.type file =? "application/pdf")%string)
           (json 400 (BError "File type not supported for preview")) ;;
    (* Retrieve encrypted data from Filecoin *)
    encryptedData <- retrieveFile (File.cid file) ;;
    (* Return the encrypted data and encryption key for frontend decryption *)
    ret (json 200 (BDownload encryptedData (File.encryptionKey file)
                     (File.name file) (File.type file))))).

End MoreRoutes.

(* ===================================================================== *)
(** ** The file helpers of the client ([client/src/lib/fileUtils.ts]) *)
(* ===================================================================== *)

(** [s.split(sep)] for a separator of one character: never empty. *)
Fixpoint splitBy (sep : ascii) (s : string) : list string :=
  match s with
  | EmptyString => [EmptyString]
  | String c r =>
      if Ascii.eqb c sep then EmptyString :: splitBy sep r
      else match splitBy sep r with
           | seg :: segs => String c seg :: segs
           | [] => [String c EmptyString]
           end
  end.

(** [a.pop()]: the last element, [undefined] of an empty array. *)
Definition pop {A} (a : list A) : option A :=
  match rev a with
  | x :: _ => Some x
  | [] => None
  end.

(** [a.includes(x)] on strings. *)
Definition includes (a : list string) (x : string) : bool :=
  existsb (String.eqb x) a.

Inductive FileType :=
| image | pdf | zip | exe | apk | text | audio | video | other.

Definition getFileType (filename : string) : FileType :=
  let extension := match pop (splitBy "." filename) with
                   | Some last => toLowerCase last
                   | None => ""
                   end in
  if includes ["jpg"; "jpeg"; "png"; "gif"; "svg"; "webp"] extension then image
  else if (extension =? "pdf")%string then pdf
  else if includes ["zip"; "rar"; "7z"; "tar"; "gz"] extension then zip
  else if (extension =? "exe")%string then exe
  else if (extension =? "apk")%string then apk
  else if includes ["txt"; "doc"; "docx"; "rtf"; "odt"] extension then text
  else if includes ["mp3"; "wav"; "ogg"; "flac"] extension then audio
  else if includes ["mp4"; "avi"; "mov"; "wmv"; "mkv"] extension then video
  else other.

(** [`${n} unit${n > 1 ? 's' : ''} ago`]. *)
Definition ago (n : Z) (unit : string) : string :=
  (showZ n ++ " " ++ unit ++ (if (1 <? n)%Z then "s" else "") ++ " ago")%string.

(** [formatRelativeTime(date)], where [now] is what [new Date()] reads
    in the call.  The time values are integers, so [Math.floor] of a
    quotient is the quotient of [Z]. *)
Definition formatRelativeTime (now date : Timestamp) : string :=
  let diffInSeconds := (now - date) / 1000 in
  if diffInSeconds <? 60 then "just now"
  else
    let diffInMinutes := diffInSeconds / 60 in
    if diffInMinutes <? 60 then ago diffInMinutes "minute"
    else
      let diffInHours := diffInMinutes / 60 in
      if diffInHours <? 24 then ago diffInHours "hour"
      else
        let diffInDays := diffInHours / 24 in
        if diffInDays <? 7 then ago diffInDays "day"
        else
          let diffInWeeks := diffInDays / 7 in
          if diffInWeeks <? 4 then ago diffInWeeks "week"
          else
            let diffInMonths := diffInDays / 30 in
            if diffInMonths <? 12 then ago diffInMonths "month"
            else
              let diffInYears := diffInDays / 365 in
              ago diffInYears "year".

(* ===================================================================== *)
(** ** Strings of ASCII characters *)
(* ===================================================================== *)

(** Every character of [s] is below 128.  On such strings [toLowerCase]
    above is [String.prototype.toLowerCase]: the method changes the
    letters A to Z alone. *)
Definition isAscii (s : string) : bool :=
  forallb (fun c => (nat_of_ascii c <? 128)%nat) (list_ascii_of_string s).

(* ===================================================================== *)
(** ** A zone with summer time, for the examples *)
(* ===================================================================== *)




(* ===================================================================== *)
(** * Properties *)
(* ===================================================================== *)

(** ** Facts about [JsMap] *)

Unset Implicit Arguments.


Lemma keyb_refl {K} `{KeyEq K} (k : K) : keyb k k = true.
Proof. destruct (keyb_spec k k); congruence. Qed.

Lemma keyb_neq {K} `{KeyEq K} (a b : K) : a <> b -> keyb a b = false.
Proof. intros Hne. destruct (keyb_spec a b); congruence. Qed.

Module JsMapFacts.
Import JsMap.

Section Facts.
Context {K V : Type} `{KeyEq K}.

Lemma get_In k v (m : t K V) : get k m = Some v -> In (k, v) m.
Proof.
  induction m as [|[k' v'] r IH]; simpl; [discriminate|].
  destruct (keyb_spec k k') as [->|Hne]; intros Hg.
  - injection Hg as ->. now left.
  - right. now apply IH.
Qed.

Lemma get_None_keys k (m : t K V) : get k m = None <-> ~ In k (keys m).
Proof.
  induction m as [|[k' v'] r IH]; simpl.
  - split; [intros _ []|reflexivity].
  - destruct (keyb_spec k k') as [->|Hne].
    + split; [discriminate|]. intros Hn. exfalso. apply Hn. now left.
    + rewrite IH. split.
      * intros Hn [He|Hi]; [congruence|contradiction].
      * intros Hn Hi. apply Hn. now right.
Qed.

Lemma In_get k v (m : t K V) : wf m -> In (k, v) m -> get k m = Some v.
Proof.
  unfold wf. induction m as [|[k' v'] r IH]; simpl; [intros _ []|].
  intros Hnd [He|Hi].
  - injection He as -> ->. now rewrite keyb_refl.
  - inversion Hnd as [|? ? Hnin Hnd']; subst.
    destruct (keyb_spec k k') as [->|Hne].
    + exfalso. apply Hnin. change k' with (fst (k', v)). now apply in_map.
    + now apply IH.
Qed.

Lemma get_set_eq k v (m : t K V) : get k (set k v m) = Some v.
Proof.
  induction m as [|[k' v'] r IH]; simpl.
  - now rewrite keyb_refl.
  - destruct (keyb_spec k k') as [->|Hne]; simpl.
    + now rewrite keyb_refl.
    + rewrite keyb_neq by assumption. exact IH.
Qed.

Lemma get_set_ne k k' v (m : t K V) : k <> k' -> get k' (set k v m) = get k' m.
Proof.
  intros Hne. induction m as [|[k0 v0] r IH]; simpl.
  - rewrite keyb_neq by congruence. reflexivity.
  - destruct (keyb_spec k k0) as [->|Hne0]; simpl.
    + rewrite keyb_neq by congruence. reflexivity.
    + now rewrite IH.
Qed.

Lemma keys_set_old k v (m : t K V) : In k (keys m) -> keys (set k v m) = keys m.
Proof.
  induction m as [|[k0 v0] r IH]; simpl; [intros []|].
  destruct (keyb_spec k k0) as [->|Hne]; simpl; [reflexivity|].
  intros [He|Hi]; [congruence|]. now rewrite IH.
Qed.

(** A new key is appended: the earlier entries keep their place. *)
Lemma set_fresh k v (m : t K V) : ~ In k (keys m) -> set k v m = m ++ [(k, v)].
Proof.
  induction m as [|[k0 v0] r IH]; simpl; [reflexivity|].
  intros Hn. destruct (keyb_spec k k0) as [->|Hne].
  - exfalso. apply Hn. now left.
  - rewrite IH; [reflexivity|]. intros Hi. apply Hn. now right.
Qed.

Lemma values_set_fresh k v (m : t K V) :
  ~ In k (keys m) -> values (set k v m) = values m ++ [v].
Proof.
  intros Hn. unfold values. rewrite set_fresh by assumption. now rewrite map_app.
Qed.

Lemma keys_set_fresh k v (m : t K V) :
  ~ In k (keys m) -> keys (set k v m) = keys m ++ [k].
Proof.
  intros Hn. unfold keys. rewrite set_fresh by assumption. now rewrite map_app.
Qed.

Lemma In_values_set k v (m : t K V) : In v (values (set k v m)).
Proof.
  induction m as [|[k0 v0] r IH]; simpl; [now left|].
  destruct (keyb k k0); simpl; [now left|now right].
Qed.

Lemma wf_empty : wf (empty : t K V).
Proof. constructor. Qed.

Lemma wf_set k v (m : t K V) : wf m -> wf (set k v m).
Proof.
  unfold wf. intros Hnd.
  destruct (in_dec (fun a b => reflect_dec _ _ (keyb_spec a b)) k (keys m)) as [Hi|Hn].
  - now rewrite keys_set_old.
  - rewrite keys_set_fresh by assumption.
    apply NoDup_app; [assumption|repeat constructor; intros []|].
    intros x Hx [<-|[]]. contradiction.
Qed.

Lemma wf_delete k (m : t K V) : wf m -> wf (delete k m).
Proof.
  unfold wf, delete, keys. induction m as [|[k0 v0] r IH]; simpl; [auto|].
  intros Hnd. inversion Hnd as [|? ? Hnin Hnd']; subst.
  destruct (keyb k k0); simpl; [now apply IH|].
  constructor; [|now apply IH].
  intros Hi. apply Hnin. apply in_map_iff in Hi as [[a b] [Ha Hb]].
  apply filter_In in Hb as [Hb _]. simpl in Ha; subst.
  change k0 with (fst (k0, b)). now apply in_map.
Qed.

Lemma get_delete_eq k (m : t K V) : get k (delete k m) = None.
Proof.
  unfold delete. induction m as [|[k0 v0] r IH]; simpl; [reflexivity|].
  destruct (keyb k k0) eqn:E; simpl; [exact IH|]. now rewrite E.
Qed.

Lemma get_delete_ne k k' (m : t K V) : k <> k' -> get k' (delete k m) = get k' m.
Proof.
  intros Hne. unfold delete. induction m as [|[k0 v0] r IH]; simpl; [reflexivity|].
  destruct (keyb_spec k k0) as [->|Hne0]; simpl.
  - rewrite keyb_neq by congruence. exact IH.
  - now rewrite IH.
Qed.

Lemma In_delete e k (m : t K V) : In e (delete k m) <-> In e m /\ fst e <> k.
Proof.
  unfold delete. rewrite filter_In. destruct e as [k0 v0]; simpl.
  destruct (keyb_spec k k0) as [->|Hne]; simpl; intuition congruence.
Qed.

(** With one entry per key, a key determines its value. *)
Lemma wf_functional k v v' (m : t K V) :
  wf m -> In (k, v) m -> In (k, v') m -> v = v'.
Proof.
  intros Hwf H1 H2. apply In_get in H1; [|assumption].
  apply In_get in H2; [|assumption]. congruence.
Qed.

Lemma In_values v (m : t K V) : In v (values m) <-> exists k, In (k, v) m.
Proof.
  unfold values. rewrite in_map_iff. split.
  - intros [[k v0] [Hv Hi]]. simpl in Hv. subst. now exists k.
  - intros [k Hi]. now exists (k, v).
Qed.

Lemma values_filter (q : V -> bool) (m : t K V) :
  values (filter (fun e => q (snd e)) m) = filter q (values m).
Proof.
  unfold values. induction m as [|[k v] r IH]; simpl; [reflexivity|].
  destruct (q v); simpl; now rewrite IH.
Qed.

Lemma filter_filter {A} (p q : A -> bool) (l : list A) :
  filter p (filter q l) = filter (fun x => q x && p x) l.
Proof.
  induction l as [|x r IH]; simpl; [reflexivity|].
  destruct (q x); simpl; [destruct (p x)|]; now rewrite IH.
Qed.

(** Deleting a list of keys one after the other keeps, in place, the
    entries whose key is not in the list. *)
Lemma fold_delete {A} (f : A -> K) (l : list A) (m : t K V) :
  fold_left (fun m x => delete (f x) m) l m
  = filter (fun e => negb (existsb (fun x => keyb (f x) (fst e)) l)) m.
Proof.
  revert m. induction l as [|x r IH]; intros m; simpl.
  - induction m as [|e m' IHm]; simpl; [reflexivity|]. now rewrite <- IHm.
  - rewrite IH. unfold delete. rewrite filter_filter.
    apply filter_ext. intros e. now rewrite negb_orb.
Qed.

End Facts.

(** The loop of [deleteFile]: the values that satisfy [p] are collected,
    then deleted by their id.  When every value sits under its own id,
    what remains is the entries whose value does not satisfy [p]. *)
Lemma cascade_delete {V} (idOf : V -> Z) (p : V -> bool) (m : t Z V) :
  wf m ->
  Forall (fun e => idOf (snd e) = fst e) m ->
  fold_left (fun m v => delete (idOf v) m) (filter p (values m)) m
  = filter (fun e => negb (p (snd e))) m.
Proof.
  intros Hwf Hid. rewrite fold_delete. apply filter_ext_in.
  intros [k v] Hin. simpl. f_equal.
  rewrite Forall_forall in Hid.
  destruct (p v) eqn:Hp.
  - apply existsb_exists. exists v. split.
    + apply filter_In. split; [|assumption]. apply In_values. now exists k.
    + specialize (Hid _ Hin). simpl in Hid. rewrite Hid. apply Z.eqb_refl.
  - apply not_true_is_false. intros Hex.
    apply existsb_exists in Hex as [v' [Hv' Hk]].
    apply filter_In in Hv' as [Hv' Hp'].
    apply In_values in Hv' as [k' Hin'].
    pose proof (Hid _ Hin') as Hid'. simpl in Hid'.
    apply Z.eqb_eq in Hk. simpl in Hk.
    assert (Hkk : k' = k) by congruence. rewrite Hkk in Hin'.
    assert (v' = v) by exact (wf_functional k v' v m Hwf Hin' Hin). congruence.
Qed.

End JsMapFacts.

Import JsMapFacts.

(** Queries stay folded under simplification. *)
Arguments JsMap.values {K V} m : simpl never.
Arguments JsMap.keys {K V} m : simpl never.
Arguments JsMap.delete {K V _} k m : simpl never.
Arguments DatabaseStorage.selectWhere {A} cond table : simpl never.
Arguments DatabaseStorage.deleteWhere {A} cond table : simpl never.
Arguments DatabaseStorage.updateWhere {A} cond values table : simpl never.
Arguments DatabaseStorage.first {A} rows : simpl never.

(** ** The monad *)

Lemma bind_val {St A B} (c : M St A) (k : A -> M St B) w a w' :
  c w = (Val a, w') -> bind c k w = k a w'.
Proof. intros Hc. unfold bind. now rewrite Hc. Qed.

Lemma after_bind_val {St A B} (c : M St A) (k : A -> M St B) w a :
  outcome c w = Val a -> after (bind c k) w = after (k a) (after c w).
Proof.
  unfold outcome, after, bind. destruct (c w) as [o w']. simpl.
  now intros ->.
Qed.

Lemma outcome_bind_val {St A B} (c : M St A) (k : A -> M St B) w a :
  outcome c w = Val a -> outcome (bind c k) w = outcome (k a) (after c w).
Proof.
  unfold outcome, after, bind. destruct (c w) as [o w']. simpl.
  now intros ->.
Qed.

Lemma run_eq {St A} (c : M St A) w : c w = (outcome c w, after c w).
Proof. unfold outcome, after. now destruct (c w). Qed.

Lemma after_forget {St A} (c : M St A) w : after (forget c) w = after c w.
Proof. unfold after, forget, bind. destruct (c w) as [[?|?|?] ?]; reflexivity. Qed.

(** The methods of the interface, at one of the two implementations,
    are the methods of that class. *)
Ltac expose :=
  cbn [getUser getUserByUsername getUserByEmail createUser getFile getUserFiles
       createFile deleteFile checkFileAccess getSharedFiles createFileShare
       createShareLink getShareLink logTransaction getUserTransactions
       createUserStats getUserStats updateUserStats
       MemStorage_IStorage DatabaseStorage_IStorage] in *.

(** ** Lists and tables *)

Lemma existsb_iff {A} (p : A -> bool) (l : list A) :
  existsb p l = true <-> exists x, In x l /\ p x = true.
Proof. apply existsb_exists. Qed.

Lemma first_select {A} (p : A -> bool) (rows : list A) :
  (exists r, DatabaseStorage.first (DatabaseStorage.selectWhere p rows) = Some r)
  <-> exists x, In x rows /\ p x = true.
Proof.
  unfold DatabaseStorage.first, DatabaseStorage.selectWhere. split.
  - intros [r Hr]. exists r. apply filter_In.
    destruct (filter p rows) as [|y l] eqn:E; [discriminate|].
    injection Hr as ->. now left.
  - intros [x [Hin Hp]].
    assert (Hf : In x (filter p rows)) by (apply filter_In; auto).
    destruct (filter p rows) as [|y l]; [destruct Hf|]. now exists y.
Qed.

Lemma first_select_Some {A} (p : A -> bool) (rows : list A) r :
  DatabaseStorage.first (DatabaseStorage.selectWhere p rows) = Some r ->
  In r rows /\ p r = true.
Proof.
  unfold DatabaseStorage.first, DatabaseStorage.selectWhere. intros Hr.
  apply filter_In. destruct (filter p rows) as [|y l] eqn:E; [discriminate|].
  injection Hr as ->. now left.
Qed.

Lemma first_select_None {A} (p : A -> bool) (rows : list A) :
  DatabaseStorage.first (DatabaseStorage.selectWhere p rows) = None ->
  forall x, In x rows -> p x = false.
Proof.
  unfold DatabaseStorage.first, DatabaseStorage.selectWhere. intros Hr x Hin.
  destruct (p x) eqn:Hp; [|reflexivity].
  assert (Hf : In x (filter p rows)) by (apply filter_In; auto).
  destruct (filter p rows); [destruct Hf|discriminate].
Qed.

Lemma share_matches sh F U :
  (FileShare.fileId sh =? F) && (FileShare.userId sh =? U) = true
  <-> FileShare.fileId sh = F /\ FileShare.userId sh = U.
Proof. rewrite andb_true_iff, !Z.eqb_eq. reflexivity. Qed.

(** ** The invariant of [MemStorage] *)

Module MemFacts.
Import MemStorage.

Lemma Forall_set {V} (P : Z * V -> Prop) k v (m : JsMap.t Z V) :
  Forall P m -> P (k, v) -> Forall P (JsMap.set k v m).
Proof.
  intros Hm Hp. induction m as [|[k0 v0] r IH]; simpl.
  - constructor; [assumption|constructor].
  - inversion Hm as [|? ? H0 Hr]; subst.
    destruct (Z.eqb_spec k k0) as [->|Hne]; constructor; auto.
Qed.

Lemma keyed_empty {V} (idOf : V -> Z) next : keyed idOf next JsMap.empty.
Proof. split; [apply wf_empty|constructor]. Qed.

Lemma keyed_mono {V} (idOf : V -> Z) next next' (m : JsMap.t Z V) :
  next <= next' -> keyed idOf next m -> keyed idOf next' m.
Proof.
  intros Hle [Hwf Hall]. split; [assumption|].
  eapply Forall_impl; [|exact Hall]. simpl. intros e [He Hlt]. split; [assumption|lia].
Qed.

Lemma keyed_set {V} (idOf : V -> Z) next k v (m : JsMap.t Z V) :
  keyed idOf next m -> idOf v = k -> k < next -> keyed idOf next (JsMap.set k v m).
Proof.
  intros [Hwf Hall] Hid Hlt. split; [now apply wf_set|].
  apply Forall_set; [assumption|]. simpl. auto.
Qed.

(** The step of every [create*] method: the value goes under the
    counter, and the counter moves on. *)
Lemma keyed_insert {V} (idOf : V -> Z) next v (m : JsMap.t Z V) :
  keyed idOf next m -> idOf v = next ->
  keyed idOf (next + 1) (JsMap.set next v m).
Proof.
  intros Hk Hid. apply keyed_set; [|assumption|lia].
  apply keyed_mono with next; [lia|assumption].
Qed.

Lemma keyed_delete {V} (idOf : V -> Z) next k (m : JsMap.t Z V) :
  keyed idOf next m -> keyed idOf next (JsMap.delete k m).
Proof.
  intros [Hwf Hall]. split; [now apply wf_delete|].
  unfold JsMap.delete. apply Forall_forall. intros e He.
  apply filter_In in He as [He _]. rewrite Forall_forall in Hall. auto.
Qed.

Lemma keyed_fold_delete {V A} (idOf : V -> Z) next (f : A -> Z) (l : list A)
  (m : JsMap.t Z V) :
  keyed idOf next m ->
  keyed idOf next (fold_left (fun m x => JsMap.delete (f x) m) l m).
Proof.
  revert m. induction l as [|x r IH]; intros m Hk; simpl; [assumption|].
  apply IH. now apply keyed_delete.
Qed.

(** The counter is not yet a key. *)
Lemma keyed_fresh {V} (idOf : V -> Z) next (m : JsMap.t Z V) :
  keyed idOf next m -> ~ In next (JsMap.keys m).
Proof.
  intros [_ Hall] Hin. unfold JsMap.keys in Hin.
  apply in_map_iff in Hin as [e [He Hin]].
  rewrite Forall_forall in Hall. specialize (Hall _ Hin). lia.
Qed.

Lemma keyed_ids {V} (idOf : V -> Z) next (m : JsMap.t Z V) :
  keyed idOf next m -> map idOf (JsMap.values m) = JsMap.keys m.
Proof.
  intros [_ Hall]. unfold JsMap.values, JsMap.keys.
  induction Hall as [|[k v] r [Hid _] _ IH]; simpl; [reflexivity|].
  simpl in Hid. now rewrite Hid, IH.
Qed.

(** *** What each writing method does to the world *)

Lemma createUser_run (w : World t) d :
  let s := storage w in
  let id := users (currentId s) in
  let user := User.mk id (InsertUser.username d) (InsertUser.password d)
                (InsertUser.email d) (clock w (clockReads w)) in
  createUser d w
  = (Val user, withStorage (setUsersMap (JsMap.set id user (usersMap s))
                              (bumpUsers s)) (tick w)).
Proof. reflexivity. Qed.

Lemma createFileShare_run (w : World t) d :
  let s := storage w in
  let id := fileShares (currentId s) in
  let share := FileShare.mk id (InsertFileShare.fileId d) (InsertFileShare.userId d)
                 (InsertFileShare.permission d) (clock w (clockReads w)) in
  createFileShare d w
  = (Val share, withStorage (setFileSharesMap (JsMap.set id share (fileSharesMap s))
                               (bumpFileShares s)) (tick w)).
Proof. reflexivity. Qed.

Lemma createShareLink_run (w : World t) d :
  let s := storage w in
  let id := shareLinks (currentId s) in
  let link := ShareLink.mk id (InsertShareLink.fileId d) (InsertShareLink.linkToken d)
                (toOption (InsertShareLink.requiresPassword d))
                (toOption (InsertShareLink.password d))
                (InsertShareLink.expiresAt d) (clock w (clockReads w)) in
  createShareLink d w
  = (Val link, withStorage (setShareLinksMap (JsMap.set id link (shareLinksMap s))
                              (bumpShareLinks s)) (tick w)).
Proof. reflexivity. Qed.

Lemma logTransaction_run (w : World t) d :
  let s := storage w in
  let id := transactions (currentId s) in
  let tx := Transaction.mk id (InsertTransaction.txId d) (InsertTransaction.cid d)
              (InsertTransaction.fileId d) (InsertTransaction.type d)
              (InsertTransaction.status d) (clock w (clockReads w))
              (InsertTransaction.metadata d) in
  logTransaction d w
  = (Val tx, withStorage (setTransactionsMap (JsMap.set id tx (transactionsMap s))
                            (bumpTransactions s)) (tick w)).
Proof. reflexivity. Qed.

Lemma deleteFile_run (w : World t) F :
  let s := storage w in
  deleteFile F w
  = (Val tt,
     withStorage
       (mk (usersMap s) (JsMap.delete F (filesMap s))
          (fold_left (fun m share => JsMap.delete (FileShare.id share) m)
             (filter (fun share => FileShare.fileId share =? F)
                (JsMap.values (fileSharesMap s))) (fileSharesMap s))
          (fold_left (fun m link => JsMap.delete (ShareLink.id link) m)
             (filter (fun link => ShareLink.fileId link =? F)
                (JsMap.values (shareLinksMap s))) (shareLinksMap s))
          (transactionsMap s) (statsMap s) (currentId s)) w).
Proof. reflexivity. Qed.

Lemma createUserStats_run (w : World t) u :
  let s := storage w in
  let stat := Stat.mk (stats (currentId s)) u 0 0 0 0 (clock w (clockReads w)) in
  createUserStats u w
  = (Val stat, withStorage (setStatsMap (JsMap.set u stat (statsMap s))
                              (bumpStats s)) (tick w)).
Proof. reflexivity. Qed.

(** The user has a row: one reading of the clock, one assignment. *)
Lemma updateUserStats_found (w : World t) u upd stat :
  let s := storage w in
  JsMap.get u (statsMap s) = Some stat ->
  let r := updatedStat stat upd (clock w (clockReads w)) in
  updateUserStats u upd w
  = (Val r, withStorage (setStatsMap (JsMap.set u r (statsMap s)) s) (tick w)).
Proof.
  intros s E r. cbn. unfold MemStorage.updateUserStats, bind at 1, gets.
  fold s. rewrite E. reflexivity.
Qed.

(** The user has none: a zeroed row is created first. *)
Lemma updateUserStats_missing (w : World t) u upd :
  let s := storage w in
  JsMap.get u (statsMap s) = None ->
  let zero := Stat.mk (stats (currentId s)) u 0 0 0 0 (clock w (clockReads w)) in
  let r := updatedStat zero upd (clock w (S (clockReads w))) in
  updateUserStats u upd w
  = (Val r,
     withStorage (setStatsMap (JsMap.set u r (JsMap.set u zero (statsMap s)))
                    (bumpStats s)) (tick (tick w))).
Proof.
  intros s E zero r. cbn. unfold MemStorage.updateUserStats, bind at 1, gets.
  fold s. rewrite E. reflexivity.
Qed.

Lemma updatedStat_floored stat upd now : floored (updatedStat stat upd now).
Proof. unfold floored, updatedStat. cbn. lia. Qed.

(** *** The invariant is kept *)

Lemma Inv_empty : Inv empty.
Proof.
  unfold Inv, empty. simpl.
  repeat split; try apply wf_empty; constructor.
Qed.

Ltac inv_parts H :=
  destruct H as (Hu & Hf & Hsh & Hl & Htx & Hswf & Hst).

Lemma stats_set u st (m : JsMap.t Z Stat.t) :
  Forall (fun e => Stat.userId (snd e) = fst e /\ floored (snd e)) m ->
  Stat.userId st = u -> floored st ->
  Forall (fun e => Stat.userId (snd e) = fst e /\ floored (snd e)) (JsMap.set u st m).
Proof. intros Hm Hid Hfl. apply Forall_set; [assumption|]. simpl. auto. Qed.

Lemma stats_get u st (m : JsMap.t Z Stat.t) :
  Forall (fun e => Stat.userId (snd e) = fst e /\ floored (snd e)) m ->
  JsMap.get u m = Some st -> Stat.userId st = u /\ floored st.
Proof.
  intros Hm E. apply get_In in E. rewrite Forall_forall in Hm.
  exact (Hm _ E).
Qed.

Lemma Inv_updateUserStats (w : World t) u upd :
  Inv (storage w) -> Inv (storage (after (updateUserStats u upd) w)).
Proof.
  intros H. inv_parts H. unfold after.
  destruct (JsMap.get u (statsMap (storage w))) as [st|] eqn:E.
  - rewrite (updateUserStats_found w u upd st E). unfold Inv. cbn.
    repeat (split; [assumption|]). split; [now apply wf_set|].
    apply stats_set; [assumption| |apply updatedStat_floored].
    cbn. now apply (stats_get u st _ Hst).
  - rewrite (updateUserStats_missing w u upd E). unfold Inv. cbn.
    repeat (split; [assumption|]). split; [now apply wf_set; apply wf_set|].
    apply stats_set; [|reflexivity|apply updatedStat_floored].
    apply stats_set; [assumption|reflexivity|unfold floored; cbn; lia].
Qed.

Lemma Inv_callOp (w : World t) op :
  Inv (storage w) -> Inv (storage (after (callOp op) w)).
Proof.
  intros H. destruct op; cbn [callOp]; rewrite ?after_forget; try exact H.
  - (* createUser *) inv_parts H. unfold Inv. cbn.
    split; [now apply keyed_insert|]. tauto.
  - (* createFile *) inv_parts H. unfold Inv. cbn.
    split; [assumption|]. split; [|tauto].
    apply keyed_set; [|reflexivity|lia]. now apply keyed_insert.
  - (* deleteFile *) inv_parts H. unfold Inv. cbn.
    split; [assumption|]. split; [now apply keyed_delete|].
    split; [now apply keyed_fold_delete|].
    split; [now apply keyed_fold_delete|]. tauto.
  - (* createFileShare *) inv_parts H. unfold Inv. cbn.
    do 2 (split; [assumption|]). split; [now apply keyed_insert|]. tauto.
  - (* createShareLink *) inv_parts H. unfold Inv. cbn.
    do 3 (split; [assumption|]). split; [now apply keyed_insert|]. tauto.
  - (* logTransaction *) inv_parts H. unfold Inv. cbn.
    do 4 (split; [assumption|]). split; [now apply keyed_insert|]. tauto.
  - (* createUserStats *) inv_parts H. unfold Inv. cbn.
    repeat (split; [assumption|]). split; [now apply wf_set|].
    apply stats_set; [assumption|reflexivity|unfold floored; cbn; lia].
  - (* updateUserStats *) now apply Inv_updateUserStats.
Qed.

Lemma Inv_reachableFrom (w0 w : World t) :
  Inv (storage w0) -> reachableFrom w0 w -> Inv (storage w).
Proof.
  intros H0 Hr. induction Hr as [|w op _ IH]; [assumption|].
  now apply Inv_callOp.
Qed.

(** Every world that the process reaches satisfies the invariant. *)
Lemma Inv_reachable (w : World t) : memReachable w -> Inv (storage w).
Proof.
  intros [w0 [H0 Hr]].
  eapply Inv_reachableFrom; [|exact Hr].
  change (Inv (storage (after (callOp (OpCreateUser
            (InsertUser.mk "testuser"
               "5e884898da28047151d0e56f8dc6292773603d0d6aabbdd62a11ef721d1542d8"
               "test@example.com"))) w0))).
  apply Inv_callOp. rewrite H0. apply Inv_empty.
Qed.

End MemFacts.

(** ** The invariant of [DatabaseStorage] *)

Module DbFacts.
Import DatabaseStorage.

Lemma serial_nil {A} (idOf : A -> Z) next : serial idOf next [].
Proof. split; constructor. Qed.

(** [insert ... returning]: the new row takes the next value of the
    sequence. *)
Lemma serial_insert {A} (idOf : A -> Z) next (rows : list A) row :
  serial idOf next rows -> idOf row = next ->
  serial idOf (next + 1) (rows ++ [row]).
Proof.
  intros [Hnd Hall] Hid. split.
  - rewrite map_app. simpl. apply NoDup_app; [assumption|repeat constructor; intros []|].
    intros x Hx [<-|[]]. apply in_map_iff in Hx as [r [Hr Hin]].
    rewrite Forall_forall in Hall. specialize (Hall _ Hin). lia.
  - apply Forall_app. split.
    + eapply Forall_impl; [|exact Hall]. simpl. intros. lia.
    + repeat constructor. lia.
Qed.

Lemma NoDup_map_filter {Row Key} (keyOf : Row -> Key) (keep : Row -> bool) rows :
  NoDup (map keyOf rows) -> NoDup (map keyOf (filter keep rows)).
Proof.
  induction rows as [|x r IH]; simpl; [auto|]. intros Hnd.
  inversion Hnd as [|? ? Hnin Hnd']; subst.
  destruct (keep x); simpl; [|auto]. constructor; [|auto].
  intros Hin. apply Hnin. apply in_map_iff in Hin as [y [Hy Hin]].
  apply filter_In in Hin as [Hin _]. rewrite <- Hy. now apply in_map.
Qed.

(** [delete ... where]. *)
Lemma serial_delete {A} (idOf : A -> Z) next (cond : A -> bool) (rows : list A) :
  serial idOf next rows -> serial idOf next (deleteWhere cond rows).
Proof.
  intros [Hnd Hall]. unfold deleteWhere. split.
  - now apply NoDup_map_filter.
  - apply Forall_forall. intros r Hr. apply filter_In in Hr as [Hr _].
    rewrite Forall_forall in Hall. auto.
Qed.

(** [update ... set ... where] with values that keep the key. *)
Lemma serial_update {A} (idOf : A -> Z) next (cond : A -> bool) (values : A -> A)
  (rows : list A) :
  (forall r, idOf (values r) = idOf r) ->
  serial idOf next rows -> serial idOf next (updateWhere cond values rows).
Proof.
  intros Hkeep [Hnd Hall]. unfold updateWhere.
  assert (Hmap : map idOf (map (fun row => if cond row then values row else row) rows)
                 = map idOf rows).
  { rewrite map_map. apply map_ext. intros r. destruct (cond r); auto. }
  split.
  - now rewrite Hmap.
  - apply Forall_forall. intros r Hr. apply in_map_iff in Hr as [r0 [Hr0 Hin]].
    rewrite Forall_forall in Hall. specialize (Hall _ Hin).
    destruct (cond r0); subst; [rewrite Hkeep|]; assumption.
Qed.

(** The sequence has not yet delivered the key of any row. *)
Lemma serial_fresh {A} (idOf : A -> Z) next (rows : list A) :
  serial idOf next rows -> ~ In next (map idOf rows).
Proof.
  intros [_ Hall] Hin. apply in_map_iff in Hin as [r [Hr Hin]].
  rewrite Forall_forall in Hall. specialize (Hall _ Hin). lia.
Qed.

(** *** What each writing method does to the world *)

Lemma db_createFileShare_run (w : World t) ins :
  let d := storage w in
  let id := file_shares_id_seq (sequences d) in
  let share := FileShare.mk id (InsertFileShare.fileId ins) (InsertFileShare.userId ins)
                 (InsertFileShare.permission ins) (clock w (clockReads w)) in
  createFileShare ins w
  = (Val share, withStorage (setFileShares (fileShares d ++ [share])
                               (bumpFileShares d)) (tick w)).
Proof. reflexivity. Qed.

Lemma db_createShareLink_run (w : World t) ins :
  let d := storage w in
  let id := share_links_id_seq (sequences d) in
  let link := ShareLink.mk id (InsertShareLink.fileId ins)
                (InsertShareLink.linkToken ins)
                (match InsertShareLink.requiresPassword ins with
                 | Undefined => Some false
                 | Null => None
                 | Given b => Some b
                 end)
                (toOption (InsertShareLink.password ins))
                (InsertShareLink.expiresAt ins) (clock w (clockReads w)) in
  createShareLink ins w
  = (Val link, withStorage (setShareLinks (shareLinks d ++ [link])
                              (bumpShareLinks d)) (tick w)).
Proof. reflexivity. Qed.

Lemma db_logTransaction_run (w : World t) ins :
  let d := storage w in
  let id := transactions_id_seq (sequences d) in
  let tx := Transaction.mk id (InsertTransaction.txId ins) (InsertTransaction.cid ins)
              (InsertTransaction.fileId ins) (InsertTransaction.type ins)
              (InsertTransaction.status ins) (clock w (clockReads w))
              (InsertTransaction.metadata ins) in
  logTransaction ins w
  = (Val tx, withStorage (setTransactions (transactions d ++ [tx])
                            (bumpTransactions d)) (tick w)).
Proof. reflexivity. Qed.

Lemma referenced_iff F (d : t) :
  referenced F d = true <-> In (Some F) (map Transaction.fileId (transactions d)).
Proof.
  unfold referenced. rewrite existsb_exists, in_map_iff. split.
  - intros (tx & Hin & Hc). exists tx. split; [|assumption].
    destruct (Transaction.fileId tx) as [f|]; [|discriminate].
    apply Z.eqb_eq in Hc. now subst.
  - intros (tx & He & Hin). exists tx. split; [assumption|].
    rewrite He. apply Z.eqb_refl.
Qed.

Lemma unreferenced F (d : t) :
  ~ In (Some F) (map Transaction.fileId (transactions d)) -> referenced F d = false.
Proof.
  intros Hn. destruct (referenced F d) eqn:E; [|reflexivity].
  apply referenced_iff in E. contradiction.
Qed.

(** [deleteFile] where the engine accepts the third statement. *)
Lemma db_deleteFile_run (w : World t) F :
  let d := storage w in
  existsb (fun f => FileRow.id f =? F) (files d) && referenced F d = false ->
  deleteFile F w
  = (Val tt,
     withStorage
       (mk (users d)
          (deleteWhere (fun f => FileRow.id f =? F) (files d))
          (deleteWhere (fun sh => FileShare.fileId sh =? F) (fileShares d))
          (deleteWhere (fun l => ShareLink.fileId l =? F) (shareLinks d))
          (transactions d) (stats d) (sequences d)) w).
Proof.
  intros d H. unfold deleteFile, bind, modify, getS, putS. cbn.
  fold d. unfold referenced in *. cbn. rewrite H. reflexivity.
Qed.

(** [deleteFile] where the engine refuses it: the grants and the links
    are gone, the file row stays. *)
Lemma db_deleteFile_refused (w : World t) F :
  let d := storage w in
  existsb (fun f => FileRow.id f =? F) (files d) && referenced F d = true ->
  deleteFile F w
  = (Throw constraintError,
     withStorage
       (mk (users d) (files d)
          (deleteWhere (fun sh => FileShare.fileId sh =? F) (fileShares d))
          (deleteWhere (fun l => ShareLink.fileId l =? F) (shareLinks d))
          (transactions d) (stats d) (sequences d)) w).
Proof.
  intros d H. unfold deleteFile, bind, modify, getS, putS, throw. cbn.
  fold d. unfold referenced in *. cbn. rewrite H. reflexivity.
Qed.

(** What [deleteFile] does to the grants and the links, refused or not. *)
Lemma db_deleteFile_related (w : World t) F :
  let w' := after (deleteFile F) w in
  fileShares (storage w')
  = deleteWhere (fun sh => FileShare.fileId sh =? F) (fileShares (storage w)) /\
  shareLinks (storage w')
  = deleteWhere (fun l => ShareLink.fileId l =? F) (shareLinks (storage w)) /\
  transactions (storage w') = transactions (storage w) /\
  stats (storage w') = stats (storage w) /\
  users (storage w') = users (storage w) /\
  sequences (storage w') = sequences (storage w).
Proof.
  intros w'. subst w'. unfold after.
  destruct (existsb (fun f => FileRow.id f =? F) (files (storage w))
            && referenced F (storage w)) eqn:E.
  - rewrite (db_deleteFile_refused w F E). cbn. auto 6.
  - rewrite (db_deleteFile_run w F E). cbn. auto 6.
Qed.

Lemma db_createUserStats_run (w : World t) u :
  let d := storage w in
  let stat := Stat.mk (stats_id_seq (sequences d)) u 0 0 0 0 (clock w (clockReads w)) in
  createUserStats u w
  = (Val stat, withStorage (setStats (stats d ++ [stat]) (bumpStats d)) (tick w)).
Proof. reflexivity. Qed.

Lemma first_map {A B} (f : A -> B) (l : list A) :
  first (map f l) = option_map f (first l).
Proof. destruct l; reflexivity. Qed.

Lemma NoDup_map_inj {A} (f : A -> Z) (l : list A) a b :
  NoDup (map f l) -> In a l -> In b l -> f a = f b -> a = b.
Proof.
  induction l as [|x r IH]; simpl; [intros _ []|].
  intros Hnd Ha Hb Hf. inversion Hnd as [|? ? Hnin Hnd']; subst.
  destruct Ha as [->|Ha], Hb as [->|Hb]; auto.
  - exfalso. apply Hnin. rewrite Hf. now apply in_map.
  - exfalso. apply Hnin. rewrite <- Hf. now apply in_map.
Qed.

(** Selecting by primary key returns the row itself. *)
Lemma select_by_id (rows : list Stat.t) st :
  NoDup (map Stat.id rows) -> In st rows ->
  first (selectWhere (fun r => Stat.id r =? Stat.id st) rows) = Some st.
Proof.
  intros Hnd Hin.
  destruct (first (selectWhere (fun r => Stat.id r =? Stat.id st) rows)) as [row|] eqn:E.
  - apply first_select_Some in E as [Hr Hid]. apply Z.eqb_eq in Hid.
    f_equal. now apply (NoDup_map_inj Stat.id rows).
  - apply (first_select_None _ _ E) in Hin. rewrite Z.eqb_refl in Hin. discriminate.
Qed.

Lemma select_app_fresh {A} (p : A -> bool) (rows : list A) z :
  (forall r, In r rows -> p r = false) -> p z = true ->
  selectWhere p (rows ++ [z]) = [z].
Proof.
  intros Hno Hz. unfold selectWhere. rewrite filter_app. simpl. rewrite Hz.
  replace (filter p rows) with (@nil A); [reflexivity|].
  symmetry. induction rows as [|x r IH]; simpl; [reflexivity|].
  rewrite (Hno x) by now left. apply IH. intros y Hy. apply Hno. now right.
Qed.

Lemma update_app_fresh {A} (cond : A -> bool) (values : A -> A) (rows : list A) z :
  (forall r, In r rows -> cond r = false) -> cond z = true ->
  updateWhere cond values (rows ++ [z]) = rows ++ [values z].
Proof.
  intros Hno Hz. unfold updateWhere. rewrite map_app. simpl. rewrite Hz.
  f_equal. induction rows as [|x r IH]; simpl; [reflexivity|].
  rewrite (Hno x) by now left. f_equal. apply IH. intros y Hy. apply Hno. now right.
Qed.

(** The user has a row: one reading of the clock, one update. *)
Lemma db_updateUserStats_found (w : World t) u upd userStat :
  let d := storage w in
  NoDup (map Stat.id (stats d)) ->
  first (selectWhere (fun st => Stat.userId st =? u) (stats d)) = Some userStat ->
  let values := newValues userStat upd (clock w (clockReads w)) in
  let cond := fun row => Stat.id row =? Stat.id userStat in
  updateUserStats u upd w
  = (Val (values userStat),
     withStorage (setStats (updateWhere cond values (stats d)) d) (tick w)).
Proof.
  intros d Hnd E values cond.
  assert (Er : first (selectWhere cond (stats d)) = Some userStat).
  { apply select_by_id; [assumption|]. now apply first_select_Some in E. }
  change (updateUserStats u upd w) with (DatabaseStorage.updateUserStats u upd w).
  unfold DatabaseStorage.updateUserStats, bind, getUserStats, gets, newDate,
    getS, putS, ret.
  cbv beta. fold d. rewrite E.
  cbn [storage tick withStorage stats setStats]. fold d.
  rewrite first_map. fold cond. rewrite Er. reflexivity.
Qed.

(** The user has none: a zeroed row is inserted first. *)
Lemma db_updateUserStats_missing (w : World t) u upd :
  let d := storage w in
  ~ In (stats_id_seq (sequences d)) (map Stat.id (stats d)) ->
  first (selectWhere (fun st => Stat.userId st =? u) (stats d)) = None ->
  let zero := Stat.mk (stats_id_seq (sequences d)) u 0 0 0 0 (clock w (clockReads w)) in
  let values := newValues zero upd (clock w (S (clockReads w))) in
  updateUserStats u upd w
  = (Val (values zero),
     withStorage (setStats (stats d ++ [values zero]) (bumpStats d)) (tick (tick w))).
Proof.
  intros d Hfresh E zero values.
  assert (Hno : forall r, In r (stats d) -> (Stat.id r =? Stat.id zero) = false).
  { intros r Hr. apply Z.eqb_neq. intros Hid. apply Hfresh.
    unfold zero in Hid. cbn in Hid. rewrite <- Hid. now apply in_map. }
  change (updateUserStats u upd w) with (DatabaseStorage.updateUserStats u upd w).
  unfold DatabaseStorage.updateUserStats, bind, getUserStats, gets, newDate,
    getS, putS, ret.
  cbv beta. fold d. rewrite E.
  rewrite db_createUserStats_run.
  cbn [storage tick withStorage stats setStats bumpStats setSequences clock clockReads].
  fold d. fold zero. fold values.
  rewrite select_app_fresh by (auto; apply Z.eqb_refl).
  rewrite update_app_fresh by (auto; apply Z.eqb_refl).
  reflexivity.
Qed.

Lemma newValues_floored st upd now row : floored (newValues st upd now row).
Proof. unfold floored, newValues. cbn. lia. Qed.

(** *** The invariant is kept *)

Lemma db_Inv_empty : Inv empty.
Proof. unfold Inv, empty. simpl. repeat split; constructor. Qed.

Ltac inv_parts H :=
  destruct H as (Hu & Hf & Hsh & Hl & Htx & Hst & Hfl).

Lemma db_Inv_updateUserStats (w : World t) u upd :
  Inv (storage w) -> Inv (storage (after (updateUserStats u upd) w)).
Proof.
  intros H. inv_parts H. unfold after.
  destruct (first (selectWhere (fun st => Stat.userId st =? u) (stats (storage w))))
    as [st|] eqn:E.
  - rewrite (db_updateUserStats_found w u upd st (proj1 Hst) E). unfold Inv. cbn.
    repeat (split; [assumption|]). split.
    + apply serial_update; [reflexivity|assumption].
    + unfold updateWhere. apply Forall_forall. intros r Hr.
      apply in_map_iff in Hr as [r0 [Hr0 Hin]].
      rewrite Forall_forall in Hfl.
      destruct (Stat.id r0 =? Stat.id st); subst; [apply newValues_floored|auto].
  - rewrite (db_updateUserStats_missing w u upd (serial_fresh _ _ _ Hst) E).
    unfold Inv. cbn.
    repeat (split; [assumption|]). split.
    + now apply serial_insert.
    + apply Forall_app. split; [assumption|].
      constructor; [apply newValues_floored|constructor].
Qed.

Lemma db_Inv_callOp (w : World t) op :
  Inv (storage w) -> Inv (storage (after (callOp op) w)).
Proof.
  intros H. destruct op; cbn [callOp]; rewrite ?after_forget; try exact H.
  - (* createUser *) inv_parts H. unfold Inv. cbn.
    split; [now apply serial_insert|]. tauto.
  - (* createFile *) inv_parts H. unfold Inv. cbn.
    split; [assumption|]. split; [now apply serial_insert|]. tauto.
  - (* deleteFile *) inv_parts H.
    change (Inv (storage (after (deleteFile id) w))). unfold after.
    destruct (existsb (fun f => FileRow.id f =? id) (files (storage w))
              && referenced id (storage w)) eqn:E.
    + rewrite (db_deleteFile_refused w id E). unfold Inv. cbn.
      do 2 (split; [assumption|]).
      split; [now apply serial_delete|].
      split; [now apply serial_delete|]. tauto.
    + rewrite (db_deleteFile_run w id E). unfold Inv. cbn.
      split; [assumption|]. split; [now apply serial_delete|].
      split; [now apply serial_delete|].
      split; [now apply serial_delete|]. tauto.
  - (* createFileShare *) inv_parts H. unfold Inv. cbn.
    do 2 (split; [assumption|]). split; [now apply serial_insert|]. tauto.
  - (* createShareLink *) inv_parts H. unfold Inv. cbn.
    do 3 (split; [assumption|]). split; [now apply serial_insert|]. tauto.
  - (* logTransaction *) inv_parts H. unfold Inv. cbn.
    do 4 (split; [assumption|]). split; [now apply serial_insert|]. tauto.
  - (* createUserStats *) inv_parts H. unfold Inv. cbn.
    repeat (split; [assumption|]). split; [now apply serial_insert|].
    apply Forall_app. split; [assumption|].
    constructor; [unfold floored; cbn; lia|constructor].
  - (* updateUserStats *) now apply db_Inv_updateUserStats.
Qed.

Lemma db_Inv_reachableFrom (w0 w : World t) :
  Inv (storage w0) -> reachableFrom w0 w -> Inv (storage w).
Proof.
  intros H0 Hr. induction Hr as [|w op _ IH]; [assumption|].
  now apply db_Inv_callOp.
Qed.

(** Every world that the process reaches satisfies the invariant. *)
Lemma db_Inv_reachable (w : World t) : dbReachable w -> Inv (storage w).
Proof.
  intros [w0 [H0 Hr]]. eapply db_Inv_reachableFrom; [|exact Hr].
  rewrite H0. apply db_Inv_empty.
Qed.

End DbFacts.

(** ** The paths through the handlers *)

(** Each lemma follows one path of a handler, for any implementation of
    the interface, from what the calls it makes return. *)

Ltac step H := erewrite bind_val; [|exact H].

Section HandlerPaths.
Context {St : Type} `{IStorage St}.

Lemma bind_exit {A B} (r : Response) (k : A -> M St B) w :
  bind (exit r) k w = (Exit r, w).
Proof. reflexivity. Qed.

Lemma bind_ret {A B} (a : A) (k : A -> M St B) w :
  bind (ret a) k w = k a w.
Proof. reflexivity. Qed.

Lemma bind_throw {A B} (e : Exn) (k : A -> M St B) w :
  bind (throw e) k w = (Throw e, w).
Proof. reflexivity. Qed.

Lemma bind_throws {A B} (c : M St A) (k : A -> M St B) w e w' :
  c w = (Throw e, w') -> bind c k w = (Throw e, w').
Proof. intros Hc. unfold bind. now rewrite Hc. Qed.

(** *** POST /files/share *)

Lemma shareHandler_no_file user F email perm w :
  getFile F w = (Val None, w) ->
  shareHandler (Some user) F email perm w = (json 404 (BError "File not found"), w).
Proof.
  intros Hf. unfold shareHandler, requireAuth, withZodErrors, respond, tryCatch.
  step Hf. cbn [orExit]. rewrite bind_exit. reflexivity.
Qed.

Lemma shareHandler_denied user F email perm w file :
  getFile F w = (Val (Some file), w) ->
  File.ownerId file <> User.id user ->
  shareHandler (Some user) F email perm w = (json 403 (BError "Access denied"), w).
Proof.
  intros Hf Ho. unfold shareHandler, requireAuth, withZodErrors, respond, tryCatch.
  step Hf. cbn [orExit]. rewrite bind_ret.
  apply Z.eqb_neq in Ho. rewrite Ho. cbn [negb exitIf]. rewrite bind_exit. reflexivity.
Qed.

Lemma shareHandler_no_recipient user F email perm w file :
  getFile F w = (Val (Some file), w) ->
  File.ownerId file = User.id user ->
  getUserByEmail email w = (Val None, w) ->
  shareHandler (Some user) F email perm w = (json 404 (BError "User not found"), w).
Proof.
  intros Hf Ho Hr. unfold shareHandler, requireAuth, withZodErrors, respond, tryCatch.
  step Hf. cbn [orExit]. rewrite bind_ret.
  apply Z.eqb_eq in Ho. rewrite Ho. cbn [negb exitIf]. rewrite bind_ret.
  step Hr. cbn [orExit]. rewrite bind_exit. reflexivity.
Qed.

Lemma shareHandler_invalid user F email perm w file recipient :
  getFile F w = (Val (Some file), w) ->
  File.ownerId file = User.id user ->
  getUserByEmail email w = (Val (Some recipient), w) ->
  (forall p, perm <> JStr p) ->
  shareHandler (Some user) F email perm w
  = (json 400 (BError "Validation error: permission"), w).
Proof.
  intros Hf Ho Hr Hp. unfold shareHandler, requireAuth, withZodErrors, respond, tryCatch.
  step Hf. cbn [orExit]. rewrite bind_ret.
  apply Z.eqb_eq in Ho. rewrite Ho. cbn [negb exitIf]. rewrite bind_ret.
  step Hr. cbn [orExit]. rewrite bind_ret.
  destruct perm; cbn [parseInsertFileShare]; try (rewrite bind_throw; reflexivity).
  now destruct (Hp s).
Qed.

Lemma shareHandler_granted user F email p w file recipient share w1 st w2 :
  getFile F w = (Val (Some file), w) ->
  File.ownerId file = User.id user ->
  getUserByEmail email w = (Val (Some recipient), w) ->
  createFileShare (InsertFileShare.mk F (User.id recipient) p) w = (Val share, w1) ->
  updateUserStats (User.id user) (StatUpdates.mk None (Some 1) None None) w1
    = (Val st, w2) ->
  shareHandler (Some user) F email (JStr p) w = (json 201 (BFileShare share), w2).
Proof.
  intros Hf Ho Hr Hc Hu. unfold shareHandler, requireAuth, withZodErrors, respond, tryCatch.
  step Hf. cbn [orExit]. rewrite bind_ret.
  apply Z.eqb_eq in Ho. rewrite Ho. cbn [negb exitIf]. rewrite bind_ret.
  step Hr. cbn [orExit]. rewrite bind_ret.
  cbn [parseInsertFileShare]. rewrite bind_ret.
  step Hc. step Hu. reflexivity.
Qed.

(** *** POST /files/share-by-id *)

Lemma shareByIdHandler_no_file user F rid perm w :
  getFile F w = (Val None, w) ->
  shareByIdHandler (Some user) F rid perm w
  = (json 404 (BError "File not found"), w).
Proof.
  intros Hf. unfold shareByIdHandler, requireAuth, withZodErrors, respond, tryCatch.
  step Hf. cbn [orExit]. rewrite bind_exit. reflexivity.
Qed.

Lemma shareByIdHandler_denied user F rid perm w file :
  getFile F w = (Val (Some file), w) ->
  File.ownerId file <> User.id user ->
  shareByIdHandler (Some user) F rid perm w
  = (json 403 (BError "Access denied"), w).
Proof.
  intros Hf Ho. unfold shareByIdHandler, requireAuth, withZodErrors, respond, tryCatch.
  step Hf. cbn [orExit]. rewrite bind_ret.
  apply Z.eqb_neq in Ho. rewrite Ho. cbn [negb exitIf]. rewrite bind_exit. reflexivity.
Qed.

Lemma shareByIdHandler_no_recipient user F rid perm w file :
  getFile F w = (Val (Some file), w) ->
  File.ownerId file = User.id user ->
  getUser rid w = (Val None, w) ->
  shareByIdHandler (Some user) F rid perm w
  = (json 404 (BError "Recipient user not found"), w).
Proof.
  intros Hf Ho Hr. unfold shareByIdHandler, requireAuth, withZodErrors, respond, tryCatch.
  step Hf. cbn [orExit]. rewrite bind_ret.
  apply Z.eqb_eq in Ho. rewrite Ho. cbn [negb exitIf]. rewrite bind_ret.
  step Hr. cbn [orExit]. rewrite bind_exit. reflexivity.
Qed.

Lemma shareByIdHandler_invalid user F rid perm w file recipient :
  getFile F w = (Val (Some file), w) ->
  File.ownerId file = User.id user ->
  getUser rid w = (Val (Some recipient), w) ->
  (forall p, perm <> JStr p) ->
  shareByIdHandler (Some user) F rid perm w
  = (json 400 (BError "Validation error: permission"), w).
Proof.
  intros Hf Ho Hr Hp.
  unfold shareByIdHandler, requireAuth, withZodErrors, respond, tryCatch.
  step Hf. cbn [orExit]. rewrite bind_ret.
  apply Z.eqb_eq in Ho. rewrite Ho. cbn [negb exitIf]. rewrite bind_ret.
  step Hr. cbn [orExit]. rewrite bind_ret.
  destruct perm; cbn [parseInsertFileShare]; try (rewrite bind_throw; reflexivity).
  now destruct (Hp s).
Qed.

Lemma shareByIdHandler_granted user F rid p w file recipient share w1 st w2 :
  getFile F w = (Val (Some file), w) ->
  File.ownerId file = User.id user ->
  getUser rid w = (Val (Some recipient), w) ->
  createFileShare (InsertFileShare.mk F (User.id recipient) p) w = (Val share, w1) ->
  updateUserStats (User.id user) (StatUpdates.mk None (Some 1) None None) w1
    = (Val st, w2) ->
  shareByIdHandler (Some user) F rid (JStr p) w = (json 201 (BFileShare share), w2).
Proof.
  intros Hf Ho Hr Hc Hu.
  unfold shareByIdHandler, requireAuth, withZodErrors, respond, tryCatch.
  step Hf. cbn [orExit]. rewrite bind_ret.
  apply Z.eqb_eq in Ho. rewrite Ho. cbn [negb exitIf]. rewrite bind_ret.
  step Hr. cbn [orExit]. rewrite bind_ret.
  cbn [parseInsertFileShare]. rewrite bind_ret.
  step Hc. step Hu. reflexivity.
Qed.

(** *** GET /stats *)

Lemma statsHandler_missing user w :
  getUserStats (User.id user) w = (Val None, w) ->
  statsHandler (Some user) w = (json 404 (BError "Stats not found"), w).
Proof.
  intros Hs. unfold statsHandler, requireAuth, orFail, respond, tryCatch.
  step Hs. cbn [orExit]. rewrite bind_exit. reflexivity.
Qed.

Lemma statsHandler_found user w stats :
  getUserStats (User.id user) w = (Val (Some stats), w) ->
  exists storageUsed,
    statsHandler (Some user) w
    = (json 200 (BStats (Stat.filesUploaded stats) (Stat.filesShared stats)
                   storageUsed (Stat.downloads stats)), w).
Proof.
  intros Hs. unfold statsHandler, requireAuth, orFail, respond, tryCatch.
  step Hs. cbn [orExit]. rewrite bind_ret. eexists. reflexivity.
Qed.

(** *** GET /files/:id/download *)

Lemma downloadHandler_no_file user F w :
  getFile F w = (Val None, w) ->
  downloadHandler (Some user) F w = (json 404 (BError "File not found"), w).
Proof.
  intros Hf. unfold downloadHandler, requireAuth, orFail, respond, tryCatch.
  step Hf. cbn [orExit]. rewrite bind_exit. reflexivity.
Qed.

Lemma downloadHandler_denied user F w file :
  getFile F w = (Val (Some file), w) ->
  checkFileAccess (File.id file) (User.id user) w = (Val false, w) ->
  downloadHandler (Some user) F w = (json 403 (BError "Access denied"), w).
Proof.
  intros Hf Ha. unfold downloadHandler, requireAuth, orFail, respond, tryCatch.
  step Hf. cbn [orExit]. rewrite bind_ret. step Ha.
  cbn [negb exitIf]. rewrite bind_exit. reflexivity.
Qed.

Lemma downloadHandler_lost user F w file e :
  getFile F w = (Val (Some file), w) ->
  checkFileAccess (File.id file) (User.id user) w = (Val true, w) ->
  retrieveFile (File.cid file) w = (Throw e, w) ->
  downloadHandler (Some user) F w
  = (json 500 (BError "Failed to download file"), w).
Proof.
  intros Hf Ha Hd. unfold downloadHandler, requireAuth, orFail, respond, tryCatch.
  step Hf. cbn [orExit]. rewrite bind_ret. step Ha.
  cbn [negb exitIf]. rewrite bind_ret.
  erewrite bind_throws; [|exact Hd]. reflexivity.
Qed.

Lemma downloadHandler_served user F w file data st w1 tx w2 :
  getFile F w = (Val (Some file), w) ->
  checkFileAccess (File.id file) (User.id user) w = (Val true, w) ->
  retrieveFile (File.cid file) w = (Val data, w) ->
  updateUserStats (File.ownerId file) (StatUpdates.mk None None None (Some 1)) w
    = (Val st, w1) ->
  logTransaction
    (InsertTransaction.mk ("tx_" ++ showZ (clock w1 (clockReads w1)))%string
       (File.cid file) (Some (File.id file)) "retrieve" "confirmed" MetaEmpty)
    (tick w1) = (Val tx, w2) ->
  downloadHandler (Some user) F w
  = (json 200 (BDownload data (File.encryptionKey file) (File.name file)
                 (File.type file)), w2).
Proof.
  intros Hf Ha Hd Hu Hl. unfold downloadHandler, requireAuth, orFail, respond, tryCatch.
  step Hf. cbn [orExit]. rewrite bind_ret. step Ha.
  cbn [negb exitIf]. rewrite bind_ret.
  step Hd. step Hu. unfold newDate. erewrite bind_val; [|reflexivity].
  step Hl. reflexivity.
Qed.

(** *** POST /files/share-link *)

Lemma shareLinkHandler_no_file user F rp pw w :
  getFile F w = (Val None, w) ->
  shareLinkHandler (Some user) F rp pw w
  = (json 404 (BError "File not found"), w).
Proof.
  intros Hf. unfold shareLinkHandler, requireAuth, withZodErrors, respond, tryCatch.
  step Hf. cbn [orExit]. rewrite bind_exit. reflexivity.
Qed.

Lemma shareLinkHandler_denied user F rp pw w file :
  getFile F w = (Val (Some file), w) ->
  File.ownerId file <> User.id user ->
  shareLinkHandler (Some user) F rp pw w
  = (json 403 (BError "Access denied"), w).
Proof.
  intros Hf Ho. unfold shareLinkHandler, requireAuth, withZodErrors, respond, tryCatch.
  step Hf. cbn [orExit]. rewrite bind_ret.
  apply Z.eqb_neq in Ho. rewrite Ho. cbn [negb exitIf]. rewrite bind_exit. reflexivity.
Qed.

(** What validation makes of the two body fields. *)
Lemma parseInsertShareLink_cases F token rp pw expiresAt (w : World St) :
  (exists m, parseInsertShareLink F token rp pw expiresAt w = (Throw (ZodError m), w))
  \/
  (exists rp' pw',
      parseInsertShareLink F token rp pw expiresAt w
      = (Val (InsertShareLink.mk F token rp' pw' (Some expiresAt)), w) /\
      (rp = JUndefined \/ rp = JNull \/ exists b, rp = JBool b) /\
      toOption pw' = match pw with JStr p => Some p | _ => None end).
Proof.
  destruct rp; cbn [parseInsertShareLink]; try (left; eexists; reflexivity);
    destruct pw; try (left; eexists; reflexivity);
    right; eexists _, _; (split; [reflexivity|]); split; eauto.
Qed.

Lemma shareLinkHandler_invalid user F rp pw w file m :
  getFile F w = (Val (Some file), w) ->
  File.ownerId file = User.id user ->
  parseInsertShareLink F (toHex (map (entropy w) (seq (entropyReads w) 16))) rp
    (if truthy rp then pw else JNull)
    (JsDate.setDatePlus (LocalTZA w) 7 (clock w (clockReads w)))
    (tick (drawn 16 w)) = (Throw (ZodError m), tick (drawn 16 w)) ->
  shareLinkHandler (Some user) F rp pw w
  = (json 400 (BError m), tick (drawn 16 w)).
Proof.
  intros Hf Ho Hp.
  unfold shareLinkHandler, requireAuth, withZodErrors, respond, tryCatch.
  step Hf. cbn [orExit]. rewrite bind_ret.
  apply Z.eqb_eq in Ho. rewrite Ho. cbn [negb exitIf]. rewrite bind_ret.
  unfold randomBytes. erewrite bind_val; [|reflexivity].
  unfold newDate. erewrite bind_val; [|reflexivity].
  erewrite bind_val; [|reflexivity].
  erewrite bind_throws; [|exact Hp]. reflexivity.
Qed.

Lemma shareLinkHandler_issued user F rp pw w file data link w1 :
  getFile F w = (Val (Some file), w) ->
  File.ownerId file = User.id user ->
  let linkToken := toHex (map (entropy w) (seq (entropyReads w) 16)) in
  let expiresAt := JsDate.setDatePlus (LocalTZA w) 7 (clock w (clockReads w)) in
  parseInsertShareLink F linkToken rp (if truthy rp then pw else JNull) expiresAt
    (tick (drawn 16 w)) = (Val data, tick (drawn 16 w)) ->
  createShareLink data (tick (drawn 16 w)) = (Val link, w1) ->
  exists domain,
    shareLinkHandler (Some user) F rp pw w
    = (json 201 (BShareLink (domain ++ "/shared/" ++ linkToken)%string expiresAt), w1).
Proof.
  intros Hf Ho linkToken expiresAt Hp Hc.
  unfold shareLinkHandler, requireAuth, withZodErrors, respond, tryCatch.
  step Hf. cbn [orExit]. rewrite bind_ret.
  apply Z.eqb_eq in Ho. rewrite Ho. cbn [negb exitIf]. rewrite bind_ret.
  unfold randomBytes. erewrite bind_val; [|reflexivity].
  unfold newDate. erewrite bind_val; [|reflexivity].
  erewrite bind_val; [|reflexivity].
  step Hp. step Hc. erewrite bind_val; [|reflexivity].
  eexists. reflexivity.
Qed.

End HandlerPaths.

(** ** Both implementations are lawful *)

Lemma MemStorage_lawful : Lawful MemStorage.t.
Proof.
  constructor; try (intros; eexists; reflexivity);
    try (intros; do 2 eexists; cbn; reflexivity).
  intros U upd w.
  destruct (JsMap.get U (MemStorage.statsMap (storage w))) as [st|] eqn:E.
  - eexists _, _. apply (MemFacts.updateUserStats_found w U upd st E).
  - eexists _, _. apply (MemFacts.updateUserStats_missing w U upd E).
Qed.

Lemma db_update_selects (rows : list Stat.t) (values : Stat.t -> Stat.t) st :
  In st rows ->
  exists row,
    DatabaseStorage.first
      (map values (DatabaseStorage.selectWhere
                     (fun r => Stat.id r =? Stat.id st) rows)) = Some (values row).
Proof.
  intros Hin. rewrite DbFacts.first_map.
  destruct (proj2 (first_select (fun r => Stat.id r =? Stat.id st) rows)) as [row Hr].
  - exists st. split; [assumption|apply Z.eqb_refl].
  - exists row. now rewrite Hr.
Qed.

(** [updateUserStats] of [DatabaseStorage] never takes its [undefined]
    branch. *)
Lemma DatabaseStorage_updateUserStats_returns (w : World DatabaseStorage.t) U upd :
  exists r w', updateUserStats U upd w = (Val r, w').
Proof.
  change (updateUserStats U upd w) with (DatabaseStorage.updateUserStats U upd w).
  unfold DatabaseStorage.updateUserStats, bind, DatabaseStorage.getUserStats, gets,
    newDate, getS, putS, ret.
  cbv beta.
  destruct (DatabaseStorage.first _) as [st|] eqn:E.
  - cbn [storage tick withStorage DatabaseStorage.stats DatabaseStorage.setStats].
    apply first_select_Some in E as [Hin _].
    destruct (db_update_selects _
                (DatabaseStorage.newValues st upd (clock w (clockReads w))) st Hin)
      as [row Hrow].
    rewrite Hrow. eexists _, _. reflexivity.
  - rewrite DbFacts.db_createUserStats_run.
    cbn [storage tick withStorage DatabaseStorage.stats DatabaseStorage.setStats
         DatabaseStorage.bumpStats DatabaseStorage.setSequences clock clockReads].
    match goal with
    | |- context [DatabaseStorage.selectWhere (fun r => Stat.id r =? Stat.id ?z) ?rows] =>
        destruct (db_update_selects rows
                    (DatabaseStorage.newValues z upd (clock w (S (clockReads w)))) z)
          as [row Hrow]; [apply in_or_app; right; now left|]
    end.
    rewrite Hrow. eexists _, _. reflexivity.
Qed.

Lemma DatabaseStorage_lawful : Lawful DatabaseStorage.t.
Proof.
  constructor; try (intros; eexists; reflexivity);
    try (intros; do 2 eexists; cbn; reflexivity).
  intros U upd w. apply DatabaseStorage_updateUserStats_returns.
Qed.

(** ** What a successful answer tells *)

(** From the status of the answer back to the path that was taken, for
    any lawful implementation. *)

Section HandlerOutcomes.
Context {St : Type} `{IStorage St} (L : Lawful St).

Lemma shareHandler_created user F email perm w resp w' :
  shareHandler (Some user) F email perm w = (resp, w') ->
  status resp = 201 ->
  exists file recipient p share w1 st,
    perm = JStr p /\
    getFile F w = (Val (Some file), w) /\
    File.ownerId file = User.id user /\
    getUserByEmail email w = (Val (Some recipient), w) /\
    createFileShare (InsertFileShare.mk F (User.id recipient) p) w = (Val share, w1) /\
    updateUserStats (User.id user) (StatUpdates.mk None (Some 1) None None) w1
      = (Val st, w') /\
    resp = json 201 (BFileShare share).
Proof.
  intros Hh Hs.
  destruct (getFile_reads L F w) as [[file|] Hf].
  2:{ rewrite (shareHandler_no_file user F email perm w Hf) in Hh.
      injection Hh as <- <-. discriminate. }
  destruct (Z.eq_dec (File.ownerId file) (User.id user)) as [Ho|Ho].
  2:{ rewrite (shareHandler_denied user F email perm w file Hf Ho) in Hh.
      injection Hh as <- <-. discriminate. }
  destruct (getUserByEmail_reads L email w) as [[recipient|] Hr].
  2:{ rewrite (shareHandler_no_recipient user F email perm w file Hf Ho Hr) in Hh.
      injection Hh as <- <-. discriminate. }
  assert (Hp : (exists p, perm = JStr p) \/ (forall p, perm <> JStr p)).
  { destruct perm; try (right; intros p; discriminate). left. now eexists. }
  destruct Hp as [[p ->]|Hp].
  2:{ rewrite (shareHandler_invalid user F email perm w file recipient Hf Ho Hr Hp) in Hh.
      injection Hh as <- <-. discriminate. }
  destruct (createFileShare_returns L (InsertFileShare.mk F (User.id recipient) p) w)
    as [share [w1 Hc]].
  destruct (updateUserStats_returns L (User.id user)
              (StatUpdates.mk None (Some 1) None None) w1) as [st [w2 Hu]].
  rewrite (shareHandler_granted user F email p w file recipient share w1 st w2
             Hf Ho Hr Hc Hu) in Hh.
  injection Hh as <- <-.
  exists file, recipient, p, share, w1, st. repeat split; assumption.
Qed.

Lemma downloadHandler_succeeded user F w resp w' :
  downloadHandler (Some user) F w = (resp, w') ->
  status resp = 200 ->
  exists file data st w1 tx,
    getFile F w = (Val (Some file), w) /\
    checkFileAccess (File.id file) (User.id user) w = (Val true, w) /\
    retrieveFile (File.cid file) w = (Val data, w) /\
    updateUserStats (File.ownerId file) (StatUpdates.mk None None None (Some 1)) w
      = (Val st, w1) /\
    logTransaction
      (InsertTransaction.mk ("tx_" ++ showZ (clock w1 (clockReads w1)))%string
         (File.cid file) (Some (File.id file)) "retrieve" "confirmed" MetaEmpty)
      (tick w1) = (Val tx, w') /\
    resp = json 200 (BDownload data (File.encryptionKey file) (File.name file)
                       (File.type file)).
Proof.
  intros Hh Hs.
  destruct (getFile_reads L F w) as [[file|] Hf].
  2:{ rewrite (downloadHandler_no_file user F w Hf) in Hh.
      injection Hh as <- <-. discriminate. }
  destruct (checkFileAccess_reads L (File.id file) (User.id user) w) as [[|] Ha].
  2:{ rewrite (downloadHandler_denied user F w file Hf Ha) in Hh.
      injection Hh as <- <-. discriminate. }
  assert (Hd : (exists data, retrieveFile (St:=St) (File.cid file) w = (Val data, w))
               \/ (exists e, retrieveFile (St:=St) (File.cid file) w = (Throw e, w))).
  { unfold retrieveFile.
    destruct (JsMap.get (File.cid file) (storedFiles w)) as [data|];
      [destruct (data =? "")%string|]; eauto. }
  destruct Hd as [[data Hd]|[e Hd]].
  2:{ rewrite (downloadHandler_lost user F w file e Hf Ha Hd) in Hh.
      injection Hh as <- <-. discriminate. }
  destruct (updateUserStats_returns L (File.ownerId file)
              (StatUpdates.mk None None None (Some 1)) w) as [st [w1 Hu]].
  destruct (logTransaction_returns L
              (InsertTransaction.mk ("tx_" ++ showZ (clock w1 (clockReads w1)))%string
                 (File.cid file) (Some (File.id file)) "retrieve" "confirmed" MetaEmpty)
              (tick w1)) as [tx [w2 Hl]].
  rewrite (downloadHandler_served user F w file data st w1 tx w2 Hf Ha Hd Hu Hl) in Hh.
  injection Hh as <- <-.
  exists file, data, st, w1, tx. repeat split; assumption.
Qed.


End HandlerOutcomes.

(** ** The access check *)

(** C1.  [checkFileAccess(F, U)] answers [true] when the file [F] exists and
    [U] owns it; when the file exists and [U] does not own it, it answers
    [true] exactly when some [FileShare] row has [fileId = F] and
    [userId = U], whatever the permission of that row; and it answers
    [false] for every [U] when there is no file [F].  It changes nothing.
    This holds of [MemStorage] and of [DatabaseStorage]. *)
Theorem checkFileAccess_policy :
  (forall (w : World MemStorage.t) (F U : Z),
      (forall file, outcome (getFile F) w = Val (Some file) ->
                    File.ownerId file = U ->
                    checkFileAccess F U w = (Val true, w)) /\
      (forall file, outcome (getFile F) w = Val (Some file) ->
                    File.ownerId file <> U ->
                    exists b, checkFileAccess F U w = (Val b, w) /\
                      (b = true <->
                       exists share, In share (MemStorage.fileShareRows (storage w)) /\
                                     FileShare.fileId share = F /\
                                     FileShare.userId share = U)) /\
      (outcome (getFile F) w = Val None ->
       checkFileAccess F U w = (Val false, w)))
  /\
  (forall (w : World DatabaseStorage.t) (F U : Z),
      (forall file, outcome (getFile F) w = Val (Some file) ->
                    File.ownerId file = U ->
                    checkFileAccess F U w = (Val true, w)) /\
      (forall file, outcome (getFile F) w = Val (Some file) ->
                    File.ownerId file <> U ->
                    exists b, checkFileAccess F U w = (Val b, w) /\
                      (b = true <->
                       exists share, In share (DatabaseStorage.fileShares (storage w)) /\
                                     FileShare.fileId share = F /\
                                     FileShare.userId share = U)) /\
      (outcome (getFile F) w = Val None ->
       checkFileAccess F U w = (Val false, w))).
Proof.
  split; intros w F U.
  - cbn. unfold MemStorage.checkFileAccess, MemStorage.getFile, gets, outcome.
    cbn. destruct (JsMap.get F (MemStorage.filesMap (storage w))) as [f|];
      (split; [|split]).
    + intros file Hf Ho. injection Hf as <-. cbn in Ho.
      apply Z.eqb_eq in Ho. now rewrite Ho.
    + intros file Hf Ho. injection Hf as <-. cbn in Ho.
      apply Z.eqb_neq in Ho. rewrite Ho. eexists. split; [reflexivity|].
      rewrite existsb_iff. unfold MemStorage.fileShareRows.
      split; intros [sh [Hin Hm]]; exists sh; split; auto;
        now apply share_matches.
    + discriminate.
    + discriminate.
    + discriminate.
    + reflexivity.
  - cbn. unfold DatabaseStorage.checkFileAccess, DatabaseStorage.getFile, gets, outcome.
    cbn.
    destruct (DatabaseStorage.first
                (DatabaseStorage.selectWhere (fun f => FileRow.id f =? F)
                   (DatabaseStorage.files (storage w)))) as [f|];
      (split; [|split]).
    + intros file Hf Ho. injection Hf as <-. cbn in Ho.
      apply Z.eqb_eq in Ho. now rewrite Ho.
    + intros file Hf Ho. injection Hf as <-. cbn in Ho.
      apply Z.eqb_neq in Ho. rewrite Ho. eexists. split; [reflexivity|].
      split.
      * intros Hb.
        destruct (DatabaseStorage.first _) as [sh|] eqn:E; [|discriminate].
        apply first_select_Some in E as [Hin Hm].
        exists sh. split; [assumption|]. now apply share_matches.
      * intros [sh [Hin Hm]].
        destruct (DatabaseStorage.first _) as [sh'|] eqn:E; [reflexivity|].
        apply (first_select_None _ _ E) in Hin.
        apply share_matches in Hm. congruence.
    + discriminate.
    + discriminate.
    + discriminate.
    + reflexivity.
Qed.

(** ** A grant gives access *)

(** [updateUserStats] touches the statistics and their counter only. *)
Lemma mem_updateUserStats_frame (w : World MemStorage.t) U upd :
  let s := storage w in
  let s' := storage (after (updateUserStats U upd) w) in
  MemStorage.usersMap s' = MemStorage.usersMap s /\
  MemStorage.filesMap s' = MemStorage.filesMap s /\
  MemStorage.fileSharesMap s' = MemStorage.fileSharesMap s /\
  MemStorage.shareLinksMap s' = MemStorage.shareLinksMap s /\
  MemStorage.transactionsMap s' = MemStorage.transactionsMap s.
Proof.
  unfold after. expose.
  destruct (JsMap.get U (MemStorage.statsMap (storage w))) as [st|] eqn:E.
  - rewrite (MemFacts.updateUserStats_found w U upd st E). cbn. tauto.
  - rewrite (MemFacts.updateUserStats_missing w U upd E). cbn. tauto.
Qed.

Lemma db_updateUserStats_frame (w : World DatabaseStorage.t) U upd :
  let d := storage w in
  let d' := storage (after (updateUserStats U upd) w) in
  DatabaseStorage.users d' = DatabaseStorage.users d /\
  DatabaseStorage.files d' = DatabaseStorage.files d /\
  DatabaseStorage.fileShares d' = DatabaseStorage.fileShares d /\
  DatabaseStorage.shareLinks d' = DatabaseStorage.shareLinks d /\
  DatabaseStorage.transactions d' = DatabaseStorage.transactions d.
Proof.
  unfold after.
  change (updateUserStats U upd w) with (DatabaseStorage.updateUserStats U upd w).
  unfold DatabaseStorage.updateUserStats, bind, DatabaseStorage.getUserStats, gets,
    newDate, getS, putS, ret.
  cbv beta.
  destruct (DatabaseStorage.first _) as [st|].
  - cbn [storage tick withStorage DatabaseStorage.stats DatabaseStorage.setStats].
    destruct (DatabaseStorage.first _); cbn; tauto.
  - rewrite DbFacts.db_createUserStats_run.
    cbn [storage tick withStorage DatabaseStorage.stats DatabaseStorage.setStats
         DatabaseStorage.bumpStats DatabaseStorage.setSequences clock clockReads].
    destruct (DatabaseStorage.first _); cbn; tauto.
Qed.

(** The access check reads the files and the grants, nothing else. *)
Lemma mem_checkFileAccess_frame (w w' : World MemStorage.t) F U :
  MemStorage.filesMap (storage w') = MemStorage.filesMap (storage w) ->
  MemStorage.fileSharesMap (storage w') = MemStorage.fileSharesMap (storage w) ->
  outcome (checkFileAccess F U) w' = outcome (checkFileAccess F U) w.
Proof.
  intros Hf Hs. cbn. unfold MemStorage.checkFileAccess, gets, outcome. cbn.
  now rewrite Hf, Hs.
Qed.

Lemma db_checkFileAccess_frame (w w' : World DatabaseStorage.t) F U :
  DatabaseStorage.files (storage w') = DatabaseStorage.files (storage w) ->
  DatabaseStorage.fileShares (storage w') = DatabaseStorage.fileShares (storage w) ->
  outcome (checkFileAccess F U) w' = outcome (checkFileAccess F U) w.
Proof.
  intros Hf Hs. cbn. unfold DatabaseStorage.checkFileAccess, gets, outcome. cbn.
  now rewrite Hf, Hs.
Qed.

Lemma mem_access_after_grant (w : World MemStorage.t) F U permission file :
  outcome (getFile F) w = Val (Some file) ->
  let w' := after (createFileShare (InsertFileShare.mk F U permission)) w in
  checkFileAccess F U w' = (Val true, w').
Proof.
  intros Hf w'. subst w'. unfold after. expose.
  rewrite MemFacts.createFileShare_run.
  cbn in Hf. unfold MemStorage.getFile, gets, outcome in Hf. cbn in Hf.
  cbn. unfold MemStorage.checkFileAccess, gets. cbn.
  destruct (JsMap.get F (MemStorage.filesMap (storage w))) as [f|]; [|discriminate].
  destruct (File.ownerId f =? U); [reflexivity|].
  match goal with
  | |- (Val (existsb ?p ?l), _) = _ => assert (He : existsb p l = true)
  end.
  { apply existsb_exists. eexists. split; [apply In_values_set|].
    cbn. now rewrite !Z.eqb_refl. }
  now rewrite He.
Qed.

Lemma db_access_after_grant (w : World DatabaseStorage.t) F U permission file :
  outcome (getFile F) w = Val (Some file) ->
  let w' := after (createFileShare (InsertFileShare.mk F U permission)) w in
  checkFileAccess F U w' = (Val true, w').
Proof.
  intros Hf w'. subst w'. unfold after. expose.
  rewrite DbFacts.db_createFileShare_run.
  cbn in Hf. unfold DatabaseStorage.getFile, gets, outcome in Hf. cbn in Hf.
  cbn. unfold DatabaseStorage.checkFileAccess, gets. cbn.
  destruct (DatabaseStorage.first
              (DatabaseStorage.selectWhere (fun f => FileRow.id f =? F)
                 (DatabaseStorage.files (storage w)))) as [f|]; [|discriminate].
  destruct (FileRow.ownerId f =? U); [reflexivity|].
  match goal with
  | |- (Val (match DatabaseStorage.first (DatabaseStorage.selectWhere ?p ?rows) with
             | Some _ => true | None => false end), _) = _ =>
      destruct (proj2 (first_select p rows)) as [sh Hsh]
  end.
  { eexists. split; [apply in_or_app; right; now left|].
    cbn. now rewrite !Z.eqb_refl. }
  now rewrite Hsh.
Qed.

(** C2.  Once [createFileShare] has inserted a grant with [fileId = F] and
    [userId = U] for an existing file [F], with any permission,
    [checkFileAccess(F, U)] on the resulting state answers [true]; and when
    POST /files/share answers 201 with a grant, the access check of that
    grant's user on that file answers [true] in the state the handler
    leaves.  This holds of [MemStorage] and of [DatabaseStorage]. *)
Theorem grant_gives_access :
  (forall (w : World MemStorage.t) (F U : Z) (permission : string) file,
      outcome (getFile F) w = Val (Some file) ->
      let w' := after (createFileShare (InsertFileShare.mk F U permission)) w in
      checkFileAccess F U w' = (Val true, w'))
  /\
  (forall (w : World DatabaseStorage.t) (F U : Z) (permission : string) file,
      outcome (getFile F) w = Val (Some file) ->
      let w' := after (createFileShare (InsertFileShare.mk F U permission)) w in
      checkFileAccess F U w' = (Val true, w'))
  /\
  (forall (w w' : World MemStorage.t) user F email permission share,
      shareHandler (Some user) F email permission w
      = (json 201 (BFileShare share), w') ->
      FileShare.fileId share = F /\
      checkFileAccess F (FileShare.userId share) w' = (Val true, w'))
  /\
  (forall (w w' : World DatabaseStorage.t) user F email permission share,
      shareHandler (Some user) F email permission w
      = (json 201 (BFileShare share), w') ->
      FileShare.fileId share = F /\
      checkFileAccess F (FileShare.userId share) w' = (Val true, w')).
Proof.
  split; [exact mem_access_after_grant|].
  split; [exact db_access_after_grant|].
  split.
  - intros w w' user F email permission share Hh.
    destruct (shareHandler_created MemStorage_lawful user F email permission w _ _
                Hh eq_refl)
      as (file & recipient & p & share' & w1 & st & -> & Hf & Ho & Hr & Hc & Hu & Hresp).
    injection Hresp as ->.
    assert (Hw1 : w1 = after (createFileShare
                                (InsertFileShare.mk F (User.id recipient) p)) w)
      by (unfold after; now rewrite Hc).
    assert (Hsh : share' = FileShare.mk
                    (MemStorage.fileShares (MemStorage.currentId (storage w)))
                    F (User.id recipient) p (clock w (clockReads w))).
    { expose. rewrite MemFacts.createFileShare_run in Hc. now injection Hc as <- _. }
    split; [now rewrite Hsh|].
    assert (Ha : checkFileAccess F (User.id recipient) w1 = (Val true, w1)).
    { rewrite Hw1. apply mem_access_after_grant with file.
      unfold outcome. now rewrite Hf. }
    assert (Hw' : w' = after (updateUserStats (User.id user)
                                (StatUpdates.mk None (Some 1) None None)) w1)
      by (unfold after; now rewrite Hu).
    rewrite Hsh. cbn [FileShare.userId].
    rewrite (run_eq (checkFileAccess F (User.id recipient)) w'). f_equal.
    + rewrite Hw'.
      destruct (mem_updateUserStats_frame w1 (User.id user)
                  (StatUpdates.mk None (Some 1) None None)) as (_ & Hfm & Hsm & _).
      rewrite (mem_checkFileAccess_frame _ _ F (User.id recipient) Hfm Hsm).
      unfold outcome. now rewrite Ha.
  - intros w w' user F email permission share Hh.
    destruct (shareHandler_created DatabaseStorage_lawful user F email permission w _ _
                Hh eq_refl)
      as (file & recipient & p & share' & w1 & st & -> & Hf & Ho & Hr & Hc & Hu & Hresp).
    injection Hresp as ->.
    assert (Hw1 : w1 = after (createFileShare
                                (InsertFileShare.mk F (User.id recipient) p)) w)
      by (unfold after; now rewrite Hc).
    assert (Hsh : share' = FileShare.mk
                    (DatabaseStorage.file_shares_id_seq
                       (DatabaseStorage.sequences (storage w)))
                    F (User.id recipient) p (clock w (clockReads w))).
    { expose. rewrite DbFacts.db_createFileShare_run in Hc. now injection Hc as <- _. }
    split; [now rewrite Hsh|].
    assert (Ha : checkFileAccess F (User.id recipient) w1 = (Val true, w1)).
    { rewrite Hw1. apply db_access_after_grant with file.
      unfold outcome. now rewrite Hf. }
    assert (Hw' : w' = after (updateUserStats (User.id user)
                                (StatUpdates.mk None (Some 1) None None)) w1)
      by (unfold after; now rewrite Hu).
    rewrite Hsh. cbn [FileShare.userId].
    rewrite (run_eq (checkFileAccess F (User.id recipient)) w'). f_equal.
    + rewrite Hw'.
      destruct (db_updateUserStats_frame w1 (User.id user)
                  (StatUpdates.mk None (Some 1) None None)) as (_ & Hfm & Hsm & _).
      rewrite (db_checkFileAccess_frame _ _ F (User.id recipient) Hfm Hsm).
      unfold outcome. now rewrite Ha.
Qed.

(** ** Deleting a file *)

Lemma keyed_ids_match {V} (idOf : V -> Z) next (m : JsMap.t Z V) :
  MemStorage.keyed idOf next m -> Forall (fun e => idOf (snd e) = fst e) m.
Proof.
  intros [_ Hall]. eapply Forall_impl; [|exact Hall]. simpl. tauto.
Qed.

Lemma first_select_delete_eq {A} (idOf : A -> Z) F (rows : list A) :
  DatabaseStorage.first
    (DatabaseStorage.selectWhere (fun r => idOf r =? F)
       (DatabaseStorage.deleteWhere (fun r => idOf r =? F) rows)) = None.
Proof.
  unfold DatabaseStorage.selectWhere, DatabaseStorage.deleteWhere.
  rewrite filter_filter.
  replace (filter (fun x => negb (idOf x =? F) && (idOf x =? F)) rows) with (@nil A);
    [reflexivity|].
  symmetry. induction rows as [|x r IH]; simpl; [reflexivity|].
  destruct (idOf x =? F); simpl; assumption.
Qed.

Lemma select_delete_ne {A} (idOf : A -> Z) F G (rows : list A) :
  G <> F ->
  DatabaseStorage.selectWhere (fun r => idOf r =? G)
    (DatabaseStorage.deleteWhere (fun r => idOf r =? F) rows)
  = DatabaseStorage.selectWhere (fun r => idOf r =? G) rows.
Proof.
  intros Hne. unfold DatabaseStorage.selectWhere, DatabaseStorage.deleteWhere.
  rewrite filter_filter. apply filter_ext. intros x.
  destruct (Z.eqb_spec (idOf x) G) as [->|]; [|now rewrite andb_false_r].
  apply Z.eqb_neq in Hne. now rewrite Hne.
Qed.

(** What [deleteFile] of [MemStorage] does, under the invariant. *)
Lemma mem_deleteFile_effect :
  forall (w : World MemStorage.t) (F : Z),
      MemStorage.Inv (storage w) ->
      let w' := after (deleteFile F) w in
      outcome (deleteFile F) w = Val tt /\
      outcome (getFile F) w' = Val None /\
      (forall G, G <> F -> outcome (getFile G) w' = outcome (getFile G) w) /\
      MemStorage.fileShareRows (storage w')
      = filter (fun share => negb (FileShare.fileId share =? F))
               (MemStorage.fileShareRows (storage w)) /\
      MemStorage.shareLinkRows (storage w')
      = filter (fun link => negb (ShareLink.fileId link =? F))
               (MemStorage.shareLinkRows (storage w)) /\
      MemStorage.transactionsMap (storage w')
      = MemStorage.transactionsMap (storage w).
Proof.
  intros w F HInv w'. subst w'. unfold after, outcome. expose.
  rewrite MemFacts.deleteFile_run.
  destruct HInv as (_ & _ & Hsh & Hl & _).
  cbn [fst snd storage withStorage].
  split; [reflexivity|]. split; [|split; [|split; [|split]]].
  + unfold MemStorage.getFile, gets. cbn [fst storage withStorage MemStorage.filesMap].
    now rewrite get_delete_eq.
  + intros G Hne. unfold MemStorage.getFile, gets.
    cbn [fst storage withStorage MemStorage.filesMap].
    rewrite get_delete_ne by congruence. reflexivity.
  + unfold MemStorage.fileShareRows. cbn [MemStorage.fileSharesMap].
    rewrite (cascade_delete FileShare.id (fun share => FileShare.fileId share =? F));
      [|exact (proj1 Hsh)|exact (keyed_ids_match _ _ _ Hsh)].
    apply (values_filter (fun share => negb (FileShare.fileId share =? F))).
  + unfold MemStorage.shareLinkRows. cbn [MemStorage.shareLinksMap].
    rewrite (cascade_delete ShareLink.id (fun link => ShareLink.fileId link =? F));
      [|exact (proj1 Hl)|exact (keyed_ids_match _ _ _ Hl)].
    apply (values_filter (fun link => negb (ShareLink.fileId link =? F))).
  + reflexivity.
Qed.

(** What [deleteFile] of [DatabaseStorage] does to a file that no
    transaction refers to. *)
Lemma db_deleteFile_effect :
  forall (w : World DatabaseStorage.t) (F : Z),
      ~ In (Some F) (map Transaction.fileId (DatabaseStorage.transactions (storage w))) ->
      let w' := after (deleteFile F) w in
      outcome (deleteFile F) w = Val tt /\
      outcome (getFile F) w' = Val None /\
      (forall G, G <> F -> outcome (getFile G) w' = outcome (getFile G) w) /\
      DatabaseStorage.fileShares (storage w')
      = filter (fun share => negb (FileShare.fileId share =? F))
               (DatabaseStorage.fileShares (storage w)) /\
      DatabaseStorage.shareLinks (storage w')
      = filter (fun link => negb (ShareLink.fileId link =? F))
               (DatabaseStorage.shareLinks (storage w)) /\
      DatabaseStorage.transactions (storage w')
      = DatabaseStorage.transactions (storage w).
Proof.
  intros w F Hfree w'. subst w'. unfold after, outcome. expose.
  rewrite DbFacts.db_deleteFile_run
    by (rewrite (DbFacts.unreferenced F _ Hfree); apply andb_false_r).
  cbn [fst snd storage withStorage].
  split; [reflexivity|]. split; [|split; [|split; [|split]]].
  + unfold DatabaseStorage.getFile, gets.
    cbn [fst storage withStorage DatabaseStorage.files].
    now rewrite (first_select_delete_eq FileRow.id).
  + intros G Hne. unfold DatabaseStorage.getFile, gets.
    cbn [fst storage withStorage DatabaseStorage.files].
    rewrite (select_delete_ne FileRow.id) by assumption. reflexivity.
  + reflexivity.
  + reflexivity.
  + reflexivity.
Qed.

(** *** What [getUserTransactions] returns afterwards *)

Lemma In_insertSorted {A} (cmp : A -> A -> Z) x y (l : list A) :
  In y (insertSorted cmp x l) <-> y = x \/ In y l.
Proof.
  induction l as [|z r IH]; simpl; [intuition auto|].
  destruct (cmp x z <=? 0); simpl; [intuition auto|].
  rewrite IH. intuition auto.
Qed.

Lemma In_sortBy {A} (cmp : A -> A -> Z) y (l : list A) :
  In y (sortBy cmp l) <-> In y l.
Proof.
  unfold sortBy. induction l as [|x r IH]; simpl; [tauto|].
  rewrite In_insertSorted, IH. intuition auto.
Qed.

(** After [deleteFile(F)], [getUserTransactions] of [MemStorage] returns
    no transaction of the file [F], whoever asks. *)
Lemma mem_deleted_unlisted (w : World MemStorage.t) (F userId : Z) :
  MemStorage.Inv (storage w) ->
  exists listed,
    outcome (getUserTransactions userId) (after (deleteFile F) w) = Val listed /\
    forall tx, In tx listed -> Transaction.fileId tx <> Some F.
Proof.
  intros HInv. unfold after, outcome. expose.
  rewrite MemFacts.deleteFile_run.
  destruct HInv as (_ & Hf & _).
  cbn [fst snd storage withStorage].
  unfold MemStorage.getUserTransactions, gets.
  cbn [fst storage withStorage MemStorage.filesMap MemStorage.transactionsMap].
  eexists; split; [reflexivity|].
  intros tx Hin Hfile. apply In_sortBy, filter_In in Hin.
  destruct Hin as [_ Hinc]. rewrite Hfile in Hinc. simpl in Hinc.
  apply andb_true_iff in Hinc. destruct Hinc as [_ Hex].
  apply existsb_exists in Hex. destruct Hex as (g & Hg & Heq).
  apply Z.eqb_eq in Heq. subst g.
  apply in_map_iff in Hg. destruct Hg as (file & Hid & Hfl).
  apply filter_In in Hfl. destruct Hfl as [Hfl _].
  apply In_values in Hfl. destruct Hfl as [k Hk].
  apply In_delete in Hk. destruct Hk as [Hk Hne]. simpl in Hne.
  pose proof (keyed_ids_match _ _ _ Hf) as Hids.
  rewrite Forall_forall in Hids. specialize (Hids _ Hk). simpl in Hids.
  congruence.
Qed.

(** The same of [DatabaseStorage], for a file that no transaction refers
    to. *)
Lemma db_deleted_unlisted (w : World DatabaseStorage.t) (F userId : Z) :
  ~ In (Some F) (map Transaction.fileId (DatabaseStorage.transactions (storage w))) ->
  exists listed,
    outcome (getUserTransactions userId) (after (deleteFile F) w) = Val listed /\
    forall tx, In tx listed -> Transaction.fileId tx <> Some F.
Proof.
  intros Hfree. unfold after, outcome. expose.
  rewrite DbFacts.db_deleteFile_run
    by (rewrite (DbFacts.unreferenced F _ Hfree); apply andb_false_r).
  cbn [fst snd storage withStorage].
  unfold DatabaseStorage.getUserTransactions, gets.
  cbn [fst storage withStorage DatabaseStorage.files DatabaseStorage.transactions].
  eexists; split; [reflexivity|].
  intros tx Hin Hfile.
  set (mine := DatabaseStorage.selectWhere _ _) in Hin.
  assert (Hmine : forall file, In file mine -> FileRow.id file <> F).
  { intros file Hf. unfold mine, DatabaseStorage.selectWhere,
      DatabaseStorage.deleteWhere in Hf.
    apply filter_In in Hf. destruct Hf as [Hf _].
    apply filter_In in Hf. destruct Hf as [_ Hne].
    apply negb_true_iff, Z.eqb_neq in Hne. exact Hne. }
  destruct mine as [|file0 rest]; [destruct Hin|].
  apply In_sortBy, in_flat_map in Hin. destruct Hin as (file & Hfile' & Htx).
  unfold DatabaseStorage.selectWhere in Htx. apply filter_In in Htx.
  destruct Htx as [_ Hc]. rewrite Hfile in Hc. apply Z.eqb_eq in Hc.
  apply (Hmine file Hfile'). congruence.
Qed.

(** C3.  [deleteFile(F)] removes the file row [F] (the other files stay
    as they are), removes every [FileShare] row and every [ShareLink] row
    whose [fileId] is [F] and no other, and leaves the transactions
    untouched: in [MemStorage] those that refer to [F] remain stored, now
    with a dangling reference, but [getUserTransactions], the one method
    that reads them, lists the transactions of the files that exist and
    returns none of the file [F] any more, whoever asks.  For
    [MemStorage] this is under the invariant of the class; for
    [DatabaseStorage] it is stated of a file that no transaction refers
    to, where the engine accepts the three [delete] statements. *)
Theorem deleteFile_cascade :
  (forall (w : World MemStorage.t) (F : Z),
      MemStorage.Inv (storage w) ->
      let w' := after (deleteFile F) w in
      outcome (deleteFile F) w = Val tt /\
      outcome (getFile F) w' = Val None /\
      (forall G, G <> F -> outcome (getFile G) w' = outcome (getFile G) w) /\
      MemStorage.fileShareRows (storage w')
      = filter (fun share => negb (FileShare.fileId share =? F))
               (MemStorage.fileShareRows (storage w)) /\
      MemStorage.shareLinkRows (storage w')
      = filter (fun link => negb (ShareLink.fileId link =? F))
               (MemStorage.shareLinkRows (storage w)) /\
      MemStorage.transactionsMap (storage w')
      = MemStorage.transactionsMap (storage w) /\
      (forall userId, exists listed,
          outcome (getUserTransactions userId) w' = Val listed /\
          forall tx, In tx listed -> Transaction.fileId tx <> Some F))
  /\
  (forall (w : World DatabaseStorage.t) (F : Z),
      ~ In (Some F) (map Transaction.fileId
                       (DatabaseStorage.transactions (storage w))) ->
      let w' := after (deleteFile F) w in
      outcome (deleteFile F) w = Val tt /\
      outcome (getFile F) w' = Val None /\
      (forall G, G <> F -> outcome (getFile G) w' = outcome (getFile G) w) /\
      DatabaseStorage.fileShares (storage w')
      = filter (fun share => negb (FileShare.fileId share =? F))
               (DatabaseStorage.fileShares (storage w)) /\
      DatabaseStorage.shareLinks (storage w')
      = filter (fun link => negb (ShareLink.fileId link =? F))
               (DatabaseStorage.shareLinks (storage w)) /\
      DatabaseStorage.transactions (storage w')
      = DatabaseStorage.transactions (storage w) /\
      (forall userId, exists listed,
          outcome (getUserTransactions userId) w' = Val listed /\
          forall tx, In tx listed -> Transaction.fileId tx <> Some F)).
Proof.
  split.
  - intros w F HInv w'.
    destruct (mem_deleteFile_effect w F HInv) as (Hr & Hgone & Hrest & Hsh & Hl & Htx).
    do 6 (split; [assumption|]).
    intros userId. exact (mem_deleted_unlisted w F userId HInv).
  - intros w F Hfree w'.
    destruct (db_deleteFile_effect w F Hfree) as (Hr & Hgone & Hrest & Hsh & Hl & Htx).
    do 6 (split; [assumption|]).
    intros userId. exact (db_deleted_unlisted w F userId Hfree).
Qed.

(** ** Adjusting the statistics *)

Lemma first_select_update (u : Z) (cond : Stat.t -> bool) (values : Stat.t -> Stat.t)
  (rows : list Stat.t) :
  (forall r, Stat.userId (values r) = Stat.userId r) ->
  DatabaseStorage.first
    (DatabaseStorage.selectWhere (fun st => Stat.userId st =? u)
       (DatabaseStorage.updateWhere cond values rows))
  = option_map (fun r => if cond r then values r else r)
      (DatabaseStorage.first
         (DatabaseStorage.selectWhere (fun st => Stat.userId st =? u) rows)).
Proof.
  intros Hkeep.
  unfold DatabaseStorage.first, DatabaseStorage.selectWhere, DatabaseStorage.updateWhere.
  induction rows as [|x r IH]; simpl; [reflexivity|].
  assert (Hx : Stat.userId (if cond x then values x else x) = Stat.userId x)
    by (destruct (cond x); auto).
  rewrite Hx. destruct (Stat.userId x =? u); simpl; [reflexivity|exact IH].
Qed.

Lemma first_select_app_None {A} (p : A -> bool) (rows : list A) z :
  DatabaseStorage.first (DatabaseStorage.selectWhere p rows) = None ->
  p z = true ->
  DatabaseStorage.first (DatabaseStorage.selectWhere p (rows ++ [z])) = Some z.
Proof.
  intros Hn Hz. rewrite DbFacts.select_app_fresh; [reflexivity| |assumption].
  exact (first_select_None _ _ Hn).
Qed.

(** What [updateUserStats] of [MemStorage] does. *)
Lemma mem_updateUserStats_effect :

  forall (w : World MemStorage.t) (userId : Z) (updates : StatUpdates.t),
      let w' := after (updateUserStats userId updates) w in
      exists before r,
        outcome (getUserStats userId) w = Val before /\
        outcome (updateUserStats userId updates) w = Val r /\
        Stat.filesUploaded r
        = Z.max 0 (filesUploadedOf before + orZero (StatUpdates.filesUploaded updates)) /\
        Stat.filesShared r
        = Z.max 0 (filesSharedOf before + orZero (StatUpdates.filesShared updates)) /\
        Stat.storageUsed r
        = Z.max 0 (storageUsedOf before + orZero (StatUpdates.storageUsed updates)) /\
        Stat.downloads r
        = downloadsOf before + orZero (StatUpdates.downloads updates) /\
        0 <= Stat.filesUploaded r /\ 0 <= Stat.filesShared r /\
        0 <= Stat.storageUsed r /\
        (clockReads w < clockReads w')%nat /\
        Stat.lastUpdated r = clock w (pred (clockReads w')) /\
        outcome (getUserStats userId) w' = Val (Some r) /\
        (before = None ->
         MemStorage.statRows (storage w') = MemStorage.statRows (storage w) ++ [r]).
Proof.
  intros w U upd w'. subst w'. unfold after, outcome. expose.
  destruct (JsMap.get U (MemStorage.statsMap (storage w))) as [st|] eqn:E.
  + rewrite (MemFacts.updateUserStats_found w U upd st E).
    exists (Some st). eexists. cbn [fst snd].
    split; [unfold MemStorage.getUserStats, gets; cbn [fst]; now rewrite E|].
    split; [reflexivity|].
    unfold MemStorage.updatedStat.
    cbn [Stat.filesUploaded Stat.filesShared Stat.storageUsed Stat.downloads
         Stat.lastUpdated filesUploadedOf filesSharedOf storageUsedOf downloadsOf
         clockReads tick withStorage clock pred].
    repeat (split; [reflexivity || lia|]). split.
    * unfold MemStorage.getUserStats, gets.
      cbn [fst storage withStorage MemStorage.statsMap MemStorage.setStatsMap].
      now rewrite get_set_eq.
    * discriminate.
  + rewrite (MemFacts.updateUserStats_missing w U upd E).
    exists None. eexists. cbn [fst snd].
    split; [unfold MemStorage.getUserStats, gets; cbn [fst]; now rewrite E|].
    split; [reflexivity|].
    unfold MemStorage.updatedStat.
    cbn [Stat.filesUploaded Stat.filesShared Stat.storageUsed Stat.downloads
         Stat.lastUpdated filesUploadedOf filesSharedOf storageUsedOf downloadsOf
         clockReads tick withStorage clock pred].
    repeat (split; [reflexivity || lia|]). split.
    * unfold MemStorage.getUserStats, gets.
      cbn [fst storage withStorage MemStorage.statsMap MemStorage.setStatsMap].
      now rewrite get_set_eq.
    * intros _. unfold MemStorage.statRows.
      cbn [storage withStorage MemStorage.statsMap MemStorage.setStatsMap].
      apply get_None_keys in E.
      rewrite (set_fresh U _ _ E).
      assert (Hset : forall (m : JsMap.t Z Stat.t) a b,
                 JsMap.set U b (m ++ [(U, a)]) = m ++ [(U, b)] \/ In U (JsMap.keys m)).
      { induction m as [|[k v] m IH]; intros a b; simpl.
        - left. now rewrite Z.eqb_refl.
        - destruct (Z.eqb_spec U k) as [->|Hne].
          + right. unfold JsMap.keys. simpl. now left.
          + destruct (IH a b) as [->|Hin]; [now left|].
            right. unfold JsMap.keys in *. simpl. now right. }
      match goal with
      | |- JsMap.values (JsMap.set U ?b (?m ++ [(U, ?a)])) = _ =>
          destruct (Hset m a b) as [->|Hin]; [|contradiction]
      end.
      unfold JsMap.values. now rewrite map_app.
Qed.

(** What [updateUserStats] of [DatabaseStorage] does, under the invariant. *)
Lemma db_updateUserStats_effect :
  forall (w : World DatabaseStorage.t) (userId : Z) (updates : StatUpdates.t),
      DatabaseStorage.Inv (storage w) ->
      let w' := after (updateUserStats userId updates) w in
      exists before r,
        outcome (getUserStats userId) w = Val before /\
        outcome (updateUserStats userId updates) w = Val r /\
        Stat.filesUploaded r
        = Z.max 0 (filesUploadedOf before + orZero (StatUpdates.filesUploaded updates)) /\
        Stat.filesShared r
        = Z.max 0 (filesSharedOf before + orZero (StatUpdates.filesShared updates)) /\
        Stat.storageUsed r
        = Z.max 0 (storageUsedOf before + orZero (StatUpdates.storageUsed updates)) /\
        Stat.downloads r
        = downloadsOf before + orZero (StatUpdates.downloads updates) /\
        0 <= Stat.filesUploaded r /\ 0 <= Stat.filesShared r /\
        0 <= Stat.storageUsed r /\
        (clockReads w < clockReads w')%nat /\
        Stat.lastUpdated r = clock w (pred (clockReads w')) /\
        outcome (getUserStats userId) w' = Val (Some r) /\
        (before = None ->
         DatabaseStorage.stats (storage w') = DatabaseStorage.stats (storage w) ++ [r]).
Proof.
  intros w U upd HInv w'. subst w'. unfold after, outcome. expose.
  destruct HInv as (_ & _ & _ & _ & _ & Hst & _).
  destruct (DatabaseStorage.first
              (DatabaseStorage.selectWhere (fun st => Stat.userId st =? U)
                 (DatabaseStorage.stats (storage w)))) as [st|] eqn:E.
  + rewrite (DbFacts.db_updateUserStats_found w U upd st (proj1 Hst) E).
    exists (Some st). eexists. cbn [fst snd].
    split; [unfold DatabaseStorage.getUserStats, gets; cbn [fst]; now rewrite E|].
    split; [reflexivity|].
    unfold DatabaseStorage.newValues at 1 2 3 4 5 6 7 8.
    cbn [Stat.filesUploaded Stat.filesShared Stat.storageUsed Stat.downloads
         Stat.lastUpdated filesUploadedOf filesSharedOf storageUsedOf downloadsOf
         clockReads tick withStorage clock pred].
    repeat (split; [reflexivity || lia|]). split.
    * unfold DatabaseStorage.getUserStats, gets.
      cbn [fst storage withStorage DatabaseStorage.stats DatabaseStorage.setStats].
      rewrite first_select_update by reflexivity. rewrite E. simpl.
      now rewrite Z.eqb_refl.
    * discriminate.
  + rewrite (DbFacts.db_updateUserStats_missing w U upd (DbFacts.serial_fresh _ _ _ Hst) E).
    exists None. eexists. cbn [fst snd].
    split; [unfold DatabaseStorage.getUserStats, gets; cbn [fst]; now rewrite E|].
    split; [reflexivity|].
    unfold DatabaseStorage.newValues at 1 2 3 4 5 6 7 8.
    cbn [Stat.filesUploaded Stat.filesShared Stat.storageUsed Stat.downloads
         Stat.lastUpdated filesUploadedOf filesSharedOf storageUsedOf downloadsOf
         clockReads tick withStorage clock pred].
    repeat (split; [reflexivity || lia|]). split.
    * unfold DatabaseStorage.getUserStats, gets.
      cbn [fst storage withStorage DatabaseStorage.stats DatabaseStorage.setStats
           DatabaseStorage.bumpStats DatabaseStorage.setSequences].
      rewrite first_select_app_None; [reflexivity|assumption|].
      cbn. apply Z.eqb_refl.
    * intros _. reflexivity.
Qed.







(** ** Repeated grants *)

Lemma grantsOf_app F U (rows : list FileShare.t) share :
  FileShare.fileId share = F -> FileShare.userId share = U ->
  grantsOf F U (rows ++ [share]) = grantsOf F U rows ++ [share].
Proof.
  intros Hf Hu. unfold grantsOf. rewrite filter_app. simpl.
  now rewrite Hf, Hu, !Z.eqb_refl.
Qed.

(** One call of [createFileShare] of [MemStorage], under the invariant. *)
Lemma mem_createFileShare_appends (w : World MemStorage.t) d :
  MemStorage.Inv (storage w) ->
  let w' := after (createFileShare d) w in
  exists share,
    outcome (createFileShare d) w = Val share /\
    ~ In (FileShare.id share) (map FileShare.id (MemStorage.fileShareRows (storage w))) /\
    MemStorage.fileShareRows (storage w')
    = MemStorage.fileShareRows (storage w) ++ [share] /\
    FileShare.fileId share = InsertFileShare.fileId d /\
    FileShare.userId share = InsertFileShare.userId d /\
    FileShare.permission share = InsertFileShare.permission d /\
    MemStorage.Inv (storage w').
Proof.
  intros HInv w'.
  assert (HInv' : MemStorage.Inv (storage w'))
    by (apply (MemFacts.Inv_callOp w (OpCreateFileShare d)) in HInv;
        cbn [callOp] in HInv; now rewrite after_forget in HInv).
  subst w'. unfold after, outcome in *. expose.
  rewrite MemFacts.createFileShare_run in *. cbn [fst snd] in *.
  destruct HInv as (_ & _ & Hsh & _).
  pose proof (MemFacts.keyed_fresh _ _ _ Hsh) as Hfresh.
  eexists. split; [reflexivity|].
  split; [|split; [|do 3 (split; [reflexivity|]); exact HInv']].
  - unfold MemStorage.fileShareRows. rewrite (MemFacts.keyed_ids _ _ _ Hsh).
    exact Hfresh.
  - unfold MemStorage.fileShareRows.
    cbn [storage withStorage MemStorage.fileSharesMap MemStorage.setFileSharesMap].
    now apply values_set_fresh.
Qed.

Lemma db_createFileShare_appends (w : World DatabaseStorage.t) d :
  DatabaseStorage.Inv (storage w) ->
  let w' := after (createFileShare d) w in
  exists share,
    outcome (createFileShare d) w = Val share /\
    ~ In (FileShare.id share) (map FileShare.id (DatabaseStorage.fileShares (storage w))) /\
    DatabaseStorage.fileShares (storage w')
    = DatabaseStorage.fileShares (storage w) ++ [share] /\
    FileShare.fileId share = InsertFileShare.fileId d /\
    FileShare.userId share = InsertFileShare.userId d /\
    FileShare.permission share = InsertFileShare.permission d /\
    DatabaseStorage.Inv (storage w').
Proof.
  intros HInv w'.
  assert (HInv' : DatabaseStorage.Inv (storage w'))
    by (apply (DbFacts.db_Inv_callOp w (OpCreateFileShare d)) in HInv;
        cbn [callOp] in HInv; now rewrite after_forget in HInv).
  subst w'. unfold after, outcome in *. expose.
  rewrite DbFacts.db_createFileShare_run in *. cbn [fst snd] in *.
  destruct HInv as (_ & _ & Hsh & _).
  pose proof (DbFacts.serial_fresh _ _ _ Hsh) as Hfresh.
  eexists. split; [reflexivity|].
  split; [exact Hfresh|]. do 4 (split; [reflexivity|]). exact HInv'.
Qed.

(** C5.  [createFileShare] has no check for an existing grant: under the
    invariant, a call for a pair that already has grants returns a new
    row, under an id that no row has yet, and appends it to the table;
    so [n] calls in a row for the same pair all succeed and add [n] rows
    for that pair, and the ids of all the rows stay distinct.  This holds
    of [MemStorage] and of [DatabaseStorage]. *)
Theorem createFileShare_duplicates :
  (forall (w : World MemStorage.t) (d : InsertFileShare.t) (n : nat),
      MemStorage.Inv (storage w) ->
      let F := InsertFileShare.fileId d in
      let U := InsertFileShare.userId d in
      let rows := MemStorage.fileShareRows (storage w) in
      (exists share,
          outcome (createFileShare d) w = Val share /\
          ~ In (FileShare.id share) (map FileShare.id rows) /\
          MemStorage.fileShareRows (storage (after (createFileShare d) w))
          = rows ++ [share] /\
          FileShare.fileId share = F /\ FileShare.userId share = U) /\
      let w' := after (times n (createFileShare d)) w in
      let rows' := MemStorage.fileShareRows (storage w') in
      outcome (times n (createFileShare d)) w = Val tt /\
      List.length (grantsOf F U rows') = (List.length (grantsOf F U rows) + n)%nat /\
      NoDup (map FileShare.id rows'))
  /\
  (forall (w : World DatabaseStorage.t) (d : InsertFileShare.t) (n : nat),
      DatabaseStorage.Inv (storage w) ->
      let F := InsertFileShare.fileId d in
      let U := InsertFileShare.userId d in
      let rows := DatabaseStorage.fileShares (storage w) in
      (exists share,
          outcome (createFileShare d) w = Val share /\
          ~ In (FileShare.id share) (map FileShare.id rows) /\
          DatabaseStorage.fileShares (storage (after (createFileShare d) w))
          = rows ++ [share] /\
          FileShare.fileId share = F /\ FileShare.userId share = U) /\
      let w' := after (times n (createFileShare d)) w in
      let rows' := DatabaseStorage.fileShares (storage w') in
      outcome (times n (createFileShare d)) w = Val tt /\
      List.length (grantsOf F U rows') = (List.length (grantsOf F U rows) + n)%nat /\
      NoDup (map FileShare.id rows')).
Proof.
  split.
  - intros w d n HInv F U rows. split.
    + destruct (mem_createFileShare_appends w d HInv)
        as (share & Ho & Hfresh & Happ & Hf & Hu & _ & _).
      exists share. auto.
    + subst rows. revert w HInv. induction n as [|n IH]; intros w HInv.
      * cbn [times]. unfold after, outcome, ret. cbn [fst snd].
        split; [reflexivity|]. split; [lia|].
        destruct HInv as (_ & _ & Hsh & _). unfold MemStorage.fileShareRows.
        rewrite (MemFacts.keyed_ids _ _ _ Hsh). exact (proj1 Hsh).
      * destruct (mem_createFileShare_appends w d HInv)
          as (share & Ho & _ & Happ & Hf & Hu & _ & HInv').
        destruct (IH _ HInv') as (Hout & Hlen & Hnd).
        cbn [times]. rewrite (after_bind_val _ _ _ _ Ho).
        split; [|split].
        -- rewrite (outcome_bind_val _ _ _ _ Ho). exact Hout.
        -- rewrite Hlen, Happ, (grantsOf_app F U _ share Hf Hu), length_app.
           simpl. lia.
        -- exact Hnd.
  - intros w d n HInv F U rows. split.
    + destruct (db_createFileShare_appends w d HInv)
        as (share & Ho & Hfresh & Happ & Hf & Hu & _ & _).
      exists share. auto.
    + subst rows. revert w HInv. induction n as [|n IH]; intros w HInv.
      * cbn [times]. unfold after, outcome, ret. cbn [fst snd].
        split; [reflexivity|]. split; [lia|].
        destruct HInv as (_ & _ & Hsh & _). exact (proj1 Hsh).
      * destruct (db_createFileShare_appends w d HInv)
          as (share & Ho & _ & Happ & Hf & Hu & _ & HInv').
        destruct (IH _ HInv') as (Hout & Hlen & Hnd).
        cbn [times]. rewrite (after_bind_val _ _ _ _ Ho).
        split; [|split].
        -- rewrite (outcome_bind_val _ _ _ _ Ho). exact Hout.
        -- rewrite Hlen, Happ, (grantsOf_app F U _ share Hf Hu), length_app.
           simpl. lia.
        -- exact Hnd.
Qed.

(** ** Issuing a share link *)












(** ** Reading a share link *)

Lemma find_first {A} (p : A -> bool) (l : list A) x :
  In x l -> p x = true -> exists y, find p l = Some y /\ In y l /\ p y = true.
Proof.
  intros Hin Hp. destruct (find p l) as [y|] eqn:E.
  - exists y. split; [reflexivity|]. now apply find_some in E.
  - apply (find_none _ _ E) in Hin. congruence.
Qed.

Lemma In_filter_negb {A} (p : A -> bool) (l : list A) x :
  In x l -> p x = false -> In x (filter (fun y => negb (p y)) l).
Proof. intros Hin Hp. apply filter_In. now rewrite Hp. Qed.

(** Every call of the interface other than [deleteFile] of the link's
    file keeps a stored link. *)
Lemma mem_links_kept (w : World MemStorage.t) op link :
  MemStorage.Inv (storage w) ->
  In link (MemStorage.shareLinkRows (storage w)) ->
  op <> OpDeleteFile (ShareLink.fileId link) ->
  In link (MemStorage.shareLinkRows (storage (after (callOp op) w))).
Proof.
  intros HInv Hin Hop.
  destruct op; cbn [callOp]; rewrite ?after_forget; try exact Hin.
  - (* deleteFile *)
    destruct (mem_deleteFile_effect w id HInv) as (_ & _ & _ & _ & Hl & _).
    rewrite Hl. apply In_filter_negb; [assumption|].
    apply Z.eqb_neq. intros He. apply Hop. now rewrite He.
  - (* createShareLink *)
    unfold after. expose. rewrite MemFacts.createShareLink_run.
    unfold MemStorage.shareLinkRows in *.
    cbn [snd storage withStorage MemStorage.shareLinksMap MemStorage.setShareLinksMap].
    destruct HInv as (_ & _ & _ & Hl & _).
    rewrite values_set_fresh by exact (MemFacts.keyed_fresh _ _ _ Hl).
    apply in_or_app. now left.
  - (* updateUserStats *)
    unfold MemStorage.shareLinkRows in *.
    destruct (mem_updateUserStats_frame w userId updates) as (_ & _ & _ & Hl & _).
    now rewrite Hl.
Qed.

Lemma db_links_kept (w : World DatabaseStorage.t) op link :
  In link (DatabaseStorage.shareLinks (storage w)) ->
  op <> OpDeleteFile (ShareLink.fileId link) ->
  In link (DatabaseStorage.shareLinks (storage (after (callOp op) w))).
Proof.
  intros Hin Hop.
  destruct op; cbn [callOp]; rewrite ?after_forget; try exact Hin.
  - (* deleteFile *)
    destruct (DbFacts.db_deleteFile_related w id) as (_ & Hl & _).
    change (deleteFile id) with (DatabaseStorage.deleteFile id).
    rewrite Hl. apply In_filter_negb; [assumption|].
    apply Z.eqb_neq. intros He. apply Hop. now rewrite He.
  - (* createShareLink *)
    unfold after. expose. rewrite DbFacts.db_createShareLink_run.
    cbn [snd storage withStorage DatabaseStorage.shareLinks DatabaseStorage.setShareLinks].
    apply in_or_app. now left.
  - (* updateUserStats *)
    destruct (db_updateUserStats_frame w userId updates) as (_ & _ & _ & Hl & _).
    now rewrite Hl.
Qed.

Lemma mem_getShareLink_finds (w : World MemStorage.t) token link :
  In link (MemStorage.shareLinkRows (storage w)) ->
  ShareLink.linkToken link = token ->
  exists found,
    getShareLink token w = (Val (Some found), w) /\
    ShareLink.linkToken found = token /\
    In found (MemStorage.shareLinkRows (storage w)).
Proof.
  intros Hin Htok. expose. unfold MemStorage.getShareLink, gets.
  destruct (find_first (fun l => (ShareLink.linkToken l =? token)%string)
              (JsMap.values (MemStorage.shareLinksMap (storage w))) link Hin)
    as (found & Hfind & Hfin & Hp).
  { now apply String.eqb_eq. }
  exists found. rewrite Hfind. apply String.eqb_eq in Hp. auto.
Qed.

Lemma db_getShareLink_finds (w : World DatabaseStorage.t) token link :
  In link (DatabaseStorage.shareLinks (storage w)) ->
  ShareLink.linkToken link = token ->
  exists found,
    getShareLink token w = (Val (Some found), w) /\
    ShareLink.linkToken found = token /\
    In found (DatabaseStorage.shareLinks (storage w)).
Proof.
  intros Hin Htok. expose. unfold DatabaseStorage.getShareLink, gets.
  destruct (proj2 (first_select (fun l => (ShareLink.linkToken l =? token)%string)
                     (DatabaseStorage.shareLinks (storage w)))) as [found Hfind].
  { exists link. split; [assumption|]. now apply String.eqb_eq. }
  exists found. rewrite Hfind.
  apply first_select_Some in Hfind as [Hfin Hp]. apply String.eqb_eq in Hp. auto.
Qed.

(** C7.  [getShareLink(t)] returns a stored link whose token is [t]
    whenever one is stored (the link itself when the token is unique),
    and changes nothing; its answer depends on the storage alone, not on
    the clock, so a link whose [expiresAt] is long past is returned like
    any other.  And no call of the interface removes a stored link,
    expired or not, except [deleteFile] of the file the link is for.  For
    [MemStorage] the last part is under the invariant of the class. *)
Theorem getShareLink_ignores_expiry :
  ((forall (w : World MemStorage.t) (token : string) link,
       In link (MemStorage.shareLinkRows (storage w)) ->
       ShareLink.linkToken link = token ->
       exists found,
         getShareLink token w = (Val (Some found), w) /\
         ShareLink.linkToken found = token /\
         In found (MemStorage.shareLinkRows (storage w)) /\
         ((forall other, In other (MemStorage.shareLinkRows (storage w)) ->
                         ShareLink.linkToken other = token -> other = link) ->
          found = link)) /\
   (forall (w1 w2 : World MemStorage.t) (token : string),
       storage w1 = storage w2 ->
       outcome (getShareLink token) w1 = outcome (getShareLink token) w2) /\
   (forall (w : World MemStorage.t) (op : Op) link,
       MemStorage.Inv (storage w) ->
       In link (MemStorage.shareLinkRows (storage w)) ->
       op <> OpDeleteFile (ShareLink.fileId link) ->
       In link (MemStorage.shareLinkRows (storage (after (callOp op) w)))))
  /\
  ((forall (w : World DatabaseStorage.t) (token : string) link,
       In link (DatabaseStorage.shareLinks (storage w)) ->
       ShareLink.linkToken link = token ->
       exists found,
         getShareLink token w = (Val (Some found), w) /\
         ShareLink.linkToken found = token /\
         In found (DatabaseStorage.shareLinks (storage w)) /\
         ((forall other, In other (DatabaseStorage.shareLinks (storage w)) ->
                         ShareLink.linkToken other = token -> other = link) ->
          found = link)) /\
   (forall (w1 w2 : World DatabaseStorage.t) (token : string),
       storage w1 = storage w2 ->
       outcome (getShareLink token) w1 = outcome (getShareLink token) w2) /\
   (forall (w : World DatabaseStorage.t) (op : Op) link,
       In link (DatabaseStorage.shareLinks (storage w)) ->
       op <> OpDeleteFile (ShareLink.fileId link) ->
       In link (DatabaseStorage.shareLinks (storage (after (callOp op) w))))).
Proof.
  split; (split; [|split]).
  - intros w token link Hin Htok.
    destruct (mem_getShareLink_finds w token link Hin Htok) as (found & Hg & Ht & Hf).
    exists found. repeat split; auto.
  - intros w1 w2 token Hs. expose. unfold MemStorage.getShareLink, gets, outcome.
    cbn [fst]. now rewrite Hs.
  - exact mem_links_kept.
  - intros w token link Hin Htok.
    destruct (db_getShareLink_finds w token link Hin Htok) as (found & Hg & Ht & Hf).
    exists found. repeat split; auto.
  - intros w1 w2 token Hs. expose. unfold DatabaseStorage.getShareLink, gets, outcome.
    cbn [fst]. now rewrite Hs.
  - exact db_links_kept.
Qed.

(** ** Creating a grant through the routes *)

Lemma run_of_outcome {St A} (c : M St A) w v :
  (exists x, c w = (Val x, w)) -> outcome c w = Val v -> c w = (Val v, w).
Proof.
  intros [x Hx] Ho. unfold outcome in Ho. rewrite Hx in *. simpl in Ho.
  now rewrite Ho.
Qed.

Lemma mem_counters_floored (w : World MemStorage.t) U before :
  MemStorage.Inv (storage w) ->
  outcome (getUserStats U) w = Val before ->
  0 <= filesUploadedOf before /\ 0 <= filesSharedOf before /\ 0 <= storageUsedOf before.
Proof.
  intros HInv Ho. expose. unfold MemStorage.getUserStats, gets, outcome in Ho.
  cbn [fst] in Ho. injection Ho as <-.
  destruct (JsMap.get U (MemStorage.statsMap (storage w))) as [st|] eqn:E;
    [|cbn; lia].
  destruct HInv as (_ & _ & _ & _ & _ & _ & Hst).
  destruct (MemFacts.stats_get U st _ Hst E) as [_ Hfl]. exact Hfl.
Qed.

Lemma db_counters_floored (w : World DatabaseStorage.t) U before :
  DatabaseStorage.Inv (storage w) ->
  outcome (getUserStats U) w = Val before ->
  0 <= filesUploadedOf before /\ 0 <= filesSharedOf before /\ 0 <= storageUsedOf before.
Proof.
  intros HInv Ho. expose. unfold DatabaseStorage.getUserStats, gets, outcome in Ho.
  cbn [fst] in Ho. injection Ho as <-.
  destruct (DatabaseStorage.first _) as [st|] eqn:E; [|cbn; lia].
  destruct HInv as (_ & _ & _ & _ & _ & _ & Hfl).
  apply first_select_Some in E as [Hin _].
  rewrite Forall_forall in Hfl. exact (Hfl _ Hin).
Qed.

(** The owner shares a file with a resolved recipient, over
    [MemStorage]. *)
Lemma mem_grant (w : World MemStorage.t) user F email p file recipient :
  MemStorage.Inv (storage w) ->
  outcome (getFile F) w = Val (Some file) ->
  File.ownerId file = User.id user ->
  outcome (getUserByEmail email) w = Val (Some recipient) ->
  exists share before now w',
    shareHandler (Some user) F email (JStr p) w = (json 201 (BFileShare share), w') /\
    MemStorage.fileShareRows (storage w')
    = MemStorage.fileShareRows (storage w) ++ [share] /\
    FileShare.fileId share = F /\
    FileShare.userId share = User.id recipient /\
    FileShare.permission share = p /\
    outcome (getUserStats (User.id user)) w = Val before /\
    outcome (getUserStats (User.id user)) w' = Val (Some now) /\
    Stat.filesShared now = filesSharedOf before + 1.
Proof.
  intros HInv Hf Ho Hr.
  apply run_of_outcome in Hf; [|apply (getFile_reads MemStorage_lawful)].
  apply run_of_outcome in Hr; [|apply (getUserByEmail_reads MemStorage_lawful)].
  destruct (mem_createFileShare_appends w (InsertFileShare.mk F (User.id recipient) p) HInv)
    as (share & Hc & _ & Happ & Hsf & Hsu & Hsp & HInv1).
  set (w1 := after (createFileShare (InsertFileShare.mk F (User.id recipient) p)) w) in *.
  destruct (mem_updateUserStats_effect w1 (User.id user)
              (StatUpdates.mk None (Some 1) None None))
    as (before & now & Hb & Hu & _ & Hshared & _ & _ & _ & _ & _ & _ & _ & Hafter & _).
  set (w2 := after (updateUserStats (User.id user)
                      (StatUpdates.mk None (Some 1) None None)) w1) in *.
  exists share, before, now, w2.
  split.
  { apply (shareHandler_granted user F email p w file recipient share w1 now w2 Hf Ho Hr).
    - rewrite (run_eq _ w). now rewrite Hc.
    - rewrite (run_eq _ w1). now rewrite Hu. }
  split.
  { destruct (mem_updateUserStats_frame w1 (User.id user)
                (StatUpdates.mk None (Some 1) None None)) as (_ & _ & Hsm & _).
    unfold MemStorage.fileShareRows in *. fold w2 in Hsm. now rewrite Hsm. }
  do 3 (split; [assumption|]).
  split; [exact Hb|]. split; [exact Hafter|].
  destruct (mem_counters_floored w1 (User.id user) before HInv1 Hb) as (_ & Hge & _).
  rewrite Hshared. cbn [StatUpdates.filesShared orZero]. lia.
Qed.

Lemma db_grant (w : World DatabaseStorage.t) user F email p file recipient :
  DatabaseStorage.Inv (storage w) ->
  outcome (getFile F) w = Val (Some file) ->
  File.ownerId file = User.id user ->
  outcome (getUserByEmail email) w = Val (Some recipient) ->
  exists share before now w',
    shareHandler (Some user) F email (JStr p) w = (json 201 (BFileShare share), w') /\
    DatabaseStorage.fileShares (storage w')
    = DatabaseStorage.fileShares (storage w) ++ [share] /\
    FileShare.fileId share = F /\
    FileShare.userId share = User.id recipient /\
    FileShare.permission share = p /\
    outcome (getUserStats (User.id user)) w = Val before /\
    outcome (getUserStats (User.id user)) w' = Val (Some now) /\
    Stat.filesShared now = filesSharedOf before + 1.
Proof.
  intros HInv Hf Ho Hr.
  apply run_of_outcome in Hf; [|apply (getFile_reads DatabaseStorage_lawful)].
  apply run_of_outcome in Hr; [|apply (getUserByEmail_reads DatabaseStorage_lawful)].
  destruct (db_createFileShare_appends w (InsertFileShare.mk F (User.id recipient) p) HInv)
    as (share & Hc & _ & Happ & Hsf & Hsu & Hsp & HInv1).
  set (w1 := after (createFileShare (InsertFileShare.mk F (User.id recipient) p)) w) in *.
  destruct (db_updateUserStats_effect w1 (User.id user)
              (StatUpdates.mk None (Some 1) None None) HInv1)
    as (before & now & Hb & Hu & _ & Hshared & _ & _ & _ & _ & _ & _ & _ & Hafter & _).
  set (w2 := after (updateUserStats (User.id user)
                      (StatUpdates.mk None (Some 1) None None)) w1) in *.
  exists share, before, now, w2.
  split.
  { apply (shareHandler_granted user F email p w file recipient share w1 now w2 Hf Ho Hr).
    - rewrite (run_eq _ w). now rewrite Hc.
    - rewrite (run_eq _ w1). now rewrite Hu. }
  split.
  { destruct (db_updateUserStats_frame w1 (User.id user)
                (StatUpdates.mk None (Some 1) None None)) as (_ & _ & Hsm & _).
    fold w2 in Hsm. now rewrite Hsm. }
  do 3 (split; [assumption|]).
  split; [exact Hb|]. split; [exact Hafter|].
  destruct (db_counters_floored w1 (User.id user) before HInv1 Hb) as (_ & Hge & _).
  rewrite Hshared. cbn [StatUpdates.filesShared orZero]. lia.
Qed.

(** Once the recipient is resolved, the two routes do the same. *)
Lemma share_paths_converge {St} `{IStorage St} (L : Lawful St)
  user F email rid perm (w : World St) file recipient :
  getFile F w = (Val (Some file), w) ->
  File.ownerId file = User.id user ->
  getUserByEmail email w = (Val (Some recipient), w) ->
  getUser rid w = (Val (Some recipient), w) ->
  shareByIdHandler (Some user) F rid perm w = shareHandler (Some user) F email perm w.
Proof.
  intros Hf Ho He Hi.
  assert (Hp : (exists p, perm = JStr p) \/ (forall p, perm <> JStr p)).
  { destruct perm; try (right; intros p; discriminate). left. now eexists. }
  destruct Hp as [[p ->]|Hp].
  - destruct (createFileShare_returns L (InsertFileShare.mk F (User.id recipient) p) w)
      as [share [w1 Hc]].
    destruct (updateUserStats_returns L (User.id user)
                (StatUpdates.mk None (Some 1) None None) w1) as [st [w2 Hu]].
    rewrite (shareHandler_granted user F email p w file recipient share w1 st w2
               Hf Ho He Hc Hu).
    apply (shareByIdHandler_granted user F rid p w file recipient share w1 st w2
             Hf Ho Hi Hc Hu).
  - rewrite (shareHandler_invalid user F email perm w file recipient Hf Ho He Hp).
    apply (shareByIdHandler_invalid user F rid perm w file recipient Hf Ho Hi Hp).
Qed.

(** C8.  POST /files/share (recipient by email) and POST /files/share-by-id
    (recipient by numeric id), for a file that exists: a requester who is
    not the owner is answered 403 "Access denied" and the world is left
    as it was (no grant row, no statistic changed); for the owner, a
    recipient that does not resolve is answered 404 and the world is left
    as it was; and when both requests resolve to the same recipient the
    two handlers give the same answer and leave the same world: with a
    valid permission, and under the invariant, that is the answer 201
    with a new grant row for (file, recipient) appended to the table and
    the owner's [filesShared] one higher than before.  This holds over
    [MemStorage] and over [DatabaseStorage]. *)
Theorem createGrant_routes :
  (forall (w : World MemStorage.t) user (F : Z) (email : string) (recipientId : Z)
          (permission : JsVal) file,
      outcome (getFile F) w = Val (Some file) ->
      (File.ownerId file <> User.id user ->
       shareHandler (Some user) F email permission w
       = (json 403 (BError "Access denied"), w) /\
       shareByIdHandler (Some user) F recipientId permission w
       = (json 403 (BError "Access denied"), w)) /\
      (File.ownerId file = User.id user ->
       (outcome (getUserByEmail email) w = Val None ->
        shareHandler (Some user) F email permission w
        = (json 404 (BError "User not found"), w)) /\
       (outcome (getUser recipientId) w = Val None ->
        shareByIdHandler (Some user) F recipientId permission w
        = (json 404 (BError "Recipient user not found"), w)) /\
       (forall recipient,
           outcome (getUserByEmail email) w = Val (Some recipient) ->
           outcome (getUser recipientId) w = Val (Some recipient) ->
           shareByIdHandler (Some user) F recipientId permission w
           = shareHandler (Some user) F email permission w /\
           (forall p, permission = JStr p ->
                      MemStorage.Inv (storage w) ->
              exists share before now w',
                shareHandler (Some user) F email permission w
                = (json 201 (BFileShare share), w') /\
                MemStorage.fileShareRows (storage w')
                = MemStorage.fileShareRows (storage w) ++ [share] /\
                FileShare.fileId share = F /\
                FileShare.userId share = User.id recipient /\
                FileShare.permission share = p /\
                outcome (getUserStats (User.id user)) w = Val before /\
                outcome (getUserStats (User.id user)) w' = Val (Some now) /\
                Stat.filesShared now = filesSharedOf before + 1))))
  /\
  (forall (w : World DatabaseStorage.t) user (F : Z) (email : string) (recipientId : Z)
          (permission : JsVal) file,
      outcome (getFile F) w = Val (Some file) ->
      (File.ownerId file <> User.id user ->
       shareHandler (Some user) F email permission w
       = (json 403 (BError "Access denied"), w) /\
       shareByIdHandler (Some user) F recipientId permission w
       = (json 403 (BError "Access denied"), w)) /\
      (File.ownerId file = User.id user ->
       (outcome (getUserByEmail email) w = Val None ->
        shareHandler (Some user) F email permission w
        = (json 404 (BError "User not found"), w)) /\
       (outcome (getUser recipientId) w = Val None ->
        shareByIdHandler (Some user) F recipientId permission w
        = (json 404 (BError "Recipient user not found"), w)) /\
       (forall recipient,
           outcome (getUserByEmail email) w = Val (Some recipient) ->
           outcome (getUser recipientId) w = Val (Some recipient) ->
           shareByIdHandler (Some user) F recipientId permission w
           = shareHandler (Some user) F email permission w /\
           (forall p, permission = JStr p ->
                      DatabaseStorage.Inv (storage w) ->
              exists share before now w',
                shareHandler (Some user) F email permission w
                = (json 201 (BFileShare share), w') /\
                DatabaseStorage.fileShares (storage w')
                = DatabaseStorage.fileShares (storage w) ++ [share] /\
                FileShare.fileId share = F /\
                FileShare.userId share = User.id recipient /\
                FileShare.permission share = p /\
                outcome (getUserStats (User.id user)) w = Val before /\
                outcome (getUserStats (User.id user)) w' = Val (Some now) /\
                Stat.filesShared now = filesSharedOf before + 1)))).
Proof.
  split.
  - intros w user F email rid perm file Hf.
    pose proof (run_of_outcome _ _ _ (getFile_reads MemStorage_lawful F w) Hf) as Hf'.
    split; [intros Ho; split|intros Ho; split; [|split]].
    + now apply shareHandler_denied with file.
    + now apply shareByIdHandler_denied with file.
    + intros He.
      apply run_of_outcome in He; [|apply (getUserByEmail_reads MemStorage_lawful)].
      now apply shareHandler_no_recipient with file.
    + intros Hi.
      apply run_of_outcome in Hi; [|apply (getUser_reads MemStorage_lawful)].
      now apply shareByIdHandler_no_recipient with file.
    + intros recipient He Hi. split.
      * apply run_of_outcome in He; [|apply (getUserByEmail_reads MemStorage_lawful)].
        apply run_of_outcome in Hi; [|apply (getUser_reads MemStorage_lawful)].
        exact (share_paths_converge MemStorage_lawful user F email rid perm w file
                 recipient Hf' Ho He Hi).
      * intros p -> HInv. exact (mem_grant w user F email p file recipient HInv Hf Ho He).
  - intros w user F email rid perm file Hf.
    pose proof (run_of_outcome _ _ _ (getFile_reads DatabaseStorage_lawful F w) Hf) as Hf'.
    split; [intros Ho; split|intros Ho; split; [|split]].
    + now apply shareHandler_denied with file.
    + now apply shareByIdHandler_denied with file.
    + intros He.
      apply run_of_outcome in He; [|apply (getUserByEmail_reads DatabaseStorage_lawful)].
      now apply shareHandler_no_recipient with file.
    + intros Hi.
      apply run_of_outcome in Hi; [|apply (getUser_reads DatabaseStorage_lawful)].
      now apply shareByIdHandler_no_recipient with file.
    + intros recipient He Hi. split.
      * apply run_of_outcome in He; [|apply (getUserByEmail_reads DatabaseStorage_lawful)].
        apply run_of_outcome in Hi; [|apply (getUser_reads DatabaseStorage_lawful)].
        exact (share_paths_converge DatabaseStorage_lawful user F email rid perm w file
                 recipient Hf' Ho He Hi).
      * intros p -> HInv. exact (db_grant w user F email p file recipient HInv Hf Ho He).
Qed.

(** ** Who is credited with a download *)

Lemma mem_getUserStats_frame (w w' : World MemStorage.t) V :
  MemStorage.statsMap (storage w') = MemStorage.statsMap (storage w) ->
  outcome (getUserStats V) w' = outcome (getUserStats V) w.
Proof.
  intros Hs. expose. unfold MemStorage.getUserStats, gets, outcome. cbn [fst].
  now rewrite Hs.
Qed.

Lemma db_getUserStats_frame (w w' : World DatabaseStorage.t) V :
  DatabaseStorage.stats (storage w') = DatabaseStorage.stats (storage w) ->
  outcome (getUserStats V) w' = outcome (getUserStats V) w.
Proof.
  intros Hs. expose. unfold DatabaseStorage.getUserStats, gets, outcome. cbn [fst].
  now rewrite Hs.
Qed.

(** [updateUserStats] for one user leaves the rows of the others. *)
Lemma mem_updateUserStats_others (w : World MemStorage.t) U upd V :
  V <> U ->
  outcome (getUserStats V) (after (updateUserStats U upd) w)
  = outcome (getUserStats V) w.
Proof.
  intros Hne. unfold after. expose.
  destruct (JsMap.get U (MemStorage.statsMap (storage w))) as [st|] eqn:E.
  - rewrite (MemFacts.updateUserStats_found w U upd st E).
    unfold MemStorage.getUserStats, gets, outcome.
    cbn [fst snd storage withStorage MemStorage.statsMap MemStorage.setStatsMap].
    rewrite get_set_ne by congruence. reflexivity.
  - rewrite (MemFacts.updateUserStats_missing w U upd E).
    unfold MemStorage.getUserStats, gets, outcome.
    cbn [fst snd storage withStorage MemStorage.statsMap MemStorage.setStatsMap].
    rewrite !get_set_ne by congruence. reflexivity.
Qed.

Lemma first_select_update_other (U V : Z) (values : Stat.t -> Stat.t)
  (rows : list Stat.t) userStat :
  V <> U ->
  NoDup (map Stat.id rows) ->
  In userStat rows -> Stat.userId userStat = U ->
  (forall r, Stat.userId (values r) = Stat.userId r) ->
  DatabaseStorage.first
    (DatabaseStorage.selectWhere (fun st => Stat.userId st =? V)
       (DatabaseStorage.updateWhere (fun r => Stat.id r =? Stat.id userStat) values rows))
  = DatabaseStorage.first
      (DatabaseStorage.selectWhere (fun st => Stat.userId st =? V) rows).
Proof.
  intros Hne Hnd Hin Hu Hkeep.
  rewrite first_select_update by assumption.
  destruct (DatabaseStorage.first _) as [r|] eqn:E; [|reflexivity].
  simpl. apply first_select_Some in E as [Hr Hv]. apply Z.eqb_eq in Hv.
  destruct (Z.eqb_spec (Stat.id r) (Stat.id userStat)) as [Hid|]; [|reflexivity].
  assert (r = userStat) by now apply (DbFacts.NoDup_map_inj Stat.id rows).
  congruence.
Qed.

Lemma db_updateUserStats_others (w : World DatabaseStorage.t) U upd V :
  DatabaseStorage.Inv (storage w) ->
  V <> U ->
  outcome (getUserStats V) (after (updateUserStats U upd) w)
  = outcome (getUserStats V) w.
Proof.
  intros HInv Hne. unfold after. expose.
  destruct HInv as (_ & _ & _ & _ & _ & Hst & _).
  destruct (DatabaseStorage.first
              (DatabaseStorage.selectWhere (fun st => Stat.userId st =? U)
                 (DatabaseStorage.stats (storage w)))) as [st|] eqn:E.
  - rewrite (DbFacts.db_updateUserStats_found w U upd st (proj1 Hst) E).
    unfold DatabaseStorage.getUserStats, gets, outcome.
    cbn [fst snd storage withStorage DatabaseStorage.stats DatabaseStorage.setStats].
    apply first_select_Some in E as [Hin Hu]. apply Z.eqb_eq in Hu.
    f_equal.
    apply (first_select_update_other U V _ _ st Hne (proj1 Hst) Hin Hu).
    reflexivity.
  - rewrite (DbFacts.db_updateUserStats_missing w U upd (DbFacts.serial_fresh _ _ _ Hst) E).
    unfold DatabaseStorage.getUserStats, gets, outcome.
    cbn [fst snd storage withStorage DatabaseStorage.stats DatabaseStorage.setStats
         DatabaseStorage.bumpStats DatabaseStorage.setSequences].
    f_equal. unfold DatabaseStorage.selectWhere. rewrite filter_app. simpl.
    assert (Hb : (U =? V) = false) by (apply Z.eqb_neq; congruence).
    cbn [Stat.userId DatabaseStorage.newValues]. rewrite Hb.
    now rewrite app_nil_r.
Qed.

(** C9.  When GET /files/:id/download answers 200 to a user who has access
    to the file, the [downloads] counter that has gone up by one is the
    one of the file's owner (a zeroed row is created when the owner has
    none), and the row of every other user, the requester included when
    the requester is not the owner, reads as before.  This holds over
    [MemStorage], and over [DatabaseStorage] under the invariant of the
    tables. *)
Theorem download_credits_owner :
  (forall (w w' : World MemStorage.t) user (F : Z) resp file,
      downloadHandler (Some user) F w = (resp, w') ->
      status resp = 200 ->
      outcome (getFile F) w = Val (Some file) ->
      exists before now,
        outcome (checkFileAccess (File.id file) (User.id user)) w = Val true /\
        outcome (getUserStats (File.ownerId file)) w = Val before /\
        outcome (getUserStats (File.ownerId file)) w' = Val (Some now) /\
        Stat.downloads now = downloadsOf before + 1 /\
        (forall V, V <> File.ownerId file ->
                   outcome (getUserStats V) w' = outcome (getUserStats V) w))
  /\
  (forall (w w' : World DatabaseStorage.t) user (F : Z) resp file,
      DatabaseStorage.Inv (storage w) ->
      downloadHandler (Some user) F w = (resp, w') ->
      status resp = 200 ->
      outcome (getFile F) w = Val (Some file) ->
      exists before now,
        outcome (checkFileAccess (File.id file) (User.id user)) w = Val true /\
        outcome (getUserStats (File.ownerId file)) w = Val before /\
        outcome (getUserStats (File.ownerId file)) w' = Val (Some now) /\
        Stat.downloads now = downloadsOf before + 1 /\
        (forall V, V <> File.ownerId file ->
                   outcome (getUserStats V) w' = outcome (getUserStats V) w)).
Proof.
  split.
  - intros w w' user F resp file Hh Hs Hf.
    destruct (downloadHandler_succeeded MemStorage_lawful user F w resp w' Hh Hs)
      as (file' & data & st & w1 & tx & Hf' & Ha & _ & Hu & Hl & _).
    unfold outcome in Hf. rewrite Hf' in Hf. cbn [fst] in Hf.
    injection Hf as ->.
    destruct (mem_updateUserStats_effect w (File.ownerId file)
                (StatUpdates.mk None None None (Some 1)))
      as (before & now & Hb & _ & _ & _ & _ & Hd & _ & _ & _ & _ & _ & Hafter & _).
    assert (Hw1 : w1 = after (updateUserStats (File.ownerId file)
                                (StatUpdates.mk None None None (Some 1))) w)
      by (unfold after; now rewrite Hu).
    assert (Hw' : MemStorage.statsMap (storage w') = MemStorage.statsMap (storage w1)).
    { expose. rewrite MemFacts.logTransaction_run in Hl. now injection Hl as _ <-. }
    exists before, now.
    split; [unfold outcome; now rewrite Ha|]. split; [exact Hb|].
    split; [|split].
    + rewrite (mem_getUserStats_frame w1 w' _ Hw'). rewrite Hw1. exact Hafter.
    + rewrite Hd. reflexivity.
    + intros V HV. rewrite (mem_getUserStats_frame w1 w' _ Hw'). rewrite Hw1.
      now apply mem_updateUserStats_others.
  - intros w w' user F resp file HInv Hh Hs Hf.
    destruct (downloadHandler_succeeded DatabaseStorage_lawful user F w resp w' Hh Hs)
      as (file' & data & st & w1 & tx & Hf' & Ha & _ & Hu & Hl & _).
    unfold outcome in Hf. rewrite Hf' in Hf. cbn [fst] in Hf.
    injection Hf as ->.
    destruct (db_updateUserStats_effect w (File.ownerId file)
                (StatUpdates.mk None None None (Some 1)) HInv)
      as (before & now & Hb & _ & _ & _ & _ & Hd & _ & _ & _ & _ & _ & Hafter & _).
    assert (Hw1 : w1 = after (updateUserStats (File.ownerId file)
                                (StatUpdates.mk None None None (Some 1))) w)
      by (unfold after; now rewrite Hu).
    assert (Hw' : DatabaseStorage.stats (storage w') = DatabaseStorage.stats (storage w1)).
    { expose. rewrite DbFacts.db_logTransaction_run in Hl. now injection Hl as _ <-. }
    exists before, now.
    split; [unfold outcome; now rewrite Ha|]. split; [exact Hb|].
    split; [|split].
    + rewrite (db_getUserStats_frame w1 w' _ Hw'). rewrite Hw1. exact Hafter.
    + rewrite Hd. reflexivity.
    + intros V HV. rewrite (db_getUserStats_frame w1 w' _ Hw'). rewrite Hw1.
      now apply db_updateUserStats_others.
Qed.

(** ** Statistics are not created on read *)

Lemma statsHandler_reads {St} `{IStorage St} (L : Lawful St) user (w : World St) :
  snd (statsHandler (Some user) w) = w.
Proof.
  destruct (getUserStats_reads L (User.id user) w) as [[stats|] Hs].
  - destruct (statsHandler_found user w stats Hs) as [s Hh]. now rewrite Hh.
  - now rewrite (statsHandler_missing user w Hs).
Qed.

Lemma mem_stats_written_by (w : World MemStorage.t) op :
  (forall U, op <> OpCreateUserStats U) ->
  (forall U upd, op <> OpUpdateUserStats U upd) ->
  MemStorage.statsMap (storage (after (callOp op) w)) = MemStorage.statsMap (storage w).
Proof.
  intros Hc Hu.
  destruct op; cbn [callOp]; rewrite ?after_forget; try reflexivity.
  - now destruct (Hc userId).
  - now destruct (Hu userId updates).
Qed.

Lemma db_stats_written_by (w : World DatabaseStorage.t) op :
  (forall U, op <> OpCreateUserStats U) ->
  (forall U upd, op <> OpUpdateUserStats U upd) ->
  DatabaseStorage.stats (storage (after (callOp op) w)) = DatabaseStorage.stats (storage w).
Proof.
  intros Hc Hu.
  destruct op; cbn [callOp]; rewrite ?after_forget; try reflexivity.
  - (* deleteFile *)
    now destruct (DbFacts.db_deleteFile_related w id) as (_ & _ & _ & Hst & _).
  - now destruct (Hc userId).
  - now destruct (Hu userId updates).
Qed.

(** C10.  For a user who has no [Stat] row, GET /stats answers 404 "Stats
    not found", not zeroed counters; the handler never changes the world,
    and neither does [getUserStats]; the only calls of the interface that
    write the statistics are [createUserStats] and [updateUserStats], so
    the zeroed row comes into being inside [updateUserStats] and never on
    a read.  This holds over [MemStorage] and over [DatabaseStorage]. *)
Theorem stats_missing_is_404 :
  ((forall (w : World MemStorage.t) user,
       outcome (getUserStats (User.id user)) w = Val None ->
       statsHandler (Some user) w = (json 404 (BError "Stats not found"), w)) /\
   (forall (w : World MemStorage.t) user, snd (statsHandler (Some user) w) = w) /\
   (forall (w : World MemStorage.t) U, after (getUserStats U) w = w) /\
   (forall (w : World MemStorage.t) (op : Op),
       (forall U, op <> OpCreateUserStats U) ->
       (forall U upd, op <> OpUpdateUserStats U upd) ->
       MemStorage.statsMap (storage (after (callOp op) w))
       = MemStorage.statsMap (storage w)))
  /\
  ((forall (w : World DatabaseStorage.t) user,
       outcome (getUserStats (User.id user)) w = Val None ->
       statsHandler (Some user) w = (json 404 (BError "Stats not found"), w)) /\
   (forall (w : World DatabaseStorage.t) user, snd (statsHandler (Some user) w) = w) /\
   (forall (w : World DatabaseStorage.t) U, after (getUserStats U) w = w) /\
   (forall (w : World DatabaseStorage.t) (op : Op),
       (forall U, op <> OpCreateUserStats U) ->
       (forall U upd, op <> OpUpdateUserStats U upd) ->
       DatabaseStorage.stats (storage (after (callOp op) w))
       = DatabaseStorage.stats (storage w))).
Proof.
  split; (split; [|split; [|split]]).
  - intros w user Hs.
    apply run_of_outcome in Hs; [|apply (getUserStats_reads MemStorage_lawful)].
    now apply statsHandler_missing.
  - intros w user. apply (statsHandler_reads MemStorage_lawful).
  - reflexivity.
  - exact mem_stats_written_by.
  - intros w user Hs.
    apply run_of_outcome in Hs; [|apply (getUserStats_reads DatabaseStorage_lawful)].
    now apply statsHandler_missing.
  - intros w user. apply (statsHandler_reads DatabaseStorage_lawful).
  - reflexivity.
  - exact db_stats_written_by.
Qed.

(** ** The example worlds are reachable *)

Lemma reachableFrom_runOps {St} `{IStorage St} (ops : list Op) (w0 w : World St) :
  reachableFrom w0 w -> reachableFrom w0 (runOps ops w).
Proof.
  revert w. induction ops as [|op ops IH]; intros w Hr; [exact Hr|].
  apply IH. now apply reach_call.
Qed.

Lemma memReachable_runOps (ops : list Op) :
  memReachable (runOps ops (after MemStorage.constructor (newWorld MemStorage.empty))).
Proof.
  exists (newWorld MemStorage.empty). split; [reflexivity|].
  apply reachableFrom_runOps. apply reach_start.
Qed.

Lemma dbReachable_runOps (ops : list Op) :
  dbReachable (runOps ops (newWorld DatabaseStorage.empty)).
Proof.
  exists (newWorld DatabaseStorage.empty). split; [reflexivity|].
  apply reachableFrom_runOps. apply reach_start.
Qed.

Lemma mem_examples_Inv :
  MemStorage.Inv (storage memDemo) /\ MemStorage.Inv (storage memShared) /\
  MemStorage.Inv (storage memLinked) /\ MemStorage.Inv (storage memLogged).
Proof.
  repeat split; apply MemFacts.Inv_reachable; apply memReachable_runOps.
Qed.

Lemma db_examples_Inv :
  DatabaseStorage.Inv (storage dbDemo) /\ DatabaseStorage.Inv (storage dbShared) /\
  DatabaseStorage.Inv (storage dbLinked) /\ DatabaseStorage.Inv (storage dbLogged).
Proof.
  repeat split; apply DbFacts.db_Inv_reachable; apply dbReachable_runOps.
Qed.
(** ** The theorems at the example worlds *)

Ltac run := vm_compute; reflexivity.

(** The access check in the example: the owner and bob, before and after
    the grant, and a file that does not exist. *)
Lemma checkFileAccess_policy_witness :
  checkFileAccess 1 1 memDemo = (Val true, memDemo) /\
  (exists b, checkFileAccess 1 2 memShared = (Val b, memShared) /\ b = true) /\
  checkFileAccess 7 2 memDemo = (Val false, memDemo) /\
  checkFileAccess 1 1 dbDemo = (Val true, dbDemo) /\
  (exists b, checkFileAccess 1 2 dbShared = (Val b, dbShared) /\ b = true) /\
  checkFileAccess 7 2 dbDemo = (Val false, dbDemo).
Proof.
  destruct checkFileAccess_policy as [Hmem Hdb].
  pose (file := fun owner => File.mk 1 "report.pdf" 100 "application/pdf" "QmReport"
                               "key" 1 (demoClock 2) "encrypted" owner).
  pose (share := FileShare.mk 1 1 2 "view" (demoClock 3)).
  split; [|split; [|split; [|split; [|split]]]].
  - destruct (Hmem memDemo 1 1) as (Howner & _ & _).
    apply (Howner (file "testuser")); run.
  - destruct (Hmem memShared 1 2) as (_ & Hshared & _).
    destruct (Hshared (file "testuser")) as (b & Hrun & Hiff);
      [run|discriminate|].
    exists b. split; [exact Hrun|]. apply Hiff.
    exists share. split; [vm_compute; left; reflexivity|split; reflexivity].
  - destruct (Hmem memDemo 7 2) as (_ & _ & Hnone). apply Hnone. run.
  - destruct (Hdb dbDemo 1 1) as (Howner & _ & _).
    apply (Howner (file "alice")); run.
  - destruct (Hdb dbShared 1 2) as (_ & Hshared & _).
    destruct (Hshared (file "alice")) as (b & Hrun & Hiff);
      [run|discriminate|].
    exists b. split; [exact Hrun|]. apply Hiff.
    exists share. split; [vm_compute; left; reflexivity|split; reflexivity].
  - destruct (Hdb dbDemo 7 2) as (_ & _ & Hnone). apply Hnone. run.
Defined.

(** A grant to bob on the owner's file gives bob access, through the
    storage and through POST /files/share. *)
Lemma grant_gives_access_witness :
  (let w' := after (createFileShare (InsertFileShare.mk 1 2 "view")) memDemo in
   checkFileAccess 1 2 w' = (Val true, w')) /\
  (let w' := after (createFileShare (InsertFileShare.mk 1 2 "download")) dbDemo in
   checkFileAccess 1 2 w' = (Val true, w')) /\
  (exists share w',
      shareHandler (Some ownerSession) 1 "bob@example.com" (JStr "view") memDemo
      = (json 201 (BFileShare share), w') /\
      FileShare.fileId share = 1 /\
      checkFileAccess 1 (FileShare.userId share) w' = (Val true, w')) /\
  (exists share w',
      shareHandler (Some ownerSession) 1 "bob@example.com" (JStr "view") dbDemo
      = (json 201 (BFileShare share), w') /\
      FileShare.fileId share = 1 /\
      checkFileAccess 1 (FileShare.userId share) w' = (Val true, w')).
Proof.
  destruct grant_gives_access as (Hmem & Hdb & Hmemr & Hdbr).
  pose (file := fun owner => File.mk 1 "report.pdf" 100 "application/pdf" "QmReport"
                               "key" 1 (demoClock 2) "encrypted" owner).
  pose (share := FileShare.mk 1 1 2 "view" (demoClock 3)).
  split; [|split; [|split]].
  - apply (Hmem memDemo 1 2 "view" (file "testuser")). run.
  - apply (Hdb dbDemo 1 2 "download" (file "alice")). run.
  - exists share,
      (snd (shareHandler (Some ownerSession) 1 "bob@example.com" (JStr "view") memDemo)).
    assert (Hh : shareHandler (Some ownerSession) 1 "bob@example.com" (JStr "view") memDemo
                 = (json 201 (BFileShare share),
                    snd (shareHandler (Some ownerSession) 1 "bob@example.com"
                           (JStr "view") memDemo))) by run.
    split; [exact Hh|]. exact (Hmemr _ _ _ _ _ _ _ Hh).
  - exists share,
      (snd (shareHandler (Some ownerSession) 1 "bob@example.com" (JStr "view") dbDemo)).
    assert (Hh : shareHandler (Some ownerSession) 1 "bob@example.com" (JStr "view") dbDemo
                 = (json 201 (BFileShare share),
                    snd (shareHandler (Some ownerSession) 1 "bob@example.com"
                           (JStr "view") dbDemo))) by run.
    split; [exact Hh|]. exact (Hdbr _ _ _ _ _ _ _ Hh).
Defined.

(** Deleting the file of the example: its grant and its link go; in
    [MemStorage] the transaction of its upload stays in the map and is
    listed no more. *)
Lemma deleteFile_cascade_witness :
  MemStorage.Inv (storage memLogged) /\
  (let w' := after (deleteFile 1) memLogged in
   outcome (getFile 1) w' = Val None /\
   MemStorage.fileShareRows (storage w') = [] /\
   MemStorage.shareLinkRows (storage w') = [] /\
   MemStorage.transactionRows (storage w')
   = [Transaction.mk 1 "tx_1700000000000" "QmReport" (Some 1) "store" "confirmed"
        (demoClock 5) (MetaFileSize 100)] /\
   exists listed,
     outcome (getUserTransactions 1) w' = Val listed /\
     forall tx, In tx listed -> Transaction.fileId tx <> Some 1) /\
  (let w' := after (deleteFile 1) dbLinked in
   outcome (getFile 1) w' = Val None /\
   DatabaseStorage.fileShares (storage w') = [] /\
   DatabaseStorage.shareLinks (storage w') = [] /\
   DatabaseStorage.transactions (storage w') = []).
Proof.
  destruct deleteFile_cascade as [Hmem Hdb].
  destruct mem_examples_Inv as (_ & _ & _ & HInv).
  split; [exact HInv|]. split.
  - destruct (Hmem memLogged 1 HInv) as (_ & Hgone & _ & Hshares & Hlinks & Htx & Hq).
    split; [exact Hgone|]. split; [|split; [|split]].
    + rewrite Hshares. run.
    + rewrite Hlinks. run.
    + unfold MemStorage.transactionRows. rewrite Htx. run.
    + exact (Hq 1).
  - assert (Hlog : map Transaction.fileId (DatabaseStorage.transactions (storage dbLinked))
                   = []) by run.
    assert (Hfree : ~ In (Some 1) (map Transaction.fileId
                                     (DatabaseStorage.transactions (storage dbLinked)))).
    { rewrite Hlog. intros []. }
    destruct (Hdb dbLinked 1 Hfree) as (_ & Hgone & _ & Hshares & Hlinks & Htx & _).
    split; [exact Hgone|]. split; [|split].
    + rewrite Hshares. run.
    + rewrite Hlinks. run.
    + rewrite Htx. run.
Defined.

(** In [MemStorage], the transaction that the upload of the file logged
    is listed for the owner while the file exists; once the file is
    deleted the row is still stored, and [getUserTransactions] returns
    the empty list to every user: the row can no longer be queried. *)
Lemma deleteFile_unlists_transactions :
  let tx := Transaction.mk 1 "tx_1700000000000" "QmReport" (Some 1) "store" "confirmed"
              (demoClock 5) (MetaFileSize 100) in
  outcome (getUserTransactions 1) memLogged = Val [tx] /\
  let w' := after (deleteFile 1) memLogged in
  outcome (deleteFile 1) memLogged = Val tt /\
  In tx (MemStorage.transactionRows (storage w')) /\
  forall userId, outcome (getUserTransactions userId) w' = Val [].
Proof.
  intros tx. split; [run|]. intros w'. split; [run|].
  split; [vm_compute; left; reflexivity|]. intros userId. run.
Qed.


(** Three more grants for the pair that already has one. *)
Lemma createFileShare_duplicates_witness :
  MemStorage.Inv (storage memShared) /\ DatabaseStorage.Inv (storage dbShared) /\
  List.length
    (grantsOf 1 2
       (MemStorage.fileShareRows
          (storage (after (times 3 (createFileShare (InsertFileShare.mk 1 2 "view")))
                      memShared)))) = 4%nat /\
  List.length
    (grantsOf 1 2
       (DatabaseStorage.fileShares
          (storage (after (times 3 (createFileShare (InsertFileShare.mk 1 2 "view")))
                      dbShared)))) = 4%nat.
Proof.
  destruct createFileShare_duplicates as [Hmem Hdb].
  destruct mem_examples_Inv as (_ & HIm & _).
  destruct db_examples_Inv as (_ & HId & _).
  split; [exact HIm|]. split; [exact HId|]. split.
  - destruct (Hmem memShared (InsertFileShare.mk 1 2 "view") 3%nat HIm)
      as (_ & _ & Hlen & _).
    cbn [InsertFileShare.fileId InsertFileShare.userId] in Hlen.
    rewrite Hlen. run.
  - destruct (Hdb dbShared (InsertFileShare.mk 1 2 "view") 3%nat HId)
      as (_ & _ & Hlen & _).
    cbn [InsertFileShare.fileId InsertFileShare.userId] in Hlen.
    rewrite Hlen. run.
Defined.



(** The link of the example expired at the epoch; it is found by its
    token and stays in the table. *)
Lemma getShareLink_ignores_expiry_witness :
  let link := ShareLink.mk 1 1 "00112233445566778899aabbccddeeff" (Some false) None
                (Some 0) (demoClock 4) in
  MemStorage.Inv (storage memLinked) /\
  getShareLink "00112233445566778899aabbccddeeff" memLinked = (Val (Some link), memLinked) /\
  In link (MemStorage.shareLinkRows
             (storage (after (callOp (OpUpdateUserStats 1 StatUpdates.none)) memLinked))) /\
  getShareLink "00112233445566778899aabbccddeeff" dbLinked = (Val (Some link), dbLinked) /\
  In link (DatabaseStorage.shareLinks
             (storage (after (callOp (OpDeleteFile 2)) dbLinked))).
Proof.
  intros link.
  destruct getShareLink_ignores_expiry as [(Hmf & _ & Hmk) (Hdf & _ & Hdk)].
  destruct mem_examples_Inv as (_ & _ & HInv & _).
  assert (Him : In link (MemStorage.shareLinkRows (storage memLinked)))
    by (vm_compute; left; reflexivity).
  assert (Hid : In link (DatabaseStorage.shareLinks (storage dbLinked)))
    by (vm_compute; left; reflexivity).
  destruct (Hmf memLinked "00112233445566778899aabbccddeeff" link Him eq_refl)
      as (found & Hg & _ & _ & Huniq).
  assert (Hrows : MemStorage.shareLinkRows (storage memLinked) = [link]) by run.
  assert (Hu : found = link).
  { apply Huniq. intros other Ho _. rewrite Hrows in Ho. destruct Ho as [<-|[]]. reflexivity. }
  destruct (Hdf dbLinked "00112233445566778899aabbccddeeff" link Hid eq_refl)
      as (found' & Hg' & _ & _ & Huniq').
  assert (Hrows' : DatabaseStorage.shareLinks (storage dbLinked) = [link]) by run.
  assert (Hu' : found' = link).
  { apply Huniq'. intros other Ho _. rewrite Hrows' in Ho. destruct Ho as [<-|[]]. reflexivity. }
  split; [exact HInv|].
  split; [rewrite Hg, Hu; reflexivity|].
  split; [apply Hmk; [exact HInv|exact Him|discriminate]|].
  split; [rewrite Hg', Hu'; reflexivity|].
  apply Hdk; [exact Hid|discriminate].
Defined.

(** The two sharing routes in the example: bob is refused, an unknown
    recipient is not found, and the owner's grant to bob is created. *)
Lemma createGrant_routes_witness :
  shareHandler (Some bobSession) 1 "owner@example.com" (JStr "view") memDemo
  = (json 403 (BError "Access denied"), memDemo) /\
  shareByIdHandler (Some bobSession) 1 1 (JStr "view") dbDemo
  = (json 403 (BError "Access denied"), dbDemo) /\
  shareHandler (Some ownerSession) 1 "nobody@example.com" (JStr "view") memDemo
  = (json 404 (BError "User not found"), memDemo) /\
  shareByIdHandler (Some ownerSession) 1 9 (JStr "view") dbDemo
  = (json 404 (BError "Recipient user not found"), dbDemo) /\
  shareByIdHandler (Some ownerSession) 1 2 (JStr "edit") memDemo
  = shareHandler (Some ownerSession) 1 "BOB@example.com" (JStr "edit") memDemo /\
  (exists share now w',
      shareHandler (Some ownerSession) 1 "bob@example.com" (JStr "edit") dbDemo
      = (json 201 (BFileShare share), w') /\
      DatabaseStorage.fileShares (storage w')
      = DatabaseStorage.fileShares (storage dbDemo) ++ [share] /\
      outcome (getUserStats 1) w' = Val (Some now) /\
      Stat.filesShared now = 1).
Proof.
  destruct createGrant_routes as [Hmem Hdb].
  pose (file := fun owner => File.mk 1 "report.pdf" 100 "application/pdf" "QmReport"
                               "key" 1 (demoClock 2) "encrypted" owner).
  pose (recipient := User.mk 2 "bob" "secret" "bob@example.com" (demoClock 1)).
  assert (Hfm : outcome (getFile 1) memDemo = Val (Some (file "testuser"))) by run.
  assert (Hfd : outcome (getFile 1) dbDemo = Val (Some (file "alice"))) by run.
  split; [|split; [|split; [|split; [|split]]]].
  - destruct (Hmem memDemo bobSession 1 "owner@example.com" 1 (JStr "view") _ Hfm)
      as (Hdenied & _).
    apply Hdenied. discriminate.
  - destruct (Hdb dbDemo bobSession 1 "owner@example.com" 1 (JStr "view") _ Hfd)
      as (Hdenied & _).
    apply Hdenied. discriminate.
  - destruct (Hmem memDemo ownerSession 1 "nobody@example.com" 9 (JStr "view") _ Hfm)
      as (_ & Howner).
    destruct (Howner eq_refl) as (Hnone & _). apply Hnone. run.
  - destruct (Hdb dbDemo ownerSession 1 "nobody@example.com" 9 (JStr "view") _ Hfd)
      as (_ & Howner).
    destruct (Howner eq_refl) as (_ & Hnone & _). apply Hnone. run.
  - destruct (Hmem memDemo ownerSession 1 "BOB@example.com" 2 (JStr "edit") _ Hfm)
      as (_ & Howner).
    destruct (Howner eq_refl) as (_ & _ & Hsame).
    destruct (Hsame recipient) as (Heq & _); [run|run|]. exact Heq.
  - destruct (Hdb dbDemo ownerSession 1 "bob@example.com" 2 (JStr "edit") _ Hfd)
      as (_ & Howner).
    destruct (Howner eq_refl) as (_ & _ & Hsame).
    destruct (Hsame recipient) as (_ & Hgrant); [run|run|].
    destruct db_examples_Inv as (HInv & _).
    destruct (Hgrant "edit" eq_refl HInv)
      as (share & before & now & w' & Hh & Hrows & _ & _ & _ & Hb & Ha & Hplus).
    assert (Hn : outcome (getUserStats (User.id ownerSession)) dbDemo = Val None) by run.
    rewrite Hn in Hb. injection Hb as <-.
    exists share, now, w'. split; [exact Hh|]. split; [exact Hrows|].
    split; [exact Ha|exact Hplus].
Defined.

(** Bob downloads the owner's file: the owner's counter moves. *)
Lemma download_credits_owner_witness :
  DatabaseStorage.Inv (storage dbShared) /\
  (exists resp w' now,
      downloadHandler (Some bobSession) 1 memShared = (resp, w') /\
      status resp = 200 /\
      outcome (getUserStats 1) w' = Val (Some now) /\
      Stat.downloads now = 1 /\
      outcome (getUserStats 2) w' = Val None) /\
  (exists resp w' now,
      downloadHandler (Some bobSession) 1 dbShared = (resp, w') /\
      status resp = 200 /\
      outcome (getUserStats 1) w' = Val (Some now) /\
      Stat.downloads now = 1 /\
      outcome (getUserStats 2) w' = Val None).
Proof.
  destruct download_credits_owner as [Hmem Hdb].
  destruct db_examples_Inv as (_ & HInv & _).
  pose (file := fun owner => File.mk 1 "report.pdf" 100 "application/pdf" "QmReport"
                               "key" 1 (demoClock 2) "encrypted" owner).
  split; [exact HInv|]. split.
  - pose (h := downloadHandler (Some bobSession) 1 memShared).
    assert (Hh : downloadHandler (Some bobSession) 1 memShared = (fst h, snd h))
      by apply surjective_pairing.
    assert (Hs : status (fst h) = 200) by run.
    assert (Hf : outcome (getFile 1) memShared = Val (Some (file "testuser"))) by run.
    destruct (Hmem memShared (snd h) bobSession 1 (fst h) _ Hh Hs Hf)
      as (before & now & _ & Hb & Ha & Hd & Hothers).
    assert (Hn : outcome (getUserStats 1) memShared = Val None) by run.
    cbn [File.ownerId file] in Hb, Ha, Hothers.
    rewrite Hn in Hb. injection Hb as <-.
    exists (fst h), (snd h), now.
    split; [exact Hh|]. split; [exact Hs|]. split; [exact Ha|]. split; [exact Hd|].
    rewrite Hothers; [run|discriminate].
  - pose (h := downloadHandler (Some bobSession) 1 dbShared).
    assert (Hh : downloadHandler (Some bobSession) 1 dbShared = (fst h, snd h))
      by apply surjective_pairing.
    assert (Hs : status (fst h) = 200) by run.
    assert (Hf : outcome (getFile 1) dbShared = Val (Some (file "alice"))) by run.
    destruct (Hdb dbShared (snd h) bobSession 1 (fst h) _ HInv Hh Hs Hf)
      as (before & now & _ & Hb & Ha & Hd & Hothers).
    assert (Hn : outcome (getUserStats 1) dbShared = Val None) by run.
    cbn [File.ownerId file] in Hb, Ha, Hothers.
    rewrite Hn in Hb. injection Hb as <-.
    exists (fst h), (snd h), now.
    split; [exact Hh|]. split; [exact Hs|]. split; [exact Ha|]. split; [exact Hd|].
    rewrite Hothers; [run|discriminate].
Defined.

(** Neither the owner nor bob has a row of statistics in the example,
    and reading creates none. *)
Lemma stats_missing_is_404_witness :
  statsHandler (Some ownerSession) memDemo
  = (json 404 (BError "Stats not found"), memDemo) /\
  statsHandler (Some bobSession) dbShared
  = (json 404 (BError "Stats not found"), dbShared) /\
  MemStorage.statsMap (storage (after (callOp (OpGetUserStats 1)) memDemo))
  = MemStorage.statsMap (storage memDemo).
Proof.
  destruct stats_missing_is_404 as [(Hm404 & _ & _ & Hmw) (Hd404 & _)].
  split; [|split].
  - apply Hm404. run.
  - apply Hd404. run.
  - apply Hmw; discriminate.
Defined.


(* ===================================================================== *)
(** * The rest of the storage layer, of the routes and of the helpers *)
(* ===================================================================== *)
(** ** Users: creation and the three lookups *)

Lemma mem_createUser_effect (w : World MemStorage.t) (d : InsertUser.t) :
  MemStorage.Inv (storage w) ->
  let w' := after (createUser d) w in
  exists user,
    outcome (createUser d) w = Val user /\
    user = User.mk (User.id user) (InsertUser.username d) (InsertUser.password d)
             (InsertUser.email d) (clock w (clockReads w)) /\
    outcome (getUser (User.id user)) w = Val None /\
    outcome (getUser (User.id user)) w' = Val (Some user) /\
    (forall id, id <> User.id user ->
                outcome (getUser id) w' = outcome (getUser id) w).
Proof.
  intros HInv w'. subst w'. unfold after, outcome. expose.
  rewrite MemFacts.createUser_run. cbn [fst snd].
  destruct HInv as (Hu & _).
  eexists. split; [reflexivity|]. split; [reflexivity|].
  cbn [User.id]. unfold MemStorage.getUser, gets.
  cbn [fst storage withStorage MemStorage.usersMap MemStorage.setUsersMap
       MemStorage.bumpUsers MemStorage.setCurrentId].
  split; [|split].
  - apply f_equal. apply get_None_keys. exact (MemFacts.keyed_fresh _ _ _ Hu).
  - now rewrite get_set_eq.
  - intros id Hne. now rewrite get_set_ne by congruence.
Qed.

Lemma db_select_fresh {A} (idOf : A -> Z) next (rows : list A) :
  DatabaseStorage.serial idOf next rows ->
  forall r, In r rows -> (idOf r =? next) = false.
Proof.
  intros [_ Hall] r Hin. rewrite Forall_forall in Hall.
  apply Z.eqb_neq. specialize (Hall r Hin). lia.
Qed.

Lemma db_select_app_other {A} (p : A -> bool) (rows : list A) z :
  p z = false ->
  DatabaseStorage.selectWhere p (rows ++ [z]) = DatabaseStorage.selectWhere p rows.
Proof.
  intros Hz. unfold DatabaseStorage.selectWhere. rewrite filter_app. simpl.
  rewrite Hz. apply app_nil_r.
Qed.

Lemma db_select_none {A} (p : A -> bool) (rows : list A) :
  (forall r, In r rows -> p r = false) -> DatabaseStorage.selectWhere p rows = [].
Proof.
  intros Hall. unfold DatabaseStorage.selectWhere.
  induction rows as [|x r IH]; simpl; [reflexivity|].
  rewrite (Hall x) by now left. apply IH. intros y Hy. apply Hall. now right.
Qed.

Lemma db_createUser_run (w : World DatabaseStorage.t) d :
  let s := storage w in
  let id := DatabaseStorage.users_id_seq (DatabaseStorage.sequences s) in
  let user := User.mk id (InsertUser.username d) (InsertUser.password d)
                (InsertUser.email d) (clock w (clockReads w)) in
  DatabaseStorage.createUser d w
  = (Val user,
     withStorage (DatabaseStorage.setUsers (DatabaseStorage.users s ++ [user])
                    (DatabaseStorage.bumpUsers s)) (tick w)).
Proof. reflexivity. Qed.

Lemma db_createUser_effect (w : World DatabaseStorage.t) (d : InsertUser.t) :
  DatabaseStorage.Inv (storage w) ->
  let w' := after (createUser d) w in
  exists user,
    outcome (createUser d) w = Val user /\
    user = User.mk (User.id user) (InsertUser.username d) (InsertUser.password d)
             (InsertUser.email d) (clock w (clockReads w)) /\
    outcome (getUser (User.id user)) w = Val None /\
    outcome (getUser (User.id user)) w' = Val (Some user) /\
    (forall id, id <> User.id user ->
                outcome (getUser id) w' = outcome (getUser id) w).
Proof.
  intros HInv w'. subst w'. unfold after, outcome. expose.
  rewrite db_createUser_run. cbn [fst snd].
  destruct HInv as (Hu & _).
  pose proof (db_select_fresh _ _ _ Hu) as Hfresh.
  eexists. split; [reflexivity|]. split; [reflexivity|].
  cbn [User.id]. unfold DatabaseStorage.getUser, gets.
  cbn [fst snd storage withStorage DatabaseStorage.users DatabaseStorage.setUsers
       DatabaseStorage.bumpUsers DatabaseStorage.setSequences tick].
  split; [|split].
  - now rewrite (db_select_none _ _ Hfresh).
  - rewrite DbFacts.select_app_fresh; [reflexivity|exact Hfresh|apply Z.eqb_refl].
  - intros id Hne. rewrite db_select_app_other; [reflexivity|].
    apply Z.eqb_neq. cbn [User.id]. congruence.
Qed.

Lemma find_app_one {A} (p : A -> bool) (l : list A) (x : A) :
  find p (l ++ [x])
  = match find p l with
    | Some y => Some y
    | None => if p x then Some x else None
    end.
Proof.
  induction l as [|a l IH]; simpl; [reflexivity|]. now destruct (p a).
Qed.

Lemma mem_createUser_names (w : World MemStorage.t) (d : InsertUser.t) :
  MemStorage.Inv (storage w) ->
  let w' := after (createUser d) w in
  forall user, outcome (createUser d) w = Val user ->
    (forall old, outcome (getUserByUsername (InsertUser.username d)) w = Val (Some old) ->
                 outcome (getUserByUsername (InsertUser.username d)) w' = Val (Some old)) /\
    (outcome (getUserByUsername (InsertUser.username d)) w = Val None ->
     outcome (getUserByUsername (InsertUser.username d)) w' = Val (Some user)) /\
    (forall old, outcome (getUserByEmail (InsertUser.email d)) w = Val (Some old) ->
                 outcome (getUserByEmail (InsertUser.email d)) w' = Val (Some old)) /\
    (outcome (getUserByEmail (InsertUser.email d)) w = Val None ->
     outcome (getUserByEmail (InsertUser.email d)) w' = Val (Some user)).
Proof.
  intros HInv w' user. subst w'. unfold after, outcome. expose.
  rewrite MemFacts.createUser_run. cbn [fst snd].
  intros Hc. injection Hc as <-.
  destruct HInv as (Hu & _).
  unfold MemStorage.getUserByUsername, MemStorage.getUserByEmail, gets.
  cbn [fst storage withStorage MemStorage.usersMap MemStorage.setUsersMap
       MemStorage.bumpUsers MemStorage.setCurrentId].
  rewrite values_set_fresh by exact (MemFacts.keyed_fresh _ _ _ Hu).
  rewrite !find_app_one. cbn [User.username User.email]. rewrite !String.eqb_refl.
  repeat split.
  - intros old Ho. injection Ho as ->. reflexivity.
  - intros Hn. injection Hn as ->. reflexivity.
  - intros old Ho. injection Ho as ->. reflexivity.
  - intros Hn. injection Hn as ->. reflexivity.
Qed.

Lemma db_createUser_names (w : World DatabaseStorage.t) (d : InsertUser.t) :
  ~ In (InsertUser.username d) (map User.username (DatabaseStorage.users (storage w))) ->
  ~ In (InsertUser.email d) (map User.email (DatabaseStorage.users (storage w))) ->
  let w' := after (createUser d) w in
  forall user, outcome (createUser d) w = Val user ->
    outcome (getUserByUsername (InsertUser.username d)) w' = Val (Some user) /\
    outcome (getUserByEmail (InsertUser.email d)) w' = Val (Some user).
Proof.
  intros Hname Hmail w' user. subst w'. unfold after, outcome. expose.
  rewrite db_createUser_run. cbn [fst snd].
  intros Hc. injection Hc as <-.
  unfold DatabaseStorage.getUserByUsername, DatabaseStorage.getUserByEmail, gets.
  cbn [fst snd storage withStorage DatabaseStorage.users DatabaseStorage.setUsers
       DatabaseStorage.bumpUsers DatabaseStorage.setSequences tick].
  unfold DatabaseStorage.selectWhere. rewrite !filter_app.
  cbn [filter User.username User.email]. rewrite !String.eqb_refl.
  split.
  - rewrite (db_select_none (fun u => (User.username u =? InsertUser.username d)%string));
      [reflexivity|].
    intros r Hr. apply String.eqb_neq. intros He. apply Hname.
    rewrite <- He. now apply in_map.
  - rewrite (db_select_none (fun u => (User.email u =? InsertUser.email d)%string));
      [reflexivity|].
    intros r Hr. apply String.eqb_neq. intros He. apply Hmail.
    rewrite <- He. now apply in_map.
Qed.

(** X1.  [createUser] gives the new user the next id, which no user has
    yet, copies the three submitted fields and stamps [createdAt] with
    the clock; afterwards [getUser] of that id returns the user, and the
    answer for every other id is what it was.  [MemStorage] does not
    look whether the name or the email is taken: when a user is found
    under the name (the email) before the call, the lookup goes on
    returning that older user, and the new one is found by id alone;
    when none is found, the lookup returns the new user.  In
    [DatabaseStorage] the two columns are unique: for a name and an
    email that no row has, both lookups return the new user.  This
    holds under the invariant of each class. *)
Theorem createUser_then_getUser :
  (forall (w : World MemStorage.t) (d : InsertUser.t),
      MemStorage.Inv (storage w) ->
      let w' := after (createUser d) w in
      let byName := getUserByUsername (InsertUser.username d) in
      let byEmail := getUserByEmail (InsertUser.email d) in
      exists user,
        outcome (createUser d) w = Val user /\
        user = User.mk (User.id user) (InsertUser.username d) (InsertUser.password d)
                 (InsertUser.email d) (clock w (clockReads w)) /\
        outcome (getUser (User.id user)) w = Val None /\
        outcome (getUser (User.id user)) w' = Val (Some user) /\
        (forall id, id <> User.id user ->
                    outcome (getUser id) w' = outcome (getUser id) w) /\
        (forall old, outcome byName w = Val (Some old) ->
                     outcome byName w' = Val (Some old)) /\
        (outcome byName w = Val None -> outcome byName w' = Val (Some user)) /\
        (forall old, outcome byEmail w = Val (Some old) ->
                     outcome byEmail w' = Val (Some old)) /\
        (outcome byEmail w = Val None -> outcome byEmail w' = Val (Some user)))
  /\
  (forall (w : World DatabaseStorage.t) (d : InsertUser.t),
      DatabaseStorage.Inv (storage w) ->
      ~ In (InsertUser.username d)
           (map User.username (DatabaseStorage.users (storage w))) ->
      ~ In (InsertUser.email d)
           (map User.email (DatabaseStorage.users (storage w))) ->
      let w' := after (createUser d) w in
      exists user,
        outcome (createUser d) w = Val user /\
        user = User.mk (User.id user) (InsertUser.username d) (InsertUser.password d)
                 (InsertUser.email d) (clock w (clockReads w)) /\
        outcome (getUser (User.id user)) w = Val None /\
        outcome (getUser (User.id user)) w' = Val (Some user) /\
        (forall id, id <> User.id user ->
                    outcome (getUser id) w' = outcome (getUser id) w) /\
        outcome (getUserByUsername (InsertUser.username d)) w' = Val (Some user) /\
        outcome (getUserByEmail (InsertUser.email d)) w' = Val (Some user)).
Proof.
  split.
  - intros w d HInv w' byName byEmail.
    destruct (mem_createUser_effect w d HInv) as (user & Hc & Hu & Hn & Hg & Ho).
    exists user. repeat (split; [assumption|]).
    exact (mem_createUser_names w d HInv user Hc).
  - intros w d HInv Hname Hmail w'.
    destruct (db_createUser_effect w d HInv) as (user & Hc & Hu & Hn & Hg & Ho).
    exists user. repeat (split; [assumption|]).
    exact (db_createUser_names w d Hname Hmail user Hc).
Qed.

(** A second bob in the [MemStorage] of the example, where the first
    has the id 2: the new user has the id 3, and the name still finds
    the first.  Carol joins the database of the example. *)
Lemma createUser_then_getUser_witness :
  (exists user, outcome (createUser bob) memDemo = Val user /\ User.id user = 3 /\
     outcome (getUser 3) (after (createUser bob) memDemo) = Val (Some user) /\
     outcome (getUserByUsername "bob") (after (createUser bob) memDemo)
     = Val (Some bobSession)) /\
  (let carol := InsertUser.mk "carol" "secret" "carol@example.com" in
   exists user, outcome (createUser carol) dbDemo = Val user /\ User.id user = 3 /\
     outcome (getUser 3) (after (createUser carol) dbDemo) = Val (Some user) /\
     outcome (getUserByUsername "carol") (after (createUser carol) dbDemo)
     = Val (Some user)).
Proof.
  destruct createUser_then_getUser as [Hmem Hdb].
  destruct mem_examples_Inv as (Hm & _). destruct db_examples_Inv as (Hd & _).
  split.
  - destruct (Hmem memDemo bob Hm) as (user & Hc & Hu & _ & Hg & _ & Hold & _).
    exists user. split; [exact Hc|].
    assert (Hid : User.id user = 3).
    { assert (Hc' : outcome (createUser bob) memDemo
                    = Val (User.mk 3 "bob" "secret" "bob@example.com" (demoClock 3)))
        by run.
      rewrite Hc in Hc'. injection Hc' as ->. reflexivity. }
    split; [exact Hid|]. split; [rewrite <- Hid; exact Hg|].
    apply (Hold bobSession). run.
  - intros carol.
    assert (Hnames : map User.username (DatabaseStorage.users (storage dbDemo))
                     = ["alice"; "bob"]) by run.
    assert (Hmails : map User.email (DatabaseStorage.users (storage dbDemo))
                     = ["alice@example.com"; "bob@example.com"]) by run.
    assert (Hname : ~ In (InsertUser.username carol)
                         (map User.username (DatabaseStorage.users (storage dbDemo)))).
    { rewrite Hnames. simpl. intros [H|[H|[]]]; discriminate H. }
    assert (Hmail : ~ In (InsertUser.email carol)
                         (map User.email (DatabaseStorage.users (storage dbDemo)))).
    { rewrite Hmails. simpl. intros [H|[H|[]]]; discriminate H. }
    destruct (Hdb dbDemo carol Hd Hname Hmail) as (user & Hc & Hu & _ & Hg & _ & Hby & _).
    exists user. split; [exact Hc|].
    assert (Hid : User.id user = 3).
    { assert (Hc' : outcome (createUser carol) dbDemo
                    = Val (User.mk 3 "carol" "secret" "carol@example.com" (demoClock 3)))
        by run.
      rewrite Hc in Hc'. injection Hc' as ->. reflexivity. }
    split; [exact Hid|]. split; [rewrite <- Hid; exact Hg|]. exact Hby.
Defined.

(** ** Looking a user up by name or by email *)

Lemma find_None_iff {A} (p : A -> bool) (l : list A) :
  find p l = None <-> forall x, In x l -> p x = false.
Proof.
  split; [apply find_none|].
  induction l as [|x r IH]; simpl; [reflexivity|]. intros Hall.
  rewrite (Hall x) by now left. apply IH. intros y Hy. apply Hall. now right.
Qed.

Lemma first_select_None_iff {A} (p : A -> bool) (rows : list A) :
  DatabaseStorage.first (DatabaseStorage.selectWhere p rows) = None
  <-> forall x, In x rows -> p x = false.
Proof.
  split; [apply first_select_None|].
  intros Hall. now rewrite (db_select_none _ _ Hall).
Qed.

Lemma lowerAscii_idem c : lowerAscii (lowerAscii c) = lowerAscii c.
Proof. destruct c as [[] [] [] [] [] [] [] []]; reflexivity. Qed.

Lemma toLowerCase_idem s : toLowerCase (toLowerCase s) = toLowerCase s.
Proof.
  induction s as [|c r IH]; simpl; [reflexivity|].
  now rewrite lowerAscii_idem, IH.
Qed.

Lemma find_split {A} (p : A -> bool) (l : list A) x :
  find p l = Some x ->
  exists earlier later,
    l = earlier ++ x :: later /\ forall y, In y earlier -> p y = false.
Proof.
  induction l as [|a l IH]; simpl; [discriminate|].
  destruct (p a) eqn:E.
  - intros Hx. injection Hx as <-. exists [], l. split; [reflexivity|]. intros y [].
  - intros Hx. destruct (IH Hx) as (earlier & later & -> & Hno).
    exists (a :: earlier), later. split; [reflexivity|].
    intros y [<-|Hy]; [assumption|now apply Hno].
Qed.

(** X2.  The lookups by username and by email read without writing.  In
    [MemStorage], for names and emails of ASCII characters, they compare
    without regard to the case of the letters and return the first user,
    in the order of the map (the order of creation), whose name (email)
    matches: a user is found exactly when one matches, no user before
    the one found matches, and the answer for a name and for its
    lower-case form is the same.  In [DatabaseStorage] the comparison is
    exact. *)
Theorem user_lookup_matching :
  (forall (w : World MemStorage.t) (name : string),
      let users := JsMap.values (MemStorage.usersMap (storage w)) in
      isAscii name = true ->
      (forall u, In u users ->
                 isAscii (User.username u) = true /\ isAscii (User.email u) = true) ->
      getUserByUsername name w = (outcome (getUserByUsername name) w, w) /\
      getUserByEmail name w = (outcome (getUserByEmail name) w, w) /\
      (forall u, outcome (getUserByUsername name) w = Val (Some u) ->
                 In u users /\ toLowerCase (User.username u) = toLowerCase name) /\
      (outcome (getUserByUsername name) w = Val None <->
       forall u, In u users -> toLowerCase (User.username u) <> toLowerCase name) /\
      (forall u, outcome (getUserByEmail name) w = Val (Some u) ->
                 In u users /\ toLowerCase (User.email u) = toLowerCase name) /\
      (outcome (getUserByEmail name) w = Val None <->
       forall u, In u users -> toLowerCase (User.email u) <> toLowerCase name) /\
      outcome (getUserByUsername (toLowerCase name)) w
      = outcome (getUserByUsername name) w /\
      outcome (getUserByEmail (toLowerCase name)) w
      = outcome (getUserByEmail name) w /\
      (forall u, outcome (getUserByUsername name) w = Val (Some u) ->
         exists earlier later,
           users = earlier ++ u :: later /\
           forall v, In v earlier ->
                     toLowerCase (User.username v) <> toLowerCase name) /\
      (forall u, outcome (getUserByEmail name) w = Val (Some u) ->
         exists earlier later,
           users = earlier ++ u :: later /\
           forall v, In v earlier ->
                     toLowerCase (User.email v) <> toLowerCase name))
  /\
  (forall (w : World DatabaseStorage.t) (name : string),
      let users := DatabaseStorage.users (storage w) in
      getUserByUsername name w = (outcome (getUserByUsername name) w, w) /\
      getUserByEmail name w = (outcome (getUserByEmail name) w, w) /\
      (forall u, outcome (getUserByUsername name) w = Val (Some u) ->
                 In u users /\ User.username u = name) /\
      (outcome (getUserByUsername name) w = Val None <->
       forall u, In u users -> User.username u <> name) /\
      (forall u, outcome (getUserByEmail name) w = Val (Some u) ->
                 In u users /\ User.email u = name) /\
      (outcome (getUserByEmail name) w = Val None <->
       forall u, In u users -> User.email u <> name)).
Proof.
  split; [intros w name users _ _|intros w name users]; subst users;
    unfold outcome; expose.
  - unfold MemStorage.getUserByUsername, MemStorage.getUserByEmail, gets.
    cbn [fst]. split; [reflexivity|]. split; [reflexivity|].
    rewrite !toLowerCase_idem.
    split; [|split; [|split; [|split; [|split; [reflexivity|split;
      [reflexivity|split]]]]]].
    + intros u Hu. injection Hu as Hu. apply find_some in Hu.
      destruct Hu as [Hin Hp]. apply String.eqb_eq in Hp. auto.
    + split.
      * intros Hn. injection Hn as Hn. intros u Hin He.
        apply (find_none _ _ Hn) in Hin. apply String.eqb_neq in Hin. auto.
      * intros Hall. apply f_equal. apply find_None_iff. intros u Hin.
        apply String.eqb_neq. auto.
    + intros u Hu. injection Hu as Hu. apply find_some in Hu.
      destruct Hu as [Hin Hp]. apply String.eqb_eq in Hp. auto.
    + split.
      * intros Hn. injection Hn as Hn. intros u Hin He.
        apply (find_none _ _ Hn) in Hin. apply String.eqb_neq in Hin. auto.
      * intros Hall. apply f_equal. apply find_None_iff. intros u Hin.
        apply String.eqb_neq. auto.
    + intros u Hu. injection Hu as Hu.
      destruct (find_split _ _ _ Hu) as (earlier & later & Hl & Hno).
      exists earlier, later. split; [exact Hl|].
      intros v Hv. apply String.eqb_neq. now apply Hno.
    + intros u Hu. injection Hu as Hu.
      destruct (find_split _ _ _ Hu) as (earlier & later & Hl & Hno).
      exists earlier, later. split; [exact Hl|].
      intros v Hv. apply String.eqb_neq. now apply Hno.
  - unfold DatabaseStorage.getUserByUsername, DatabaseStorage.getUserByEmail, gets.
    cbn [fst]. split; [reflexivity|]. split; [reflexivity|].
    split; [|split; [|split]].
    + intros u Hu. injection Hu as Hu. apply first_select_Some in Hu.
      destruct Hu as [Hin Hp]. apply String.eqb_eq in Hp. auto.
    + split.
      * intros Hn. injection Hn as Hn. intros u Hin He.
        apply (first_select_None _ _ Hn) in Hin. apply String.eqb_neq in Hin. auto.
      * intros Hall. apply f_equal. apply first_select_None_iff. intros u Hin.
        apply String.eqb_neq. auto.
    + intros u Hu. injection Hu as Hu. apply first_select_Some in Hu.
      destruct Hu as [Hin Hp]. apply String.eqb_eq in Hp. auto.
    + split.
      * intros Hn. injection Hn as Hn. intros u Hin He.
        apply (first_select_None _ _ Hn) in Hin. apply String.eqb_neq in Hin. auto.
      * intros Hall. apply f_equal. apply first_select_None_iff. intros u Hin.
        apply String.eqb_neq. auto.
Qed.

(** In the example "BOB" finds bob, and the test user, who was created
    before, does not match. *)
Lemma user_lookup_matching_witness :
  exists u earlier later,
    outcome (getUserByUsername "BOB") memDemo = Val (Some u) /\
    User.username u = "bob" /\
    JsMap.values (MemStorage.usersMap (storage memDemo)) = earlier ++ u :: later /\
    forall v, In v earlier -> toLowerCase (User.username v) <> "bob".
Proof.
  destruct user_lookup_matching as [Hmem _].
  assert (Hus : JsMap.values (MemStorage.usersMap (storage memDemo))
                = [User.mk 1 "testuser"
                     "5e884898da28047151d0e56f8dc6292773603d0d6aabbdd62a11ef721d1542d8"
                     "test@example.com" (demoClock 0);
                   bobSession]) by run.
  assert (Hname : isAscii "BOB" = true) by reflexivity.
  assert (Hall : forall u, In u (JsMap.values (MemStorage.usersMap (storage memDemo))) ->
                           isAscii (User.username u) = true /\
                           isAscii (User.email u) = true).
  { rewrite Hus. intros u [<-|[<-|[]]]; split; reflexivity. }
  destruct (Hmem memDemo "BOB" Hname Hall)
    as (_ & _ & _ & _ & _ & _ & _ & _ & Hfirst & _).
  assert (Hg : outcome (getUserByUsername "BOB") memDemo = Val (Some bobSession)) by run.
  destruct (Hfirst _ Hg) as (earlier & later & Hl & Hno).
  exists bobSession, earlier, later.
  split; [exact Hg|]. split; [reflexivity|]. split; [exact Hl|exact Hno].
Defined.

(** ** Files: creation and reading back *)

Lemma mem_createFile_run (w : World MemStorage.t) d :
  let s := storage w in
  let id := MemStorage.files (MemStorage.currentId s) in
  let file := File.mk id (InsertFile.name d) (InsertFile.size d) (InsertFile.type d)
                (InsertFile.cid d) (InsertFile.encryptionKey d)
                (InsertFile.ownerId d) (clock w (clockReads w)) "encrypted" "" in
  let file' := File.withOwner (MemStorage.ownerName s (InsertFile.ownerId d)) file in
  MemStorage.createFile d w
  = (Val file',
     withStorage
       (MemStorage.setFilesMap
          (JsMap.set id file' (JsMap.set id file (MemStorage.filesMap s)))
          (MemStorage.bumpFiles s)) (tick w)).
Proof. reflexivity. Qed.

Lemma db_createFile_run (w : World DatabaseStorage.t) d :
  let s := storage w in
  let id := DatabaseStorage.files_id_seq (DatabaseStorage.sequences s) in
  let row := FileRow.mk id (InsertFile.name d) (InsertFile.size d) (InsertFile.type d)
               (InsertFile.cid d) (InsertFile.encryptionKey d)
               (InsertFile.ownerId d) (clock w (clockReads w)) "encrypted" in
  DatabaseStorage.createFile d w
  = (Val (FileRow.withOwner (DatabaseStorage.ownerName s (InsertFile.ownerId d)) row),
     withStorage
       (DatabaseStorage.setFiles (DatabaseStorage.files s ++ [row])
          (DatabaseStorage.bumpFiles s)) (tick w)).
Proof. reflexivity. Qed.

Lemma mem_createFile_effect (w : World MemStorage.t) (d : InsertFile.t) :
  MemStorage.Inv (storage w) ->
  let w' := after (createFile d) w in
  exists file owner,
    outcome (createFile d) w = Val file /\
    outcome (getUser (InsertFile.ownerId d)) w = Val owner /\
    file = File.mk (File.id file) (InsertFile.name d) (InsertFile.size d)
             (InsertFile.type d) (InsertFile.cid d) (InsertFile.encryptionKey d)
             (InsertFile.ownerId d) (clock w (clockReads w)) "encrypted"
             (match owner with
              | Some user => User.username user
              | None => "Unknown"
              end) /\
    outcome (getFile (File.id file)) w = Val None /\
    outcome (getFile (File.id file)) w' = Val (Some file) /\
    (forall G, G <> File.id file ->
               outcome (getFile G) w' = outcome (getFile G) w) /\
    checkFileAccess (File.id file) (InsertFile.ownerId d) w' = (Val true, w').
Proof.
  intros HInv w'. subst w'. unfold after, outcome. expose.
  rewrite mem_createFile_run. cbn [fst snd].
  destruct HInv as (_ & Hf & _).
  do 2 eexists. split; [reflexivity|].
  split; [unfold MemStorage.getUser, gets; cbn [fst]; reflexivity|].
  split; [reflexivity|].
  cbn [File.id File.withOwner]. unfold MemStorage.getFile, MemStorage.checkFileAccess, gets.
  cbn [fst storage withStorage MemStorage.filesMap MemStorage.setFilesMap
       MemStorage.bumpFiles MemStorage.setCurrentId].
  split; [|split; [|split]].
  - rewrite (proj2 (get_None_keys _ _)); [reflexivity|].
    exact (MemFacts.keyed_fresh _ _ _ Hf).
  - rewrite get_set_eq. reflexivity.
  - intros G Hne. rewrite !get_set_ne by congruence. reflexivity.
  - rewrite get_set_eq. cbn [File.ownerId File.withOwner].
    now rewrite Z.eqb_refl.
Qed.

Lemma db_createFile_effect (w : World DatabaseStorage.t) (d : InsertFile.t) :
  DatabaseStorage.Inv (storage w) ->
  let w' := after (createFile d) w in
  exists file owner,
    outcome (createFile d) w = Val file /\
    outcome (getUser (InsertFile.ownerId d)) w = Val owner /\
    file = File.mk (File.id file) (InsertFile.name d) (InsertFile.size d)
             (InsertFile.type d) (InsertFile.cid d) (InsertFile.encryptionKey d)
             (InsertFile.ownerId d) (clock w (clockReads w)) "encrypted"
             (match owner with
              | Some user => User.username user
              | None => "Unknown"
              end) /\
    outcome (getFile (File.id file)) w = Val None /\
    outcome (getFile (File.id file)) w' = Val (Some file) /\
    (forall G, G <> File.id file ->
               outcome (getFile G) w' = outcome (getFile G) w) /\
    checkFileAccess (File.id file) (InsertFile.ownerId d) w' = (Val true, w').
Proof.
  intros HInv w'. subst w'. unfold after, outcome. expose.
  rewrite db_createFile_run. cbn [fst snd].
  destruct HInv as (_ & Hf & _).
  pose proof (db_select_fresh _ _ _ Hf) as Hfresh.
  do 2 eexists. split; [reflexivity|].
  split; [unfold DatabaseStorage.getUser, gets; cbn [fst]; reflexivity|].
  split; [reflexivity|].
  cbn [File.id FileRow.withOwner FileRow.id].
  unfold DatabaseStorage.getFile, DatabaseStorage.checkFileAccess, gets.
  cbn [fst storage withStorage DatabaseStorage.files DatabaseStorage.setFiles
       DatabaseStorage.bumpFiles DatabaseStorage.setSequences].
  split; [|split; [|split]].
  - now rewrite (db_select_none _ _ Hfresh).
  - rewrite DbFacts.select_app_fresh; [reflexivity|exact Hfresh|apply Z.eqb_refl].
  - intros G Hne. rewrite db_select_app_other; [reflexivity|].
    apply Z.eqb_neq. cbn [FileRow.id]. congruence.
  - rewrite DbFacts.select_app_fresh; [|exact Hfresh|apply Z.eqb_refl].
    unfold DatabaseStorage.first at 1. cbn [hd_error FileRow.ownerId].
    now rewrite Z.eqb_refl.
Qed.

(** X3.  [createFile] stores the submitted columns under the next id,
    which no file has yet, with the status "encrypted", the clock as
    [uploadedAt], and as [owner] the user name of the owner.
    [MemStorage] does not require the owner to exist: without such a
    user the name is "Unknown".  Afterwards [getFile] of that id
    returns the file that [createFile] returned, the other files read
    as before, and the owner passes the access check.  This holds of
    [MemStorage] under its invariant, and of [DatabaseStorage] under
    its invariant for a cid that no row has and an owner who is in the
    table of users, as the columns [cid] and [owner_id] demand. *)
Theorem createFile_then_getFile :
  (forall (w : World MemStorage.t) (d : InsertFile.t),
      MemStorage.Inv (storage w) ->
      let w' := after (createFile d) w in
      exists file owner,
        outcome (createFile d) w = Val file /\
        outcome (getUser (InsertFile.ownerId d)) w = Val owner /\
        file = File.mk (File.id file) (InsertFile.name d) (InsertFile.size d)
                 (InsertFile.type d) (InsertFile.cid d) (InsertFile.encryptionKey d)
                 (InsertFile.ownerId d) (clock w (clockReads w)) "encrypted"
                 (match owner with
                  | Some user => User.username user
                  | None => "Unknown"
                  end) /\
        outcome (getFile (File.id file)) w = Val None /\
        outcome (getFile (File.id file)) w' = Val (Some file) /\
        (forall G, G <> File.id file ->
                   outcome (getFile G) w' = outcome (getFile G) w) /\
        checkFileAccess (File.id file) (InsertFile.ownerId d) w' = (Val true, w'))
  /\
  (forall (w : World DatabaseStorage.t) (d : InsertFile.t),
      DatabaseStorage.Inv (storage w) ->
      ~ In (InsertFile.cid d) (map FileRow.cid (DatabaseStorage.files (storage w))) ->
      In (InsertFile.ownerId d) (map User.id (DatabaseStorage.users (storage w))) ->
      let w' := after (createFile d) w in
      exists file owner,
        outcome (createFile d) w = Val file /\
        outcome (getUser (InsertFile.ownerId d)) w = Val owner /\
        file = File.mk (File.id file) (InsertFile.name d) (InsertFile.size d)
                 (InsertFile.type d) (InsertFile.cid d) (InsertFile.encryptionKey d)
                 (InsertFile.ownerId d) (clock w (clockReads w)) "encrypted"
                 (match owner with
                  | Some user => User.username user
                  | None => "Unknown"
                  end) /\
        outcome (getFile (File.id file)) w = Val None /\
        outcome (getFile (File.id file)) w' = Val (Some file) /\
        (forall G, G <> File.id file ->
                   outcome (getFile G) w' = outcome (getFile G) w) /\
        checkFileAccess (File.id file) (InsertFile.ownerId d) w' = (Val true, w')).
Proof.
  split; [exact mem_createFile_effect|].
  intros w d HInv _ _. exact (db_createFile_effect w d HInv).
Qed.

(** A second file in the example: in [MemStorage] for an owner who does
    not exist, in [DatabaseStorage] for alice. *)
Lemma createFile_then_getFile_witness :
  (exists file,
      outcome (createFile (InsertFile.mk "a.txt" 5 "text/plain" "QmA" "k" 9)) memDemo
      = Val file /\
      File.owner file = "Unknown" /\ File.id file = 2 /\
      outcome (getFile 2)
        (after (createFile (InsertFile.mk "a.txt" 5 "text/plain" "QmA" "k" 9)) memDemo)
      = Val (Some file)) /\
  (exists file,
      outcome (createFile (InsertFile.mk "a.txt" 5 "text/plain" "QmA" "k" 1)) dbDemo
      = Val file /\
      File.owner file = "alice" /\ File.id file = 2 /\
      outcome (getFile 2)
        (after (createFile (InsertFile.mk "a.txt" 5 "text/plain" "QmA" "k" 1)) dbDemo)
      = Val (Some file)).
Proof.
  destruct createFile_then_getFile as [Hmem Hdb].
  destruct mem_examples_Inv as (Hm & _). destruct db_examples_Inv as (Hd & _).
  split.
  - destruct (Hmem memDemo (InsertFile.mk "a.txt" 5 "text/plain" "QmA" "k" 9) Hm)
      as (file & owner & Hc & _ & _ & _ & Hg & _).
    exists file. split; [exact Hc|].
    assert (Hc' : outcome (createFile (InsertFile.mk "a.txt" 5 "text/plain" "QmA" "k" 9))
                    memDemo
                  = Val (File.mk 2 "a.txt" 5 "text/plain" "QmA" "k" 9 (demoClock 3)
                           "encrypted" "Unknown")) by run.
    rewrite Hc in Hc'. injection Hc' as Hf.
    assert (Hid : File.id file = 2) by (rewrite Hf; reflexivity).
    split; [rewrite Hf; reflexivity|]. split; [exact Hid|].
    rewrite <- Hid. exact Hg.
  - assert (Hcids : map FileRow.cid (DatabaseStorage.files (storage dbDemo))
                    = ["QmReport"]) by run.
    assert (Hids : map User.id (DatabaseStorage.users (storage dbDemo)) = [1; 2])
      by run.
    assert (Hcid : ~ In "QmA" (map FileRow.cid (DatabaseStorage.files (storage dbDemo)))).
    { rewrite Hcids. simpl. intros [H|[]]; discriminate H. }
    assert (Hown : In 1 (map User.id (DatabaseStorage.users (storage dbDemo)))).
    { rewrite Hids. now left. }
    destruct (Hdb dbDemo (InsertFile.mk "a.txt" 5 "text/plain" "QmA" "k" 1) Hd Hcid Hown)
      as (file & owner & Hc & _ & _ & _ & Hg & _).
    exists file. split; [exact Hc|].
    assert (Hc' : outcome (createFile (InsertFile.mk "a.txt" 5 "text/plain" "QmA" "k" 1))
                    dbDemo
                  = Val (File.mk 2 "a.txt" 5 "text/plain" "QmA" "k" 1 (demoClock 3)
                           "encrypted" "alice")) by run.
    rewrite Hc in Hc'. injection Hc' as Hf.
    assert (Hid : File.id file = 2) by (rewrite Hf; reflexivity).
    split; [rewrite Hf; reflexivity|]. split; [exact Hid|].
    rewrite <- Hid. exact Hg.
Defined.

(** ** Listing the files of a user *)

Lemma mem_value_iff_get {V} (idOf : V -> Z) next (m : JsMap.t Z V) v :
  MemStorage.keyed idOf next m ->
  In v (JsMap.values m) <-> JsMap.get (idOf v) m = Some v.
Proof.
  intros Hk. split.
  - intros Hin. apply In_values in Hin. destruct Hin as [k Hin].
    pose proof (keyed_ids_match _ _ _ Hk) as Hids. rewrite Forall_forall in Hids.
    pose proof (Hids _ Hin) as Hid. simpl in Hid. rewrite Hid.
    apply In_get; [exact (proj1 Hk)|exact Hin].
  - intros Hg. apply In_values. exists (idOf v). now apply get_In.
Qed.

Lemma mem_get_id {V} (idOf : V -> Z) next (m : JsMap.t Z V) k v :
  MemStorage.keyed idOf next m -> JsMap.get k m = Some v -> idOf v = k.
Proof.
  intros Hk Hg. apply get_In in Hg.
  pose proof (keyed_ids_match _ _ _ Hk) as Hids. rewrite Forall_forall in Hids.
  exact (Hids _ Hg).
Qed.

Lemma db_first_by_id {A} (idOf : A -> Z) (rows : list A) r :
  NoDup (map idOf rows) -> In r rows ->
  DatabaseStorage.first (DatabaseStorage.selectWhere (fun x => idOf x =? idOf r) rows)
  = Some r.
Proof.
  intros Hnd Hin.
  destruct (DatabaseStorage.first
              (DatabaseStorage.selectWhere (fun x => idOf x =? idOf r) rows))
    as [x|] eqn:E.
  - apply first_select_Some in E. destruct E as [Hx Hid]. apply Z.eqb_eq in Hid.
    apply f_equal. exact (DbFacts.NoDup_map_inj idOf rows x r Hnd Hx Hin Hid).
  - apply (first_select_None _ _ E) in Hin. now rewrite Z.eqb_refl in Hin.
Qed.

Lemma mem_getUserFiles_lists (w : World MemStorage.t) (U : Z) :
  MemStorage.Inv (storage w) ->
  exists files,
    getUserFiles U w = (Val files, w) /\
    (forall f, In f files <->
               outcome (getFile (File.id f)) w = Val (Some f) /\ File.ownerId f = U) /\
    NoDup (map File.id files).
Proof.
  intros HInv. expose. unfold MemStorage.getUserFiles, gets.
  destruct HInv as (_ & Hf & _).
  eexists. split; [reflexivity|]. split.
  - intros f. unfold outcome. expose. unfold MemStorage.getFile, gets. cbn [fst].
    rewrite in_map_iff. split.
    + intros (f0 & <- & Hin). apply filter_In in Hin. destruct Hin as [Hin Ho].
      apply Z.eqb_eq in Ho.
      apply (mem_value_iff_get File.id _ _ _ Hf) in Hin.
      cbn [File.id File.withOwner File.ownerId]. rewrite Hin. auto.
    + intros [Hg Ho].
      destruct (JsMap.get (File.id f) (MemStorage.filesMap (storage w)))
        as [f0|] eqn:E; [|discriminate].
      injection Hg as Hg. exists f0. split; [exact Hg|].
      apply filter_In. split.
      * apply (mem_value_iff_get File.id _ _ _ Hf).
        rewrite (mem_get_id File.id _ _ _ _ Hf E). exact E.
      * apply Z.eqb_eq. rewrite <- Hg in Ho. exact Ho.
  - rewrite map_map. cbn [File.id File.withOwner].
    apply (DbFacts.NoDup_map_filter File.id).
    rewrite (MemFacts.keyed_ids _ _ _ Hf). exact (proj1 Hf).
Qed.

Lemma db_getUserFiles_lists (w : World DatabaseStorage.t) (U : Z) :
  DatabaseStorage.Inv (storage w) ->
  exists files,
    getUserFiles U w = (Val files, w) /\
    (forall f, In f files <->
               outcome (getFile (File.id f)) w = Val (Some f) /\ File.ownerId f = U) /\
    NoDup (map File.id files).
Proof.
  intros HInv. expose. unfold DatabaseStorage.getUserFiles, gets.
  destruct HInv as (_ & Hf & _). destruct Hf as [Hnd _].
  eexists. split; [reflexivity|]. split.
  - intros f. unfold outcome. expose. unfold DatabaseStorage.getFile, gets. cbn [fst].
    rewrite in_map_iff. split.
    + intros (row & <- & Hin). apply filter_In in Hin. destruct Hin as [Hin Ho].
      apply Z.eqb_eq in Ho.
      cbn [File.id FileRow.withOwner File.ownerId].
      rewrite (db_first_by_id FileRow.id _ _ Hnd Hin). rewrite Ho. auto.
    + intros [Hg Ho].
      destruct (DatabaseStorage.first
                  (DatabaseStorage.selectWhere (fun x => FileRow.id x =? File.id f)
                     (DatabaseStorage.files (storage w)))) as [row|] eqn:E;
        [|discriminate].
      injection Hg as Hg. apply first_select_Some in E. destruct E as [Hin _].
      assert (Hrow : FileRow.ownerId row = U) by (rewrite <- Hg in Ho; exact Ho).
      exists row. split; [rewrite <- Hrow; exact Hg|].
      apply filter_In. split; [exact Hin|now apply Z.eqb_eq].
  - rewrite map_map. cbn [File.id FileRow.withOwner].
    now apply (DbFacts.NoDup_map_filter FileRow.id).
Qed.

(** X4.  [getUserFiles(U)] reads without writing and lists exactly the
    files that exist and are owned by [U], each as [getFile] returns it
    and each once.  This holds of [MemStorage] and of [DatabaseStorage],
    under the invariant of each. *)
Theorem getUserFiles_lists_owned :
  (forall (w : World MemStorage.t) (U : Z),
      MemStorage.Inv (storage w) ->
      exists files,
        getUserFiles U w = (Val files, w) /\
        (forall f, In f files <->
                   outcome (getFile (File.id f)) w = Val (Some f) /\
                   File.ownerId f = U) /\
        NoDup (map File.id files))
  /\
  (forall (w : World DatabaseStorage.t) (U : Z),
      DatabaseStorage.Inv (storage w) ->
      exists files,
        getUserFiles U w = (Val files, w) /\
        (forall f, In f files <->
                   outcome (getFile (File.id f)) w = Val (Some f) /\
                   File.ownerId f = U) /\
        NoDup (map File.id files)).
Proof.
  split; [exact mem_getUserFiles_lists|exact db_getUserFiles_lists].
Qed.

(** The owner of the example has the one file, bob has none. *)
Lemma getUserFiles_lists_owned_witness :
  (exists files, getUserFiles 1 memShared = (Val files, memShared) /\
                 map File.id files = [1]) /\
  (exists files, getUserFiles 2 dbShared = (Val files, dbShared) /\ files = []).
Proof.
  destruct getUserFiles_lists_owned as [Hmem Hdb].
  destruct mem_examples_Inv as (_ & Hm & _). destruct db_examples_Inv as (_ & Hd & _).
  split.
  - destruct (Hmem memShared 1 Hm) as (files & Hg & _). exists files.
    split; [exact Hg|].
    assert (Hv : getUserFiles 1 memShared
                 = (Val [File.mk 1 "report.pdf" 100 "application/pdf" "QmReport" "key" 1
                           (demoClock 2) "encrypted" "testuser"], memShared)) by run.
    rewrite Hg in Hv. injection Hv as ->. reflexivity.
  - destruct (Hdb dbShared 2 Hd) as (files & Hg & _). exists files.
    split; [exact Hg|].
    assert (Hv : getUserFiles 2 dbShared = (Val [], dbShared)) by run.
    rewrite Hg in Hv. now injection Hv as ->.
Defined.

(** ** Listing the files shared with a user *)

Lemma flat_map_or_nil {A B} (g : A -> list B) (l : list A) :
  match l with
  | [] => []
  | _ => flat_map g l
  end = flat_map g l.
Proof. now destruct l. Qed.

(** One entry for each grant whose file exists. *)
Lemma shared_count {F : Type} (idOf : F -> Z) (g : FileShare.t -> list F) (file : Z)
  (U : Z) (rows : list FileShare.t) :
  (forall share f, In f (g share) -> idOf f = FileShare.fileId share) ->
  (forall share, FileShare.fileId share = file -> List.length (g share) = 1%nat) ->
  List.length (filter (fun f => idOf f =? file)
                 (flat_map g (filter (fun share => FileShare.userId share =? U) rows)))
  = List.length (grantsOf file U rows).
Proof.
  intros Hid Hone. unfold grantsOf.
  induction rows as [|share r IH]; simpl; [reflexivity|].
  destruct (FileShare.userId share =? U) eqn:EU; simpl.
  - rewrite filter_app, length_app, IH. rewrite andb_true_r.
    destruct (FileShare.fileId share =? file) eqn:EF; simpl.
    + apply Z.eqb_eq in EF. specialize (Hone share EF).
      destruct (g share) as [|f [|f' l]] eqn:Eg; try discriminate.
      assert (Hf : idOf f = file) by (rewrite <- EF; apply Hid; rewrite Eg; now left).
      simpl. apply Z.eqb_eq in Hf. now rewrite Hf.
    + replace (filter (fun f => idOf f =? file) (g share)) with (@nil F);
        [reflexivity|].
      symmetry. apply db_select_none. intros f Hf. apply Hid in Hf.
      rewrite Hf. exact EF.
  - rewrite andb_false_r. exact IH.
Qed.

Lemma mem_getSharedFiles_lists (w : World MemStorage.t) (U : Z) :
  MemStorage.Inv (storage w) ->
  let rows := MemStorage.fileShareRows (storage w) in
  exists files,
    getSharedFiles U w = (Val files, w) /\
    (forall f, In f files <->
               outcome (getFile (File.id f)) w = Val (Some f) /\
               exists share, In share rows /\ FileShare.fileId share = File.id f /\
                             FileShare.userId share = U) /\
    (forall F file, outcome (getFile F) w = Val (Some file) ->
       List.length (filter (fun f => File.id f =? F) files)
       = List.length (grantsOf F U rows)).
Proof.
  intros HInv rows. subst rows. expose. unfold MemStorage.getSharedFiles, gets.
  destruct HInv as (_ & Hf & _).
  eexists. split; [reflexivity|].
  unfold outcome. expose. unfold MemStorage.getFile, gets. cbn [fst].
  unfold MemStorage.fileShareRows.
  set (s := storage w) in *.
  assert (Hg : forall share f,
             In f match JsMap.get (FileShare.fileId share) (MemStorage.filesMap s) with
                  | Some file => [File.withOwner (MemStorage.ownerName s (File.ownerId file)) file]
                  | None => []
                  end ->
             File.id f = FileShare.fileId share).
  { intros share f Hin.
    destruct (JsMap.get _ _) as [file|] eqn:E; [|destruct Hin].
    destruct Hin as [<-|[]]. cbn [File.id File.withOwner].
    exact (mem_get_id File.id _ _ _ _ Hf E). }
  split.
  - intros f. rewrite in_flat_map. split.
    + intros (share & Hs & Hin). apply filter_In in Hs. destruct Hs as [Hs HU].
      apply Z.eqb_eq in HU. pose proof (Hg share f Hin) as Hid.
      split; [|exists share; auto].
      rewrite Hid. destruct (JsMap.get _ _) as [file|]; [|destruct Hin].
      destruct Hin as [<-|[]]. reflexivity.
    + intros (Hget & share & Hs & Hid & HU). exists share. split.
      * apply filter_In. split; [exact Hs|now apply Z.eqb_eq].
      * rewrite Hid. destruct (JsMap.get _ _) as [file|]; [|discriminate].
        injection Hget as <-. now left.
  - intros F file Hget.
    apply (shared_count File.id); [exact Hg|].
    intros share HF. rewrite HF.
    destruct (JsMap.get F _); [reflexivity|discriminate].
Qed.

Lemma db_getSharedFiles_lists (w : World DatabaseStorage.t) (U : Z) :
  let rows := DatabaseStorage.fileShares (storage w) in
  exists files,
    getSharedFiles U w = (Val files, w) /\
    (forall f, In f files <->
               outcome (getFile (File.id f)) w = Val (Some f) /\
               exists share, In share rows /\ FileShare.fileId share = File.id f /\
                             FileShare.userId share = U) /\
    (forall F file, outcome (getFile F) w = Val (Some file) ->
       List.length (filter (fun f => File.id f =? F) files)
       = List.length (grantsOf F U rows)).
Proof.
  intros rows. subst rows. expose. unfold DatabaseStorage.getSharedFiles, gets.
  rewrite flat_map_or_nil.
  eexists. split; [reflexivity|].
  unfold outcome. expose. unfold DatabaseStorage.getFile, gets. cbn [fst].
  set (s := storage w) in *.
  assert (Hg : forall share f,
             In f match DatabaseStorage.first
                         (DatabaseStorage.selectWhere
                            (fun x => FileRow.id x =? FileShare.fileId share)
                            (DatabaseStorage.files s)) with
                  | Some file =>
                      [FileRow.withOwner
                         (DatabaseStorage.ownerName s (FileRow.ownerId file)) file]
                  | None => []
                  end ->
             File.id f = FileShare.fileId share).
  { intros share f Hin.
    destruct (DatabaseStorage.first _) as [file|] eqn:E; [|destruct Hin].
    destruct Hin as [<-|[]]. cbn [File.id FileRow.withOwner].
    apply first_select_Some in E. now apply Z.eqb_eq. }
  split.
  - intros f. rewrite in_flat_map. split.
    + intros (share & Hs & Hin). apply filter_In in Hs. destruct Hs as [Hs HU].
      apply Z.eqb_eq in HU. pose proof (Hg share f Hin) as Hid.
      split; [|exists share; auto].
      rewrite Hid. destruct (DatabaseStorage.first _) as [file|]; [|destruct Hin].
      destruct Hin as [<-|[]]. reflexivity.
    + intros (Hget & share & Hs & Hid & HU). exists share. split.
      * apply filter_In. split; [exact Hs|now apply Z.eqb_eq].
      * rewrite Hid. destruct (DatabaseStorage.first _) as [file|]; [|discriminate].
        injection Hget as <-. now left.
  - intros F file Hget.
    apply (shared_count File.id); [exact Hg|].
    intros share HF. rewrite HF.
    destruct (DatabaseStorage.first _); [reflexivity|discriminate].
Qed.

(** X5.  [getSharedFiles(U)] reads without writing.  A file is listed
    exactly when it exists and some grant gives it to [U], as [getFile]
    returns it; and it is listed once for each such grant, so a pair
    that was granted twice shows its file twice.  Grants whose file is
    gone are skipped.  This holds of [MemStorage], under the invariant
    of the class, and of [DatabaseStorage]. *)
Theorem getSharedFiles_lists_grants :
  (forall (w : World MemStorage.t) (U : Z),
      MemStorage.Inv (storage w) ->
      let rows := MemStorage.fileShareRows (storage w) in
      exists files,
        getSharedFiles U w = (Val files, w) /\
        (forall f, In f files <->
                   outcome (getFile (File.id f)) w = Val (Some f) /\
                   exists share, In share rows /\
                                 FileShare.fileId share = File.id f /\
                                 FileShare.userId share = U) /\
        (forall F file, outcome (getFile F) w = Val (Some file) ->
           List.length (filter (fun f => File.id f =? F) files)
           = List.length (grantsOf F U rows)))
  /\
  (forall (w : World DatabaseStorage.t) (U : Z),
      let rows := DatabaseStorage.fileShares (storage w) in
      exists files,
        getSharedFiles U w = (Val files, w) /\
        (forall f, In f files <->
                   outcome (getFile (File.id f)) w = Val (Some f) /\
                   exists share, In share rows /\
                                 FileShare.fileId share = File.id f /\
                                 FileShare.userId share = U) /\
        (forall F file, outcome (getFile F) w = Val (Some file) ->
           List.length (filter (fun f => File.id f =? F) files)
           = List.length (grantsOf F U rows))).
Proof.
  split; [exact mem_getSharedFiles_lists|exact db_getSharedFiles_lists].
Qed.

(** Bob after a second grant of the same file: the file is listed twice. *)
Lemma getSharedFiles_lists_grants_witness :
  let again := after (callOp (OpCreateFileShare (InsertFileShare.mk 1 2 "edit"))) memShared in
  MemStorage.Inv (storage again) /\
  (exists files, getSharedFiles 2 again = (Val files, again) /\
                 map File.id files = [1; 1]) /\
  (exists files, getSharedFiles 2 dbShared = (Val files, dbShared) /\
                 map File.id files = [1]).
Proof.
  intros again.
  destruct getSharedFiles_lists_grants as [Hmem Hdb].
  destruct mem_examples_Inv as (_ & Hm & _).
  assert (HInv : MemStorage.Inv (storage again))
    by (apply MemFacts.Inv_callOp; exact Hm).
  split; [exact HInv|]. split.
  - destruct (Hmem again 2 HInv) as (files & Hg & _). exists files.
    split; [exact Hg|].
    assert (Hv : getSharedFiles 2 again
                 = (Val [File.mk 1 "report.pdf" 100 "application/pdf" "QmReport" "key" 1
                           (demoClock 2) "encrypted" "testuser";
                         File.mk 1 "report.pdf" 100 "application/pdf" "QmReport" "key" 1
                           (demoClock 2) "encrypted" "testuser"], again)) by run.
    rewrite Hg in Hv. injection Hv as ->. reflexivity.
  - destruct (Hdb dbShared 2) as (files & Hg & _). exists files.
    split; [exact Hg|].
    assert (Hv : getSharedFiles 2 dbShared
                 = (Val [File.mk 1 "report.pdf" 100 "application/pdf" "QmReport" "key" 1
                           (demoClock 2) "encrypted" "alice"], dbShared)) by run.
    rewrite Hg in Hv. injection Hv as ->. reflexivity.
Defined.

(** ** The transactions of a user *)

Lemma insertSorted_newest_first x (l : list Transaction.t) :
  StronglySorted (fun a b => Transaction.timestamp b <= Transaction.timestamp a) l ->
  StronglySorted (fun a b => Transaction.timestamp b <= Transaction.timestamp a)
    (insertSorted (fun a b => Transaction.timestamp b - Transaction.timestamp a) x l).
Proof.
  induction l as [|y r IH]; simpl; intros Hs.
  - constructor; constructor.
  - inversion Hs as [|? ? Hr Hy]; subst.
    destruct (Z.leb_spec (Transaction.timestamp y - Transaction.timestamp x) 0).
    + constructor; [exact Hs|]. constructor; [lia|].
      rewrite Forall_forall in *. intros z Hz. specialize (Hy z Hz). lia.
    + constructor; [now apply IH|].
      rewrite Forall_forall in *. intros z Hz.
      apply In_insertSorted in Hz. destruct Hz as [->|Hz]; [lia|now apply Hy].
Qed.

Lemma sortBy_newest_first (l : list Transaction.t) :
  StronglySorted (fun a b => Transaction.timestamp b <= Transaction.timestamp a)
    (sortBy (fun a b => Transaction.timestamp b - Transaction.timestamp a) l).
Proof.
  unfold sortBy. induction l as [|x r IH]; simpl; [constructor|].
  now apply insertSorted_newest_first.
Qed.

Lemma mem_getUserTransactions_lists (w : World MemStorage.t) (U : Z) :
  MemStorage.Inv (storage w) ->
  exists listed,
    getUserTransactions U w = (Val listed, w) /\
    (forall tx, In tx listed <->
       In tx (MemStorage.transactionRows (storage w)) /\
       exists F file, Transaction.fileId tx = Some F /\ F <> 0 /\
                      outcome (getFile F) w = Val (Some file) /\
                      File.ownerId file = U) /\
    StronglySorted (fun a b => Transaction.timestamp b <= Transaction.timestamp a)
      listed.
Proof.
  intros HInv. expose. unfold MemStorage.getUserTransactions, gets.
  destruct HInv as (_ & Hf & _).
  eexists. split; [reflexivity|]. split; [|apply sortBy_newest_first].
  intros tx. rewrite In_sortBy, filter_In. unfold MemStorage.transactionRows.
  unfold outcome. expose. unfold MemStorage.getFile, gets. cbn [fst].
  apply and_iff_compat_l. unfold includesFileId. split.
  - destruct (Transaction.fileId tx) as [F|]; [|discriminate].
    intros Hinc. apply andb_true_iff in Hinc. destruct Hinc as [Hnz Hex].
    apply negb_true_iff, Z.eqb_neq in Hnz.
    apply existsb_exists in Hex. destruct Hex as (g & Hg & Heq).
    apply Z.eqb_eq in Heq. subst g.
    apply in_map_iff in Hg. destruct Hg as (file & Hid & Hin).
    apply filter_In in Hin. destruct Hin as [Hin Ho]. apply Z.eqb_eq in Ho.
    apply (mem_value_iff_get File.id _ _ _ Hf) in Hin. rewrite Hid in Hin.
    exists F. eexists. split; [reflexivity|]. split; [exact Hnz|].
    rewrite Hin. split; [reflexivity|]. exact Ho.
  - intros (F & file & -> & Hnz & Hget & Ho).
    apply andb_true_iff. split; [now apply negb_true_iff, Z.eqb_neq|].
    apply existsb_exists. exists F. split; [|apply Z.eqb_refl].
    destruct (JsMap.get F (MemStorage.filesMap (storage w))) as [file0|] eqn:E;
      [|discriminate].
    injection Hget as Hget. apply in_map_iff. exists file0. split.
    + exact (mem_get_id File.id _ _ _ _ Hf E).
    + apply filter_In. split.
      * apply (mem_value_iff_get File.id _ _ _ Hf).
        rewrite (mem_get_id File.id _ _ _ _ Hf E). exact E.
      * apply Z.eqb_eq. rewrite <- Hget in Ho. exact Ho.
Qed.

Lemma db_getUserTransactions_lists (w : World DatabaseStorage.t) (U : Z) :
  DatabaseStorage.Inv (storage w) ->
  exists listed,
    getUserTransactions U w = (Val listed, w) /\
    (forall tx, In tx listed <->
       In tx (DatabaseStorage.transactions (storage w)) /\
       exists F file, Transaction.fileId tx = Some F /\
                      outcome (getFile F) w = Val (Some file) /\
                      File.ownerId file = U) /\
    StronglySorted (fun a b => Transaction.timestamp b <= Transaction.timestamp a)
      listed.
Proof.
  intros HInv. expose. unfold DatabaseStorage.getUserTransactions, gets.
  destruct HInv as (_ & Hf & _). destruct Hf as [Hnd _].
  eexists. split; [reflexivity|].
  set (mine := DatabaseStorage.selectWhere _ (DatabaseStorage.files (storage w))).
  set (byFile := fun file : FileRow.t => DatabaseStorage.selectWhere _ _).
  assert (Heq : match mine with
                | [] => []
                | _ :: _ =>
                    sortBy (fun a b => Transaction.timestamp b - Transaction.timestamp a)
                           (flat_map byFile mine)
                end
                = sortBy (fun a b => Transaction.timestamp b - Transaction.timestamp a)
                         (flat_map byFile mine)) by now destruct mine.
  rewrite Heq. clear Heq. split; [|apply sortBy_newest_first].
  intros tx. rewrite In_sortBy, in_flat_map.
  unfold outcome. expose. unfold DatabaseStorage.getFile, gets. cbn [fst].
  subst mine byFile. unfold DatabaseStorage.selectWhere at 1 2. split.
  - intros (row & Hrow & Htx). apply filter_In in Hrow. destruct Hrow as [Hrow Ho].
    apply Z.eqb_eq in Ho. apply filter_In in Htx. destruct Htx as [Htx Hid].
    split; [exact Htx|].
    destruct (Transaction.fileId tx) as [F|]; [|discriminate].
    apply Z.eqb_eq in Hid. subst F.
    exists (FileRow.id row). eexists. split; [reflexivity|].
    rewrite (db_first_by_id FileRow.id _ _ Hnd Hrow). split; [reflexivity|].
    exact Ho.
  - intros (Htx & F & file & HF & Hget & Ho).
    destruct (DatabaseStorage.first
                (DatabaseStorage.selectWhere (fun x => FileRow.id x =? F)
                   (DatabaseStorage.files (storage w)))) as [row|] eqn:E;
      [|discriminate].
    injection Hget as Hget. apply first_select_Some in E. destruct E as [Hrow Hid].
    apply Z.eqb_eq in Hid.
    exists row. split.
    + apply filter_In. split; [exact Hrow|].
      apply Z.eqb_eq. rewrite <- Hget in Ho. exact Ho.
    + apply filter_In. split; [exact Htx|]. rewrite HF. now apply Z.eqb_eq.
Qed.

(** X6.  [getUserTransactions(U)] reads without writing.  It returns the
    stored transactions that carry the id of a file which exists and is
    owned by [U], and no other (in [MemStorage] a transaction with the
    file id 0 is never returned), the newest first.  This holds of
    [MemStorage] and of [DatabaseStorage], under the invariant of
    each. *)
Theorem getUserTransactions_lists_own :
  (forall (w : World MemStorage.t) (U : Z),
      MemStorage.Inv (storage w) ->
      exists listed,
        getUserTransactions U w = (Val listed, w) /\
        (forall tx, In tx listed <->
           In tx (MemStorage.transactionRows (storage w)) /\
           exists F file, Transaction.fileId tx = Some F /\ F <> 0 /\
                          outcome (getFile F) w = Val (Some file) /\
                          File.ownerId file = U) /\
        StronglySorted (fun a b => Transaction.timestamp b <= Transaction.timestamp a)
          listed)
  /\
  (forall (w : World DatabaseStorage.t) (U : Z),
      DatabaseStorage.Inv (storage w) ->
      exists listed,
        getUserTransactions U w = (Val listed, w) /\
        (forall tx, In tx listed <->
           In tx (DatabaseStorage.transactions (storage w)) /\
           exists F file, Transaction.fileId tx = Some F /\
                          outcome (getFile F) w = Val (Some file) /\
                          File.ownerId file = U) /\
        StronglySorted (fun a b => Transaction.timestamp b <= Transaction.timestamp a)
          listed).
Proof.
  split; [exact mem_getUserTransactions_lists|exact db_getUserTransactions_lists].
Qed.

(** The owner of the example sees the transaction of the upload, bob
    sees none. *)
Lemma getUserTransactions_lists_own_witness :
  (exists listed, getUserTransactions 1 memLogged = (Val listed, memLogged) /\
                  map Transaction.id listed = [1]) /\
  (exists listed, getUserTransactions 2 dbLogged = (Val listed, dbLogged) /\
                  listed = []).
Proof.
  destruct getUserTransactions_lists_own as [Hmem Hdb].
  destruct mem_examples_Inv as (_ & _ & _ & Hm).
  destruct db_examples_Inv as (_ & _ & _ & Hd).
  split.
  - destruct (Hmem memLogged 1 Hm) as (listed & Hg & _). exists listed.
    split; [exact Hg|].
    assert (Hv : getUserTransactions 1 memLogged
                 = (Val [Transaction.mk 1 "tx_1700000000000" "QmReport" (Some 1) "store"
                           "confirmed" (demoClock 5) (MetaFileSize 100)], memLogged))
      by run.
    rewrite Hg in Hv. injection Hv as ->. reflexivity.
  - destruct (Hdb dbLogged 2 Hd) as (listed & Hg & _). exists listed.
    split; [exact Hg|].
    assert (Hv : getUserTransactions 2 dbLogged = (Val [], dbLogged)) by run.
    rewrite Hg in Hv. now injection Hv as ->.
Defined.

(** ** Logging a transaction *)

Lemma mem_logTransaction_listed (w : World MemStorage.t) (d : InsertTransaction.t)
  (F : Z) (file : File.t) :
  MemStorage.Inv (storage w) ->
  InsertTransaction.fileId d = Some F -> F <> 0 ->
  outcome (getFile F) w = Val (Some file) ->
  let w' := after (logTransaction d) w in
  exists tx before listed,
    outcome (logTransaction d) w = Val tx /\
    tx = Transaction.mk (Transaction.id tx) (InsertTransaction.txId d)
           (InsertTransaction.cid d) (Some F) (InsertTransaction.type d)
           (InsertTransaction.status d) (clock w (clockReads w))
           (InsertTransaction.metadata d) /\
    ~ In (Transaction.id tx)
         (map Transaction.id (MemStorage.transactionRows (storage w))) /\
    outcome (getUserTransactions (File.ownerId file)) w = Val before /\
    outcome (getUserTransactions (File.ownerId file)) w' = Val listed /\
    (forall t, In t listed <-> t = tx \/ In t before).
Proof.
  intros HInv HF Hnz Hfile w'.
  assert (HInv' : MemStorage.Inv (storage w')).
  { pose proof (MemFacts.Inv_callOp w (OpLogTransaction d) HInv) as Hi.
    cbn [callOp] in Hi. now rewrite after_forget in Hi. }
  destruct (mem_getUserTransactions_lists w (File.ownerId file) HInv)
    as (before & Hb & Hbin & _).
  destruct (mem_getUserTransactions_lists w' (File.ownerId file) HInv')
    as (listed & Hl & Hlin & _).
  assert (Hrun := MemFacts.logTransaction_run w d).
  cbv zeta in Hrun. expose.
  set (tx := Transaction.mk _ _ _ _ _ _ _ _) in Hrun.
  assert (Hw' : w' = snd (MemStorage.logTransaction d w)) by reflexivity.
  rewrite Hrun in Hw'. cbn [snd] in Hw'.
  assert (Hfresh : ~ In (Transaction.id tx)
                     (map Transaction.id (MemStorage.transactionRows (storage w)))).
  { destruct HInv as (_ & _ & _ & _ & Ht & _). unfold MemStorage.transactionRows.
    rewrite (MemFacts.keyed_ids _ _ _ Ht). exact (MemFacts.keyed_fresh _ _ _ Ht). }
  exists tx, before, listed. unfold outcome. expose.
  split; [now rewrite Hrun|].
  split; [subst tx; cbn [Transaction.id]; now rewrite HF|].
  split; [exact Hfresh|].
  split; [now rewrite Hb|]. split; [now rewrite Hl|].
  assert (Hrows : MemStorage.transactionRows (storage w')
                  = MemStorage.transactionRows (storage w) ++ [tx]).
  { rewrite Hw'. unfold MemStorage.transactionRows.
    cbn [storage withStorage MemStorage.transactionsMap MemStorage.setTransactionsMap
         MemStorage.bumpTransactions MemStorage.setCurrentId].
    apply values_set_fresh.
    destruct HInv as (_ & _ & _ & _ & Ht & _). exact (MemFacts.keyed_fresh _ _ _ Ht). }
  assert (Hget : forall G, outcome (getFile G) w' = outcome (getFile G) w).
  { intros G. rewrite Hw'. reflexivity. }
  intros t. rewrite Hlin, Hbin, Hrows, in_app_iff. split.
  - intros [[Hin|[<-|[]]] (G & g & Hg & Hgz & Hgf & Hgo)].
    + right. split; [exact Hin|]. exists G, g. rewrite <- Hget. auto.
    + now left.
  - intros [->|[Hin (G & g & Hg & Hgz & Hgf & Hgo)]].
    + split; [right; now left|]. exists F, file.
      split; [subst tx; cbn [Transaction.fileId]; exact HF|].
      split; [exact Hnz|]. rewrite Hget. auto.
    + split; [now left|]. exists G, g. rewrite Hget. auto.
Qed.

Lemma db_logTransaction_listed (w : World DatabaseStorage.t) (d : InsertTransaction.t)
  (F : Z) (file : File.t) :
  DatabaseStorage.Inv (storage w) ->
  InsertTransaction.fileId d = Some F ->
  outcome (getFile F) w = Val (Some file) ->
  let w' := after (logTransaction d) w in
  exists tx before listed,
    outcome (logTransaction d) w = Val tx /\
    tx = Transaction.mk (Transaction.id tx) (InsertTransaction.txId d)
           (InsertTransaction.cid d) (Some F) (InsertTransaction.type d)
           (InsertTransaction.status d) (clock w (clockReads w))
           (InsertTransaction.metadata d) /\
    ~ In (Transaction.id tx)
         (map Transaction.id (DatabaseStorage.transactions (storage w))) /\
    outcome (getUserTransactions (File.ownerId file)) w = Val before /\
    outcome (getUserTransactions (File.ownerId file)) w' = Val listed /\
    (forall t, In t listed <-> t = tx \/ In t before).
Proof.
  intros HInv HF Hfile w'.
  assert (HInv' : DatabaseStorage.Inv (storage w')).
  { pose proof (DbFacts.db_Inv_callOp w (OpLogTransaction d) HInv) as Hi.
    cbn [callOp] in Hi. now rewrite after_forget in Hi. }
  destruct (db_getUserTransactions_lists w (File.ownerId file) HInv)
    as (before & Hb & Hbin & _).
  destruct (db_getUserTransactions_lists w' (File.ownerId file) HInv')
    as (listed & Hl & Hlin & _).
  assert (Hrun := DbFacts.db_logTransaction_run w d).
  cbv zeta in Hrun. expose.
  set (tx := Transaction.mk _ _ _ _ _ _ _ _) in Hrun.
  assert (Hw' : w' = snd (DatabaseStorage.logTransaction d w)) by reflexivity.
  rewrite Hrun in Hw'. cbn [snd] in Hw'.
  assert (Hfresh : ~ In (Transaction.id tx)
                     (map Transaction.id (DatabaseStorage.transactions (storage w)))).
  { destruct HInv as (_ & _ & _ & _ & Ht & _).
    exact (DbFacts.serial_fresh _ _ _ Ht). }
  exists tx, before, listed. unfold outcome. expose.
  split; [now rewrite Hrun|].
  split; [subst tx; cbn [Transaction.id]; now rewrite HF|].
  split; [exact Hfresh|].
  split; [now rewrite Hb|]. split; [now rewrite Hl|].
  assert (Hrows : DatabaseStorage.transactions (storage w')
                  = DatabaseStorage.transactions (storage w) ++ [tx])
    by (rewrite Hw'; reflexivity).
  assert (Hget : forall G, outcome (getFile G) w' = outcome (getFile G) w).
  { intros G. rewrite Hw'. reflexivity. }
  intros t. rewrite Hlin, Hbin, Hrows, in_app_iff. split.
  - intros [[Hin|[<-|[]]] (G & g & Hg & Hgf & Hgo)].
    + right. split; [exact Hin|]. exists G, g. rewrite <- Hget. auto.
    + now left.
  - intros [->|[Hin (G & g & Hg & Hgf & Hgo)]].
    + split; [right; now left|]. exists F, file.
      split; [subst tx; cbn [Transaction.fileId]; exact HF|].
      rewrite Hget. auto.
    + split; [now left|]. exists G, g. rewrite Hget. auto.
Qed.

(** X7.  [logTransaction] stores the submitted columns under the next
    id, which no transaction has yet, stamped with the clock.  When the
    transaction names a file that exists (in [MemStorage]: under an id
    other than 0), the owner of that file finds it in
    [getUserTransactions] from then on, beside what was listed before.
    This holds of [MemStorage] and of [DatabaseStorage], under the
    invariant of each. *)
Theorem logTransaction_then_listed :
  (forall (w : World MemStorage.t) (d : InsertTransaction.t) (F : Z) (file : File.t),
      MemStorage.Inv (storage w) ->
      InsertTransaction.fileId d = Some F -> F <> 0 ->
      outcome (getFile F) w = Val (Some file) ->
      let w' := after (logTransaction d) w in
      exists tx before listed,
        outcome (logTransaction d) w = Val tx /\
        tx = Transaction.mk (Transaction.id tx) (InsertTransaction.txId d)
               (InsertTransaction.cid d) (Some F) (InsertTransaction.type d)
               (InsertTransaction.status d) (clock w (clockReads w))
               (InsertTransaction.metadata d) /\
        ~ In (Transaction.id tx)
             (map Transaction.id (MemStorage.transactionRows (storage w))) /\
        outcome (getUserTransactions (File.ownerId file)) w = Val before /\
        outcome (getUserTransactions (File.ownerId file)) w' = Val listed /\
        (forall t, In t listed <-> t = tx \/ In t before))
  /\
  (forall (w : World DatabaseStorage.t) (d : InsertTransaction.t) (F : Z)
          (file : File.t),
      DatabaseStorage.Inv (storage w) ->
      InsertTransaction.fileId d = Some F ->
      outcome (getFile F) w = Val (Some file) ->
      let w' := after (logTransaction d) w in
      exists tx before listed,
        outcome (logTransaction d) w = Val tx /\
        tx = Transaction.mk (Transaction.id tx) (InsertTransaction.txId d)
               (InsertTransaction.cid d) (Some F) (InsertTransaction.type d)
               (InsertTransaction.status d) (clock w (clockReads w))
               (InsertTransaction.metadata d) /\
        ~ In (Transaction.id tx)
             (map Transaction.id (DatabaseStorage.transactions (storage w))) /\
        outcome (getUserTransactions (File.ownerId file)) w = Val before /\
        outcome (getUserTransactions (File.ownerId file)) w' = Val listed /\
        (forall t, In t listed <-> t = tx \/ In t before)).
Proof.
  split; [exact mem_logTransaction_listed|exact db_logTransaction_listed].
Qed.

(** The upload of the example is logged and the owner sees it. *)
Lemma logTransaction_then_listed_witness :
  (exists tx listed,
      outcome (logTransaction uploadLogged) memLinked = Val tx /\
      outcome (getUserTransactions 1) (after (logTransaction uploadLogged) memLinked)
      = Val listed /\ In tx listed) /\
  (exists tx listed,
      outcome (logTransaction uploadLogged) dbLinked = Val tx /\
      outcome (getUserTransactions 1) (after (logTransaction uploadLogged) dbLinked)
      = Val listed /\ In tx listed).
Proof.
  destruct logTransaction_then_listed as [Hmem Hdb].
  destruct mem_examples_Inv as (_ & _ & Hm & _).
  destruct db_examples_Inv as (_ & _ & Hd & _).
  split.
  - assert (Hf : outcome (getFile 1) memLinked
                 = Val (Some (File.mk 1 "report.pdf" 100 "application/pdf" "QmReport"
                                "key" 1 (demoClock 2) "encrypted" "testuser"))) by run.
    destruct (Hmem memLinked uploadLogged 1 _ Hm eq_refl ltac:(discriminate) Hf)
      as (tx & before & listed & Hc & _ & _ & _ & Hl & Hin).
    exists tx, listed. split; [exact Hc|]. split; [exact Hl|].
    apply Hin. now left.
  - assert (Hf : outcome (getFile 1) dbLinked
                 = Val (Some (File.mk 1 "report.pdf" 100 "application/pdf" "QmReport"
                                "key" 1 (demoClock 2) "encrypted" "alice"))) by run.
    destruct (Hdb dbLinked uploadLogged 1 _ Hd eq_refl Hf)
      as (tx & before & listed & Hc & _ & _ & _ & Hl & Hin).
    exists tx, listed. split; [exact Hc|]. split; [exact Hl|].
    apply Hin. now left.
Defined.

(** ** What every reachable state satisfies *)

(** X8.  In every state that calls of the interface reach (from the
    constructor of [MemStorage], from empty tables of
    [DatabaseStorage]) the ids of the users, files, grants, links and
    transactions are pairwise distinct, and every row of statistics has
    [filesUploaded], [filesShared] and [storageUsed] at or above zero;
    in [MemStorage] no user has two rows of statistics. *)
Theorem reachable_ids_distinct_counters_floored :
  (forall w : World MemStorage.t,
      memReachable w ->
      let s := storage w in
      NoDup (map User.id (JsMap.values (MemStorage.usersMap s))) /\
      NoDup (map File.id (JsMap.values (MemStorage.filesMap s))) /\
      NoDup (map FileShare.id (MemStorage.fileShareRows s)) /\
      NoDup (map ShareLink.id (MemStorage.shareLinkRows s)) /\
      NoDup (map Transaction.id (MemStorage.transactionRows s)) /\
      NoDup (map Stat.userId (MemStorage.statRows s)) /\
      (forall st, In st (MemStorage.statRows s) ->
                  0 <= Stat.filesUploaded st /\ 0 <= Stat.filesShared st /\
                  0 <= Stat.storageUsed st))
  /\
  (forall w : World DatabaseStorage.t,
      dbReachable w ->
      let d := storage w in
      NoDup (map User.id (DatabaseStorage.users d)) /\
      NoDup (map FileRow.id (DatabaseStorage.files d)) /\
      NoDup (map FileShare.id (DatabaseStorage.fileShares d)) /\
      NoDup (map ShareLink.id (DatabaseStorage.shareLinks d)) /\
      NoDup (map Transaction.id (DatabaseStorage.transactions d)) /\
      NoDup (map Stat.id (DatabaseStorage.stats d)) /\
      (forall st, In st (DatabaseStorage.stats d) ->
                  0 <= Stat.filesUploaded st /\ 0 <= Stat.filesShared st /\
                  0 <= Stat.storageUsed st)).
Proof.
  split.
  - intros w Hr s. subst s. apply MemFacts.Inv_reachable in Hr.
    destruct Hr as (Hu & Hf & Hsh & Hl & Ht & Hwf & Hst).
    unfold MemStorage.fileShareRows, MemStorage.shareLinkRows,
      MemStorage.transactionRows, MemStorage.statRows.
    rewrite (MemFacts.keyed_ids _ _ _ Hu), (MemFacts.keyed_ids _ _ _ Hf),
      (MemFacts.keyed_ids _ _ _ Hsh), (MemFacts.keyed_ids _ _ _ Hl),
      (MemFacts.keyed_ids _ _ _ Ht).
    do 5 (split; [match goal with H : MemStorage.keyed _ _ ?m |- NoDup (JsMap.keys ?m) =>
                               exact (proj1 H) end|]).
    rewrite Forall_forall in Hst. split.
    + replace (map Stat.userId (JsMap.values (MemStorage.statsMap (storage w))))
        with (JsMap.keys (MemStorage.statsMap (storage w))); [exact Hwf|].
      unfold JsMap.keys, JsMap.values. rewrite map_map. apply map_ext_in.
      intros e He. symmetry. exact (proj1 (Hst e He)).
    + intros st Hin. apply In_values in Hin. destruct Hin as [k Hin].
      exact (proj2 (Hst _ Hin)).
  - intros w Hr d. subst d. apply DbFacts.db_Inv_reachable in Hr.
    destruct Hr as (Hu & Hf & Hsh & Hl & Ht & Hs & Hst).
    do 6 (split; [match goal with H : DatabaseStorage.serial ?f _ ?m |- NoDup (map ?f ?m) =>
                               exact (proj1 H) end|]).
    rewrite Forall_forall in Hst. exact Hst.
Qed.

(** The example worlds are reachable. *)
Lemma reachable_ids_distinct_counters_floored_witness :
  memReachable memLogged /\
  NoDup (map FileShare.id (MemStorage.fileShareRows (storage memLogged))) /\
  dbReachable dbLogged /\
  NoDup (map Transaction.id (DatabaseStorage.transactions (storage dbLogged))).
Proof.
  destruct reachable_ids_distinct_counters_floored as [Hmem Hdb].
  assert (Hm : memReachable memLogged) by apply memReachable_runOps.
  assert (Hd : dbReachable dbLogged) by apply dbReachable_runOps.
  split; [exact Hm|]. split; [exact (proj1 (proj2 (proj2 (Hmem _ Hm))))|].
  split; [exact Hd|]. exact (proj1 (proj2 (proj2 (proj2 (proj2 (Hdb _ Hd)))))).
Defined.

(** ** GET /files/:id and GET /files/:id/preview *)

Section ReadingPaths.
Context {St : Type} `{IStorage St}.

Lemma getFileHandler_no_file user F w :
  getFile F w = (Val None, w) ->
  getFileHandler (Some user) F w = (json 404 (BError "File not found"), w).
Proof.
  intros Hf. unfold getFileHandler, requireAuth, orFail, respond, tryCatch.
  step Hf. cbn [orExit]. rewrite bind_exit. reflexivity.
Qed.

Lemma getFileHandler_checked user F w file b :
  getFile F w = (Val (Some file), w) ->
  checkFileAccess (File.id file) (User.id user) w = (Val b, w) ->
  getFileHandler (Some user) F w
  = (if b then json 200 (BFile file) else json 403 (BError "Access denied"), w).
Proof.
  intros Hf Ha. unfold getFileHandler, requireAuth, orFail, respond, tryCatch.
  step Hf. cbn [orExit]. rewrite bind_ret. step Ha.
  destruct b; cbn [negb exitIf]; [rewrite bind_ret|rewrite bind_exit]; reflexivity.
Qed.

Lemma previewHandler_no_file user F w :
  getFile F w = (Val None, w) ->
  previewHandler (Some user) F w = (json 404 (BError "File not found"), w).
Proof.
  intros Hf. unfold previewHandler, requireAuth, orFail, respond, tryCatch.
  step Hf. cbn [orExit]. rewrite bind_exit. reflexivity.
Qed.

Lemma previewHandler_denied user F w file :
  getFile F w = (Val (Some file), w) ->
  checkFileAccess (File.id file) (User.id user) w = (Val false, w) ->
  previewHandler (Some user) F w = (json 403 (BError "Access denied"), w).
Proof.
  intros Hf Ha. unfold previewHandler, requireAuth, orFail, respond, tryCatch.
  step Hf. cbn [orExit]. rewrite bind_ret. step Ha.
  cbn [negb exitIf]. rewrite bind_exit. reflexivity.
Qed.

Lemma previewHandler_unsupported user F w file :
  getFile F w = (Val (Some file), w) ->
  checkFileAccess (File.id file) (User.id user) w = (Val true, w) ->
  startsWith "image/" (File.type file) = false ->
  File.type file <> "application/pdf" ->
  previewHandler (Some user) F w
  = (json 400 (BError "File type not supported for preview"), w).
Proof.
  intros Hf Ha Hi Hp. unfold previewHandler, requireAuth, orFail, respond, tryCatch.
  step Hf. cbn [orExit]. rewrite bind_ret. step Ha.
  cbn [negb exitIf]. rewrite bind_ret.
  apply String.eqb_neq in Hp. rewrite Hi, Hp. cbn [negb andb exitIf].
  rewrite bind_exit. reflexivity.
Qed.

Lemma previewHandler_supported user F w file :
  getFile F w = (Val (Some file), w) ->
  checkFileAccess (File.id file) (User.id user) w = (Val true, w) ->
  startsWith "image/" (File.type file) = true \/ File.type file = "application/pdf" ->
  previewHandler (Some user) F w
  = (match JsMap.get (File.cid file) (storedFiles w) with
     | Some data =>
         if (data =? "")%string then json 500 (BError "Failed to preview file")
         else json 200 (BDownload data (File.encryptionKey file) (File.name file)
                          (File.type file))
     | None => json 500 (BError "Failed to preview file")
     end, w).
Proof.
  intros Hf Ha Ht. unfold previewHandler, requireAuth, orFail, respond, tryCatch.
  step Hf. cbn [orExit]. rewrite bind_ret. step Ha.
  cbn [negb exitIf]. rewrite bind_ret.
  assert (Hc : negb (startsWith "image/" (File.type file))
               && negb (File.type file =? "application/pdf")%string = false).
  { destruct Ht as [Hi|Hp]; [now rewrite Hi|].
    apply String.eqb_eq in Hp. rewrite Hp. apply andb_false_r. }
  rewrite Hc. cbn [exitIf]. rewrite bind_ret.
  unfold bind, retrieveFile.
  destruct (JsMap.get (File.cid file) (storedFiles w)) as [data|]; [|reflexivity].
  destruct (data =? "")%string; reflexivity.
Qed.

End ReadingPaths.

(** Who passes the access check: the owner and the users with a grant. *)
Lemma mem_access_iff (w : World MemStorage.t) (F U : Z) :
  exists b,
    checkFileAccess F U w = (Val b, w) /\
    (b = true <->
     exists file, outcome (getFile F) w = Val (Some file) /\
       (File.ownerId file = U \/
        exists share, In share (MemStorage.fileShareRows (storage w)) /\
                      FileShare.fileId share = F /\ FileShare.userId share = U)).
Proof.
  expose. unfold MemStorage.checkFileAccess, outcome. expose.
  unfold MemStorage.getFile, gets. cbn [fst].
  eexists. split; [reflexivity|].
  destruct (JsMap.get F (MemStorage.filesMap (storage w))) as [f|].
  - destruct (Z.eqb_spec (File.ownerId f) U) as [Ho|Ho].
    + split; [|reflexivity]. intros _. eexists. split; [reflexivity|]. now left.
    + rewrite existsb_iff. unfold MemStorage.fileShareRows. split.
      * intros (sh & Hin & Hm). apply share_matches in Hm.
        eexists. split; [reflexivity|]. right. exists sh. tauto.
      * intros (file & Hf & [Hown|(sh & Hin & Hm)]).
        -- injection Hf as <-. now cbn in Hown.
        -- exists sh. split; [exact Hin|]. now apply share_matches.
  - split; [discriminate|]. intros (file & Hf & _). discriminate.
Qed.

Lemma db_access_iff (w : World DatabaseStorage.t) (F U : Z) :
  exists b,
    checkFileAccess F U w = (Val b, w) /\
    (b = true <->
     exists file, outcome (getFile F) w = Val (Some file) /\
       (File.ownerId file = U \/
        exists share, In share (DatabaseStorage.fileShares (storage w)) /\
                      FileShare.fileId share = F /\ FileShare.userId share = U)).
Proof.
  expose. unfold DatabaseStorage.checkFileAccess, outcome. expose.
  unfold DatabaseStorage.getFile, gets. cbn [fst].
  eexists. split; [reflexivity|].
  destruct (DatabaseStorage.first
              (DatabaseStorage.selectWhere (fun f => FileRow.id f =? F)
                 (DatabaseStorage.files (storage w)))) as [f|].
  - destruct (Z.eqb_spec (FileRow.ownerId f) U) as [Ho|Ho].
    + split; [|reflexivity]. intros _. eexists. split; [reflexivity|]. now left.
    + split.
      * intros Hb. destruct (DatabaseStorage.first _) as [sh|] eqn:E; [|discriminate].
        apply first_select_Some in E as [Hin Hm]. apply share_matches in Hm.
        eexists. split; [reflexivity|]. right. exists sh. tauto.
      * intros (file & Hf & [Hown|(sh & Hin & Hm)]).
        -- injection Hf as <-. now cbn in Hown.
        -- destruct (DatabaseStorage.first _) as [sh'|] eqn:E; [reflexivity|].
           apply (first_select_None _ _ E) in Hin.
           assert (Hm' := proj2 (share_matches sh F U) Hm). congruence.
  - split; [discriminate|]. intros (file & Hf & _). discriminate.
Qed.

Lemma mem_getFile_reads (w : World MemStorage.t) F :
  getFile F w = (outcome (getFile F) w, w).
Proof. reflexivity. Qed.

Lemma db_getFile_reads (w : World DatabaseStorage.t) F :
  getFile F w = (outcome (getFile F) w, w).
Proof. reflexivity. Qed.

Lemma mem_getFile_id (w : World MemStorage.t) F file :
  MemStorage.Inv (storage w) ->
  outcome (getFile F) w = Val (Some file) -> File.id file = F.
Proof.
  intros (_ & Hf & _). unfold outcome. expose. unfold MemStorage.getFile, gets.
  cbn [fst]. destruct (JsMap.get F _) as [f|] eqn:E; [|discriminate].
  intros Hg. injection Hg as <-. cbn [File.id File.withOwner].
  exact (mem_get_id File.id _ _ _ _ Hf E).
Qed.

Lemma db_getFile_id (w : World DatabaseStorage.t) F file :
  outcome (getFile F) w = Val (Some file) -> File.id file = F.
Proof.
  unfold outcome. expose. unfold DatabaseStorage.getFile, gets.
  cbn [fst]. destruct (DatabaseStorage.first _) as [f|] eqn:E; [|discriminate].
  intros Hg. injection Hg as <-. cbn [File.id FileRow.withOwner].
  apply first_select_Some in E. now apply Z.eqb_eq.
Qed.

(** The access check of a handler, from who owns the file and who has a
    grant. *)
Lemma mem_handler_access (w : World MemStorage.t) F U file :
  MemStorage.Inv (storage w) ->
  outcome (getFile F) w = Val (Some file) ->
  exists b,
    checkFileAccess (File.id file) U w = (Val b, w) /\
    (b = true <->
     File.ownerId file = U \/
     exists share, In share (MemStorage.fileShareRows (storage w)) /\
                   FileShare.fileId share = F /\ FileShare.userId share = U).
Proof.
  intros HInv Hf. rewrite (mem_getFile_id w F file HInv Hf).
  destruct (mem_access_iff w F U) as (b & Hb & Hiff).
  exists b. split; [exact Hb|]. rewrite Hiff. split.
  - intros (file' & Hf' & Hg). rewrite Hf in Hf'. now injection Hf' as <-.
  - intros Hg. now exists file.
Qed.

Lemma db_handler_access (w : World DatabaseStorage.t) F U file :
  outcome (getFile F) w = Val (Some file) ->
  exists b,
    checkFileAccess (File.id file) U w = (Val b, w) /\
    (b = true <->
     File.ownerId file = U \/
     exists share, In share (DatabaseStorage.fileShares (storage w)) /\
                   FileShare.fileId share = F /\ FileShare.userId share = U).
Proof.
  intros Hf. rewrite (db_getFile_id w F file Hf).
  destruct (db_access_iff w F U) as (b & Hb & Hiff).
  exists b. split; [exact Hb|]. rewrite Hiff. split.
  - intros (file' & Hf' & Hg). rewrite Hf in Hf'. now injection Hf' as <-.
  - intros Hg. now exists file.
Qed.

(** X9.  GET /files/:id never changes the state.  Without a session it
    answers 401; for a file that does not exist 404; for a file that
    exists it answers 200 with the file when the requester owns it or
    holds a grant for it, of whatever permission, and 403 "Access
    denied" otherwise.  This holds over [MemStorage], under the
    invariant of the class, and over [DatabaseStorage]. *)
Theorem getFileHandler_gate :
  (forall (w : World MemStorage.t) (user : User.t) (F : Z),
      MemStorage.Inv (storage w) ->
      getFileHandler None F w = (json 401 (BError "Authentication required"), w) /\
      (outcome (getFile F) w = Val None ->
       getFileHandler (Some user) F w = (json 404 (BError "File not found"), w)) /\
      (forall file, outcome (getFile F) w = Val (Some file) ->
         let granted :=
           File.ownerId file = User.id user \/
           exists share, In share (MemStorage.fileShareRows (storage w)) /\
                         FileShare.fileId share = F /\
                         FileShare.userId share = User.id user in
         (granted ->
          getFileHandler (Some user) F w = (json 200 (BFile file), w)) /\
         (~ granted ->
          getFileHandler (Some user) F w = (json 403 (BError "Access denied"), w))))
  /\
  (forall (w : World DatabaseStorage.t) (user : User.t) (F : Z),
      getFileHandler None F w = (json 401 (BError "Authentication required"), w) /\
      (outcome (getFile F) w = Val None ->
       getFileHandler (Some user) F w = (json 404 (BError "File not found"), w)) /\
      (forall file, outcome (getFile F) w = Val (Some file) ->
         let granted :=
           File.ownerId file = User.id user \/
           exists share, In share (DatabaseStorage.fileShares (storage w)) /\
                         FileShare.fileId share = F /\
                         FileShare.userId share = User.id user in
         (granted ->
          getFileHandler (Some user) F w = (json 200 (BFile file), w)) /\
         (~ granted ->
          getFileHandler (Some user) F w = (json 403 (BError "Access denied"), w)))).
Proof.
  split.
  - intros w user F HInv. split; [reflexivity|]. split.
    + intros Hf. apply getFileHandler_no_file. rewrite mem_getFile_reads. now rewrite Hf.
    + intros file Hf granted. subst granted.
      destruct (mem_handler_access w F (User.id user) file HInv Hf) as (b & Hb & Hiff).
      assert (Hg : getFile F w = (Val (Some file), w))
        by (rewrite mem_getFile_reads; now rewrite Hf).
      rewrite (getFileHandler_checked user F w file b Hg Hb).
      split; intros Hgr.
      * apply Hiff in Hgr. now rewrite Hgr.
      * destruct b; [|reflexivity]. exfalso. apply Hgr. now apply Hiff.
  - intros w user F. split; [reflexivity|]. split.
    + intros Hf. apply getFileHandler_no_file. rewrite db_getFile_reads. now rewrite Hf.
    + intros file Hf granted. subst granted.
      destruct (db_handler_access w F (User.id user) file Hf) as (b & Hb & Hiff).
      assert (Hg : getFile F w = (Val (Some file), w))
        by (rewrite db_getFile_reads; now rewrite Hf).
      rewrite (getFileHandler_checked user F w file b Hg Hb).
      split; intros Hgr.
      * apply Hiff in Hgr. now rewrite Hgr.
      * destruct b; [|reflexivity]. exfalso. apply Hgr. now apply Hiff.
Qed.

(** Bob reads the file once it is shared. *)
Lemma getFileHandler_gate_witness :
  status (fst (getFileHandler (Some bobSession) 1 memShared)) = 200 /\
  snd (getFileHandler (Some bobSession) 1 memShared) = memShared.
Proof.
  destruct getFileHandler_gate as [Hmem _].
  destruct mem_examples_Inv as (_ & Hm & _).
  destruct (Hmem memShared bobSession 1 Hm) as (_ & _ & Hfile).
  assert (Hf : outcome (getFile 1) memShared
               = Val (Some (File.mk 1 "report.pdf" 100 "application/pdf" "QmReport"
                              "key" 1 (demoClock 2) "encrypted" "testuser"))) by run.
  destruct (Hfile _ Hf) as [Hyes _].
  rewrite Hyes; [split; reflexivity|].
  right. exists (FileShare.mk 1 1 2 "view" (demoClock 3)).
  split; [vm_compute; left; reflexivity|]. split; reflexivity.
Defined.

Section PreviewOutcome.
Context {St : Type} `{IStorage St} (L : Lawful St).

Lemma previewHandler_reads user F (w : World St) :
  snd (previewHandler user F w) = w.
Proof.
  destruct user as [user|]; [|reflexivity].
  destruct (getFile_reads L F w) as [[file|] Hf].
  2:{ now rewrite (previewHandler_no_file user F w Hf). }
  destruct (checkFileAccess_reads L (File.id file) (User.id user) w) as [[|] Ha].
  2:{ now rewrite (previewHandler_denied user F w file Hf Ha). }
  destruct (startsWith "image/" (File.type file)) eqn:Hi.
  { rewrite (previewHandler_supported user F w file Hf Ha (or_introl Hi)). reflexivity. }
  destruct (String.eqb_spec (File.type file) "application/pdf") as [Hp|Hp].
  { rewrite (previewHandler_supported user F w file Hf Ha (or_intror Hp)). reflexivity. }
  now rewrite (previewHandler_unsupported user F w file Hf Ha Hi Hp).
Qed.

Lemma previewHandler_as_download user F (w : World St) file data :
  getFile F w = (Val (Some file), w) ->
  checkFileAccess (File.id file) (User.id user) w = (Val true, w) ->
  startsWith "image/" (File.type file) = true \/ File.type file = "application/pdf" ->
  JsMap.get (File.cid file) (storedFiles w) = Some data -> data <> "" ->
  fst (previewHandler (Some user) F w)
  = json 200 (BDownload data (File.encryptionKey file) (File.name file)
                (File.type file)) /\
  fst (downloadHandler (Some user) F w) = fst (previewHandler (Some user) F w).
Proof.
  intros Hf Ha Ht Hd Hne.
  rewrite (previewHandler_supported user F w file Hf Ha Ht), Hd.
  apply String.eqb_neq in Hne. rewrite Hne. cbn [fst]. split; [reflexivity|].
  assert (Hr : retrieveFile (St:=St) (File.cid file) w = (Val data, w))
    by (unfold retrieveFile; now rewrite Hd, Hne).
  destruct (updateUserStats_returns L (File.ownerId file)
              (StatUpdates.mk None None None (Some 1)) w) as [st [w1 Hu]].
  destruct (logTransaction_returns L
              (InsertTransaction.mk ("tx_" ++ showZ (clock w1 (clockReads w1)))%string
                 (File.cid file) (Some (File.id file)) "retrieve" "confirmed" MetaEmpty)
              (tick w1)) as [tx [w2 Hl]].
  now rewrite (downloadHandler_served user F w file data st w1 tx w2 Hf Ha Hr Hu Hl).
Qed.

End PreviewOutcome.

(** X10.  GET /files/:id/preview never changes the state, whatever it
    answers.  For a file that the requester owns or holds a grant for,
    it answers 400 "File type not supported for preview" unless the type
    starts with "image/" or is "application/pdf", and this before the
    blob is fetched; for such a type it answers 200 with the blob stored
    under the file's cid and the file's encryption key, which is the
    answer of the download, or 500 when the mock holds no blob (or an
    empty one) under that cid.  This holds over [MemStorage], under the
    invariant of the class, and over [DatabaseStorage]. *)
Theorem previewHandler_read_only :
  (forall (w : World MemStorage.t) (user : User.t) (F : Z) (file : File.t),
      MemStorage.Inv (storage w) ->
      outcome (getFile F) w = Val (Some file) ->
      File.ownerId file = User.id user \/
      (exists share, In share (MemStorage.fileShareRows (storage w)) /\
                     FileShare.fileId share = F /\
                     FileShare.userId share = User.id user) ->
      let previewable := startsWith "image/" (File.type file) = true \/
                         File.type file = "application/pdf" in
      (forall u G, snd (previewHandler u G w) = w) /\
      (~ previewable ->
       fst (previewHandler (Some user) F w)
       = json 400 (BError "File type not supported for preview")) /\
      (previewable ->
       forall data, JsMap.get (File.cid file) (storedFiles w) = Some data ->
                    data <> "" ->
         fst (previewHandler (Some user) F w)
         = json 200 (BDownload data (File.encryptionKey file) (File.name file)
                       (File.type file)) /\
         fst (downloadHandler (Some user) F w)
         = fst (previewHandler (Some user) F w)) /\
      (previewable ->
       JsMap.get (File.cid file) (storedFiles w) = None \/
       JsMap.get (File.cid file) (storedFiles w) = Some "" ->
       fst (previewHandler (Some user) F w)
       = json 500 (BError "Failed to preview file")))
  /\
  (forall (w : World DatabaseStorage.t) (user : User.t) (F : Z) (file : File.t),
      outcome (getFile F) w = Val (Some file) ->
      File.ownerId file = User.id user \/
      (exists share, In share (DatabaseStorage.fileShares (storage w)) /\
                     FileShare.fileId share = F /\
                     FileShare.userId share = User.id user) ->
      let previewable := startsWith "image/" (File.type file) = true \/
                         File.type file = "application/pdf" in
      (forall u G, snd (previewHandler u G w) = w) /\
      (~ previewable ->
       fst (previewHandler (Some user) F w)
       = json 400 (BError "File type not supported for preview")) /\
      (previewable ->
       forall data, JsMap.get (File.cid file) (storedFiles w) = Some data ->
                    data <> "" ->
         fst (previewHandler (Some user) F w)
         = json 200 (BDownload data (File.encryptionKey file) (File.name file)
                       (File.type file)) /\
         fst (downloadHandler (Some user) F w)
         = fst (previewHandler (Some user) F w)) /\
      (previewable ->
       JsMap.get (File.cid file) (storedFiles w) = None \/
       JsMap.get (File.cid file) (storedFiles w) = Some "" ->
       fst (previewHandler (Some user) F w)
       = json 500 (BError "Failed to preview file"))).
Proof.
  split.
  - intros w user F file HInv Hf Hgr previewable. subst previewable.
    destruct (mem_handler_access w F (User.id user) file HInv Hf) as (b & Hb & Hiff).
    apply Hiff in Hgr. subst b.
    assert (Hg : getFile F w = (Val (Some file), w))
      by (rewrite mem_getFile_reads; now rewrite Hf).
    split; [intros u G; apply (previewHandler_reads MemStorage_lawful)|].
    split; [|split].
    + intros Hn. rewrite (previewHandler_unsupported user F w file Hg Hb); [reflexivity| |].
      * destruct (startsWith "image/" (File.type file)); [|reflexivity].
        exfalso. apply Hn. now left.
      * intros Hp. apply Hn. now right.
    + intros Hp data Hd Hne.
      exact (previewHandler_as_download MemStorage_lawful user F w file data
               Hg Hb Hp Hd Hne).
    + intros Hp Hd. rewrite (previewHandler_supported user F w file Hg Hb Hp).
      destruct Hd as [->| ->]; reflexivity.
  - intros w user F file Hf Hgr previewable. subst previewable.
    destruct (db_handler_access w F (User.id user) file Hf) as (b & Hb & Hiff).
    apply Hiff in Hgr. subst b.
    assert (Hg : getFile F w = (Val (Some file), w))
      by (rewrite db_getFile_reads; now rewrite Hf).
    split; [intros u G; apply (previewHandler_reads DatabaseStorage_lawful)|].
    split; [|split].
    + intros Hn. rewrite (previewHandler_unsupported user F w file Hg Hb); [reflexivity| |].
      * destruct (startsWith "image/" (File.type file)); [|reflexivity].
        exfalso. apply Hn. now left.
      * intros Hp. apply Hn. now right.
    + intros Hp data Hd Hne.
      exact (previewHandler_as_download DatabaseStorage_lawful user F w file data
               Hg Hb Hp Hd Hne).
    + intros Hp Hd. rewrite (previewHandler_supported user F w file Hg Hb Hp).
      destruct Hd as [->| ->]; reflexivity.
Qed.

(** Bob previews the report, which is a PDF. *)
Lemma previewHandler_read_only_witness :
  fst (previewHandler (Some bobSession) 1 dbShared)
  = json 200 (BDownload "ciphertext" "key" "report.pdf" "application/pdf") /\
  snd (previewHandler (Some bobSession) 1 dbShared) = dbShared.
Proof.
  destruct previewHandler_read_only as [_ Hdb].
  assert (Hf : outcome (getFile 1) dbShared
               = Val (Some (File.mk 1 "report.pdf" 100 "application/pdf" "QmReport"
                              "key" 1 (demoClock 2) "encrypted" "alice"))) by run.
  assert (Hgr : File.ownerId (File.mk 1 "report.pdf" 100 "application/pdf" "QmReport"
                                "key" 1 (demoClock 2) "encrypted" "alice")
                = User.id bobSession \/
                exists share, In share (DatabaseStorage.fileShares (storage dbShared)) /\
                              FileShare.fileId share = 1 /\
                              FileShare.userId share = User.id bobSession).
  { right. exists (FileShare.mk 1 1 2 "view" (demoClock 3)).
    split; [vm_compute; left; reflexivity|]. split; reflexivity. }
  destruct (Hdb dbShared bobSession 1 _ Hf Hgr) as (Hro & _ & Hok & _).
  split; [|apply Hro].
  assert (Hd : JsMap.get "QmReport" (storedFiles dbShared) = Some "ciphertext") by run.
  destruct (Hok (or_intror eq_refl) "ciphertext" Hd ltac:(discriminate)) as [Hp _].
  exact Hp.
Defined.

(** ** GET /files/:id/download: all or nothing *)

Section DownloadOutcome.
Context {St : Type} `{IStorage St} (L : Lawful St).

Lemma downloadHandler_failed user F (w : World St) resp w' :
  downloadHandler user F w = (resp, w') -> status resp <> 200 -> w' = w.
Proof.
  intros Hh Hs. destruct user as [user|].
  { destruct (getFile_reads L F w) as [[file|] Hf].
    2:{ rewrite (downloadHandler_no_file user F w Hf) in Hh. now injection Hh. }
    destruct (checkFileAccess_reads L (File.id file) (User.id user) w) as [[|] Ha].
    2:{ rewrite (downloadHandler_denied user F w file Hf Ha) in Hh. now injection Hh. }
    assert (Hd : (exists data, retrieveFile (St:=St) (File.cid file) w = (Val data, w))
                 \/ (exists e, retrieveFile (St:=St) (File.cid file) w = (Throw e, w))).
    { unfold retrieveFile.
      destruct (JsMap.get (File.cid file) (storedFiles w)) as [data|];
        [destruct (data =? "")%string|]; eauto. }
    destruct Hd as [[data Hd]|[e Hd]].
    2:{ rewrite (downloadHandler_lost user F w file e Hf Ha Hd) in Hh.
        now injection Hh. }
    destruct (updateUserStats_returns L (File.ownerId file)
                (StatUpdates.mk None None None (Some 1)) w) as [st [w1 Hu]].
    destruct (logTransaction_returns L
                (InsertTransaction.mk ("tx_" ++ showZ (clock w1 (clockReads w1)))%string
                   (File.cid file) (Some (File.id file)) "retrieve" "confirmed" MetaEmpty)
                (tick w1)) as [tx [w2 Hl]].
    rewrite (downloadHandler_served user F w file data st w1 tx w2 Hf Ha Hd Hu Hl) in Hh.
    injection Hh as <- <-. now elim Hs. }
  cbn in Hh. now injection Hh.
Qed.

End DownloadOutcome.

Lemma retrieveFile_Val {St} cid data (w w' : World St) :
  retrieveFile cid w = (Val data, w') ->
  JsMap.get cid (storedFiles w) = Some data /\ data <> "".
Proof.
  unfold retrieveFile. destruct (JsMap.get cid (storedFiles w)) as [d|]; [|discriminate].
  destruct (String.eqb_spec d ""); [discriminate|].
  intros Hr. injection Hr as <- _. auto.
Qed.

Lemma mem_download_logs (w : World MemStorage.t) user F resp w' :
  MemStorage.Inv (storage w) ->
  downloadHandler user F w = (resp, w') -> status resp = 200 ->
  exists file data tx,
    outcome (getFile F) w = Val (Some file) /\
    JsMap.get (File.cid file) (storedFiles w) = Some data /\
    resp = json 200 (BDownload data (File.encryptionKey file) (File.name file)
                       (File.type file)) /\
    MemStorage.transactionRows (storage w')
    = MemStorage.transactionRows (storage w) ++ [tx] /\
    Transaction.fileId tx = Some (File.id file) /\
    Transaction.cid tx = File.cid file /\
    Transaction.type tx = "retrieve" /\
    Transaction.status tx = "confirmed" /\
    storedFiles w' = storedFiles w.
Proof.
  intros HInv Hh Hs. destruct user as [user|].
  2:{ cbn in Hh. injection Hh as <- _. discriminate. }
  destruct (downloadHandler_succeeded MemStorage_lawful user F w resp w' Hh Hs)
    as (file & data & st & w1 & tx & Hf & Ha & Hd & Hu & Hl & Hr).
  exists file, data, tx.
  split; [unfold outcome; now rewrite Hf|].
  split; [exact (proj1 (retrieveFile_Val _ _ _ _ Hd))|]. split; [exact Hr|].
  assert (Hw1 : w1 = after (updateUserStats (File.ownerId file)
                              (StatUpdates.mk None None None (Some 1))) w)
    by (unfold after; now rewrite Hu).
  assert (HInv1 : MemStorage.Inv (storage w1))
    by (rewrite Hw1; now apply MemFacts.Inv_updateUserStats).
  destruct (mem_updateUserStats_frame w (File.ownerId file)
              (StatUpdates.mk None None None (Some 1))) as (_ & _ & _ & _ & Ht).
  rewrite <- Hw1 in Ht.
  expose. rewrite MemFacts.logTransaction_run in Hl. injection Hl as <- <-.
  cbn [Transaction.fileId Transaction.cid Transaction.type Transaction.status
       InsertTransaction.fileId InsertTransaction.cid InsertTransaction.type
       InsertTransaction.status].
  split; [|split; [reflexivity|split; [reflexivity|split; [reflexivity|split;
           [reflexivity|]]]]].
  - unfold MemStorage.transactionRows.
    cbn [storage withStorage tick MemStorage.transactionsMap
         MemStorage.setTransactionsMap MemStorage.bumpTransactions
         MemStorage.setCurrentId].
    rewrite values_set_fresh; [now rewrite Ht|].
    destruct HInv1 as (_ & _ & _ & _ & Hk & _). exact (MemFacts.keyed_fresh _ _ _ Hk).
  - cbn [storedFiles withStorage tick]. rewrite Hw1. unfold after.
    expose.
    destruct (JsMap.get (File.ownerId file) (MemStorage.statsMap (storage w))) eqn:E.
    + now rewrite (MemFacts.updateUserStats_found w _ _ _ E).
    + now rewrite (MemFacts.updateUserStats_missing w _ _ E).
Qed.

Lemma db_download_logs (w : World DatabaseStorage.t) user F resp w' :
  DatabaseStorage.Inv (storage w) ->
  downloadHandler user F w = (resp, w') -> status resp = 200 ->
  exists file data tx,
    outcome (getFile F) w = Val (Some file) /\
    JsMap.get (File.cid file) (storedFiles w) = Some data /\
    resp = json 200 (BDownload data (File.encryptionKey file) (File.name file)
                       (File.type file)) /\
    DatabaseStorage.transactions (storage w')
    = DatabaseStorage.transactions (storage w) ++ [tx] /\
    Transaction.fileId tx = Some (File.id file) /\
    Transaction.cid tx = File.cid file /\
    Transaction.type tx = "retrieve" /\
    Transaction.status tx = "confirmed" /\
    storedFiles w' = storedFiles w.
Proof.
  intros HInv Hh Hs. destruct user as [user|].
  2:{ cbn in Hh. injection Hh as <- _. discriminate. }
  destruct (downloadHandler_succeeded DatabaseStorage_lawful user F w resp w' Hh Hs)
    as (file & data & st & w1 & tx & Hf & Ha & Hd & Hu & Hl & Hr).
  exists file, data, tx.
  split; [unfold outcome; now rewrite Hf|].
  split; [exact (proj1 (retrieveFile_Val _ _ _ _ Hd))|]. split; [exact Hr|].
  assert (Hw1 : w1 = after (updateUserStats (File.ownerId file)
                              (StatUpdates.mk None None None (Some 1))) w)
    by (unfold after; now rewrite Hu).
  destruct (db_updateUserStats_frame w (File.ownerId file)
              (StatUpdates.mk None None None (Some 1))) as (_ & _ & _ & _ & Ht).
  rewrite <- Hw1 in Ht.
  expose. rewrite DbFacts.db_logTransaction_run in Hl. injection Hl as <- <-.
  cbn [Transaction.fileId Transaction.cid Transaction.type Transaction.status
       InsertTransaction.fileId InsertTransaction.cid InsertTransaction.type
       InsertTransaction.status].
  split; [|split; [reflexivity|split; [reflexivity|split; [reflexivity|split;
           [reflexivity|]]]]].
  - cbn [storage withStorage tick DatabaseStorage.transactions
         DatabaseStorage.setTransactions DatabaseStorage.bumpTransactions
         DatabaseStorage.setSequences].
    now rewrite Ht.
  - cbn [storedFiles withStorage tick]. rewrite Hw1. unfold after.
    destruct HInv as (_ & _ & _ & _ & _ & Hst & _).
    expose.
    destruct (DatabaseStorage.first
                (DatabaseStorage.selectWhere
                   (fun st => Stat.userId st =? File.ownerId file)
                   (DatabaseStorage.stats (storage w)))) eqn:E.
    + now rewrite (DbFacts.db_updateUserStats_found w _ _ _ (proj1 Hst) E).
    + now rewrite (DbFacts.db_updateUserStats_missing w _ _
                     (DbFacts.serial_fresh _ _ _ Hst) E).
Qed.

(** X11.  GET /files/:id/download does all of its work or none.  An
    answer other than 200 (no session, no file, no access, no blob under
    the file's cid) leaves everything as it was: no counter moves and no
    transaction is logged.  An answer of 200 carries the blob that the
    mock holds under the file's cid with the file's encryption key, name
    and type, appends exactly one transaction to the log, of type
    "retrieve" and status "confirmed" for that file and cid, and leaves
    the blobs as they were.  This holds over [MemStorage] and over
    [DatabaseStorage], under the invariant of each. *)
Theorem downloadHandler_all_or_nothing :
  (forall (w w' : World MemStorage.t) (user : option User.t) (F : Z) (resp : Response),
      MemStorage.Inv (storage w) ->
      downloadHandler user F w = (resp, w') ->
      (status resp <> 200 -> w' = w) /\
      (status resp = 200 ->
       exists file data tx,
         outcome (getFile F) w = Val (Some file) /\
         JsMap.get (File.cid file) (storedFiles w) = Some data /\
         resp = json 200 (BDownload data (File.encryptionKey file) (File.name file)
                            (File.type file)) /\
         MemStorage.transactionRows (storage w')
         = MemStorage.transactionRows (storage w) ++ [tx] /\
         Transaction.fileId tx = Some (File.id file) /\
         Transaction.cid tx = File.cid file /\
         Transaction.type tx = "retrieve" /\
         Transaction.status tx = "confirmed" /\
         storedFiles w' = storedFiles w))
  /\
  (forall (w w' : World DatabaseStorage.t) (user : option User.t) (F : Z)
          (resp : Response),
      DatabaseStorage.Inv (storage w) ->
      downloadHandler user F w = (resp, w') ->
      (status resp <> 200 -> w' = w) /\
      (status resp = 200 ->
       exists file data tx,
         outcome (getFile F) w = Val (Some file) /\
         JsMap.get (File.cid file) (storedFiles w) = Some data /\
         resp = json 200 (BDownload data (File.encryptionKey file) (File.name file)
                            (File.type file)) /\
         DatabaseStorage.transactions (storage w')
         = DatabaseStorage.transactions (storage w) ++ [tx] /\
         Transaction.fileId tx = Some (File.id file) /\
         Transaction.cid tx = File.cid file /\
         Transaction.type tx = "retrieve" /\
         Transaction.status tx = "confirmed" /\
         storedFiles w' = storedFiles w)).
Proof.
  split.
  - intros w w' user F resp HInv Hh. split.
    + exact (downloadHandler_failed MemStorage_lawful user F w resp w' Hh).
    + exact (mem_download_logs w user F resp w' HInv Hh).
  - intros w w' user F resp HInv Hh. split.
    + exact (downloadHandler_failed DatabaseStorage_lawful user F w resp w' Hh).
    + exact (db_download_logs w user F resp w' HInv Hh).
Qed.

(** In the example the owner may download; a stranger to the file is
    refused and nothing changes. *)
Lemma downloadHandler_all_or_nothing_witness :
  (exists resp w', downloadHandler (Some bobSession) 1 memDemo = (resp, w') /\
                   status resp = 403 /\ w' = memDemo) /\
  (exists resp w' tx, downloadHandler (Some ownerSession) 1 dbDemo = (resp, w') /\
                      status resp = 200 /\
                      DatabaseStorage.transactions (storage w') = [tx] /\
                      Transaction.type tx = "retrieve").
Proof.
  destruct downloadHandler_all_or_nothing as [Hmem Hdb].
  destruct mem_examples_Inv as (Hm & _). destruct db_examples_Inv as (Hd & _).
  split.
  - assert (Hs : status (fst (downloadHandler (Some bobSession) 1 memDemo)) = 403) by run.
    destruct (downloadHandler (Some bobSession) 1 memDemo) as [resp w'] eqn:E.
    exists resp, w'. split; [reflexivity|]. split; [exact Hs|].
    apply (proj1 (Hmem memDemo w' (Some bobSession) 1 resp Hm E)).
    cbn [fst] in Hs. rewrite Hs. discriminate.
  - assert (Hs : status (fst (downloadHandler (Some ownerSession) 1 dbDemo)) = 200) by run.
    assert (Hrows : DatabaseStorage.transactions (storage dbDemo) = []) by run.
    destruct (downloadHandler (Some ownerSession) 1 dbDemo) as [resp w'] eqn:E.
    cbn [fst] in Hs.
    destruct (proj2 (Hdb dbDemo w' (Some ownerSession) 1 resp Hd E) Hs)
      as (file & data & tx & _ & _ & _ & Ht & _ & _ & Hty & _).
    exists resp, w', tx. split; [reflexivity|]. split; [exact Hs|].
    split; [|exact Hty]. rewrite Ht, Hrows. reflexivity.
Defined.

(** ** DELETE /files/:id *)

Section DeletePaths.
Context {St : Type} `{IStorage St}.

Lemma deleteFileHandler_no_file user F w :
  getFile F w = (Val None, w) ->
  deleteFileHandler (Some user) F w = (json 404 (BError "File not found"), w).
Proof.
  intros Hf. unfold deleteFileHandler, requireAuth, orFail, respond, tryCatch.
  step Hf. cbn [orExit]. rewrite bind_exit. reflexivity.
Qed.

Lemma deleteFileHandler_denied user F w file :
  getFile F w = (Val (Some file), w) ->
  File.ownerId file <> User.id user ->
  deleteFileHandler (Some user) F w = (json 403 (BError "Access denied"), w).
Proof.
  intros Hf Ho. unfold deleteFileHandler, requireAuth, orFail, respond, tryCatch.
  step Hf. cbn [orExit]. rewrite bind_ret.
  apply Z.eqb_neq in Ho. rewrite Ho. cbn [negb exitIf]. rewrite bind_exit. reflexivity.
Qed.

Lemma deleteFileHandler_deleted user F w file w1 st w2 :
  getFile F w = (Val (Some file), w) ->
  File.ownerId file = User.id user ->
  deleteFile F w = (Val tt, w1) ->
  updateUserStats (User.id user)
    (StatUpdates.mk (Some (-1)) None (Some (- File.size file)) None) w1 = (Val st, w2) ->
  deleteFileHandler (Some user) F w
  = (json 200 (BMessage "File deleted successfully"), w2).
Proof.
  intros Hf Ho Hd Hu. unfold deleteFileHandler, requireAuth, orFail, respond, tryCatch.
  step Hf. cbn [orExit]. rewrite bind_ret.
  apply Z.eqb_eq in Ho. rewrite Ho. cbn [negb exitIf]. rewrite bind_ret.
  step Hd. step Hu. reflexivity.
Qed.

End DeletePaths.

Lemma mem_updateUserStats_blobs (w : World MemStorage.t) U upd :
  storedFiles (after (updateUserStats U upd) w) = storedFiles w.
Proof.
  unfold after. expose.
  destruct (JsMap.get U (MemStorage.statsMap (storage w))) eqn:E.
  - now rewrite (MemFacts.updateUserStats_found w _ _ _ E).
  - now rewrite (MemFacts.updateUserStats_missing w _ _ E).
Qed.

Lemma db_updateUserStats_blobs (w : World DatabaseStorage.t) U upd :
  DatabaseStorage.Inv (storage w) ->
  storedFiles (after (updateUserStats U upd) w) = storedFiles w.
Proof.
  intros (_ & _ & _ & _ & _ & Hst & _). unfold after. expose.
  destruct (DatabaseStorage.first
              (DatabaseStorage.selectWhere (fun st => Stat.userId st =? U)
                 (DatabaseStorage.stats (storage w)))) eqn:E.
  - now rewrite (DbFacts.db_updateUserStats_found w _ _ _ (proj1 Hst) E).
  - now rewrite (DbFacts.db_updateUserStats_missing w _ _
                   (DbFacts.serial_fresh _ _ _ Hst) E).
Qed.

Lemma mem_delete_by_owner (w : World MemStorage.t) (user : User.t) (F : Z)
  (file : File.t) :
  MemStorage.Inv (storage w) ->
  outcome (getFile F) w = Val (Some file) ->
  File.ownerId file = User.id user ->
  exists w' before now,
    deleteFileHandler (Some user) F w
    = (json 200 (BMessage "File deleted successfully"), w') /\
    outcome (getFile F) w' = Val None /\
    MemStorage.fileShareRows (storage w')
    = filter (fun share => negb (FileShare.fileId share =? F))
             (MemStorage.fileShareRows (storage w)) /\
    MemStorage.shareLinkRows (storage w')
    = filter (fun link => negb (ShareLink.fileId link =? F))
             (MemStorage.shareLinkRows (storage w)) /\
    outcome (getUserStats (User.id user)) w = Val before /\
    outcome (getUserStats (User.id user)) w' = Val (Some now) /\
    Stat.filesUploaded now = Z.max 0 (filesUploadedOf before - 1) /\
    Stat.storageUsed now = Z.max 0 (storageUsedOf before - File.size file) /\
    storedFiles w' = storedFiles w /\
    (forall anyone,
        getFileHandler (Some anyone) F w' = (json 404 (BError "File not found"), w')).
Proof.
  intros HInv Hf Ho.
  set (upd := StatUpdates.mk (Some (-1)) None (Some (- File.size file)) None).
  set (w1 := after (deleteFile F) w).
  set (w2 := after (updateUserStats (User.id user) upd) w1).
  destruct (mem_deleteFile_effect w F HInv) as (Hd & Hgone & _ & Hsh & Hl & Htx).
  fold w1 in Hgone, Hsh, Hl, Htx.
  destruct (mem_updateUserStats_effect w1 (User.id user) upd)
    as (before & now & Hb & Hr & Hfu & _ & Hsu & _ & _ & _ & _ & _ & _ & Hnow & _).
  fold w2 in Hnow.
  destruct (mem_updateUserStats_frame w1 (User.id user) upd)
    as (Hu2 & Hf2 & Hs2 & Hl2 & _).
  fold w2 in Hu2, Hf2, Hs2, Hl2.
  assert (Hgone2 : outcome (getFile F) w2 = Val None).
  { rewrite <- Hgone. unfold outcome. expose. unfold MemStorage.getFile, gets.
    cbn [fst]. unfold MemStorage.ownerName. now rewrite Hu2, Hf2. }
  exists w2, before, now.
  split.
  { apply (deleteFileHandler_deleted user F w file w1 now w2).
    - rewrite mem_getFile_reads. now rewrite Hf.
    - exact Ho.
    - rewrite (run_eq (deleteFile F) w). now rewrite Hd.
    - rewrite (run_eq (updateUserStats (User.id user) upd) w1). now rewrite Hr. }
  split; [exact Hgone2|].
  split; [unfold MemStorage.fileShareRows in *; now rewrite Hs2|].
  split; [unfold MemStorage.shareLinkRows in *; now rewrite Hl2|].
  split.
  { rewrite <- Hb. symmetry. apply mem_getUserStats_frame.
    unfold w1, after. expose. now rewrite MemFacts.deleteFile_run. }
  split; [exact Hnow|].
  split; [rewrite Hfu; cbn [orZero StatUpdates.filesUploaded upd]; f_equal; lia|].
  split; [rewrite Hsu; cbn [orZero StatUpdates.storageUsed upd]; f_equal; lia|].
  split.
  { unfold w2. rewrite mem_updateUserStats_blobs. unfold w1, after. expose.
    now rewrite MemFacts.deleteFile_run. }
  intros anyone. apply getFileHandler_no_file.
  rewrite mem_getFile_reads. now rewrite Hgone2.
Qed.

Lemma db_delete_by_owner (w : World DatabaseStorage.t) (user : User.t) (F : Z)
  (file : File.t) :
  DatabaseStorage.Inv (storage w) ->
  outcome (getFile F) w = Val (Some file) ->
  File.ownerId file = User.id user ->
  ~ In (Some F) (map Transaction.fileId (DatabaseStorage.transactions (storage w))) ->
  exists w' before now,
    deleteFileHandler (Some user) F w
    = (json 200 (BMessage "File deleted successfully"), w') /\
    outcome (getFile F) w' = Val None /\
    DatabaseStorage.fileShares (storage w')
    = filter (fun share => negb (FileShare.fileId share =? F))
             (DatabaseStorage.fileShares (storage w)) /\
    DatabaseStorage.shareLinks (storage w')
    = filter (fun link => negb (ShareLink.fileId link =? F))
             (DatabaseStorage.shareLinks (storage w)) /\
    outcome (getUserStats (User.id user)) w = Val before /\
    outcome (getUserStats (User.id user)) w' = Val (Some now) /\
    Stat.filesUploaded now = Z.max 0 (filesUploadedOf before - 1) /\
    Stat.storageUsed now = Z.max 0 (storageUsedOf before - File.size file) /\
    storedFiles w' = storedFiles w /\
    (forall anyone,
        getFileHandler (Some anyone) F w' = (json 404 (BError "File not found"), w')).
Proof.
  intros HInv Hf Ho Hfree.
  assert (Hok : existsb (fun f => FileRow.id f =? F) (DatabaseStorage.files (storage w))
                && DatabaseStorage.referenced F (storage w) = false)
    by (rewrite (DbFacts.unreferenced F _ Hfree); apply andb_false_r).
  set (upd := StatUpdates.mk (Some (-1)) None (Some (- File.size file)) None).
  set (w1 := after (deleteFile F) w).
  set (w2 := after (updateUserStats (User.id user) upd) w1).
  destruct (db_deleteFile_effect w F Hfree) as (Hd & Hgone & _ & Hsh & Hl & Htx).
  fold w1 in Hgone, Hsh, Hl, Htx.
  assert (HInv1 : DatabaseStorage.Inv (storage w1))
    by exact (DbFacts.db_Inv_callOp w (OpDeleteFile F) HInv).
  destruct (db_updateUserStats_effect w1 (User.id user) upd HInv1)
    as (before & now & Hb & Hr & Hfu & _ & Hsu & _ & _ & _ & _ & _ & _ & Hnow & _).
  fold w2 in Hnow.
  destruct (db_updateUserStats_frame w1 (User.id user) upd)
    as (Hu2 & Hf2 & Hs2 & Hl2 & _).
  fold w2 in Hu2, Hf2, Hs2, Hl2.
  assert (Hgone2 : outcome (getFile F) w2 = Val None).
  { rewrite <- Hgone. unfold outcome. expose. unfold DatabaseStorage.getFile, gets.
    cbn [fst]. unfold DatabaseStorage.ownerName. now rewrite Hu2, Hf2. }
  exists w2, before, now.
  split.
  { apply (deleteFileHandler_deleted user F w file w1 now w2).
    - rewrite db_getFile_reads. now rewrite Hf.
    - exact Ho.
    - rewrite (run_eq (deleteFile F) w). now rewrite Hd.
    - rewrite (run_eq (updateUserStats (User.id user) upd) w1). now rewrite Hr. }
  split; [exact Hgone2|].
  split; [now rewrite Hs2|].
  split; [now rewrite Hl2|].
  split.
  { rewrite <- Hb. symmetry. apply db_getUserStats_frame.
    unfold w1, after. expose. now rewrite (DbFacts.db_deleteFile_run w F Hok). }
  split; [exact Hnow|].
  split; [rewrite Hfu; cbn [orZero StatUpdates.filesUploaded upd]; f_equal; lia|].
  split; [rewrite Hsu; cbn [orZero StatUpdates.storageUsed upd]; f_equal; lia|].
  split.
  { unfold w2. rewrite (db_updateUserStats_blobs w1 _ _ HInv1). unfold w1, after. expose.
    now rewrite (DbFacts.db_deleteFile_run w F Hok). }
  intros anyone. apply getFileHandler_no_file.
  rewrite db_getFile_reads. now rewrite Hgone2.
Qed.

(** X12.  DELETE /files/:id is for the owner alone.  A requester who is
    not the owner of the file is answered 403 "Access denied", also when
    a grant gives them access, and nothing changes.  For the owner the
    answer is 200: the file is gone with its grants and links, the
    owner's [filesUploaded] is one lower and [storageUsed] lower by the
    size of the file, each stopped at zero, the blob stays in the mock
    Filecoin service, and from then on GET /files/:id answers 404 to
    everyone.  This holds over [MemStorage] and over [DatabaseStorage],
    under the invariant of each; in [DatabaseStorage] for a file that no
    transaction names, since the column [file_id] of the transactions
    refers to the files. *)
Theorem deleteFileHandler_owner_only :
  (forall (w : World MemStorage.t) (user : User.t) (F : Z) (file : File.t),
      MemStorage.Inv (storage w) ->
      outcome (getFile F) w = Val (Some file) ->
      (File.ownerId file <> User.id user ->
       deleteFileHandler (Some user) F w = (json 403 (BError "Access denied"), w)) /\
      (File.ownerId file = User.id user ->
       exists w' before now,
         deleteFileHandler (Some user) F w
         = (json 200 (BMessage "File deleted successfully"), w') /\
         outcome (getFile F) w' = Val None /\
         MemStorage.fileShareRows (storage w')
         = filter (fun share => negb (FileShare.fileId share =? F))
                  (MemStorage.fileShareRows (storage w)) /\
         MemStorage.shareLinkRows (storage w')
         = filter (fun link => negb (ShareLink.fileId link =? F))
                  (MemStorage.shareLinkRows (storage w)) /\
         outcome (getUserStats (User.id user)) w = Val before /\
         outcome (getUserStats (User.id user)) w' = Val (Some now) /\
         Stat.filesUploaded now = Z.max 0 (filesUploadedOf before - 1) /\
         Stat.storageUsed now = Z.max 0 (storageUsedOf before - File.size file) /\
         storedFiles w' = storedFiles w /\
         (forall anyone,
             getFileHandler (Some anyone) F w'
             = (json 404 (BError "File not found"), w'))))
  /\
  (forall (w : World DatabaseStorage.t) (user : User.t) (F : Z) (file : File.t),
      DatabaseStorage.Inv (storage w) ->
      outcome (getFile F) w = Val (Some file) ->
      (File.ownerId file <> User.id user ->
       deleteFileHandler (Some user) F w = (json 403 (BError "Access denied"), w)) /\
      (File.ownerId file = User.id user ->
       ~ In (Some F) (map Transaction.fileId
                        (DatabaseStorage.transactions (storage w))) ->
       exists w' before now,
         deleteFileHandler (Some user) F w
         = (json 200 (BMessage "File deleted successfully"), w') /\
         outcome (getFile F) w' = Val None /\
         DatabaseStorage.fileShares (storage w')
         = filter (fun share => negb (FileShare.fileId share =? F))
                  (DatabaseStorage.fileShares (storage w)) /\
         DatabaseStorage.shareLinks (storage w')
         = filter (fun link => negb (ShareLink.fileId link =? F))
                  (DatabaseStorage.shareLinks (storage w)) /\
         outcome (getUserStats (User.id user)) w = Val before /\
         outcome (getUserStats (User.id user)) w' = Val (Some now) /\
         Stat.filesUploaded now = Z.max 0 (filesUploadedOf before - 1) /\
         Stat.storageUsed now = Z.max 0 (storageUsedOf before - File.size file) /\
         storedFiles w' = storedFiles w /\
         (forall anyone,
             getFileHandler (Some anyone) F w'
             = (json 404 (BError "File not found"), w')))).
Proof.
  split.
  - intros w user F file HInv Hf. split.
    + intros Ho. apply (deleteFileHandler_denied user F w file); [|exact Ho].
      rewrite mem_getFile_reads. now rewrite Hf.
    + exact (mem_delete_by_owner w user F file HInv Hf).
  - intros w user F file HInv Hf. split.
    + intros Ho. apply (deleteFileHandler_denied user F w file); [|exact Ho].
      rewrite db_getFile_reads. now rewrite Hf.
    + intros Ho Hfree. exact (db_delete_by_owner w user F file HInv Hf Ho Hfree).
Qed.

(** Bob, who has a grant, may not delete the file; the owner may, and
    bob's grant goes with it. *)
Lemma deleteFileHandler_owner_only_witness :
  deleteFileHandler (Some bobSession) 1 memShared
  = (json 403 (BError "Access denied"), memShared) /\
  (exists w', deleteFileHandler (Some ownerSession) 1 dbShared
              = (json 200 (BMessage "File deleted successfully"), w') /\
              DatabaseStorage.fileShares (storage w') = [] /\
              getFileHandler (Some bobSession) 1 w'
              = (json 404 (BError "File not found"), w')).
Proof.
  destruct deleteFileHandler_owner_only as [Hmem Hdb].
  destruct mem_examples_Inv as (_ & Hm & _). destruct db_examples_Inv as (_ & Hd & _).
  split.
  - assert (Hf : outcome (getFile 1) memShared
                 = Val (Some (File.mk 1 "report.pdf" 100 "application/pdf" "QmReport"
                                "key" 1 (demoClock 2) "encrypted" "testuser"))) by run.
    apply (proj1 (Hmem memShared bobSession 1 _ Hm Hf)). discriminate.
  - assert (Hf : outcome (getFile 1) dbShared
                 = Val (Some (File.mk 1 "report.pdf" 100 "application/pdf" "QmReport"
                                "key" 1 (demoClock 2) "encrypted" "alice"))) by run.
    assert (Hlog : map Transaction.fileId (DatabaseStorage.transactions (storage dbShared))
                   = []) by run.
    assert (Hfree : ~ In (Some 1) (map Transaction.fileId
                                     (DatabaseStorage.transactions (storage dbShared)))).
    { rewrite Hlog. intros []. }
    destruct (proj2 (Hdb dbShared ownerSession 1 _ Hd Hf) eq_refl Hfree)
      as (w' & before & now & Hh & _ & Hsh & _ & _ & _ & _ & _ & _ & H404).
    exists w'. split; [exact Hh|]. split; [|apply H404].
    rewrite Hsh. run.
Defined.

(** ** GET /stats: the unit of the storage figure *)

(** X13.  GET /stats, for a user who has a row of statistics, answers
    200 with the three counters as stored and [storageUsed] as a string
    whose unit is chosen by strict thresholds: up to and including 1024
    bytes the figure is the number of bytes followed by " B"; above 1024
    and up to 1024 * 1024 it is the number of KB with one decimal, then
    MB up to 1024^3, then GB.  Exactly 1024 bytes therefore reads
    "1024 B".  The state does not change.  This holds over every
    implementation of the storage interface. *)
Theorem statsHandler_units :
  forall (St : Type) (I : IStorage St) (w : World St) (user : User.t) (stats : Stat.t),
    getUserStats (User.id user) w = (Val (Some stats), w) ->
    let used := Stat.storageUsed stats in
    statsHandler (Some user) w
    = (json 200
         (BStats (Stat.filesUploaded stats) (Stat.filesShared stats)
            (if used <=? 1024 then (showZ used ++ " B")%string
             else if used <=? 1024 * 1024 then (toFixed1 used 1024 ++ " KB")%string
             else if used <=? 1024 * 1024 * 1024
                  then (toFixed1 used (1024 * 1024) ++ " MB")%string
                  else (toFixed1 used (1024 * 1024 * 1024) ++ " GB")%string)
            (Stat.downloads stats)), w).
Proof.
  intros St I w user stats Hs used. subst used.
  unfold statsHandler, requireAuth, orFail, respond, tryCatch.
  step Hs. cbn [orExit]. rewrite bind_ret. unfold ret, json.
  do 3 f_equal.
  destruct (Z.ltb_spec 1024 (Stat.storageUsed stats));
    destruct (Z.ltb_spec (1024 * 1024) (Stat.storageUsed stats));
    destruct (Z.ltb_spec (1024 * 1024 * 1024) (Stat.storageUsed stats));
    destruct (Z.leb_spec (Stat.storageUsed stats) 1024);
    destruct (Z.leb_spec (Stat.storageUsed stats) (1024 * 1024));
    destruct (Z.leb_spec (Stat.storageUsed stats) (1024 * 1024 * 1024));
    try reflexivity; lia.
Qed.

(** 1024 bytes and 1536 bytes of the owner of the example. *)
Lemma statsHandler_units_witness :
  let w1024 := after (updateUserStats 1 (StatUpdates.mk None None (Some 1024) None))
                     memDemo in
  let w1536 := after (updateUserStats 1 (StatUpdates.mk None None (Some 1536) None))
                     dbDemo in
  statsHandler (Some ownerSession) w1024 = (json 200 (BStats 0 0 "1024 B" 0), w1024) /\
  statsHandler (Some ownerSession) w1536 = (json 200 (BStats 0 0 "1.5 KB" 0), w1536).
Proof.
  intros w1024 w1536. split.
  - assert (Hs : getUserStats (User.id ownerSession) w1024
                 = (Val (Some (Stat.mk 1 1 0 0 1024 0 (demoClock 4))), w1024)) by run.
    rewrite (statsHandler_units _ _ w1024 ownerSession _ Hs). reflexivity.
  - assert (Hs : getUserStats (User.id ownerSession) w1536
                 = (Val (Some (Stat.mk 1 1 0 0 1536 0 (demoClock 4))), w1536)) by run.
    rewrite (statsHandler_units _ _ w1536 ownerSession _ Hs). reflexivity.
Defined.

(** ** POST /files/share-link: who may issue, and what a request costs *)

Section LinkOutcome.
Context {St : Type} `{IStorage St} (L : Lawful St).

(** The owner's request either fails validation, after the token was
    made, or creates the link. *)
Lemma shareLinkHandler_owner user F rp pw (w : World St) file :
  getFile F w = (Val (Some file), w) ->
  File.ownerId file = User.id user ->
  (exists m, shareLinkHandler (Some user) F rp pw w
             = (json 400 (BError m), tick (drawn 16 w)))
  \/
  (exists rp' pw' link w' domain,
      createShareLink
        (InsertShareLink.mk F (toHex (map (entropy w) (seq (entropyReads w) 16)))
           rp' pw'
           (Some (JsDate.setDatePlus (LocalTZA w) 7 (clock w (clockReads w)))))
        (tick (drawn 16 w)) = (Val link, w') /\
      shareLinkHandler (Some user) F rp pw w
      = (json 201 (BShareLink
                     (domain ++ "/shared/"
                      ++ toHex (map (entropy w) (seq (entropyReads w) 16)))%string
                     (JsDate.setDatePlus (LocalTZA w) 7 (clock w (clockReads w)))),
         w')).
Proof.
  intros Hf Ho.
  destruct (parseInsertShareLink_cases F
              (toHex (map (entropy w) (seq (entropyReads w) 16))) rp
              (if truthy rp then pw else JNull)
              (JsDate.setDatePlus (LocalTZA w) 7 (clock w (clockReads w)))
              (tick (drawn 16 w)))
    as [[m Hp]|[rp' [pw' [Hp _]]]].
  - left. exists m. exact (shareLinkHandler_invalid user F rp pw w file m Hf Ho Hp).
  - right.
    destruct (createShareLink_returns L
                (InsertShareLink.mk F (toHex (map (entropy w) (seq (entropyReads w) 16)))
                   rp' pw'
                   (Some (JsDate.setDatePlus (LocalTZA w) 7 (clock w (clockReads w)))))
                (tick (drawn 16 w))) as [link [w1 Hc]].
    destruct (shareLinkHandler_issued user F rp pw w file _ link w1 Hf Ho Hp Hc)
      as [domain Hi].
    exists rp', pw', link, w1, domain. split; [exact Hc|exact Hi].
Qed.

End LinkOutcome.

Lemma mem_createShareLink_appends (w w' : World MemStorage.t) d link :
  MemStorage.Inv (storage w) ->
  createShareLink d w = (Val link, w') ->
  MemStorage.shareLinkRows (storage w')
  = MemStorage.shareLinkRows (storage w) ++ [link] /\
  ShareLink.fileId link = InsertShareLink.fileId d /\
  ShareLink.linkToken link = InsertShareLink.linkToken d /\
  entropyReads w' = entropyReads w.
Proof.
  intros HInv. expose. rewrite MemFacts.createShareLink_run. intros Hc.
  injection Hc as <- <-. split; [|repeat split].
  unfold MemStorage.shareLinkRows.
  cbn [storage withStorage MemStorage.shareLinksMap MemStorage.setShareLinksMap
       MemStorage.bumpShareLinks MemStorage.setCurrentId].
  apply values_set_fresh.
  destruct HInv as (_ & _ & _ & Hl & _). exact (MemFacts.keyed_fresh _ _ _ Hl).
Qed.

Lemma db_createShareLink_appends (w w' : World DatabaseStorage.t) d link :
  createShareLink d w = (Val link, w') ->
  DatabaseStorage.shareLinks (storage w')
  = DatabaseStorage.shareLinks (storage w) ++ [link] /\
  ShareLink.fileId link = InsertShareLink.fileId d /\
  ShareLink.linkToken link = InsertShareLink.linkToken d /\
  entropyReads w' = entropyReads w.
Proof.
  expose. rewrite DbFacts.db_createShareLink_run. intros Hc.
  injection Hc as <- <-. repeat split.
Qed.

Lemma mem_link_request (w : World MemStorage.t) user F rp pw file resp w' :
  MemStorage.Inv (storage w) ->
  outcome (getFile F) w = Val (Some file) ->
  File.ownerId file = User.id user ->
  shareLinkHandler (Some user) F rp pw w = (resp, w') ->
  entropyReads w' = (entropyReads w + 16)%nat /\
  ((exists m, resp = json 400 (BError m)) /\ storage w' = storage w
   \/
   status resp = 201 /\
   exists link,
     MemStorage.shareLinkRows (storage w')
     = MemStorage.shareLinkRows (storage w) ++ [link] /\
     ShareLink.fileId link = F /\
     ShareLink.linkToken link = toHex (map (entropy w) (seq (entropyReads w) 16))).
Proof.
  intros HInv Hf Ho Hh.
  assert (Hg : getFile F w = (Val (Some file), w))
    by (rewrite mem_getFile_reads; now rewrite Hf).
  destruct (shareLinkHandler_owner MemStorage_lawful user F rp pw w file Hg Ho)
    as [[m Hm]|(rp' & pw' & link & w1 & domain & Hc & Hi)].
  - rewrite Hm in Hh. injection Hh as <- <-. split; [reflexivity|].
    left. split; [now exists m|reflexivity].
  - rewrite Hi in Hh. injection Hh as <- <-.
    destruct (mem_createShareLink_appends (tick (drawn 16 w)) w1 _ link HInv Hc) as (Hrows & Hfile & Htok & He).
    split; [rewrite He; reflexivity|]. right. split; [reflexivity|].
    exists link. split; [exact Hrows|]. split; [exact Hfile|exact Htok].
Qed.

Lemma db_link_request (w : World DatabaseStorage.t) user F rp pw file resp w' :
  outcome (getFile F) w = Val (Some file) ->
  File.ownerId file = User.id user ->
  shareLinkHandler (Some user) F rp pw w = (resp, w') ->
  entropyReads w' = (entropyReads w + 16)%nat /\
  ((exists m, resp = json 400 (BError m)) /\ storage w' = storage w
   \/
   status resp = 201 /\
   exists link,
     DatabaseStorage.shareLinks (storage w')
     = DatabaseStorage.shareLinks (storage w) ++ [link] /\
     ShareLink.fileId link = F /\
     ShareLink.linkToken link = toHex (map (entropy w) (seq (entropyReads w) 16))).
Proof.
  intros Hf Ho Hh.
  assert (Hg : getFile F w = (Val (Some file), w))
    by (rewrite db_getFile_reads; now rewrite Hf).
  destruct (shareLinkHandler_owner DatabaseStorage_lawful user F rp pw w file Hg Ho)
    as [[m Hm]|(rp' & pw' & link & w1 & domain & Hc & Hi)].
  - rewrite Hm in Hh. injection Hh as <- <-. split; [reflexivity|].
    left. split; [now exists m|reflexivity].
  - rewrite Hi in Hh. injection Hh as <- <-.
    destruct (db_createShareLink_appends _ _ _ _ Hc) as (Hrows & Hfile & Htok & He).
    split; [rewrite He; reflexivity|]. right. split; [reflexivity|].
    exists link. split; [exact Hrows|]. split; [exact Hfile|exact Htok].
Qed.

(** X14.  POST /files/share-link is for the owner alone and draws its
    token before it validates.  For a file that does not exist the
    answer is 404, and for a requester who is not the owner 403, also
    when a grant gives them access; in both cases nothing changes and no
    random byte is drawn.  The owner's request always draws exactly 16
    bytes from the random source, so that two requests in a row never
    read the same bytes; it then either fails validation with 400,
    storing nothing, or answers 201 and appends exactly one link, for
    this file, whose token is the hex form of those 16 bytes.  This
    holds over [MemStorage], under the invariant of the class, and over
    [DatabaseStorage], there for a token that no link has, as the unique
    column [link_token] demands. *)
Theorem shareLinkHandler_owner_draws_16 :
  (forall (w : World MemStorage.t) (user : User.t) (F : Z) (rp pw : JsVal),
      MemStorage.Inv (storage w) ->
      (outcome (getFile F) w = Val None ->
       shareLinkHandler (Some user) F rp pw w
       = (json 404 (BError "File not found"), w)) /\
      (forall file, outcome (getFile F) w = Val (Some file) ->
         (File.ownerId file <> User.id user ->
          shareLinkHandler (Some user) F rp pw w
          = (json 403 (BError "Access denied"), w)) /\
         (File.ownerId file = User.id user ->
          forall resp w',
            shareLinkHandler (Some user) F rp pw w = (resp, w') ->
            entropyReads w' = (entropyReads w + 16)%nat /\
            ((exists m, resp = json 400 (BError m)) /\ storage w' = storage w
             \/
             status resp = 201 /\
             exists link,
               MemStorage.shareLinkRows (storage w')
               = MemStorage.shareLinkRows (storage w) ++ [link] /\
               ShareLink.fileId link = F /\
               ShareLink.linkToken link
               = toHex (map (entropy w) (seq (entropyReads w) 16))))))
  /\
  (forall (w : World DatabaseStorage.t) (user : User.t) (F : Z) (rp pw : JsVal),
      (outcome (getFile F) w = Val None ->
       shareLinkHandler (Some user) F rp pw w
       = (json 404 (BError "File not found"), w)) /\
      (forall file, outcome (getFile F) w = Val (Some file) ->
         (File.ownerId file <> User.id user ->
          shareLinkHandler (Some user) F rp pw w
          = (json 403 (BError "Access denied"), w)) /\
         (File.ownerId file = User.id user ->
          ~ In (toHex (map (entropy w) (seq (entropyReads w) 16)))
               (map ShareLink.linkToken (DatabaseStorage.shareLinks (storage w))) ->
          forall resp w',
            shareLinkHandler (Some user) F rp pw w = (resp, w') ->
            entropyReads w' = (entropyReads w + 16)%nat /\
            ((exists m, resp = json 400 (BError m)) /\ storage w' = storage w
             \/
             status resp = 201 /\
             exists link,
               DatabaseStorage.shareLinks (storage w')
               = DatabaseStorage.shareLinks (storage w) ++ [link] /\
               ShareLink.fileId link = F /\
               ShareLink.linkToken link
               = toHex (map (entropy w) (seq (entropyReads w) 16)))))).
Proof.
  split.
  - intros w user F rp pw HInv. split.
    + intros Hf. apply shareLinkHandler_no_file.
      rewrite mem_getFile_reads. now rewrite Hf.
    + intros file Hf. split.
      * intros Ho. apply (shareLinkHandler_denied user F rp pw w file); [|exact Ho].
        rewrite mem_getFile_reads. now rewrite Hf.
      * intros Ho resp w'. exact (mem_link_request w user F rp pw file resp w' HInv Hf Ho).
  - intros w user F rp pw. split.
    + intros Hf. apply shareLinkHandler_no_file.
      rewrite db_getFile_reads. now rewrite Hf.
    + intros file Hf. split.
      * intros Ho. apply (shareLinkHandler_denied user F rp pw w file); [|exact Ho].
        rewrite db_getFile_reads. now rewrite Hf.
      * intros Ho _ resp w'. exact (db_link_request w user F rp pw file resp w' Hf Ho).
Qed.

(** Bob, who has a grant, may not issue a link; the owner's request with
    a number for [requirePassword] costs 16 bytes and stores nothing. *)
Lemma shareLinkHandler_owner_draws_16_witness :
  shareLinkHandler (Some bobSession) 1 (JBool false) JNull memShared
  = (json 403 (BError "Access denied"), memShared) /\
  (exists resp w', shareLinkHandler (Some ownerSession) 1 (JNum 1) JNull dbShared
                   = (resp, w') /\
                   entropyReads w' = 16%nat /\ status resp = 400 /\
                   storage w' = storage dbShared).
Proof.
  destruct shareLinkHandler_owner_draws_16 as [Hmem Hdb].
  destruct mem_examples_Inv as (_ & Hm & _).
  split.
  - assert (Hf : outcome (getFile 1) memShared
                 = Val (Some (File.mk 1 "report.pdf" 100 "application/pdf" "QmReport"
                                "key" 1 (demoClock 2) "encrypted" "testuser"))) by run.
    destruct (Hmem memShared bobSession 1 (JBool false) JNull Hm) as (_ & Hfile).
    apply (proj1 (Hfile _ Hf)). discriminate.
  - assert (Hf : outcome (getFile 1) dbShared
                 = Val (Some (File.mk 1 "report.pdf" 100 "application/pdf" "QmReport"
                                "key" 1 (demoClock 2) "encrypted" "alice"))) by run.
    assert (Hs : status (fst (shareLinkHandler (Some ownerSession) 1 (JNum 1) JNull dbShared))
                 = 400) by run.
    assert (He : entropyReads dbShared = 0%nat) by run.
    destruct (shareLinkHandler (Some ownerSession) 1 (JNum 1) JNull dbShared)
      as [resp w'] eqn:E.
    cbn [fst] in Hs.
    destruct (Hdb dbShared ownerSession 1 (JNum 1) JNull) as (_ & Hfile).
    assert (Hlinks : map ShareLink.linkToken (DatabaseStorage.shareLinks (storage dbShared))
                     = []) by run.
    assert (Hnew : ~ In (toHex (map (entropy dbShared) (seq (entropyReads dbShared) 16)))
                        (map ShareLink.linkToken
                           (DatabaseStorage.shareLinks (storage dbShared)))).
    { rewrite Hlinks. intros []. }
    destruct (proj2 (Hfile _ Hf) eq_refl Hnew resp w' E) as (Hent & Hcase).
    exists resp, w'. split; [reflexivity|]. rewrite He in Hent.
    split; [exact Hent|]. split; [exact Hs|].
    destruct Hcase as [[_ Hst]|[H201 _]]; [exact Hst|].
    rewrite Hs in H201. discriminate.
Defined.

(** ** The mock Filecoin service: store and retrieve *)

Lemma string_length_append (a b : string) :
  String.length (a ++ b) = (String.length a + String.length b)%nat.
Proof. induction a as [|c r IH]; simpl; [reflexivity|]. now rewrite IH. Qed.

Lemma charAt_in_range (s : string) (i : nat) :
  (i < String.length s)%nat -> String.length (charAt s i) = 1%nat.
Proof.
  unfold charAt. revert i. induction s as [|c r IH]; simpl; intros i Hi; [lia|].
  destruct i as [|i]; [reflexivity|]. apply IH. lia.
Qed.

Lemma generateRandomString_length (random : nat -> nat) (n : nat) :
  (forall i, (i < n)%nat -> (random i < 62)%nat) ->
  String.length (generateRandomString random n) = n.
Proof.
  intros Hr. unfold generateRandomString.
  assert (Hgen : forall l acc,
             (forall i, In i l -> (random i < 62)%nat) ->
             String.length
               (fold_left (fun result i => (result ++ charAt characters (random i))%string)
                  l acc)
             = (String.length acc + List.length l)%nat).
  { induction l as [|i l IH]; simpl; intros acc Hl; [lia|].
    rewrite IH by (intros j Hj; apply Hl; now right).
    rewrite string_length_append, charAt_in_range; [lia|].
    apply (Hl i). now left. }
  rewrite Hgen; [simpl; now rewrite length_seq|].
  intros i Hi. apply Hr. apply in_seq in Hi. lia.
Qed.

(** X15.  [filecoin.storeFile(data)] returns a cid that starts with "Qm"
    and, as [Math.random] stays below 1, has 46 characters; it keeps the
    data under that cid and touches nothing else: the storage is as it
    was and every other cid retrieves what it retrieved before.
    [retrieveFile] of the new cid then returns the data, unless the data
    is the empty string: an empty blob is stored, but retrieving it
    throws "File with CID ... not found", as for a cid that was never
    stored. *)
Theorem storeFile_then_retrieveFile :
  forall (St : Type) (w : World St) (random : nat -> nat) (data : string),
    exists cid,
      let w' := after (storeFile random data) w in
      storeFile random data w = (Val cid, w') /\
      startsWith "Qm" cid = true /\
      ((forall i, (i < 44)%nat -> (random i < 62)%nat) ->
       String.length cid = 46%nat) /\
      storage w' = storage w /\
      JsMap.get cid (storedFiles w') = Some data /\
      (data <> "" -> retrieveFile cid w' = (Val data, w')) /\
      (data = "" ->
       retrieveFile cid w'
       = (Throw (Error ("File with CID " ++ cid ++ " not found")), w')) /\
      (forall other, other <> cid ->
         outcome (retrieveFile other) w' = outcome (retrieveFile other) w).
Proof.
  intros St w random data.
  exists ("Qm" ++ generateRandomString random 44)%string.
  cbv zeta. unfold after. cbn [storeFile snd].
  set (cid := ("Qm" ++ generateRandomString random 44)%string).
  split; [reflexivity|].
  split.
  { unfold startsWith, cid. apply prefix_correct.
    destruct (generateRandomString random 44); reflexivity. }
  split.
  { intros Hr. unfold cid. rewrite string_length_append.
    now rewrite (generateRandomString_length random 44 Hr). }
  split; [reflexivity|].
  assert (Hget : JsMap.get cid (JsMap.set cid data (storedFiles w)) = Some data)
    by apply get_set_eq.
  split; [exact Hget|].
  split; [|split].
  - intros Hne. unfold retrieveFile. cbn [storedFiles withStoredFiles].
    rewrite Hget. apply String.eqb_neq in Hne. now rewrite Hne.
  - intros ->. unfold retrieveFile. cbn [storedFiles withStoredFiles].
    rewrite Hget. reflexivity.
  - intros other Hne. unfold outcome, retrieveFile.
    cbn [storedFiles withStoredFiles].
    rewrite get_set_ne by congruence.
    destruct (JsMap.get other (storedFiles w)) as [d|]; [|reflexivity].
    destruct (d =? "")%string; reflexivity.
Qed.

(** A blob stored in the example, with [Math.random] always at its
    lowest. *)
Lemma storeFile_then_retrieveFile_witness :
  exists cid,
    storeFile (fun _ => 0%nat) "blob" memDemo
    = (Val cid, after (storeFile (fun _ => 0%nat) "blob") memDemo) /\
    String.length cid = 46%nat /\
    retrieveFile cid (after (storeFile (fun _ => 0%nat) "blob") memDemo)
    = (Val "blob", after (storeFile (fun _ => 0%nat) "blob") memDemo).
Proof.
  destruct (storeFile_then_retrieveFile _ memDemo (fun _ => 0%nat) "blob")
    as (cid & Hs & _ & Hlen & _ & _ & Hok & _).
  exists cid. split; [exact Hs|]. split.
  - apply Hlen. intros i _. lia.
  - apply Hok. discriminate.
Defined.

(** ** POST /files *)

Section UploadPaths.
Context {St : Type} `{IStorage St}.

Lemma uploadHandler_invalid user fileData encryptedData random (w : World St) :
  (forall name size type cid key,
      fileData <> FileData.mk (JStr name) (JNum size) (JStr type) (JStr cid) (JStr key)) ->
  uploadHandler (Some user) fileData encryptedData random w
  = (json 400 (BError "Validation error: file"), w).
Proof.
  intros Hbad. unfold uploadHandler, requireAuth, withZodErrors, respond, tryCatch.
  assert (Hp : parseInsertFile (St:=St) fileData (User.id user) w
               = (Throw (ZodError "Validation error: file"), w)).
  { unfold parseInsertFile. destruct fileData as [n s t c k]. cbn.
    destruct n; try reflexivity; destruct s; try reflexivity;
      destruct t; try reflexivity; destruct c; try reflexivity;
      destruct k; try reflexivity.
    now elim (Hbad _ _ _ _ _ eq_refl). }
  erewrite bind_throws; [|exact Hp]. reflexivity.
Qed.

Lemma uploadHandler_created user name size type cid key encryptedData random
  (w : World St) file w2 st w3 tx w4 :
  let stored := ("Qm" ++ generateRandomString random 44)%string in
  let w1 := withStoredFiles (JsMap.set stored encryptedData (storedFiles w)) w in
  createFile (InsertFile.mk name size type stored key (User.id user)) w1
    = (Val file, w2) ->
  updateUserStats (User.id user) (StatUpdates.mk (Some 1) None (Some size) None) w2
    = (Val st, w3) ->
  logTransaction
    (InsertTransaction.mk ("tx_" ++ showZ (clock w3 (clockReads w3)))%string stored
       (Some (File.id file)) "store" "confirmed" (MetaFileSize size))
    (tick w3) = (Val tx, w4) ->
  uploadHandler (Some user)
    (FileData.mk (JStr name) (JNum size) (JStr type) (JStr cid) (JStr key))
    encryptedData random w
  = (json 201 (BFile file), w4).
Proof.
  intros stored w1 Hc Hu Hl.
  unfold uploadHandler, requireAuth, withZodErrors, respond, tryCatch.
  unfold parseInsertFile. cbn [FileData.name FileData.size FileData.type FileData.cid
                               FileData.encryptionKey].
  rewrite bind_ret.
  erewrite bind_val; [|reflexivity].
  cbn [InsertFile.name InsertFile.size InsertFile.type InsertFile.encryptionKey
       InsertFile.ownerId].
  step Hc. step Hu. unfold newDate. erewrite bind_val; [|reflexivity].
  step Hl. reflexivity.
Qed.

End UploadPaths.

Lemma mem_getFile_frame (w w' : World MemStorage.t) G :
  MemStorage.usersMap (storage w') = MemStorage.usersMap (storage w) ->
  MemStorage.filesMap (storage w') = MemStorage.filesMap (storage w) ->
  outcome (getFile G) w' = outcome (getFile G) w.
Proof.
  intros Hu Hf. unfold outcome. expose. unfold MemStorage.getFile, gets. cbn [fst].
  unfold MemStorage.ownerName. now rewrite Hu, Hf.
Qed.

Lemma db_getFile_frame (w w' : World DatabaseStorage.t) G :
  DatabaseStorage.users (storage w') = DatabaseStorage.users (storage w) ->
  DatabaseStorage.files (storage w') = DatabaseStorage.files (storage w) ->
  outcome (getFile G) w' = outcome (getFile G) w.
Proof.
  intros Hu Hf. unfold outcome. expose. unfold DatabaseStorage.getFile, gets. cbn [fst].
  unfold DatabaseStorage.ownerName. now rewrite Hu, Hf.
Qed.

Lemma mem_upload_core (w : World MemStorage.t) (user : User.t)
  (name : string) (size : Z) (type cid key encryptedData : string)
  (random : nat -> nat) :
  MemStorage.Inv (storage w) ->
  let stored := ("Qm" ++ generateRandomString random 44)%string in
  exists file w' before now tx,
    uploadHandler (Some user)
      (FileData.mk (JStr name) (JNum size) (JStr type) (JStr cid) (JStr key))
      encryptedData random w
    = (json 201 (BFile file), w') /\
    MemStorage.Inv (storage w') /\
    File.name file = name /\ File.size file = size /\ File.type file = type /\
    File.encryptionKey file = key /\ File.ownerId file = User.id user /\
    File.cid file = stored /\
    JsMap.get stored (storedFiles w') = Some encryptedData /\
    outcome (getFile (File.id file)) w = Val None /\
    outcome (getFile (File.id file)) w' = Val (Some file) /\
    outcome (getUserStats (User.id user)) w = Val before /\
    outcome (getUserStats (User.id user)) w' = Val (Some now) /\
    Stat.filesUploaded now = filesUploadedOf before + 1 /\
    Stat.storageUsed now = Z.max 0 (storageUsedOf before + size) /\
    MemStorage.transactionRows (storage w')
    = MemStorage.transactionRows (storage w) ++ [tx] /\
    Transaction.fileId tx = Some (File.id file) /\
    Transaction.cid tx = stored /\
    Transaction.type tx = "store" /\
    Transaction.metadata tx = MetaFileSize size.
Proof.
  intros HInv stored.
  set (d := InsertFile.mk name size type stored key (User.id user)).
  set (upd := StatUpdates.mk (Some 1) None (Some size) None).
  set (w1 := withStoredFiles (JsMap.set stored encryptedData (storedFiles w)) w).
  assert (HInv1 : MemStorage.Inv (storage w1)) by exact HInv.
  set (w2 := after (createFile d) w1).
  destruct (mem_createFile_effect w1 d HInv1)
    as (file & owner & Hc & _ & Hfile & Hnew & Hget2 & _ & _).
  fold w2 in Hget2.
  assert (HInv2 : MemStorage.Inv (storage w2)).
  { pose proof (MemFacts.Inv_callOp w1 (OpCreateFile d) HInv1) as Hi.
    cbn [callOp] in Hi. now rewrite after_forget in Hi. }
  set (w3 := after (updateUserStats (User.id user) upd) w2).
  destruct (mem_updateUserStats_effect w2 (User.id user) upd)
    as (before & now & Hb & Hr & Hfu & _ & Hsu & _ & _ & _ & _ & _ & _ & Hnow & _).
  fold w3 in Hnow.
  destruct (mem_updateUserStats_frame w2 (User.id user) upd)
    as (Hu3 & Hf3 & _ & _ & Ht3).
  fold w3 in Hu3, Hf3, Ht3.
  assert (HInv3 : MemStorage.Inv (storage w3))
    by (apply MemFacts.Inv_updateUserStats; exact HInv2).
  set (ins := InsertTransaction.mk ("tx_" ++ showZ (clock w3 (clockReads w3)))%string
                stored (Some (File.id file)) "store" "confirmed" (MetaFileSize size)).
  pose proof (MemFacts.logTransaction_run (tick w3) ins) as Hl. cbv zeta in Hl.
  set (tx := Transaction.mk _ _ _ _ _ _ _ _) in Hl.
  set (w4 := withStorage _ (tick (tick w3))) in Hl.
  assert (Hw2 : w2 = snd (MemStorage.createFile d w1)) by reflexivity.
  rewrite (mem_createFile_run w1 d) in Hw2. cbn [snd] in Hw2.
  assert (Hstats2 : MemStorage.statsMap (storage w2) = MemStorage.statsMap (storage w))
    by (rewrite Hw2; reflexivity).
  assert (Htx2 : MemStorage.transactionsMap (storage w2)
                 = MemStorage.transactionsMap (storage w))
    by (rewrite Hw2; reflexivity).
  assert (Hblob2 : storedFiles w2 = storedFiles w1) by (rewrite Hw2; reflexivity).
  exists file, w4, before, now, tx.
  split.
  { apply (uploadHandler_created user name size type cid key encryptedData random
             w file w2 now w3 tx w4).
    - fold stored w1 d. rewrite (run_eq (createFile d) w1). now rewrite Hc.
    - fold upd. rewrite (run_eq (updateUserStats (User.id user) upd) w2). now rewrite Hr.
    - fold stored ins. exact Hl. }
  split.
  { pose proof (MemFacts.Inv_callOp (tick w3) (OpLogTransaction ins) HInv3) as Hi.
    cbn [callOp] in Hi. rewrite after_forget in Hi. unfold after in Hi.
    expose. rewrite Hl in Hi. exact Hi. }
  do 6 (split; [rewrite Hfile; reflexivity|]).
  split.
  { unfold w4. cbn [storedFiles withStorage tick]. unfold w3.
    rewrite mem_updateUserStats_blobs, Hblob2. unfold w1.
    cbn [storedFiles withStoredFiles]. apply get_set_eq. }
  split; [exact Hnew|].
  split.
  { rewrite <- Hget2.
    apply mem_getFile_frame; unfold w4;
      cbn [storage withStorage tick MemStorage.usersMap MemStorage.filesMap
           MemStorage.setTransactionsMap MemStorage.bumpTransactions
           MemStorage.setCurrentId]; assumption. }
  split.
  { rewrite <- Hb. symmetry. now apply mem_getUserStats_frame. }
  split.
  { rewrite <- Hnow. apply mem_getUserStats_frame. reflexivity. }
  assert (Hfl : 0 <= filesUploadedOf before).
  { destruct before as [st|]; [|cbn; lia].
    destruct HInv2 as (_ & _ & _ & _ & _ & _ & Hst).
    unfold outcome in Hb. expose. unfold MemStorage.getUserStats, gets in Hb.
    cbn [fst] in Hb. injection Hb as Hb.
    destruct (MemFacts.stats_get _ _ _ Hst Hb) as (_ & Hfloor & _). exact Hfloor. }
  split; [rewrite Hfu; cbn [orZero StatUpdates.filesUploaded upd]; lia|].
  split; [rewrite Hsu; reflexivity|].
  split.
  { unfold w4, MemStorage.transactionRows.
    cbn [storage withStorage tick MemStorage.transactionsMap
         MemStorage.setTransactionsMap MemStorage.bumpTransactions
         MemStorage.setCurrentId].
    rewrite values_set_fresh; [now rewrite Ht3, Htx2|].
    destruct HInv3 as (_ & _ & _ & _ & Hk & _). exact (MemFacts.keyed_fresh _ _ _ Hk). }
  repeat split.
Qed.

Lemma db_upload_core (w : World DatabaseStorage.t) (user : User.t)
  (name : string) (size : Z) (type cid key encryptedData : string)
  (random : nat -> nat) :
  DatabaseStorage.Inv (storage w) ->
  let stored := ("Qm" ++ generateRandomString random 44)%string in
  exists file w' before now tx,
    uploadHandler (Some user)
      (FileData.mk (JStr name) (JNum size) (JStr type) (JStr cid) (JStr key))
      encryptedData random w
    = (json 201 (BFile file), w') /\
    DatabaseStorage.Inv (storage w') /\
    File.name file = name /\ File.size file = size /\ File.type file = type /\
    File.encryptionKey file = key /\ File.ownerId file = User.id user /\
    File.cid file = stored /\
    JsMap.get stored (storedFiles w') = Some encryptedData /\
    outcome (getFile (File.id file)) w = Val None /\
    outcome (getFile (File.id file)) w' = Val (Some file) /\
    outcome (getUserStats (User.id user)) w = Val before /\
    outcome (getUserStats (User.id user)) w' = Val (Some now) /\
    Stat.filesUploaded now = filesUploadedOf before + 1 /\
    Stat.storageUsed now = Z.max 0 (storageUsedOf before + size) /\
    DatabaseStorage.transactions (storage w')
    = DatabaseStorage.transactions (storage w) ++ [tx] /\
    Transaction.fileId tx = Some (File.id file) /\
    Transaction.cid tx = stored /\
    Transaction.type tx = "store" /\
    Transaction.metadata tx = MetaFileSize size.
Proof.
  intros HInv stored.
  set (d := InsertFile.mk name size type stored key (User.id user)).
  set (upd := StatUpdates.mk (Some 1) None (Some size) None).
  set (w1 := withStoredFiles (JsMap.set stored encryptedData (storedFiles w)) w).
  assert (HInv1 : DatabaseStorage.Inv (storage w1)) by exact HInv.
  set (w2 := after (createFile d) w1).
  destruct (db_createFile_effect w1 d HInv1)
    as (file & owner & Hc & _ & Hfile & Hnew & Hget2 & _ & _).
  fold w2 in Hget2.
  assert (HInv2 : DatabaseStorage.Inv (storage w2)).
  { pose proof (DbFacts.db_Inv_callOp w1 (OpCreateFile d) HInv1) as Hi.
    cbn [callOp] in Hi. now rewrite after_forget in Hi. }
  set (w3 := after (updateUserStats (User.id user) upd) w2).
  destruct (db_updateUserStats_effect w2 (User.id user) upd HInv2)
    as (before & now & Hb & Hr & Hfu & _ & Hsu & _ & _ & _ & _ & _ & _ & Hnow & _).
  fold w3 in Hnow.
  destruct (db_updateUserStats_frame w2 (User.id user) upd)
    as (Hu3 & Hf3 & _ & _ & Ht3).
  fold w3 in Hu3, Hf3, Ht3.
  set (ins := InsertTransaction.mk ("tx_" ++ showZ (clock w3 (clockReads w3)))%string
                stored (Some (File.id file)) "store" "confirmed" (MetaFileSize size)).
  pose proof (DbFacts.db_logTransaction_run (tick w3) ins) as Hl. cbv zeta in Hl.
  set (tx := Transaction.mk _ _ _ _ _ _ _ _) in Hl.
  set (w4 := withStorage _ (tick (tick w3))) in Hl.
  assert (Hw2 : w2 = snd (DatabaseStorage.createFile d w1)) by reflexivity.
  rewrite (db_createFile_run w1 d) in Hw2. cbn [snd] in Hw2.
  assert (Hstats2 : DatabaseStorage.stats (storage w2) = DatabaseStorage.stats (storage w))
    by (rewrite Hw2; reflexivity).
  assert (Htx2 : DatabaseStorage.transactions (storage w2)
                 = DatabaseStorage.transactions (storage w))
    by (rewrite Hw2; reflexivity).
  assert (Hblob2 : storedFiles w2 = storedFiles w1) by (rewrite Hw2; reflexivity).
  exists file, w4, before, now, tx.
  split.
  { apply (uploadHandler_created user name size type cid key encryptedData random
             w file w2 now w3 tx w4).
    - fold stored w1 d. rewrite (run_eq (createFile d) w1). now rewrite Hc.
    - fold upd. rewrite (run_eq (updateUserStats (User.id user) upd) w2). now rewrite Hr.
    - fold stored ins. exact Hl. }
  split.
  { assert (HInv3 : DatabaseStorage.Inv (storage w3))
      by (apply DbFacts.db_Inv_updateUserStats; exact HInv2).
    pose proof (DbFacts.db_Inv_callOp (tick w3) (OpLogTransaction ins) HInv3) as Hi.
    cbn [callOp] in Hi. rewrite after_forget in Hi. unfold after in Hi.
    expose. rewrite Hl in Hi. exact Hi. }
  do 6 (split; [rewrite Hfile; reflexivity|]).
  split.
  { unfold w4. cbn [storedFiles withStorage tick]. unfold w3.
    rewrite (db_updateUserStats_blobs w2 _ _ HInv2), Hblob2. unfold w1.
    cbn [storedFiles withStoredFiles]. apply get_set_eq. }
  split; [exact Hnew|].
  split.
  { rewrite <- Hget2.
    apply db_getFile_frame; unfold w4;
      cbn [storage withStorage tick DatabaseStorage.users DatabaseStorage.files
           DatabaseStorage.setTransactions DatabaseStorage.bumpTransactions
           DatabaseStorage.setSequences]; assumption. }
  split.
  { rewrite <- Hb. symmetry. now apply db_getUserStats_frame. }
  split.
  { rewrite <- Hnow. apply db_getUserStats_frame. reflexivity. }
  assert (Hfl : 0 <= filesUploadedOf before).
  { destruct before as [st|]; [|cbn; lia].
    destruct HInv2 as (_ & _ & _ & _ & _ & _ & Hst).
    unfold outcome in Hb. expose. unfold DatabaseStorage.getUserStats, gets in Hb.
    cbn [fst] in Hb. injection Hb as Hb. apply first_select_Some in Hb.
    rewrite Forall_forall in Hst. exact (proj1 (Hst _ (proj1 Hb))). }
  split; [rewrite Hfu; cbn [orZero StatUpdates.filesUploaded upd]; lia|].
  split; [rewrite Hsu; reflexivity|].
  split.
  { unfold w4.
    cbn [storage withStorage tick DatabaseStorage.transactions
         DatabaseStorage.setTransactions DatabaseStorage.bumpTransactions
         DatabaseStorage.setSequences].
    now rewrite Ht3, Htx2. }
  repeat split.
Qed.

(** X16.  POST /files validates before it stores.  Unless [name],
    [type], [cid] and [encryptionKey] of the body are strings and [size]
    a number, the answer is 400 and nothing changes: no blob is stored
    and no row is written; the body must carry a cid although that cid
    is never used.  Otherwise (for a size within the range of the
    integer column) the answer is 201 with the new file: the blob is in
    the mock Filecoin service under a cid made for this request, which
    is the file's cid in place of the submitted one; the file has the
    submitted name, size, type and key, an id that no file had, and the
    requester as its owner; [getFile] returns it; the owner's
    [filesUploaded] is one higher and [storageUsed] higher by the size,
    stopped at zero for a negative size; and one transaction of type
    "store" for this file and cid is appended to the log.  This holds
    over [MemStorage] and over [DatabaseStorage], under the invariant
    of each; in [DatabaseStorage] for a requester who is in the table
    of users, a cid that no file has and a total that fits the integer
    column, as the schema demands. *)
Theorem uploadHandler_registers :
  (forall (w : World MemStorage.t) (user : User.t) (fileData : FileData.t)
          (encryptedData : string) (random : nat -> nat),
      MemStorage.Inv (storage w) ->
      ((forall name size type cid key,
           fileData
           <> FileData.mk (JStr name) (JNum size) (JStr type) (JStr cid) (JStr key)) ->
       exists message,
         uploadHandler (Some user) fileData encryptedData random w
         = (json 400 (BError message), w)) /\
      (forall name size type cid key,
          fileData
          = FileData.mk (JStr name) (JNum size) (JStr type) (JStr cid) (JStr key) ->
          -2147483648 <= size <= 2147483647 ->
          let stored := ("Qm" ++ generateRandomString random 44)%string in
          exists file w' before now tx,
            uploadHandler (Some user) fileData encryptedData random w
            = (json 201 (BFile file), w') /\
            File.name file = name /\ File.size file = size /\
            File.type file = type /\ File.encryptionKey file = key /\
            File.ownerId file = User.id user /\
            File.cid file = stored /\
            JsMap.get stored (storedFiles w') = Some encryptedData /\
            outcome (getFile (File.id file)) w = Val None /\
            outcome (getFile (File.id file)) w' = Val (Some file) /\
            outcome (getUserStats (User.id user)) w = Val before /\
            outcome (getUserStats (User.id user)) w' = Val (Some now) /\
            Stat.filesUploaded now = filesUploadedOf before + 1 /\
            Stat.storageUsed now = Z.max 0 (storageUsedOf before + size) /\
            MemStorage.transactionRows (storage w')
            = MemStorage.transactionRows (storage w) ++ [tx] /\
            Transaction.fileId tx = Some (File.id file) /\
            Transaction.cid tx = stored /\
            Transaction.type tx = "store" /\
            Transaction.metadata tx = MetaFileSize size))
  /\
  (forall (w : World DatabaseStorage.t) (user : User.t) (fileData : FileData.t)
          (encryptedData : string) (random : nat -> nat),
      DatabaseStorage.Inv (storage w) ->
      ((forall name size type cid key,
           fileData
           <> FileData.mk (JStr name) (JNum size) (JStr type) (JStr cid) (JStr key)) ->
       exists message,
         uploadHandler (Some user) fileData encryptedData random w
         = (json 400 (BError message), w)) /\
      (forall name size type cid key,
          fileData
          = FileData.mk (JStr name) (JNum size) (JStr type) (JStr cid) (JStr key) ->
          -2147483648 <= size <= 2147483647 ->
          let stored := ("Qm" ++ generateRandomString random 44)%string in
          In (User.id user) (map User.id (DatabaseStorage.users (storage w))) ->
          ~ In stored (map FileRow.cid (DatabaseStorage.files (storage w))) ->
          (forall st, In st (DatabaseStorage.stats (storage w)) ->
                      Stat.storageUsed st + size <= 2147483647) ->
          exists file w' before now tx,
            uploadHandler (Some user) fileData encryptedData random w
            = (json 201 (BFile file), w') /\
            File.name file = name /\ File.size file = size /\
            File.type file = type /\ File.encryptionKey file = key /\
            File.ownerId file = User.id user /\
            File.cid file = stored /\
            JsMap.get stored (storedFiles w') = Some encryptedData /\
            outcome (getFile (File.id file)) w = Val None /\
            outcome (getFile (File.id file)) w' = Val (Some file) /\
            outcome (getUserStats (User.id user)) w = Val before /\
            outcome (getUserStats (User.id user)) w' = Val (Some now) /\
            Stat.filesUploaded now = filesUploadedOf before + 1 /\
            Stat.storageUsed now = Z.max 0 (storageUsedOf before + size) /\
            DatabaseStorage.transactions (storage w')
            = DatabaseStorage.transactions (storage w) ++ [tx] /\
            Transaction.fileId tx = Some (File.id file) /\
            Transaction.cid tx = stored /\
            Transaction.type tx = "store" /\
            Transaction.metadata tx = MetaFileSize size)).
Proof.
  split.
  - intros w user fileData encryptedData random HInv. split.
    + intros Hbad. eexists.
      exact (uploadHandler_invalid user fileData encryptedData random w Hbad).
    + intros name size type cid key -> _ stored.
      destruct (mem_upload_core w user name size type cid key encryptedData random HInv)
        as (file & w' & before & now & tx & Hh & _ & Hrest).
      exists file, w', before, now, tx. split; [exact Hh|exact Hrest].
  - intros w user fileData encryptedData random HInv. split.
    + intros Hbad. eexists.
      exact (uploadHandler_invalid user fileData encryptedData random w Hbad).
    + intros name size type cid key -> _ stored _ _ _.
      destruct (db_upload_core w user name size type cid key encryptedData random HInv)
        as (file & w' & before & now & tx & Hh & _ & Hrest).
      exists file, w', before, now, tx. split; [exact Hh|exact Hrest].
Qed.

(** The owner of the example uploads 100 bytes; a body without a cid is
    refused; with [Math.random] at 0 the cid is "Qm" and 44 times "A",
    whatever cid the body carried. *)
Lemma uploadHandler_registers_witness :
  (exists file w' now,
      uploadHandler (Some ownerSession)
        (FileData.mk (JStr "b.png") (JNum 100) (JStr "image/png") (JStr "QmSent")
           (JStr "k"))
        "blob" (fun _ => 0%nat) memDemo
      = (json 201 (BFile file), w') /\
      File.ownerId file = 1 /\
      outcome (getUserStats 1) w' = Val (Some now) /\
      Stat.filesUploaded now = 1 /\ Stat.storageUsed now = 100) /\
  (exists message,
      uploadHandler (Some ownerSession)
        (FileData.mk (JStr "b.png") (JNum 100) (JStr "image/png") JUndefined (JStr "k"))
        "blob" (fun _ => 0%nat) dbDemo
      = (json 400 (BError message), dbDemo)) /\
  (exists file w',
      uploadHandler (Some ownerSession)
        (FileData.mk (JStr "b.png") (JNum 100) (JStr "image/png") (JStr "QmSent")
           (JStr "k"))
        "blob" (fun _ => 0%nat) dbDemo
      = (json 201 (BFile file), w') /\
      File.cid file = "QmAAAAAAAAAAAAAAAAAAAAAAAAAAAAAAAAAAAAAAAAAAAA" /\
      JsMap.get (File.cid file) (storedFiles w') = Some "blob").
Proof.
  destruct uploadHandler_registers as [Hmem Hdb].
  destruct mem_examples_Inv as (Hm & _). destruct db_examples_Inv as (Hd & _).
  split; [|split].
  - destruct (Hmem memDemo ownerSession
                (FileData.mk (JStr "b.png") (JNum 100) (JStr "image/png") (JStr "QmSent")
                   (JStr "k")) "blob" (fun _ => 0%nat) Hm) as (_ & Hok).
    destruct (Hok "b.png" 100 "image/png" "QmSent" "k" eq_refl ltac:(lia))
      as (file & w' & before & now & tx & Hh & _ & _ & _ & _ & Ho & _ & _ & _ & _
          & Hb & Hn & Hfu & Hsu & _).
    assert (Hb0 : outcome (getUserStats 1) memDemo = Val None) by run.
    change (User.id ownerSession) with 1 in Hb, Hn, Ho.
    rewrite Hb0 in Hb. injection Hb as <-.
    exists file, w', now. split; [exact Hh|]. split; [exact Ho|].
    split; [exact Hn|]. split; [exact Hfu|exact Hsu].
  - destruct (Hdb dbDemo ownerSession
                (FileData.mk (JStr "b.png") (JNum 100) (JStr "image/png") JUndefined
                   (JStr "k")) "blob" (fun _ => 0%nat) Hd) as (Hbad & _).
    apply Hbad. intros name size type cid key. discriminate.
  - destruct (Hdb dbDemo ownerSession
                (FileData.mk (JStr "b.png") (JNum 100) (JStr "image/png") (JStr "QmSent")
                   (JStr "k")) "blob" (fun _ => 0%nat) Hd) as (_ & Hok).
    assert (Hids : map User.id (DatabaseStorage.users (storage dbDemo)) = [1; 2]) by run.
    assert (Hcids : map FileRow.cid (DatabaseStorage.files (storage dbDemo))
                    = ["QmReport"]) by run.
    assert (Hstats : DatabaseStorage.stats (storage dbDemo) = []) by run.
    assert (Hgen : ("Qm" ++ generateRandomString (fun _ => 0%nat) 44)%string
                   = "QmAAAAAAAAAAAAAAAAAAAAAAAAAAAAAAAAAAAAAAAAAAAA") by run.
    assert (Huser : In (User.id ownerSession)
                       (map User.id (DatabaseStorage.users (storage dbDemo)))).
    { rewrite Hids. now left. }
    assert (Hcid : ~ In ("Qm" ++ generateRandomString (fun _ => 0%nat) 44)%string
                        (map FileRow.cid (DatabaseStorage.files (storage dbDemo)))).
    { rewrite Hcids, Hgen. simpl. intros [H|[]]; discriminate H. }
    assert (Hfit : forall st, In st (DatabaseStorage.stats (storage dbDemo)) ->
                              Stat.storageUsed st + 100 <= 2147483647).
    { rewrite Hstats. intros st []. }
    destruct (Hok "b.png" 100 "image/png" "QmSent" "k" eq_refl ltac:(lia)
                Huser Hcid Hfit)
      as (file & w' & before & now & tx & Hh & _ & _ & _ & _ & _ & Hc & Hblob & _).
    exists file, w'. split; [exact Hh|]. rewrite Hc, Hgen.
    split; [reflexivity|]. rewrite <- Hgen. exact Hblob.
Defined.

(** ** Upload, then delete *)

Lemma mem_stats_floored (w : World MemStorage.t) U before :
  MemStorage.Inv (storage w) ->
  outcome (getUserStats U) w = Val before ->
  0 <= filesUploadedOf before /\ 0 <= storageUsedOf before.
Proof.
  intros (_ & _ & _ & _ & _ & _ & Hst) Hb.
  destruct before as [st|]; [|cbn; lia].
  unfold outcome in Hb. expose. unfold MemStorage.getUserStats, gets in Hb.
  cbn [fst] in Hb. injection Hb as Hb.
  destruct (MemFacts.stats_get _ _ _ Hst Hb) as (_ & Hu & _ & Hs). cbn. lia.
Qed.

(** X17.  In [MemStorage], an upload followed by the owner's deletion
    of the new file leaves the owner's [filesUploaded] and
    [storageUsed] where they were before the upload (for a size that is
    not negative), and the file is gone; but the blob of the upload is
    still in the mock Filecoin service under the cid it was given: the
    deletion does not reach it.  (In [DatabaseStorage] the transaction
    that the upload logged refers to the file, and the deletion is
    refused.) *)
Theorem upload_then_delete :
  forall (w : World MemStorage.t) (user : User.t) (name : string) (size : Z)
         (type cid key encryptedData : string) (random : nat -> nat),
    MemStorage.Inv (storage w) ->
    0 <= size <= 2147483647 ->
    exists file w1 w2 before now,
      uploadHandler (Some user)
        (FileData.mk (JStr name) (JNum size) (JStr type) (JStr cid) (JStr key))
        encryptedData random w
      = (json 201 (BFile file), w1) /\
      deleteFileHandler (Some user) (File.id file) w1
      = (json 200 (BMessage "File deleted successfully"), w2) /\
      outcome (getUserStats (User.id user)) w = Val before /\
      outcome (getUserStats (User.id user)) w2 = Val (Some now) /\
      Stat.filesUploaded now = filesUploadedOf before /\
      Stat.storageUsed now = storageUsedOf before /\
      outcome (getFile (File.id file)) w2 = Val None /\
      JsMap.get (File.cid file) (storedFiles w2) = Some encryptedData.
Proof.
  intros w user name size type cid key encryptedData random HInv Hsize.
  destruct (mem_upload_core w user name size type cid key encryptedData random HInv)
    as (file & w1 & before & mid & tx & Hup & HInv1 & _ & Hsz & _ & _ & Ho & Hcid
        & Hblob & _ & Hget & Hb & Hmid & Hfu & Hsu & _).
  destruct (mem_delete_by_owner w1 user (File.id file) file HInv1 Hget Ho)
    as (w2 & mid' & now & Hdel & Hgone & _ & _ & Hmid' & Hnow & Hfu2 & Hsu2
        & Hblob2 & _).
  rewrite Hmid in Hmid'. injection Hmid' as <-.
  destruct (mem_stats_floored w (User.id user) before HInv Hb) as [Hf0 Hs0].
  exists file, w1, w2, before, now.
  split; [exact Hup|]. split; [exact Hdel|]. split; [exact Hb|].
  split; [exact Hnow|].
  cbn [filesUploadedOf storageUsedOf] in Hfu2, Hsu2.
  split; [lia|]. split; [lia|]. split; [exact Hgone|].
  rewrite Hblob2, Hcid. exact Hblob.
Qed.

(** The owner of the example uploads 100 bytes and deletes the file. *)
Lemma upload_then_delete_witness :
  exists file w1 w2 now,
    uploadHandler (Some ownerSession)
      (FileData.mk (JStr "b.png") (JNum 100) (JStr "image/png") (JStr "QmSent")
         (JStr "k")) "blob" (fun _ => 0%nat) memDemo
    = (json 201 (BFile file), w1) /\
    deleteFileHandler (Some ownerSession) (File.id file) w1
    = (json 200 (BMessage "File deleted successfully"), w2) /\
    outcome (getUserStats 1) w2 = Val (Some now) /\
    Stat.filesUploaded now = 0 /\ Stat.storageUsed now = 0.
Proof.
  destruct mem_examples_Inv as (Hm & _).
  destruct (upload_then_delete memDemo ownerSession "b.png" 100 "image/png" "QmSent" "k"
              "blob" (fun _ => 0%nat) Hm ltac:(lia))
    as (file & w1 & w2 & before & now & Hup & Hdel & Hb & Hnow & Hfu & Hsu & _).
  assert (Hb0 : outcome (getUserStats 1) memDemo = Val None) by run.
  change (User.id ownerSession) with 1 in Hb, Hnow.
  rewrite Hb0 in Hb. injection Hb as <-.
  exists file, w1, w2, now. split; [exact Hup|]. split; [exact Hdel|].
  split; [exact Hnow|]. split; [exact Hfu|exact Hsu].
Defined.

(** ** The client's relative times *)

Lemma div_div_pos a b c : 0 < b -> 0 < c -> a / b / c = a / (b * c).
Proof. intros Hb Hc. apply Z.div_div; lia. Qed.

Lemma formatRelativeTime_cases (now date : Timestamp) :
  let elapsed := now - date in
  let day := 86400000 in
  formatRelativeTime now date
  = if elapsed <? 60000 then "just now"
    else if elapsed <? 3600000 then ago (elapsed / 60000) "minute"
    else if elapsed <? day then ago (elapsed / 3600000) "hour"
    else if elapsed <? 7 * day then ago (elapsed / day) "day"
    else if elapsed <? 28 * day then ago (elapsed / (7 * day)) "week"
    else if elapsed <? 360 * day then ago (elapsed / (30 * day)) "month"
    else ago (elapsed / (365 * day)) "year".
Proof.
  intros elapsed day. unfold formatRelativeTime. fold elapsed.
  rewrite !div_div_pos by lia. subst day.
  change (1000 * 60) with 60000. change (60000 * 60) with 3600000.
  change (3600000 * 24) with 86400000.
  change (86400000 * 7) with (7 * 86400000).
  change (86400000 * 30) with (30 * 86400000).
  change (86400000 * 365) with (365 * 86400000).
  repeat match goal with
         | |- context [?a <? ?b] =>
             lazymatch goal with
             | H : a < b |- _ => fail
             | H : b <= a |- _ => fail
             | _ => destruct (Z.ltb_spec a b)
             end
         end; try reflexivity; exfalso;
    repeat match goal with
           | H : context [?a / ?b] |- _ =>
               let q := fresh "q" in
               let Hq := fresh "Hq" in
               pose proof (Z.mul_div_le a b ltac:(lia)) as Hq;
               pose proof (Z.mul_succ_div_gt a b ltac:(lia));
               set (q := a / b) in *; clearbody q
           end; lia.
Qed.

(** X18.  [formatRelativeTime] depends on the elapsed milliseconds
    alone and picks its unit by fixed thresholds: "just now" below one
    minute, which includes every date in the future; then whole minutes,
    hours, days (below 7 days), weeks (below 28 days), months of 30 days
    (below 360 days) and years of 365 days.  Because a month has 30 days
    and the weeks stop at 28, a date 28 or 29 days old reads
    "0 month ago"; and one between 360 and 364 days old reads
    "0 year ago". *)
Theorem formatRelativeTime_thresholds :
  forall now date : Timestamp,
    let elapsed := now - date in
    let day := 86400000 in
    formatRelativeTime now date
    = (if elapsed <? 60000 then "just now"
       else if elapsed <? 3600000 then ago (elapsed / 60000) "minute"
       else if elapsed <? day then ago (elapsed / 3600000) "hour"
       else if elapsed <? 7 * day then ago (elapsed / day) "day"
       else if elapsed <? 28 * day then ago (elapsed / (7 * day)) "week"
       else if elapsed <? 360 * day then ago (elapsed / (30 * day)) "month"
       else ago (elapsed / (365 * day)) "year") /\
    (now <= date -> formatRelativeTime now date = "just now") /\
    (28 * day <= elapsed < 30 * day -> formatRelativeTime now date = "0 month ago") /\
    (360 * day <= elapsed < 365 * day -> formatRelativeTime now date = "0 year ago").
Proof.
  intros now date elapsed day.
  pose proof (formatRelativeTime_cases now date) as Hc. cbv zeta in Hc.
  fold elapsed in Hc. split; [exact Hc|]. rewrite Hc. subst day.
  split; [|split].
  - intros Hle. destruct (Z.ltb_spec elapsed 60000); [reflexivity|]. subst elapsed. lia.
  - intros [Hlo Hhi].
    repeat match goal with
           | |- context [?a <? ?b] => destruct (Z.ltb_spec a b); try lia
           end.
    replace (elapsed / (30 * 86400000)) with 0; [reflexivity|].
    symmetry. apply Z.div_small. lia.
  - intros [Hlo Hhi].
    repeat match goal with
           | |- context [?a <? ?b] => destruct (Z.ltb_spec a b); try lia
           end.
    replace (elapsed / (365 * 86400000)) with 0; [reflexivity|].
    symmetry. apply Z.div_small. lia.
Qed.

(** A date 29 days old. *)
Lemma formatRelativeTime_thresholds_witness :
  formatRelativeTime (1700000000000 + 29 * 86400000) 1700000000000 = "0 month ago" /\
  formatRelativeTime 1700000000000 1700000060000 = "just now".
Proof.
  split.
  - apply (formatRelativeTime_thresholds (1700000000000 + 29 * 86400000) 1700000000000).
    lia.
  - apply (formatRelativeTime_thresholds 1700000000000 1700000060000). lia.
Defined.

(** ** The client's file types *)

Lemma split_not_nil sep s : splitBy sep s <> [].
Proof.
  destruct s as [|c r]; simpl; [discriminate|].
  destruct (Ascii.eqb c sep); [discriminate|].
  destruct (splitBy sep r); discriminate.
Qed.

Lemma pop_cons {A} (x : A) (l : list A) : l <> [] -> pop (x :: l) = pop l.
Proof.
  intros Hl. unfold pop. simpl.
  destruct (rev l) as [|y r] eqn:E; [|reflexivity].
  apply (f_equal (@rev A)) in E. rewrite rev_involutive in E. now elim Hl.
Qed.

Lemma split_two sep a e :
  (2 <= List.length (splitBy sep (a ++ String sep e)))%nat.
Proof.
  induction a as [|c r IH]; simpl.
  - rewrite Ascii.eqb_refl. simpl.
    pose proof (split_not_nil sep e). destruct (splitBy sep e); simpl; [congruence|lia].
  - destruct (Ascii.eqb c sep).
    + simpl. lia.
    + destruct (splitBy sep (r ++ String sep e)); simpl in *; lia.
Qed.

Lemma pop_split_after sep a e :
  pop (splitBy sep (a ++ String sep e)) = pop (splitBy sep e).
Proof.
  induction a as [|c r IH]; simpl.
  - rewrite Ascii.eqb_refl. apply pop_cons, split_not_nil.
  - destruct (Ascii.eqb c sep).
    + rewrite pop_cons by apply split_not_nil. exact IH.
    + pose proof (split_two sep r e) as H2.
      destruct (splitBy sep (r ++ String sep e)) as [|seg segs]; [simpl in H2; lia|].
      assert (Hs : segs <> []) by (destruct segs; [simpl in H2; lia|discriminate]).
      rewrite pop_cons by exact Hs. rewrite pop_cons in IH by exact Hs. exact IH.
Qed.

Lemma lowerAscii_dot c : Ascii.eqb (lowerAscii c) "." = Ascii.eqb c ".".
Proof. destruct c as [[] [] [] [] [] [] [] []]; reflexivity. Qed.

Lemma split_lower s :
  splitBy "." (toLowerCase s) = map toLowerCase (splitBy "." s).
Proof.
  induction s as [|c r IH]; simpl; [reflexivity|].
  rewrite lowerAscii_dot. destruct (Ascii.eqb c "."); simpl; [now rewrite IH|].
  rewrite IH. now destruct (splitBy "." r).
Qed.

Lemma pop_map {A B} (f : A -> B) (l : list A) : pop (map f l) = option_map f (pop l).
Proof. unfold pop. rewrite <- map_rev. now destruct (rev l). Qed.

(** X19.  [getFileType] looks at nothing but the text after the last
    dot of the name, whatever precedes it: "report.final.PDF" is typed
    like "PDF".  The case of the letters does not matter.  A name
    without a dot is taken as its own extension, so a file called "pdf"
    is a PDF; and of a double extension only the last part counts, so
    that every name that ends in ".tar.gz" is typed as an archive by its
    "gz", and one that ends in ".pdf.exe" as a program. *)
Theorem getFileType_last_extension :
  (forall base ext : string, getFileType (base ++ "." ++ ext) = getFileType ext) /\
  (forall name : string, getFileType (toLowerCase name) = getFileType name) /\
  (forall base : string, getFileType (base ++ ".tar.gz") = zip) /\
  (forall base : string, getFileType (base ++ ".JPG") = image) /\
  (forall base : string, getFileType (base ++ ".pdf.exe") = exe) /\
  getFileType "pdf" = pdf /\
  getFileType "README" = other.
Proof.
  assert (Hlast : forall base ext, getFileType (base ++ "." ++ ext) = getFileType ext).
  { intros base ext. unfold getFileType.
    change ("." ++ ext)%string with (String "." ext).
    now rewrite pop_split_after. }
  split; [exact Hlast|].
  split.
  { intros name. unfold getFileType. rewrite split_lower, pop_map.
    destruct (pop (splitBy "." name)) as [last|]; [|reflexivity].
    cbn [option_map]. now rewrite toLowerCase_idem. }
  split; [intros base; change ".tar.gz" with ("." ++ "tar.gz")%string;
          rewrite Hlast; reflexivity|].
  split; [intros base; change ".JPG" with ("." ++ "JPG")%string;
          rewrite Hlast; reflexivity|].
  split; [intros base; change ".pdf.exe" with ("." ++ "pdf.exe")%string;
          rewrite Hlast; reflexivity|].
  split; reflexivity.
Qed.

(** ** [createUserStats] on a user who has statistics *)

(** X20.  [createUserStats(U)] makes a row with the four counters at
    zero.  In [MemStorage] that row takes the place of any row the user
    had: the counters are reset, and [getUserStats] returns the new
    row.  In [DatabaseStorage], for a user of the table of users, the
    row is added under a new id beside the rows that were there: a row
    the user had stays in the table with its counters, so that the user
    then has one row more than before, two or more for a user who had
    one; a user without a row gets the new one from [getUserStats]. *)
Theorem createUserStats_on_existing :
  (forall (w : World MemStorage.t) (U : Z),
      let w' := after (createUserStats U) w in
      exists zero,
        outcome (createUserStats U) w = Val zero /\
        zero = Stat.mk (Stat.id zero) U 0 0 0 0 (clock w (clockReads w)) /\
        outcome (getUserStats U) w' = Val (Some zero))
  /\
  (forall (w : World DatabaseStorage.t) (U : Z),
      DatabaseStorage.Inv (storage w) ->
      In U (map User.id (DatabaseStorage.users (storage w))) ->
      let w' := after (createUserStats U) w in
      let rows d := DatabaseStorage.stats d in
      let mine d := filter (fun st => Stat.userId st =? U) (rows d) in
      exists zero,
        outcome (createUserStats U) w = Val zero /\
        zero = Stat.mk (Stat.id zero) U 0 0 0 0 (clock w (clockReads w)) /\
        ~ In (Stat.id zero) (map Stat.id (rows (storage w))) /\
        (forall x, In x (rows (storage w')) <-> In x (rows (storage w)) \/ x = zero) /\
        (forall old, In old (rows (storage w)) ->
                     In old (rows (storage w')) /\ old <> zero) /\
        List.length (mine (storage w')) = S (List.length (mine (storage w))) /\
        (outcome (getUserStats U) w = Val None ->
         outcome (getUserStats U) w' = Val (Some zero))).
Proof.
  split.
  - intros w U w'; subst w'; unfold after, outcome; expose.
    rewrite MemFacts.createUserStats_run. cbn [fst snd].
    eexists. split; [reflexivity|]. split; [reflexivity|].
    unfold MemStorage.getUserStats, gets.
    cbn [fst storage withStorage MemStorage.statsMap MemStorage.setStatsMap
         MemStorage.bumpStats MemStorage.setCurrentId].
    now rewrite get_set_eq.
  - intros w U HInv _ w' rows mine; subst w' rows mine; unfold after, outcome; expose.
    rewrite DbFacts.db_createUserStats_run. cbn [fst snd].
    destruct HInv as (_ & _ & _ & _ & _ & Hst & _).
    pose proof (DbFacts.serial_fresh _ _ _ Hst) as Hfresh.
    eexists. split; [reflexivity|]. split; [reflexivity|].
    cbn [storage withStorage DatabaseStorage.stats DatabaseStorage.setStats
         DatabaseStorage.bumpStats DatabaseStorage.setSequences Stat.id].
    split; [exact Hfresh|]. split; [|split; [|split]].
    + intros x. rewrite in_app_iff. simpl. intuition auto.
    + intros old Hold. split; [apply in_or_app; now left|].
      intros ->. apply Hfresh. now apply (in_map Stat.id) in Hold.
    + rewrite filter_app. cbn [filter Stat.userId]. rewrite Z.eqb_refl.
      rewrite length_app. simpl. lia.
    + unfold DatabaseStorage.getUserStats, gets.
      cbn [fst storage withStorage DatabaseStorage.stats DatabaseStorage.setStats
           DatabaseStorage.bumpStats DatabaseStorage.setSequences].
      unfold DatabaseStorage.selectWhere, DatabaseStorage.first.
      rewrite filter_app. cbn [filter Stat.userId]. rewrite Z.eqb_refl.
      intros Hn. injection Hn as Hn.
      destruct (filter _ (DatabaseStorage.stats (storage w))) as [|x l];
        [reflexivity|discriminate].
Qed.

(** The owner of the example after one download: in [MemStorage] the
    counter is back at zero; in [DatabaseStorage] the row with the
    download is still in the table, beside the new one. *)
Lemma createUserStats_on_existing_witness :
  let one := StatUpdates.mk None None None (Some 1) in
  (exists st, outcome (getUserStats 1)
                (after (createUserStats 1) (after (updateUserStats 1 one) memDemo))
              = Val (Some st) /\ Stat.downloads st = 0) /\
  (let w := after (updateUserStats 1 one) dbDemo in
   let old := Stat.mk 1 1 0 0 0 1 (demoClock 4) in
   In old (DatabaseStorage.stats (storage (after (createUserStats 1) w))) /\
   List.length (filter (fun st => Stat.userId st =? 1)
                  (DatabaseStorage.stats (storage (after (createUserStats 1) w))))
   = 2%nat).
Proof.
  intros one.
  destruct createUserStats_on_existing as [Hmem Hdb].
  split.
  - destruct (Hmem (after (updateUserStats 1 one) memDemo) 1) as (zero & _ & Hz & Hg).
    exists zero. split; [exact Hg|]. rewrite Hz. reflexivity.
  - intros w old.
    assert (HInv : DatabaseStorage.Inv (storage w)).
    { apply DbFacts.db_Inv_updateUserStats. exact (proj1 db_examples_Inv). }
    assert (Hids : map User.id (DatabaseStorage.users (storage w)) = [1; 2]) by run.
    assert (Hrows : DatabaseStorage.stats (storage w) = [old]) by run.
    assert (Huser : In 1 (map User.id (DatabaseStorage.users (storage w)))).
    { rewrite Hids. now left. }
    destruct (Hdb w 1 HInv Huser) as (zero & _ & _ & _ & _ & Hkept & Hlen & _).
    split.
    + apply Hkept. rewrite Hrows. now left.
    + rewrite Hlen. rewrite Hrows. reflexivity.
Defined.

(** ** DELETE /files/:id over the database: the foreign key of the
    transactions *)

Section DeleteRefused.
Context {St : Type} `{IStorage St}.

Lemma deleteFileHandler_failed user F w file e w1 :
  getFile F w = (Val (Some file), w) ->
  File.ownerId file = User.id user ->
  deleteFile F w = (Throw e, w1) ->
  deleteFileHandler (Some user) F w
  = (json 500 (BError "Failed to delete file"), w1).
Proof.
  intros Hf Ho Hd. unfold deleteFileHandler, requireAuth, orFail, respond, tryCatch.
  step Hf. cbn [orExit]. rewrite bind_ret.
  apply Z.eqb_eq in Ho. rewrite Ho. cbn [negb exitIf]. rewrite bind_ret.
  rewrite (bind_throws _ _ _ _ _ Hd). reflexivity.
Qed.

End DeleteRefused.

Lemma db_file_row (w : World DatabaseStorage.t) F file :
  outcome (getFile F) w = Val (Some file) ->
  existsb (fun f => FileRow.id f =? F) (DatabaseStorage.files (storage w)) = true.
Proof.
  unfold outcome. expose. unfold DatabaseStorage.getFile, gets. cbn [fst].
  destruct (DatabaseStorage.first _) as [row|] eqn:E; [|discriminate].
  intros _. apply first_select_Some in E as [Hin Hid].
  apply existsb_exists. now exists row.
Qed.

Lemma db_delete_refused (w : World DatabaseStorage.t) (user : User.t) (F : Z)
  (file : File.t) :
  outcome (getFile F) w = Val (Some file) ->
  File.ownerId file = User.id user ->
  In (Some F) (map Transaction.fileId (DatabaseStorage.transactions (storage w))) ->
  exists w',
    deleteFileHandler (Some user) F w
    = (json 500 (BError "Failed to delete file"), w') /\
    outcome (getFile F) w' = Val (Some file) /\
    DatabaseStorage.files (storage w') = DatabaseStorage.files (storage w) /\
    DatabaseStorage.fileShares (storage w')
    = filter (fun share => negb (FileShare.fileId share =? F))
             (DatabaseStorage.fileShares (storage w)) /\
    DatabaseStorage.shareLinks (storage w')
    = filter (fun link => negb (ShareLink.fileId link =? F))
             (DatabaseStorage.shareLinks (storage w)) /\
    DatabaseStorage.transactions (storage w')
    = DatabaseStorage.transactions (storage w) /\
    DatabaseStorage.stats (storage w') = DatabaseStorage.stats (storage w) /\
    storedFiles w' = storedFiles w.
Proof.
  intros Hf Ho Href.
  assert (Hno : existsb (fun f => FileRow.id f =? F) (DatabaseStorage.files (storage w))
                && DatabaseStorage.referenced F (storage w) = true).
  { rewrite (db_file_row w F file Hf).
    now rewrite (proj2 (DbFacts.referenced_iff F (storage w)) Href). }
  pose proof (DbFacts.db_deleteFile_refused w F Hno) as Hd. cbv zeta in Hd.
  eexists. split.
  { eapply (deleteFileHandler_failed user F w file); [|exact Ho|exact Hd].
    rewrite db_getFile_reads. now rewrite Hf. }
  cbn [storage withStorage storedFiles DatabaseStorage.files DatabaseStorage.fileShares
       DatabaseStorage.shareLinks DatabaseStorage.transactions DatabaseStorage.stats].
  split; [|repeat split].
  rewrite <- Hf. now apply db_getFile_frame.
Qed.

(** X21.  Over [DatabaseStorage], DELETE /files/:id cannot delete a file
    that a transaction refers to: the owner is answered 500 "Failed to
    delete file", the file row, the transactions and the owner's
    statistics stay as they were, and yet the grants and the links of
    the file are gone, since the three [delete] statements do not run
    in one database transaction.  Every file that was uploaded through
    POST /files is such a file, because the upload logs a transaction
    for it: the owner's DELETE of a file just uploaded answers 500, and
    the file is still there. *)
Theorem deleteFileHandler_refused_by_foreign_key :
  (forall (w : World DatabaseStorage.t) (user : User.t) (F : Z) (file : File.t),
      outcome (getFile F) w = Val (Some file) ->
      File.ownerId file = User.id user ->
      In (Some F) (map Transaction.fileId (DatabaseStorage.transactions (storage w))) ->
      exists w',
        deleteFileHandler (Some user) F w
        = (json 500 (BError "Failed to delete file"), w') /\
        outcome (getFile F) w' = Val (Some file) /\
        DatabaseStorage.files (storage w') = DatabaseStorage.files (storage w) /\
        DatabaseStorage.fileShares (storage w')
        = filter (fun share => negb (FileShare.fileId share =? F))
                 (DatabaseStorage.fileShares (storage w)) /\
        DatabaseStorage.shareLinks (storage w')
        = filter (fun link => negb (ShareLink.fileId link =? F))
                 (DatabaseStorage.shareLinks (storage w)) /\
        DatabaseStorage.transactions (storage w')
        = DatabaseStorage.transactions (storage w) /\
        DatabaseStorage.stats (storage w') = DatabaseStorage.stats (storage w) /\
        storedFiles w' = storedFiles w)
  /\
  (forall (w : World DatabaseStorage.t) (user : User.t) (name : string) (size : Z)
          (type cid key encryptedData : string) (random : nat -> nat),
      DatabaseStorage.Inv (storage w) ->
      -2147483648 <= size <= 2147483647 ->
      In (User.id user) (map User.id (DatabaseStorage.users (storage w))) ->
      ~ In ("Qm" ++ generateRandomString random 44)%string
           (map FileRow.cid (DatabaseStorage.files (storage w))) ->
      (forall st, In st (DatabaseStorage.stats (storage w)) ->
                  Stat.storageUsed st + size <= 2147483647) ->
      exists file w1 w2,
        uploadHandler (Some user)
          (FileData.mk (JStr name) (JNum size) (JStr type) (JStr cid) (JStr key))
          encryptedData random w
        = (json 201 (BFile file), w1) /\
        deleteFileHandler (Some user) (File.id file) w1
        = (json 500 (BError "Failed to delete file"), w2) /\
        outcome (getFile (File.id file)) w2 = Val (Some file) /\
        DatabaseStorage.stats (storage w2) = DatabaseStorage.stats (storage w1)).
Proof.
  split; [exact db_delete_refused|].
  intros w user name size type cid key encryptedData random HInv _ _ _ _.
  destruct (db_upload_core w user name size type cid key encryptedData random HInv)
    as (file & w1 & before & mid & tx & Hup & _ & _ & _ & _ & _ & Ho & _ & _ & _
        & Hget & _ & _ & _ & _ & Hlog & Htx & _).
  assert (Href : In (Some (File.id file))
                    (map Transaction.fileId (DatabaseStorage.transactions (storage w1)))).
  { rewrite Hlog, map_app. apply in_or_app. right. left. exact Htx. }
  destruct (db_delete_refused w1 user (File.id file) file Hget Ho Href)
    as (w2 & Hdel & Hkept & _ & _ & _ & _ & Hstats & _).
  exists file, w1, w2. auto.
Qed.

(** The owner of the example cannot delete the file once its upload is
    logged: the grant of bob and the link are lost, the file stays. *)
Lemma deleteFileHandler_refused_by_foreign_key_witness :
  exists w',
    deleteFileHandler (Some ownerSession) 1 dbLogged
    = (json 500 (BError "Failed to delete file"), w') /\
    (exists file, outcome (getFile 1) w' = Val (Some file)) /\
    DatabaseStorage.fileShares (storage dbLogged) <> [] /\
    DatabaseStorage.fileShares (storage w') = [] /\
    DatabaseStorage.shareLinks (storage w') = [].
Proof.
  destruct deleteFileHandler_refused_by_foreign_key as [Hdb _].
  assert (Hf : outcome (getFile 1) dbLogged
               = Val (Some (File.mk 1 "report.pdf" 100 "application/pdf" "QmReport"
                              "key" 1 (demoClock 2) "encrypted" "alice"))) by run.
  assert (Hlog : map Transaction.fileId (DatabaseStorage.transactions (storage dbLogged))
                 = [Some 1]) by run.
  assert (Href : In (Some 1) (map Transaction.fileId
                                (DatabaseStorage.transactions (storage dbLogged)))).
  { rewrite Hlog. now left. }
  destruct (Hdb dbLogged ownerSession 1 _ Hf eq_refl Href)
    as (w' & Hh & Hkept & _ & Hsh & Hl & _).
  exists w'. split; [exact Hh|]. split; [eexists; exact Hkept|].
  assert (Hshares : DatabaseStorage.fileShares (storage dbLogged)
                    = [FileShare.mk 1 1 2 "view" (demoClock 3)]) by run.
  split; [rewrite Hshares; discriminate|].
  split; [rewrite Hsh; run|rewrite Hl; run].
Defined.
